(** * Survey extraction scripts: a shallow embedding and its properties

    The development follows the Python scripts under [server/scripts]:
    - [parseFordSurveyImproved.py]  (module [ParseFordSurveyImproved]),
    - [extractRealQuestions.py]     (module [ExtractRealQuestions]),
    - [extractFord2024Survey.py]    (module [ExtractFord2024Survey]),
    - [parseFordSurvey.py]          (module [ParseFordSurvey]).

    A Python [str] is modelled as a [string] of Unicode code points, with
    the character classes of Python 3.11 (Unicode 14): white space as
    [str.strip], [str.isspace] and [\s] take it, decimal digits as [\d] and
    [int] take them.  The list of stripped lines is a [list string], [None]
    is [None], dictionaries with a fixed key set are records, a call that
    may raise returns an [Outcome].  The [re] module is modelled by a
    backtracking matcher ([Re.m]) with Python's priorities: alternatives
    left to right, greedy quantifiers longest first, lazy ones shortest
    first.  [while] loops carry fuel; each scanner is shown to finish within
    the fuel it is given.

    What lies outside the scripts is kept abstract: a file system gives,
    for a file name, what [open] and the HTML library make of it (an
    exception, or the text of the first [h1] and the text of the document,
    as the script's [get_text] call returns it).  Of the printed messages
    only the per-file ones of [main] are kept; the write of the JSON file
    is not modelled, the survey object handed to [json.dump] is the
    result. *)

From Stdlib Require Import List Arith Lia Bool ZArith NArith.
From Stdlib Require Strings.Byte.
From Stdlib Require Import Sorting.Sorted Sorting.Permutation.
Import ListNotations.

(* ------------------------------------------------------------------------- *)
(** ** Text: strings of Unicode code points *)

Module Unicode.

(** A character is its code point. *)
Inductive char : Type := Char (code : N).

Definition code (c : char) : N := match c with Char n => n end.

Inductive string : Type :=
| EmptyString : string
| String (c : char) (s : string) : string.

End Unicode.
Export Unicode.

Declare Scope char_scope.
Delimit Scope char_scope with char.
Bind Scope char_scope with char.
Declare Scope string_scope.
Delimit Scope string_scope with string.
Bind Scope string_scope with string.

(** String literals are read as UTF-8. *)
Module Utf8.

Definition cont (b : N) : bool := (128 <=? b)%N && (b <? 192)%N.

Fixpoint decode (fuel : nat) (bs : list N) : option string :=
  match fuel with
  | O => match bs with [] => Some EmptyString | _ => None end
  | S f =>
      match bs with
      | [] => Some EmptyString
      | b :: r =>
          if (b <? 128)%N then option_map (String (Char b)) (decode f r)
          else if (b <? 192)%N then None
          else if (b <? 224)%N then
            match r with
            | b1 :: r' =>
                if cont b1
                then option_map (String (Char ((b - 192) * 64 + (b1 - 128))%N))
                                (decode f r')
                else None
            | _ => None
            end
          else if (b <? 240)%N then
            match r with
            | b1 :: b2 :: r' =>
                if cont b1 && cont b2
                then option_map
                       (String (Char ((b - 224) * 4096 + (b1 - 128) * 64
                                      + (b2 - 128))%N))
                       (decode f r')
                else None
            | _ => None
            end
          else
            match r with
            | b1 :: b2 :: b3 :: r' =>
                if cont b1 && cont b2 && cont b3
                then option_map
                       (String (Char ((b - 240) * 262144 + (b1 - 128) * 4096
                                      + (b2 - 128) * 64 + (b3 - 128))%N))
                       (decode f r')
                else None
            | _ => None
            end
      end
  end.

Definition parse (bs : list Byte.byte) : option string :=
  decode (length bs) (map Byte.to_N bs).

Definition enc (n : N) : list N :=
  if (n <? 128)%N then [n]
  else if (n <? 2048)%N then [192 + n / 64; 128 + n mod 64]%N
  else if (n <? 65536)%N
  then [224 + n / 4096; 128 + (n / 64) mod 64; 128 + n mod 64]%N
  else [240 + n / 262144; 128 + (n / 4096) mod 64; 128 + (n / 64) mod 64;
        128 + n mod 64]%N.

Fixpoint encode (s : string) : list N :=
  match s with
  | EmptyString => []
  | String c r => enc (code c) ++ encode r
  end.

Fixpoint bytes (ns : list N) : option (list Byte.byte) :=
  match ns with
  | [] => Some []
  | n :: r =>
      match Byte.of_N n, bytes r with
      | Some b, Some bs => Some (b :: bs)
      | _, _ => None
      end
  end.

Definition print (s : string) : option (list Byte.byte) := bytes (encode s).

Definition parse_char (bs : list Byte.byte) : option char :=
  match parse bs with
  | Some (String c EmptyString) => Some c
  | _ => None
  end.

Definition print_char (c : char) : option (list Byte.byte) :=
  print (String c EmptyString).

End Utf8.

String Notation string Utf8.parse Utf8.print : string_scope.
String Notation char Utf8.parse_char Utf8.print_char : char_scope.
Open Scope string_scope.

Module Char.

Definition eqb (a b : char) : bool := N.eqb (code a) (code b).

(** Python orders characters by code point. *)
Definition compare (a b : char) : comparison := N.compare (code a) (code b).

End Char.

(** [s1 + s2] *)
Fixpoint append (s1 s2 : string) : string :=
  match s1 with
  | EmptyString => s2
  | String c s1' => String c (append s1' s2)
  end.

Notation "x ++ y" := (append x y) (right associativity, at level 60)
  : string_scope.

Fixpoint list_of_string (s : string) : list char :=
  match s with
  | EmptyString => []
  | String c s' => c :: list_of_string s'
  end.

Module String.

(** [len(s)]: the number of code points. *)
Fixpoint length (s : string) : nat :=
  match s with
  | EmptyString => 0
  | String _ s' => S (length s')
  end.

(** [s1 == s2] *)
Fixpoint eqb (s1 s2 : string) : bool :=
  match s1, s2 with
  | EmptyString, EmptyString => true
  | String c1 s1', String c2 s2' => Char.eqb c1 c2 && eqb s1' s2'
  | _, _ => false
  end.

(** [s2.startswith(s1)] *)
Fixpoint prefix (s1 s2 : string) {struct s2} : bool :=
  match s1 with
  | EmptyString => true
  | String a s1' =>
      match s2 with
      | EmptyString => false
      | String b s2' => if Char.eqb a b then prefix s1' s2' else false
      end
  end.

(** The order of [<] on [str]: lexicographic, by code point. *)
Fixpoint compare (s1 s2 : string) : comparison :=
  match s1, s2 with
  | EmptyString, EmptyString => Eq
  | EmptyString, String _ _ => Lt
  | String _ _, EmptyString => Gt
  | String c1 s1', String c2 s2' =>
      match Char.compare c1 c2 with
      | Eq => compare s1' s2'
      | ne => ne
      end
  end.

Definition ltb (s1 s2 : string) : bool :=
  match compare s1 s2 with Lt => true | _ => false end.

Definition leb (s1 s2 : string) : bool :=
  match compare s1 s2 with Gt => false | _ => true end.

Fixpoint concat (sep : string) (ls : list string) : string :=
  match ls with
  | [] => EmptyString
  | [x] => x
  | x :: xs => x ++ sep ++ concat sep xs
  end.

End String.

(* ------------------------------------------------------------------------- *)
(** ** Exceptions *)

(** Outcome of a Python call: a returned value, or a raised exception. *)
Inductive Outcome (A : Type) : Type :=
| Returned (a : A)
| Raised (e : string).

Arguments Returned {A}.
Arguments Raised {A}.

Definition bind {A B : Type} (x : Outcome A) (f : A -> Outcome B) : Outcome B :=
  match x with
  | Returned a => f a
  | Raised e => Raised e
  end.

Notation "x <- c1 ;; c2" := (bind c1 (fun x => c2))
  (at level 61, c1 at next level, right associativity).

(** [try: body  except Exception: handler] *)
Definition try_except {A : Type} (body : Outcome A) (handler : string -> Outcome A)
  : Outcome A :=
  match body with
  | Returned a => Returned a
  | Raised e => handler e
  end.

(* ------------------------------------------------------------------------- *)
(** ** Python string primitives *)

Module Py.

(** White space as [str.strip], [str.isspace] and the class [\s] take it:
    TAB..CR, FS..US, SPACE, NEL, NO-BREAK SPACE, OGHAM SPACE MARK,
    EN QUAD..HAIR SPACE, the line and paragraph separators, NARROW NO-BREAK
    SPACE, MEDIUM MATHEMATICAL SPACE and IDEOGRAPHIC SPACE. *)
Definition is_space (c : char) : bool :=
  let n := code c in
  ((9 <=? n) && (n <=? 13) || (28 <=? n) && (n <=? 32)
   || (n =? 133) || (n =? 160) || (n =? 5760)
   || (8192 <=? n) && (n <=? 8202) || (n =? 8232) || (n =? 8233)
   || (n =? 8239) || (n =? 8287) || (n =? 12288))%N.

(** The digit zero of every script that has decimal digits (general
    category Nd); the nine code points after each are its digits 1 to 9. *)
Definition decimal_zeros : list N :=
  [48; 1632; 1776; 1984; 2406; 2534; 2662; 2790; 2918; 3046; 3174; 3302;
   3430; 3558; 3664; 3792; 3872; 4160; 4240; 6112; 6160; 6470; 6608; 6784;
   6800; 6992; 7088; 7232; 7248; 42528; 43216; 43264; 43472; 43504; 43600;
   44016; 65296; 66720; 68912; 69734; 69872; 69942; 70096; 70384; 70736;
   70864; 71248; 71360; 71472; 71904; 72016; 72784; 73040; 73120; 92768;
   92864; 93008; 120782; 120792; 120802; 120812; 120822; 123200; 123632;
   125264; 130032]%N.

(** The zero of the script of [n], when [n] is a decimal digit. *)
Fixpoint zero_of (zs : list N) (n : N) : option N :=
  match zs with
  | [] => None
  | z :: zs' => if ((z <=? n) && (n <? z + 10))%N then Some z else zero_of zs' n
  end.

(** The class [\d] of a [str] pattern, and the characters [int] reads:
    the decimal digits of every script. *)
Definition is_digit (c : char) : bool :=
  match zero_of decimal_zeros (code c) with Some _ => true | None => false end.

(** The set [0-9]. *)
Definition is_ascii_digit (c : char) : bool :=
  let n := code c in ((48 <=? n) && (n <=? 57))%N.

(** The range [A-Z]. *)
Definition is_upper (c : char) : bool :=
  let n := code c in ((65 <=? n) && (n <=? 90))%N.

(** The range [a-z]. *)
Definition is_lower (c : char) : bool :=
  let n := code c in ((97 <=? n) && (n <=? 122))%N.

Definition newline : char := Char 10.

Fixpoint drop (n : nat) (s : string) : string :=
  match n, s with
  | S n', String _ s' => drop n' s'
  | _, _ => s
  end.

(** [x in s] for strings. *)
Fixpoint contains (x s : string) : bool :=
  if String.prefix x s then true
  else match s with
       | EmptyString => false
       | String _ s' => contains x s'
       end.

Definition startswith (s x : string) : bool := String.prefix x s.

Fixpoint startswith_any (s : string) (xs : list string) : bool :=
  match xs with
  | [] => false
  | x :: xs' => startswith s x || startswith_any s xs'
  end.

(** [s in [x1, ..., xn]] for a list of strings. *)
Fixpoint mem (s : string) (xs : list string) : bool :=
  match xs with
  | [] => false
  | x :: xs' => String.eqb s x || mem s xs'
  end.

Fixpoint lstrip (s : string) : string :=
  match s with
  | EmptyString => EmptyString
  | String c s' => if is_space c then lstrip s' else s
  end.

Fixpoint rstrip (s : string) : string :=
  match s with
  | EmptyString => EmptyString
  | String c s' =>
      match rstrip s' with
      | EmptyString => if is_space c then EmptyString else String c EmptyString
      | t => String c t
      end
  end.

Definition strip (s : string) : string := rstrip (lstrip s).

(** [sep.join(xs)] *)
Fixpoint join (sep : string) (xs : list string) : string :=
  match xs with
  | [] => ""
  | [x] => x
  | x :: xs' => x ++ sep ++ join sep xs'
  end.

(** [s.split(sep)] for a non-empty separator: [skip] counts the characters
    of a separator occurrence still to be passed over, [cur] is the piece
    being built. *)
Fixpoint split_go (sep : string) (skip : nat) (cur : string) (s : string)
  : list string :=
  match s with
  | EmptyString => [cur]
  | String c s' =>
      match skip with
      | S k => split_go sep k cur s'
      | O =>
          if String.prefix sep s
          then cur :: split_go sep (String.length sep - 1) "" s'
          else split_go sep 0 (cur ++ String c "") s'
      end
  end.

Definition split (s sep : string) : list string := split_go sep 0 "" s.

(** [s.split(sep, 1)]: cut at the first occurrence of [sep] only. *)
Fixpoint split_once_go (sep : string) (cur : string) (s : string) : list string :=
  if String.prefix sep s then [cur; drop (String.length sep) s]
  else match s with
       | EmptyString => [cur]
       | String c s' => split_once_go sep (cur ++ String c "") s'
       end.

Definition split_once (s sep : string) : list string := split_once_go sep "" s.

(** [sep] does not occur in [pre ++ rest] at an offset inside [pre]: an
    occurrence of [sep] at the head of [rest] is then the first one. *)
Definition first_at (sep pre rest : string) : Prop :=
  forall a b, pre = a ++ b -> b <> "" -> String.prefix sep (b ++ rest) = false.

(** [s.replace(old, new)] *)
Definition replace (s old new : string) : string := join new (split s old).

(** Truthiness of a string: [if s:] *)
Definition truthy (s : string) : bool :=
  match s with EmptyString => false | _ => true end.

(** The value of a decimal digit: its distance from the zero of its
    script. *)
Definition digit_val (c : char) : Z :=
  match zero_of decimal_zeros (code c) with
  | Some z => Z.of_N (code c - z)
  | None => 0
  end.

Fixpoint int_go (acc : Z) (s : string) : Z :=
  match s with
  | EmptyString => acc
  | String c s' => int_go (10 * acc + digit_val c) s'
  end.

(** [sys.int_info.default_max_str_digits] *)
Definition max_str_digits : nat := 4300.

(** [int(s)] for a non-empty string of decimal digits, which is what a
    group [(\d+)] holds: the conversion raises [ValueError] when the string
    has more than 4300 digits. *)
Definition int (s : string) : Outcome Z :=
  if Nat.ltb max_str_digits (String.length s)
  then Raised "ValueError"
  else Returned (int_go 0 s).

(** [xs[j]]; every use below is guarded by [j < len(xs)]. *)
Definition item (xs : list string) (j : nat) : string := nth j xs "".

End Py.

(* ------------------------------------------------------------------------- *)
(** ** The [re] module: a backtracking matcher *)

Module Re.

Inductive regex : Type :=
| Eps
| Chr (c : char)
| Cls (p : char -> bool)
| Seq (r1 r2 : regex)
| Alt (r1 r2 : regex)
| Star (greedy : bool) (r : regex)
| Grp (n : nat) (r : regex)
| Bol
| Eol
| Ahead (r : regex).

(** Matching state: offset in the subject, what is left of it, and the
    groups captured so far (latest first). *)
Record mstate : Type := MState { pos : nat; rest : string; caps : list (nat * string) }.

Fixpoint take (n : nat) (s : string) : string :=
  match n, s with
  | S n', String c s' => String c (take n' s')
  | _, _ => ""
  end.

Definition consumed (st st' : mstate) : string :=
  take (pos st' - pos st) (rest st).

Definition step_char (st : mstate) (s' : string) : mstate :=
  MState (S (pos st)) s' (caps st).

Definition set_cap (n : nat) (v : string) (st : mstate) : mstate :=
  MState (pos st) (rest st) ((n, v) :: caps st).

(** The iterations of a starred pattern whose body is matched by [body]:
    greedy tries one more iteration before the continuation, lazy the
    continuation first.  An iteration has to consume at least one
    character (true of every pattern below), so the number of characters
    left bounds the number of iterations. *)
Section StarLoop.
Variable body : (mstate -> option mstate) -> mstate -> option mstate.
Variable g : bool.
Variable k : mstate -> option mstate.

Fixpoint star_loop (fuel : nat) (st0 : mstate) {struct fuel} : option mstate :=
  match fuel with
  | O => k st0
  | S f =>
      let again st1 :=
        if Nat.ltb (String.length (rest st1)) (String.length (rest st0))
        then star_loop f st1 else None in
      if g then
        match body again st0 with
        | Some x => Some x
        | None => k st0
        end
      else
        match k st0 with
        | Some x => Some x
        | None => body again st0
        end
  end.

End StarLoop.

(** [m r k st]: match [r] at [st], then continue with [k]; the first
    success in priority order is returned. *)
Fixpoint m (r : regex) (k : mstate -> option mstate) (st : mstate) {struct r}
  : option mstate :=
  match r with
  | Eps => k st
  | Chr c =>
      match rest st with
      | String a s' => if Char.eqb a c then k (step_char st s') else None
      | EmptyString => None
      end
  | Cls p =>
      match rest st with
      | String a s' => if p a then k (step_char st s') else None
      | EmptyString => None
      end
  | Seq r1 r2 => m r1 (m r2 k) st
  | Alt r1 r2 =>
      match m r1 k st with
      | Some x => Some x
      | None => m r2 k st
      end
  | Star g r1 => star_loop (m r1) g k (String.length (rest st)) st
  | Grp n r1 => m r1 (fun st1 => k (set_cap n (consumed st st1) st1)) st
  | Bol => if Nat.eqb (pos st) 0 then k st else None
  | Eol =>
      match rest st with
      | EmptyString => k st
      | String a EmptyString => if Char.eqb a Py.newline then k st else None
      | _ => None
      end
  | Ahead r1 =>
      match m r1 Some st with
      | Some _ => k st
      | None => None
      end
  end.

(** The words a pattern can consume, anchors and look-aheads taken as
    empty: every match of [m] consumes such a word ([m_sound] below). *)
Inductive denotes : regex -> string -> Prop :=
| d_eps : denotes Eps ""
| d_chr : forall c, denotes (Chr c) (String c "")
| d_cls : forall (p : char -> bool) a, p a = true -> denotes (Cls p) (String a "")
| d_seq : forall r1 r2 w1 w2,
    denotes r1 w1 -> denotes r2 w2 -> denotes (Seq r1 r2) (w1 ++ w2)
| d_alt_l : forall r1 r2 w, denotes r1 w -> denotes (Alt r1 r2) w
| d_alt_r : forall r1 r2 w, denotes r2 w -> denotes (Alt r1 r2) w
| d_star_nil : forall g r, denotes (Star g r) ""
| d_star_cons : forall g r w1 w2,
    denotes r w1 -> denotes (Star g r) w2 -> denotes (Star g r) (w1 ++ w2)
| d_grp : forall n r w, denotes r w -> denotes (Grp n r) w
| d_bol : denotes Bol ""
| d_eol : denotes Eol ""
| d_ahead : forall r, denotes (Ahead r) "".

(** The first character of [s] is in the class [p]. *)
Definition starts_in (p : char -> bool) (s : string) : bool :=
  match s with
  | String a _ => p a
  | EmptyString => false
  end.

Fixpoint all_in (p : char -> bool) (s : string) : bool :=
  match s with
  | String a s' => p a && all_in p s'
  | EmptyString => true
  end.

(** The scripts splice the section identifier into their patterns
    unescaped.  An identifier made of the letters A to Z and a to z and of
    decimal digits means itself there, and [Lit] renders it; the
    identifiers that [main] passes (["A"] ... ["V"]) are of this kind.  For
    an identifier with other characters the pattern of the script may be
    another one, or none ([re.error]): the patterns below then say nothing
    of the script. *)
Definition plain_id (s : string) : bool :=
  all_in (fun c => Py.is_upper c || Py.is_lower c || Py.is_digit c) s.

(** [st1] is [st] after the word [w] has been consumed. *)
Definition extends (st st1 : mstate) (w : string) : Prop :=
  rest st = w ++ rest st1 /\ pos st1 = pos st + String.length w.

(** The numbers of the groups of a pattern. *)
Fixpoint groups_of (r : regex) : list nat :=
  match r with
  | Seq r1 r2 | Alt r1 r2 => (groups_of r1 ++ groups_of r2)%list
  | Star _ r1 | Ahead r1 => groups_of r1
  | Grp n r1 => n :: groups_of r1
  | _ => []
  end.

(** Pattern syntax used by the scripts. *)
Fixpoint Lit (s : string) : regex :=
  match s with
  | EmptyString => Eps
  | String c s' => Seq (Chr c) (Lit s')
  end.

Definition Plus (g : bool) (r : regex) : regex := Seq r (Star g r).
Definition Opt (r : regex) : regex := Alt r Eps.

Fixpoint Rep (n : nat) (r : regex) : regex :=
  match n with
  | O => Eps
  | S n' => Seq r (Rep n' r)
  end.

Fixpoint Cat (rs : list regex) : regex :=
  match rs with
  | [] => Eps
  | [r] => r
  | r :: rs' => Seq r (Cat rs')
  end.

Fixpoint AltOf (rs : list regex) : regex :=
  match rs with
  | [] => Cls (fun _ => false)
  | [r] => r
  | r :: rs' => Alt r (AltOf rs')
  end.

Definition greedy := true.
Definition lazy := false.

(** The classes of a [str] pattern: [.] is any character but the newline,
    [\s] the white space of Unicode, [\d] the decimal digits of every
    script, [[A-Z]] the 26 capital letters. *)
Definition dot : regex := Cls (fun c => negb (Char.eqb c Py.newline)).  (* .  *)
Definition ws : regex := Cls Py.is_space.                                 (* \s *)
Definition dig : regex := Cls Py.is_digit.                                (* \d *)
Definition nondig : regex := Cls (fun c => negb (Py.is_digit c)).         (* [^\d] *)
Definition upper : regex := Cls Py.is_upper.                              (* [A-Z] *)
Definition notc (c : char) : regex := Cls (fun a => negb (Char.eqb a c)).

(** A match object: where the match starts, and the state it ends in. *)
Record rmatch : Type := RMatch { m_start : nat; m_final : mstate }.

Definition m_end (x : rmatch) : nat := pos (m_final x).

Fixpoint lookup (n : nat) (cs : list (nat * string)) : option string :=
  match cs with
  | [] => None
  | (i, v) :: cs' => if Nat.eqb i n then Some v else lookup n cs'
  end.

(** [mo.group(n)]; every group read by the scripts takes part in the match. *)
Definition group (n : nat) (x : rmatch) : string :=
  match lookup n (caps (m_final x)) with
  | Some v => v
  | None => ""
  end.

(** [re.match(r, s)] *)
Definition re_match (r : regex) (s : string) : option rmatch :=
  match m r Some (MState 0 s []) with
  | Some st => Some (RMatch 0 st)
  | None => None
  end.

(** [re.search], started at offset [p] of the subject, whose tail is [s]. *)
Fixpoint search_from (r : regex) (p : nat) (s : string) : option rmatch :=
  match m r Some (MState p s []) with
  | Some st => Some (RMatch p st)
  | None =>
      match s with
      | EmptyString => None
      | String _ s' => search_from r (S p) s'
      end
  end.

Definition re_search (r : regex) (s : string) : option rmatch := search_from r 0 s.

Definition found (o : option rmatch) : bool :=
  match o with Some _ => true | None => false end.

(** [re.findall(r, s)] for a pattern with one group: the group of each
    successive non-overlapping match. *)
Fixpoint findall_go (fuel : nat) (r : regex) (p : nat) (s : string) : list string :=
  match fuel with
  | O => []
  | S f =>
      match search_from r p s with
      | None => []
      | Some x =>
          let st := m_final x in
          if Nat.ltb (m_start x) (pos st)
          then group 1 x :: findall_go f r (pos st) (rest st)
          else match rest st with
               | EmptyString => [group 1 x]
               | String _ s' => group 1 x :: findall_go f r (S (pos st)) s'
               end
      end
  end.

Definition findall (r : regex) (s : string) : list string :=
  findall_go (S (String.length s)) r 0 s.

(** [re.sub(r, repl, s)] for a replacement without back-references. *)
Fixpoint sub_go (fuel : nat) (r : regex) (repl : string) (p : nat) (s : string) : string :=
  match fuel with
  | O => s
  | S f =>
      match search_from r p s with
      | None => s
      | Some x =>
          let st := m_final x in
          let before := take (m_start x - p) s in
          if Nat.ltb (m_start x) (pos st)
          then before ++ repl ++ sub_go f r repl (pos st) (rest st)
          else match rest st with
               | EmptyString => before ++ repl
               | String c s' => before ++ repl ++ String c (sub_go f r repl (S (pos st)) s')
               end
      end
  end.

Definition sub (r : regex) (repl s : string) : string :=
  sub_go (S (String.length s)) r repl 0 s.

End Re.

(* ------------------------------------------------------------------------- *)
(** ** [while] loops with fuel *)

Module Loop.

Section While.
Context {St : Type}.
Variable cond : St -> bool.
Variable body : St -> option St.

(** [while fuel s] runs [while cond: body]; it returns the number of
    iterations performed and the final state, or [None] when the fuel
    is used up before the condition turns false (or the body fails). *)
Fixpoint while (fuel : nat) (s : St) : option (nat * St) :=
  if cond s then
    match fuel with
    | O => None
    | S f =>
        match body s with
        | None => None
        | Some s' =>
            match while f s' with
            | Some (n, r) => Some (S n, r)
            | None => None
            end
        end
    end
  else Some (O, s).

End While.

(** [while cond: body] with a body that may raise: the exception leaves the
    loop. *)
Definition while_raising {St : Type} (cond : St -> bool)
           (body : St -> option (Outcome St)) (fuel : nat) (s : St)
  : option (nat * Outcome St) :=
  while (fun r => match r with Returned s => cond s | Raised _ => false end)
        (fun r => match r with Returned s => body s | Raised e => Some (Raised e) end)
        fuel (Returned s).

End Loop.

(* ------------------------------------------------------------------------- *)
(** ** Output records shared by the scripts *)




Record GivenAnswer : Type := mkAnswer {
  selectedOption : option string;
  comments : option string;
  answeredBy : option string;
  answeredDate : option string }.

Record Question : Type := mkQuestion {
  questionId : string;
  questionText : string;
  helpText : option string;
  answerType : string;
  options : list string;
  givenAnswer : GivenAnswer }.

Record SectionResult (Q : Type) : Type := mkSection {
  sectionId : string;
  sectionName : string;
  riskLevel : option string;
  questions : list Q }.

Arguments mkSection {Q}.
Arguments sectionId {Q}.
Arguments sectionName {Q}.
Arguments riskLevel {Q}.
Arguments questions {Q}.

(** What the HTML library gives for one file: [open] may raise; otherwise
    the text of the first [h1] element (when there is one) and the text of
    the whole document. *)
Inductive FileEntry : Type :=
| Missing
| Unreadable (e : string)
| Html (h1 : option string) (body_text : string).

Definition FileSystem : Type := string -> FileEntry.

Definition exists_file (fs : FileSystem) (name : string) : bool :=
  match fs name with Missing => false | _ => true end.

(** [open(path).read()] followed by [BeautifulSoup(html, 'html.parser')]. *)
Definition read_soup (fs : FileSystem) (name : string)
  : Outcome (option string * string) :=
  match fs name with
  | Missing => Raised "FileNotFoundError"
  | Unreadable e => Raised e
  | Html h1 body => Returned (h1, body)
  end.

(** The parse tree of the HTML library: a text node ([NavigableString]) or
    a tag with its children, in document order. *)
#[warnings="-register-all"] Inductive PageElement : Type :=
| NavigableString (text : string)
| Tag (name : string) (contents : list PageElement).

(** An element followed by everything below it, in document order. *)
Fixpoint self_and_descendants (e : PageElement) : list PageElement :=
  match e with
  | NavigableString _ => [e]
  | Tag _ contents => e :: flat_map self_and_descendants contents
  end.

(** [tag.descendants]: everything below a tag, in document order. *)
Definition descendants (e : PageElement) : list PageElement :=
  match e with
  | NavigableString _ => []
  | Tag _ contents => flat_map self_and_descendants contents
  end.

(** [sum(len(s['questions']) for s in sections)], the total that each
    [main] prints. *)
Definition total_questions {Q : Type} (sections_list : list (SectionResult Q)) : nat :=
  list_sum (map (fun s => length (questions s)) sections_list).

(** The three title patterns of the scripts. *)
Module Title.
Import Re.

(* Section ([A-Z]):\s*(.+?)\s*-\s*\((.+?)\) *)
Definition pattern1 : regex :=
  Cat [Lit "Section "; Grp 1 upper; Chr ":"; Star greedy ws;
       Grp 2 (Plus lazy dot); Star greedy ws; Chr "-"; Star greedy ws;
       Chr "("; Grp 3 (Plus lazy dot); Chr ")"].

(* Section ([A-Z])\s*-\s*(.+?)\s*-\s*\((.+?)\) *)
Definition pattern2 : regex :=
  Cat [Lit "Section "; Grp 1 upper; Star greedy ws; Chr "-"; Star greedy ws;
       Grp 2 (Plus lazy dot); Star greedy ws; Chr "-"; Star greedy ws;
       Chr "("; Grp 3 (Plus lazy dot); Chr ")"].

(* Section ([A-Z])[:\s-]+(.+) *)
Definition pattern3 : regex :=
  Cat [Lit "Section "; Grp 1 upper;
       Plus greedy (Cls (fun c => Char.eqb c ":" || Py.is_space c || Char.eqb c "-"));
       Grp 2 (Plus greedy dot)].

(* \s*-\s*\(.+?\)\s*$ *)
Definition trailing_parens : regex :=
  Cat [Star greedy ws; Chr "-"; Star greedy ws; Chr "("; Plus lazy dot; Chr ")";
       Star greedy ws; Eol].

End Title.

(** [sorted(xs, key=lambda x: x['sectionId'])] and [xs.sort(key=...)]: a
    stable sort on the section identifier, strings compared as Python does
    (character by character, by code). *)
Section SortBySectionId.
Context {Q : Type}.

Definition section_le (a b : SectionResult Q) : bool :=
  String.leb (sectionId a) (sectionId b).

(** Ascending, and strictly ascending, section identifiers. *)
Definition le_id (a b : SectionResult Q) : Prop :=
  String.leb (sectionId a) (sectionId b) = true.

Definition lt_id (a b : SectionResult Q) : Prop :=
  String.ltb (sectionId a) (sectionId b) = true.

Fixpoint insert_section (x : SectionResult Q) (l : list (SectionResult Q))
  : list (SectionResult Q) :=
  match l with
  | [] => [x]
  | y :: l' => if section_le x y then x :: y :: l' else y :: insert_section x l'
  end.

Fixpoint sort_sections (l : list (SectionResult Q)) : list (SectionResult Q) :=
  match l with
  | [] => []
  | x :: l' => insert_section x (sort_sections l')
  end.

End SortBySectionId.

(** The survey object handed to [json.dump]. *)
Record Survey (Q : Type) : Type := mkSurvey {
  surveyId : string;
  surveyName : string;
  surveyDescription : string;
  createdDate : string;
  sections : list (SectionResult Q) }.

Arguments mkSurvey {Q}.
Arguments sections {Q}.
Arguments createdDate {Q}.

(** [all_lines]: the stripped, non-empty lines of the document text. *)
Definition nonempty_stripped (pieces : list string) : list string :=
  filter Py.truthy (map Py.strip pieces).

Definition lines_of (body_text : string) : list string :=
  nonempty_stripped (Py.split body_text (String Py.newline "")).

(** The dictionary [all_sections] of the two extraction scripts, in
    insertion order, and the merge of a parsed document into it:
    [all_sections[section_id]['questions'].extend(...)] when the key is
    present, [all_sections[section_id] = section_data] otherwise. *)
Section Merge.
Context {Q : Type}.

Definition extend_questions (sec : SectionResult Q) (more : list Q) : SectionResult Q :=
  mkSection (sectionId sec) (sectionName sec) (riskLevel sec) (questions sec ++ more)%list.

Fixpoint has_key (section_id : string) (d : list (string * SectionResult Q)) : bool :=
  match d with
  | [] => false
  | (k, _) :: d' => String.eqb k section_id || has_key section_id d'
  end.

Fixpoint extend_at (section_id : string) (more : list Q)
         (d : list (string * SectionResult Q)) : list (string * SectionResult Q) :=
  match d with
  | [] => []
  | (k, v) :: d' =>
      if String.eqb k section_id then (k, extend_questions v more) :: d'
      else (k, v) :: extend_at section_id more d'
  end.

Definition merge_section (d : list (string * SectionResult Q)) (section_id : string)
           (section_data : SectionResult Q) : list (string * SectionResult Q) :=
  if has_key section_id d
  then extend_at section_id (questions section_data) d
  else (d ++ [(section_id, section_data)])%list.

Definition dict_values (d : list (string * SectionResult Q)) : list (SectionResult Q) :=
  map snd d.

(** The dictionary after the documents [docs] have been merged in turn. *)
Definition merge_all (docs : list (SectionResult Q)) : list (string * SectionResult Q) :=
  fold_left (fun d doc => merge_section d (sectionId doc) doc) docs [].

(** The questions of the documents of one section, in document order. *)
Definition questions_of (section_id : string) (docs : list (SectionResult Q)) : list Q :=
  flat_map (fun doc => if String.eqb (sectionId doc) section_id then questions doc else [])
           docs.

(** What [all_sections] holds after the documents [docs]: one entry per
    section identifier met, with the questions of its documents. *)
Definition merged (d : list (string * SectionResult Q)) (docs : list (SectionResult Q))
  : Prop :=
  NoDup (map fst d)
  /\ (forall k v, In (k, v) d -> sectionId v = k /\ questions v = questions_of k docs)
  /\ (forall k, In k (map fst d) <-> exists doc, In doc docs /\ sectionId doc = k).

End Merge.

(** The loop over [sections_to_extract] of the two extraction scripts
    (extractRealQuestions.py lines 195-211, extractFord2024Survey.py lines
    308-323), for the script's own [extract_questions_from_section]: a
    missing file is passed over, a parsed document is merged into
    [all_sections], a document that gave [None] is passed over. *)
Section SectionFiles.
Context {Q : Type}.
Variable extract : FileSystem -> string -> string -> option (Outcome (option (SectionResult Q))).

Fixpoint process_section_files (fs : FileSystem)
         (all_sections : list (string * SectionResult Q))
         (files : list (string * string))
  : option (Outcome (list (string * SectionResult Q))) :=
  match files with
  | [] => Some (Returned all_sections)
  | (filename, section_id) :: more =>
      if negb (exists_file fs filename) then process_section_files fs all_sections more
      else
        match extract fs filename section_id with
        | None => None
        | Some (Raised e) => Some (Raised e)
        | Some (Returned (Some section_data)) =>
            process_section_files fs (merge_section all_sections section_id section_data)
                                  more
        | Some (Returned None) => process_section_files fs all_sections more
        end
  end.

(** The documents of a run that yield a section, in processing order. *)
Fixpoint parsed_documents (fs : FileSystem) (files : list (string * string))
  : list (SectionResult Q) :=
  match files with
  | [] => []
  | (filename, section_id) :: more =>
      if exists_file fs filename then
        match extract fs filename section_id with
        | Some (Returned (Some section_data)) => section_data :: parsed_documents fs more
        | _ => parsed_documents fs more
        end
      else parsed_documents fs more
  end.

End SectionFiles.

(* ------------------------------------------------------------------------- *)
(** ** parseFordSurveyImproved.py *)

Module ParseFordSurveyImproved.
Import Re.

Definition SECTION_FILES : list string :=
  ["Section A.htm"; "Section B.htm"; "Section C.htm"; "Section D.htm";
   "Section E.htm"; "Section F.htm"; "Section G.htm"; "Section H.htm";
   "Section I.htm"; "Section J.htm"; "Section K.htm"; "Section N.htm";
   "Section T.htm"; "Section V.htm"].

(** Lines 30-41: the distinct stripped texts below an element, in the
    order of their first occurrence ([element] is a tag, or [None]). *)
Definition extract_text_preserving_structure (element : option PageElement)
  : list string :=
  match element with
  | None => []
  | Some e =>
      fold_left
        (fun text_blocks item =>
           match item with
           | NavigableString s =>
               let text := Py.strip s in
               if Py.truthy text && negb (Py.mem text text_blocks)
               then (text_blocks ++ [text])%list
               else text_blocks
           | Tag _ _ => text_blocks
           end)
        (descendants e) []
  end.

(* rf'^.*?{section_id}\.(\d+)\s+(.+)$', for a [section_id] as in [Re.plain_id] *)
Definition question_pattern (section_id : string) : regex :=
  Cat [Bol; Star lazy dot; Lit section_id; Chr "."; Grp 1 (Plus greedy dig);
       Plus greedy ws; Grp 2 (Plus greedy dot); Eol].

(* r'Answered by:\s*([^0-9\n]+)' *)
Definition answered_re : regex :=
  Cat [Lit "Answered by:"; Star greedy ws;
       Grp 1 (Plus greedy (Cls (fun c => negb (Py.is_ascii_digit c || Char.eqb c Py.newline))))].

(* r'(\d{2}/\d{2}/\d{4})' *)
Definition date_re : regex :=
  Grp 1 (Cat [Rep 2 dig; Chr "/"; Rep 2 dig; Chr "/"; Rep 4 dig]).

(** The local variables of the look-ahead loop of one question. *)
Record Scan : Type := mkScan {
  j : nat;
  collecting_question : bool;
  collecting_options : bool;
  question_text_lines : list string;
  help_text : option string;
  s_options : list string;
  answered_by : option string;
  answered_date : option string;
  s_comments : option string;
  broke : bool }.

Definition scan_init (i : nat) : Scan :=
  mkScan (i + 1) true false [] None [] None None None false.

Definition set_j (s : Scan) (j' : nat) : Scan :=
  mkScan j' (collecting_question s) (collecting_options s) (question_text_lines s)
         (help_text s) (s_options s) (answered_by s) (answered_date s) (s_comments s)
         (broke s).

Definition do_break (s : Scan) : Scan :=
  mkScan (j s) (collecting_question s) (collecting_options s) (question_text_lines s)
         (help_text s) (s_options s) (answered_by s) (answered_date s) (s_comments s)
         true.

Definition set_collecting (s : Scan) (q o : bool) : Scan :=
  mkScan (j s) q o (question_text_lines s)
         (help_text s) (s_options s) (answered_by s) (answered_date s) (s_comments s)
         (broke s).

Definition set_help (s : Scan) (h : option string) : Scan :=
  mkScan (j s) (collecting_question s) (collecting_options s) (question_text_lines s)
         h (s_options s) (answered_by s) (answered_date s) (s_comments s) (broke s).

Definition append_option (s : Scan) (o : string) : Scan :=
  mkScan (j s) (collecting_question s) (collecting_options s) (question_text_lines s)
         (help_text s) (s_options s ++ [o])%list (answered_by s) (answered_date s)
         (s_comments s) (broke s).

Definition set_answered_by (s : Scan) (a : option string) : Scan :=
  mkScan (j s) (collecting_question s) (collecting_options s) (question_text_lines s)
         (help_text s) (s_options s) a (answered_date s) (s_comments s) (broke s).

Definition set_answered_date (s : Scan) (d : option string) : Scan :=
  mkScan (j s) (collecting_question s) (collecting_options s) (question_text_lines s)
         (help_text s) (s_options s) (answered_by s) d (s_comments s) (broke s).

Definition set_comments (s : Scan) (c : option string) : Scan :=
  mkScan (j s) (collecting_question s) (collecting_options s) (question_text_lines s)
         (help_text s) (s_options s) (answered_by s) (answered_date s) c (broke s).

Definition append_text (s : Scan) (l : string) : Scan :=
  mkScan (j s) (collecting_question s) (collecting_options s)
         (question_text_lines s ++ [l])%list
         (help_text s) (s_options s) (answered_by s) (answered_date s) (s_comments s)
         (broke s).

(** [while j < len(all_lines) and j < i + 50] (left by [break]). *)
Definition scan_cond (all_lines : list string) (i : nat) (s : Scan) : bool :=
  negb (broke s) && Nat.ltb (j s) (length all_lines) && Nat.ltb (j s) (i + 50).

(** The look-ahead loop is left within this many iterations. *)
Definition scan_mu (lines : list string) (s : Scan) : nat :=
  if broke s then 0 else S (length lines - j s).

(** One iteration of the look-ahead loop (lines 119-199). *)
Definition scan_body (section_id : string) (all_lines : list string) (s : Scan) : Scan :=
  let next_line := Py.item all_lines (j s) in
  (* Stop if we hit another question *)
  if found (re_match (question_pattern section_id) next_line) then do_break s
  (* Check for Help Text *)
  else if String.eqb next_line "Help Text" then
    let s1 := set_collecting s false (collecting_options s) in
    let s2 :=
      if Nat.ltb (j s1 + 1) (length all_lines) then
        let potential_help := Py.item all_lines (j s1 + 1) in
        if negb (Py.contains "Please select" potential_help)
           && Nat.ltb (String.length potential_help) 500
        then set_j (set_help s1 (Some potential_help)) (j s1 + 1)
        else s1
      else s1 in
    set_j s2 (j s2 + 1)
  (* Check for options section *)
  else if Py.contains "Please select" next_line
          && Py.contains "following options" next_line then
    let s1 := set_collecting s false true in
    set_j s1 (j s1 + 1)
  (* Collect options *)
  else if collecting_options s then
    let s1 :=
      if Py.startswith next_line "Yes," || Py.startswith next_line "No,"
      then append_option s next_line
      else if String.eqb next_line "Not applicable"
      then append_option s next_line
      else if Py.mem next_line ["Show possible answers"; "Answered by:"; "Date:";
                                "Comments"; "Data Location:"]
      then set_collecting s (collecting_question s) false
      else s in
    set_j s1 (j s1 + 1)
  (* Check for answered by *)
  else if Py.contains "Answered by:" next_line then
    let s1 := set_collecting s false (collecting_options s) in
    let s2 :=
      match re_search answered_re next_line with
      | Some answered_match => set_answered_by s1 (Some (Py.strip (group 1 answered_match)))
      | None => s1
      end in
    set_j s2 (j s2 + 1)
  (* Check for date *)
  else if Py.contains "Date:" next_line || found (re_search date_re next_line) then
    let s1 :=
      match re_search date_re next_line with
      | Some date_match => set_answered_date s (Some (group 1 date_match))
      | None => s
      end in
    set_j s1 (j s1 + 1)
  (* Check for comments *)
  else if String.eqb next_line "Comments" then
    let s1 :=
      if Nat.ltb (j s + 1) (length all_lines) then
        let potential_comment := Py.item all_lines (j s + 1) in
        if negb (Py.mem potential_comment ["Data Location:"; "Terms of Use"])
        then set_j (set_comments s (Some potential_comment)) (j s + 1)
        else s
      else s in
    set_j s1 (j s1 + 1)
  (* Check for data location (end of question) *)
  else if Py.startswith next_line "Data Location:" then do_break s
  else
    (* Collect question text *)
    let s1 :=
      if collecting_question s then
        if negb (Py.mem next_line ["Help Text"; "Comments"; "Data Location:";
                                   "Show possible answers"])
        then
          if Py.contains "?" next_line
          then set_collecting (append_text s next_line) false (collecting_options s)
          else append_text s next_line
        else s
      else s in
    set_j s1 (j s1 + 1).

Definition scan (section_id : string) (all_lines : list string) (i : nat)
  : option (nat * Scan) :=
  Loop.while (scan_cond all_lines i)
             (fun s => Some (scan_body section_id all_lines s))
             (length all_lines) (scan_init i).

(** Lines 201-222: build the question object from what the scan collected. *)
Definition build_question (all_lines : list string) (i : nat)
           (question_id : string) (s : Scan) : Question :=
  let question_text := Py.strip (Py.join " " (question_text_lines s)) in
  (* If we didn't find question text, try to extract it from the initial line *)
  let question_text :=
    if negb (Py.truthy question_text) then
      if Nat.ltb (i + 1) (length all_lines)
      then Py.item all_lines (i + 1)
      else question_text
    else question_text in
  mkQuestion question_id
             (if Py.truthy question_text then question_text
              else "Question text not found")
             (help_text s)
             "single-choice"
             (s_options s)
             (mkAnswer None (s_comments s) (answered_by s) (answered_date s)).

(** The question text collected by the look-ahead. *)
Definition collected (s : Scan) : string :=
  Py.strip (Py.join " " (question_text_lines s)).

(** The outer loop (lines 94-228): the cursor [i] and the list [questions]. *)
Definition outer_cond (all_lines : list string) (st : nat * list Question) : bool :=
  Nat.ltb (fst st) (length all_lines).

Definition outer_body (section_id : string) (all_lines : list string)
           (st : nat * list Question) : option (nat * list Question) :=
  let '(i, questions) := st in
  let line := Py.item all_lines i in
  match re_match (question_pattern section_id) line with
  | Some q_match =>
      let question_num := group 1 q_match in
      let question_id := section_id ++ "." ++ question_num in
      match scan section_id all_lines i with
      | Some (_, s) =>
          (* Move past this question *)
          Some (j s, (questions ++ [build_question all_lines i question_id s])%list)
      | None => None
      end
  | None => Some (i + 1, questions)
  end.

(** The scan of the lines of one document; the result carries the number
    of iterations of the outer loop. *)
Definition scan_from (section_id : string) (all_lines : list string)
           (st : nat * list Question) : option (nat * (nat * list Question)) :=
  Loop.while (outer_cond all_lines) (outer_body section_id all_lines)
             (length all_lines) st.

Definition scan_lines_counted (section_id : string) (all_lines : list string)
  : option (nat * list Question) :=
  match scan_from section_id all_lines (0, []) with
  | Some (n, (_, questions)) => Some (n, questions)
  | None => None
  end.

Definition scan_lines (section_id : string) (all_lines : list string)
  : option (list Question) :=
  option_map snd (scan_lines_counted section_id all_lines).

(** The title of the document (lines 59-76): section letter, section
    name and risk level, or [None] when no pattern applies. *)
Definition parse_title (title_text : string)
  : option (string * string * option string) :=
  let first :=
    match re_search Title.pattern1 title_text with
    | Some mo => Some mo
    | None => re_search Title.pattern2 title_text
    end in
  match first with
  | Some mo =>
      Some (group 1 mo, Py.strip (group 2 mo), Some (Py.strip (group 3 mo)))
  | None =>
      match re_search Title.pattern3 title_text with
      | Some mo =>
          let section_name := Py.strip (group 2 mo) in
          Some (group 1 mo, sub Title.trailing_parens "" section_name, None)
      | None => None
      end
  end.

(** The body of the [try] block of [parse_html_file].  The outer [option]
    is [None] only if a loop of the model runs out of fuel. *)
Definition parse_body (fs : FileSystem) (file_path : string)
  : option (Outcome (option (SectionResult Question))) :=
  match read_soup fs file_path with
  | Raised e => Some (Raised e)
  | Returned (h1, body_text) =>
      match h1 with
      | None => Some (Returned None)
      | Some title_text =>
          match parse_title title_text with
          | None => Some (Returned None)
          | Some (section_id, section_name, risk_level) =>
              match scan_lines section_id (lines_of body_text) with
              | Some questions =>
                  Some (Returned (Some (mkSection section_id section_name
                                                  risk_level questions)))
              | None => None
              end
          end
      end
  end.

(** [parse_html_file]: [except Exception] prints and returns [None]. *)
Definition parse_html_file (fs : FileSystem) (file_path : string)
  : option (Outcome (option (SectionResult Question))) :=
  option_map (fun body => try_except body (fun _ => Returned None))
             (parse_body fs file_path).

Inductive LogEvent : Type :=
| FileNotFound (file_name : string)
| Extracted (file_name : string) (n_questions answered : nat)
| Failed (file_name : string).

Definition opt_truthy (o : option string) : bool :=
  match o with Some v => Py.truthy v | None => false end.

Definition is_answered (q : Question) : bool :=
  opt_truthy (selectedOption (givenAnswer q))
  || opt_truthy (comments (givenAnswer q))
  || opt_truthy (answeredBy (givenAnswer q)).

Definition answered_count (sec : SectionResult Question) : nat :=
  length (filter is_answered (questions sec)).

(** The state of the [for file_name in SECTION_FILES] loop of [main]. *)
Record Batch : Type := mkBatch {
  b_sections : list (SectionResult Question);
  b_log : list LogEvent }.

Definition process_file (fs : FileSystem) (b : Batch) (file_name : string)
  : option (Outcome Batch) :=
  if negb (exists_file fs file_name)
  then Some (Returned (mkBatch (b_sections b) (b_log b ++ [FileNotFound file_name])%list))
  else
    match parse_html_file fs file_name with
    | None => None
    | Some (Raised e) => Some (Raised e)
    | Some (Returned (Some section)) =>
        Some (Returned (mkBatch (b_sections b ++ [section])%list
                (b_log b ++ [Extracted file_name (length (questions section))
                                       (answered_count section)])%list))
    | Some (Returned None) =>
        Some (Returned (mkBatch (b_sections b) (b_log b ++ [Failed file_name])%list))
    end.

Fixpoint process_files (fs : FileSystem) (b : Batch) (file_names : list string)
  : option (Outcome Batch) :=
  match file_names with
  | [] => Some (Returned b)
  | file_name :: more =>
      match process_file fs b file_name with
      | Some (Returned b') => process_files fs b' more
      | other => other
      end
  end.

(** The sections of the documents that parse, in the order of the files. *)
Definition parsed_sections (fs : FileSystem) (file_names : list string)
  : list (SectionResult Question) :=
  flat_map (fun file_name =>
              if exists_file fs file_name then
                match parse_html_file fs file_name with
                | Some (Returned (Some section)) => [section]
                | _ => []
                end
              else [])
           file_names.

(** A document is well formed when it can be read, has an [h1] element and
    its title matches one of the title patterns; it is failing when it is
    there but one of these does not hold. *)
Definition well_formed (fs : FileSystem) (file_name : string) : bool :=
  match fs file_name with
  | Html (Some title_text) _ =>
      match parse_title title_text with Some _ => true | None => false end
  | _ => false
  end.

Definition failing (fs : FileSystem) (file_name : string) : bool :=
  match fs file_name with
  | Missing => false
  | Unreadable _ => true
  | Html None _ => true
  | Html (Some title_text) _ =>
      match parse_title title_text with Some _ => false | None => true end
  end.

Definition is_failed (e : LogEvent) : bool :=
  match e with Failed _ => true | _ => false end.

Definition count_failed (events : list LogEvent) : nat :=
  length (filter is_failed events).

(** What a run of [main] leaves behind: the survey handed to [json.dump]
    (when one is written) and the messages about each file. *)
Record Run : Type := mkRun {
  written : option (Survey Question);
  log : list LogEvent }.

Definition main_on (file_names : list string) (upload_dir_exists : bool)
           (today : string) (fs : FileSystem) : option (Outcome Run) :=
  if negb upload_dir_exists then Some (Returned (mkRun None []))
  else
    match process_files fs (mkBatch [] []) file_names with
    | None => None
    | Some (Raised e) => Some (Raised e)
    | Some (Returned b) =>
        match b_sections b with
        | [] => Some (Returned (mkRun None (b_log b)))
        | _ =>
            Some (Returned (mkRun
              (Some (mkSurvey "ford-sig-lite-2024" "Ford SIG Lite 2024"
                 "Standardized Information Gathering (SIG) Lite questionnaire for cybersecurity assessment"
                 today (sort_sections (b_sections b))))
              (b_log b)))
        end
    end.

Definition main : bool -> string -> FileSystem -> option (Outcome Run) :=
  main_on SECTION_FILES.

Definition written_sections (r : Run) : list (SectionResult Question) :=
  match written r with
  | Some survey => sections survey
  | None => []
  end.

End ParseFordSurveyImproved.

(* ------------------------------------------------------------------------- *)
(** ** extractRealQuestions.py *)

Module ExtractRealQuestions.
Import Re.

(* rf'{section_id}\.(\d+)', for a [section_id] as in [Re.plain_id] *)
Definition q_pattern (section_id : string) : regex :=
  Cat [Lit section_id; Chr "."; Grp 1 (Plus greedy dig)].

(* r'Answered by:\s*([^\d]+)' *)
Definition answered_re : regex :=
  Cat [Lit "Answered by:"; Star greedy ws; Grp 1 (Plus greedy nondig)].

(* r'(\d{2}/\d{2}/\d{4})' *)
Definition date_re : regex :=
  Grp 1 (Cat [Rep 2 dig; Chr "/"; Rep 2 dig; Chr "/"; Rep 4 dig]).

(* (?:requirements|program|policy|plan|controls?|procedures?|processes?) *)
Definition option_ending : regex :=
  AltOf [Lit "requirements"; Lit "program"; Lit "policy"; Lit "plan";
         Seq (Lit "control") (Opt (Chr "s"));
         Seq (Lit "procedure") (Opt (Chr "s"));
         Seq (Lit "processe") (Opt (Chr "s"))].

(* r'(Yes,[^N]+(?:...))' and r'(No,[^N]+(?:...))' *)
Definition yes_re : regex :=
  Grp 1 (Cat [Lit "Yes,"; Plus greedy (notc "N"); option_ending]).

Definition no_re : regex :=
  Grp 1 (Cat [Lit "No,"; Plus greedy (notc "N"); option_ending]).

(* r'\s+' *)
Definition spaces_re : regex := Plus greedy ws.

Definition is_question_start (section_id line : string) : bool :=
  found (re_search (q_pattern section_id) line).

(** The local variables of the look-ahead loop of one question. *)
Record Scan : Type := mkScan {
  j : nat;
  collecting_question : bool;
  collecting_options : bool;
  question_text : string;
  help_text : option string;
  s_options : list string;
  broke : bool }.

Definition scan_init (i : nat) : Scan := mkScan (i + 1) true false "" None [] false.

(** [for opt in matches: if opt not in options: options.append(opt.strip())] *)
Definition add_options (options matches : list string) : list string :=
  fold_left (fun acc opt => if Py.mem opt acc then acc else (acc ++ [Py.strip opt])%list)
            matches options.

(** Lines 82-109: what a line does to the question text.  The result tells
    whether the iteration ends there ([continue]). *)
Definition collect_text (next_line : string) (s : Scan) : Scan * bool :=
  if collecting_question s then
    if Py.contains "Help Text" next_line then
      let parts := Py.split next_line "Help Text" in
      let before := Py.strip (nth 0 parts "") in
      let text := if Py.truthy before then question_text s ++ " " ++ before
                  else question_text s in
      let help :=
        if Nat.ltb 1 (length parts) && Py.truthy (Py.strip (nth 1 parts ""))
           && negb (Py.contains "Please select" (nth 1 parts ""))
        then Some (Py.strip (nth 1 parts ""))
        else help_text s in
      (mkScan (j s + 1) false (collecting_options s) text help (s_options s) (broke s),
       true)
    else if Py.contains "Please select" next_line then
      let parts := Py.split next_line "Please select" in
      let before := Py.strip (nth 0 parts "") in
      let text := if Py.truthy before then question_text s ++ " " ++ before
                  else question_text s in
      (mkScan (j s + 1) false true text (help_text s) (s_options s) (broke s), true)
    else if Py.truthy next_line && negb (Py.startswith next_line "Data Location") then
      (mkScan (j s) (negb (Py.contains "?" next_line)) (collecting_options s)
              (question_text s ++ " " ++ next_line) (help_text s) (s_options s)
              (broke s),
       false)
    else (s, false)
  else (s, false).

(** Lines 111-131: what a line does to the options; the loop is left at a
    line carrying "Show possible answers" or "Comments". *)
Definition collect_options (next_line : string) (s : Scan) : Scan :=
  if Py.contains "Please select" next_line || collecting_options s then
    let yes_match := findall yes_re next_line in
    let no_match := findall no_re next_line in
    let opts := add_options (add_options (s_options s) yes_match) no_match in
    let opts :=
      if Py.contains "Not applicable" next_line && negb (Py.mem "Not applicable" opts)
      then (opts ++ ["Not applicable"])%list else opts in
    if Py.contains "Show possible answers" next_line || Py.contains "Comments" next_line
    then mkScan (j s) (collecting_question s) false (question_text s) (help_text s)
                opts true
    else mkScan (j s + 1) (collecting_question s) true (question_text s) (help_text s)
                opts false
  else
    mkScan (j s + 1) (collecting_question s) (collecting_options s) (question_text s)
           (help_text s) (s_options s) (broke s).

(** [while j < len(lines) and j < i + 30] (left by [break]). *)
Definition scan_cond (lines : list string) (i : nat) (s : Scan) : bool :=
  negb (broke s) && Nat.ltb (j s) (length lines) && Nat.ltb (j s) (i + 30).

(** The look-ahead loop is left within this many iterations. *)
Definition scan_mu (lines : list string) (s : Scan) : nat :=
  if broke s then 0 else S (length lines - j s).

(** One iteration of the look-ahead loop (lines 75-133). *)
Definition scan_body (section_id : string) (lines : list string) (i : nat) (s : Scan)
  : Scan :=
  let next_line := Py.item lines (j s) in
  (* Stop if we hit another question *)
  if is_question_start section_id next_line && Nat.ltb (i + 2) (j s) then
    mkScan (j s) (collecting_question s) (collecting_options s) (question_text s)
           (help_text s) (s_options s) true
  else
    let '(s1, continue) := collect_text next_line s in
    if continue then s1 else collect_options next_line s1.

Definition scan (section_id : string) (lines : list string) (i : nat)
  : option (nat * Scan) :=
  Loop.while (scan_cond lines i)
             (fun s => Some (scan_body section_id lines i s))
             (length lines) (scan_init i).

(** Lines 135-152: the cleaned question text, and the record when the text
    is kept. *)
Definition clean_text (s : Scan) : string :=
  sub spaces_re " " (Py.strip (question_text s)).

Definition keeps_record (text : string) : bool :=
  Py.truthy text && negb (Py.startswith text "Data Location").

Definition line_answered_by (line : string) : option string :=
  if Py.contains "Answered by:" line then
    match re_search answered_re line with
    | Some ans_match => Some (Py.strip (group 1 ans_match))
    | None => None
    end
  else None.

Definition line_answered_date (line : string) : option string :=
  if Py.contains "Date:" line then
    match re_search date_re line with
    | Some date_match => Some (group 1 date_match)
    | None => None
    end
  else None.

Definition build_question (question_id line : string) (s : Scan) : Question :=
  mkQuestion question_id (clean_text s) (help_text s) "single-choice" (s_options s)
             (mkAnswer None None (line_answered_by line) (line_answered_date line)).

Definition emit (question_id line : string) (s : Scan) : list Question :=
  if keeps_record (clean_text s) then [build_question question_id line s] else [].

(** The outer loop (lines 39-157). *)
Definition outer_cond (lines : list string) (st : nat * list Question) : bool :=
  Nat.ltb (fst st) (length lines).

Definition outer_body (section_id : string) (lines : list string)
           (st : nat * list Question) : option (nat * list Question) :=
  let '(i, questions) := st in
  let line := Py.item lines i in
  match re_search (q_pattern section_id) line with
  | Some q_match =>
      let q_num := group 1 q_match in
      let question_id := section_id ++ "." ++ q_num in
      match scan section_id lines i with
      | Some (_, s) => Some (j s, (questions ++ emit question_id line s)%list)
      | None => None
      end
  | None => Some (i + 1, questions)
  end.

Definition scan_from (section_id : string) (lines : list string)
           (st : nat * list Question) : option (nat * (nat * list Question)) :=
  Loop.while (outer_cond lines) (outer_body section_id lines) (length lines) st.

Definition scan_lines_counted (section_id : string) (lines : list string)
  : option (nat * list Question) :=
  match scan_from section_id lines (0, []) with
  | Some (n, (_, questions)) => Some (n, questions)
  | None => None
  end.

Definition scan_lines (section_id : string) (lines : list string)
  : option (list Question) :=
  option_map snd (scan_lines_counted section_id lines).

(** Lines 20-34: the section name and risk level from the title. *)
Definition parse_title (title_text : string) : string * option string :=
  let first :=
    match re_search Title.pattern1 title_text with
    | Some mo => Some mo
    | None => re_search Title.pattern2 title_text
    end in
  match first with
  | Some mo => (Py.strip (group 2 mo), Some (Py.strip (group 3 mo)))
  | None => ("Unknown", None)
  end.

Definition extract_body (fs : FileSystem) (file_path section_id : string)
  : option (Outcome (option (SectionResult Question))) :=
  match read_soup fs file_path with
  | Raised e => Some (Raised e)
  | Returned (h1, text) =>
      let title_text := match h1 with Some t => t | None => "" end in
      let '(section_name, risk_level) := parse_title title_text in
      match scan_lines section_id (lines_of text) with
      | Some questions =>
          Some (Returned (Some (mkSection section_id section_name risk_level questions)))
      | None => None
      end
  end.

Definition extract_questions_from_section (fs : FileSystem) (file_path section_id : string)
  : option (Outcome (option (SectionResult Question))) :=
  option_map (fun body => try_except body (fun _ => Returned None))
             (extract_body fs file_path section_id).

Definition sections_to_extract : list (string * string) :=
  [("Section A.htm", "A"); ("Section B.htm", "B"); ("Section C.htm", "C");
   ("Section D.htm", "D"); ("Section E.htm", "E"); ("Section F.htm", "F");
   ("Section G.htm", "G"); ("Section H.htm", "H"); ("Section I.htm", "I");
   ("Section J.htm", "J"); ("Section K.htm", "K"); ("Section N.htm", "N");
   ("Section N (page 2).htm", "N"); ("Section T.htm", "T"); ("Section V.htm", "V")].

(** Lines 193-222: the loop over the files, the sort and the survey. *)
Definition main_on (files : list (string * string)) (fs : FileSystem)
  : option (Outcome (Survey Question)) :=
  match process_section_files extract_questions_from_section fs [] files with
  | None => None
  | Some (Raised e) => Some (Raised e)
  | Some (Returned all_sections) =>
      (* Convert to list and sort *)
      let sections_list := sort_sections (dict_values all_sections) in
      Some (Returned (mkSurvey "ford-sig-lite-2024" "Ford SIG Lite 2024"
        "Standardized Information Gathering (SIG) Lite questionnaire for cybersecurity assessment"
        "2024-07-12" sections_list))
  end.

Definition main : FileSystem -> option (Outcome (Survey Question)) :=
  main_on sections_to_extract.

End ExtractRealQuestions.

(* ------------------------------------------------------------------------- *)
(** ** extractFord2024Survey.py *)

Module ExtractFord2024Survey.
Import Re.

Record Scoring : Type := mkScoring {
  likelihood : option Z;
  overallImpact : option Z }.

Record ScoredQuestion : Type := mkScored {
  q_questionId : string;
  q_questionText : string;
  q_helpText : option string;
  q_answerType : string;
  q_options : list string;
  q_scoring : Scoring;
  q_givenAnswer : GivenAnswer }.

(* [\dA-Z.] *)
Definition qualifier_char (c : char) : bool :=
  Py.is_digit c || Py.is_upper c || Char.eqb c ".".

(* rf'{section_id}\.[\dA-Z.]+', for a [section_id] as in [Re.plain_id] *)
Definition start_re (section_id : string) : regex :=
  Cat [Lit section_id; Chr "."; Plus greedy (Cls qualifier_char)].

(* rf'{section_id}\.([\dA-Z.]+)', for a [section_id] as in [Re.plain_id] *)
Definition q_pattern (section_id : string) : regex :=
  Cat [Lit section_id; Chr "."; Grp 1 (Plus greedy (Cls qualifier_char))].

(* rf'{section_id}\.{re.escape(q_num)}\s+(.+?)(?:Answered by:|$)' *)
Definition answer_re (section_id q_num : string) : regex :=
  Cat [Lit section_id; Chr "."; Lit q_num; Plus greedy ws; Grp 1 (Plus lazy dot);
       Alt (Lit "Answered by:") Eol].

(* r'Answered by:\s*([A-Za-z\s]+?)(?:Date:|$)' *)
Definition answered_re : regex :=
  Cat [Lit "Answered by:"; Star greedy ws;
       Grp 1 (Plus lazy (Cls (fun c => Py.is_upper c || Py.is_lower c || Py.is_space c)));
       Alt (Lit "Date:") Eol].

(* r'Date:\s*(\d{2}/\d{2}/\d{4})' *)
Definition date_re : regex :=
  Cat [Lit "Date:"; Star greedy ws;
       Grp 1 (Cat [Rep 2 dig; Chr "/"; Rep 2 dig; Chr "/"; Rep 4 dig])].

(* r'Likelihood:\s*(\d+),\s*Overall impact:\s*(\d+)' *)
Definition score_re : regex :=
  Cat [Lit "Likelihood:"; Star greedy ws; Grp 1 (Plus greedy dig); Chr ",";
       Star greedy ws; Lit "Overall impact:"; Star greedy ws; Grp 2 (Plus greedy dig)].

(* rf'\d+\.\s+{section_id}\.{re.escape(q_num)}\s+(.+?)(?:Help Text|$)' *)
Definition same_line_re (section_id q_num : string) : regex :=
  Cat [Plus greedy dig; Chr "."; Plus greedy ws; Lit section_id; Chr "."; Lit q_num;
       Plus greedy ws; Grp 1 (Plus lazy dot); Alt (Lit "Help Text") Eol].

(* r'(Yes,[^N]+?)(?=No,|Not applicable|Show possible)' *)
Definition yes_re : regex :=
  Seq (Grp 1 (Seq (Lit "Yes,") (Plus lazy (notc "N"))))
      (Ahead (AltOf [Lit "No,"; Lit "Not applicable"; Lit "Show possible"])).

(* r'(No,[^N]+?)(?=Not applicable|Show possible|Comments)' *)
Definition no_re : regex :=
  Seq (Grp 1 (Seq (Lit "No,") (Plus lazy (notc "N"))))
      (Ahead (AltOf [Lit "Not applicable"; Lit "Show possible"; Lit "Comments"])).

(* r'\s+' *)
Definition spaces_re : regex := Plus greedy ws.

Definition is_question_start (section_id line : string) : bool :=
  found (re_search (start_re section_id) line).

(** Lines 83-84: the two conversions are made in turn; either may raise. *)
Definition score_of (score_match : rmatch) : Outcome Scoring :=
  likelihood <- Py.int (group 1 score_match) ;;
  overall_impact <- Py.int (group 2 score_match) ;;
  Returned (mkScoring (Some likelihood) (Some overall_impact)).

(** Lines 76-85: the look-ahead for the scoring line, [n] lines from [j]. *)
Fixpoint scoring_loop (lines : list string) (j n : nat) : Outcome Scoring :=
  match n with
  | O => Returned (mkScoring None None)
  | S n' =>
      let score_line := Py.item lines j in
      if Py.contains "Likelihood:" score_line && Py.contains "impact:" score_line then
        match re_search score_re score_line with
        | Some score_match => score_of score_match
        | None => scoring_loop lines (j + 1) n'
        end
      else scoring_loop lines (j + 1) n'
  end.

Definition scoring_lookahead (lines : list string) (i : nat) : Outcome Scoring :=
  let scoring_search_range := Nat.min (i + 50) (length lines) in
  scoring_loop lines i (scoring_search_range - i).

(** Lines 50-74: what the question line itself tells about the answer. *)
Definition line_selected_option (section_id q_num line : string) : option string :=
  match re_search (answer_re section_id q_num) line with
  | Some answer_match =>
      let potential_answer := Py.strip (group 1 answer_match) in
      if negb (Py.startswith_any potential_answer
                 ["Is there"; "Does"; "Has"; "Have"; "Are"; "Do"; "Will"])
      then Some potential_answer else None
  | None => None
  end.

Definition line_answered_by (line : string) : option string :=
  if Py.contains "Answered by:" line then
    match re_search answered_re line with
    | Some ans_match => Some (Py.strip (group 1 ans_match))
    | None => None
    end
  else None.

Definition line_answered_date (line : string) : option string :=
  if Py.contains "Date:" line then
    match re_search date_re line with
    | Some date_match => Some (group 1 date_match)
    | None => None
    end
  else None.

(** Lines 98-117: help text and options of the single-line format. *)
Definition same_line_help (line : string) : option string :=
  if Py.contains "Help Text" line then
    let help_parts := Py.split_once line "Help Text" in
    if Nat.ltb 1 (length help_parts) then
      let remaining := nth 1 help_parts "" in
      if Py.contains "Please select" remaining
      then Some (Py.strip (nth 0 (Py.split remaining "Please select") ""))
      else None
    else None
  else None.

Definition same_line_options (line : string) : list string :=
  let o1 :=
    if Py.contains "Yes," line then
      match re_search yes_re line with
      | Some yes_match => [Py.strip (group 1 yes_match)]
      | None => []
      end
    else [] in
  let o2 :=
    if Py.contains "No," line then
      match re_search no_re line with
      | Some no_match => [Py.strip (group 1 no_match)]
      | None => []
      end
    else [] in
  let o3 := if Py.contains "Not applicable" line then ["Not applicable"] else [] in
  (o1 ++ o2 ++ o3)%list.

(** The local variables of the multi-line look-ahead loop. *)
Record Scan : Type := mkScan {
  j : nat;
  collecting_question : bool;
  collecting_options : bool;
  collecting_comments : bool;
  question_text : string;
  help_text : option string;
  s_options : list string;
  s_comments : option string;
  broke : bool }.

Definition scan_init (i : nat) : Scan :=
  mkScan (i + 1) true false false "" None [] None false.

(** Lines 196-203 and 211-217: the continuation lines of an option.  The
    state is the index [k], the option text so far, and the [break] flag. *)
Definition cont_cond (lines : list string) (stops : list string)
           (st : nat * string * bool) : bool :=
  let '(k, _, stopped) := st in
  negb stopped && Nat.ltb k (length lines)
  && negb (Py.startswith_any (Py.item lines k) stops).

(** The continuation loop is left within this many iterations. *)
Definition cont_mu (lines : list string) (st : nat * string * bool) : nat :=
  let '(k, _, stopped) := st in if stopped then 0 else S (length lines - k).

Definition cont_body (section_id : string) (lines : list string)
           (st : nat * string * bool) : nat * string * bool :=
  let '(k, opt, stopped) := st in
  if Py.truthy (Py.item lines k) && negb (is_question_start section_id (Py.item lines k))
  then (k + 1, opt ++ " " ++ Py.item lines k, stopped)
  else (k, opt, true).

Definition continuation (section_id : string) (lines : list string)
           (stops : list string) (k : nat) (opt : string) : option (nat * string) :=
  match Loop.while (cont_cond lines stops)
                   (fun st => Some (cont_body section_id lines st))
                   (length lines) (k, opt, false) with
  | Some (_, (k', opt', _)) => Some (k', opt')
  | None => None
  end.

(** Lines 160-186: what a line does to the question text; the flag tells
    whether the iteration ends there ([continue]). *)
Definition collect_text (next_line : string) (s : Scan) : Scan * bool :=
  if collecting_question s then
    if Py.contains "Help Text" next_line then
      let parts := Py.split next_line "Help Text" in
      let before := Py.strip (nth 0 parts "") in
      let text := if Py.truthy before then question_text s ++ " " ++ before
                  else question_text s in
      let help :=
        if Nat.ltb 1 (length parts) && Py.truthy (Py.strip (nth 1 parts "")) then
          let remaining := Py.strip (nth 1 parts "") in
          if negb (Py.startswith remaining "Please select") then
            if Py.contains "Please select" remaining
            then Some (Py.strip (nth 0 (Py.split remaining "Please select") ""))
            else Some remaining
          else help_text s
        else help_text s in
      (mkScan (j s + 1) false (collecting_options s) (collecting_comments s) text help
              (s_options s) (s_comments s) (broke s), true)
    else if Py.contains "Please select" next_line then
      let parts := Py.split next_line "Please select" in
      let before := Py.strip (nth 0 parts "") in
      let text := if Py.truthy before then question_text s ++ " " ++ before
                  else question_text s in
      (mkScan (j s + 1) false true (collecting_comments s) text (help_text s)
              (s_options s) (s_comments s) (broke s), true)
    else if Py.truthy next_line
            && negb (Py.startswith_any next_line ["Data Location"; "Comments"; "Likelihood"])
    then
      (mkScan (j s) (negb (Py.contains "?" next_line)) (collecting_options s)
              (collecting_comments s) (question_text s ++ " " ++ next_line)
              (help_text s) (s_options s) (s_comments s) (broke s), false)
    else (s, false)
  else (s, false).

(** Lines 188-228: what a line does to the options. *)
Definition collect_options (section_id : string) (lines : list string)
           (next_line : string) (s : Scan) : option Scan :=
  if collecting_options s || Py.contains "Please select" next_line then
    let after_option : option (nat * list string) :=
      if Py.startswith next_line "Yes," then
        match continuation section_id lines
                ["No,"; "Not applicable"; "Show possible"; "Comments"]
                (j s + 1) next_line with
        | Some (k, yes_opt) =>
            Some (k - 1, if Py.mem yes_opt (s_options s) then s_options s
                         else (s_options s ++ [Py.strip yes_opt])%list)
        | None => None
        end
      else if Py.startswith next_line "No," then
        match continuation section_id lines
                ["Yes,"; "Not applicable"; "Show possible"; "Comments"]
                (j s + 1) next_line with
        | Some (k, no_opt) =>
            Some (k - 1, if Py.mem no_opt (s_options s) then s_options s
                         else (s_options s ++ [Py.strip no_opt])%list)
        | None => None
        end
      else if String.eqb next_line "Not applicable"
              && negb (Py.mem "Not applicable" (s_options s))
      then Some (j s, (s_options s ++ ["Not applicable"])%list)
      else Some (j s, s_options s) in
    match after_option with
    | Some (j', opts) =>
        let closing := Py.contains "Show possible answers" next_line
                       || String.eqb next_line "Comments" in
        Some (mkScan j' (collecting_question s) (negb closing)
                (if closing && String.eqb next_line "Comments" then true
                 else collecting_comments s)
                (question_text s) (help_text s) opts (s_comments s) (broke s))
    | None => None
    end
  else Some s.

(** Lines 230-238: the comments, and the step to the next line. *)
Definition collect_comments (lines : list string) (next_line : string) (s : Scan) : Scan :=
  if String.eqb next_line "Comments" then
    let j' := j s + 1 in
    let comments' :=
      if Nat.ltb j' (length lines)
         && negb (Py.startswith_any (Py.item lines j') ["Data Location"; "Likelihood"])
      then Some (Py.item lines j') else s_comments s in
    mkScan j' (collecting_question s) (collecting_options s) true (question_text s)
           (help_text s) (s_options s) comments' (broke s)
  else
    mkScan (j s + 1) (collecting_question s) (collecting_options s)
           (collecting_comments s) (question_text s) (help_text s) (s_options s)
           (s_comments s) (broke s).

Definition do_break (s : Scan) : Scan :=
  mkScan (j s) (collecting_question s) (collecting_options s) (collecting_comments s)
         (question_text s) (help_text s) (s_options s) (s_comments s) true.

(** [while j < len(lines) and j < i + 40] (left by [break]). *)
Definition scan_cond (lines : list string) (i : nat) (s : Scan) : bool :=
  negb (broke s) && Nat.ltb (j s) (length lines) && Nat.ltb (j s) (i + 40).

(** The look-ahead loop is left within this many iterations. *)
Definition scan_mu (lines : list string) (s : Scan) : nat :=
  if broke s then 0 else S (length lines - j s).

(** One iteration of the multi-line look-ahead loop (lines 149-238). *)
Definition scan_body (section_id : string) (lines : list string) (i : nat) (s : Scan)
  : option Scan :=
  let next_line := Py.item lines (j s) in
  (* Stop if we hit another question *)
  if is_question_start section_id next_line && Nat.ltb (i + 2) (j s) then Some (do_break s)
  (* Stop at certain markers *)
  else if Py.startswith next_line "Data Location:"
          || Py.startswith next_line "Create a new task" then Some (do_break s)
  else
    let '(s1, continue) := collect_text next_line s in
    if continue then Some s1
    else
      match collect_options section_id lines next_line s1 with
      | Some s2 => Some (collect_comments lines next_line s2)
      | None => None
      end.

Definition scan (section_id : string) (lines : list string) (i : nat)
  : option (nat * Scan) :=
  Loop.while (scan_cond lines i) (scan_body section_id lines i)
             (length lines) (scan_init i).

Definition clean_text (text : string) : string :=
  sub spaces_re " " (Py.strip text).

Definition keeps_record (text : string) : bool :=
  Py.truthy text && negb (Py.startswith text "Data Location").

(** The outer loop (lines 39-266).  An iteration returns the next state
    or raises the exception of a scoring conversion. *)
Definition outer_cond (lines : list string) (st : nat * list ScoredQuestion) : bool :=
  Nat.ltb (fst st) (length lines).

Definition outer_body (section_id : string) (lines : list string)
           (st : nat * list ScoredQuestion)
  : option (Outcome (nat * list ScoredQuestion)) :=
  let '(i, questions) := st in
  let line := Py.item lines i in
  if is_question_start section_id line then
    match re_search (q_pattern section_id) line with
    | Some q_match =>
        let q_num := group 1 q_match in
        let question_id := section_id ++ "." ++ q_num in
        let selected_option := line_selected_option section_id q_num line in
        let answered_by := line_answered_by line in
        let answered_date := line_answered_date line in
        (* Look ahead for scoring (usually near the end of question) *)
        match scoring_lookahead lines i with
        | Raised e => Some (Raised e)
        | Returned scoring =>
            match re_search (same_line_re section_id q_num) line with
            | Some same_line_q_match =>
                (* Single-line format - extract everything from current line *)
                let question_text := Py.strip (group 1 same_line_q_match) in
                let q := mkScored question_id question_text (same_line_help line)
                           "single-choice" (same_line_options line) scoring
                           (mkAnswer selected_option None answered_by answered_date) in
                Some (Returned (i + 1, if Py.truthy question_text
                                       then (questions ++ [q])%list
                                       else questions))
            | None =>
                (* Multi-line format - look at subsequent lines *)
                match scan section_id lines i with
                | Some (_, s) =>
                    let question_text := clean_text (question_text s) in
                    let q := mkScored question_id question_text (help_text s)
                               "single-choice" (s_options s) scoring
                               (mkAnswer selected_option (s_comments s) answered_by
                                         answered_date) in
                    Some (Returned (j s, if keeps_record question_text
                                         then (questions ++ [q])%list
                                         else questions))
                | None => None
                end
            end
        end
    | None => Some (Returned (i + 1, questions))
    end
  else Some (Returned (i + 1, questions)).

(** Lines 36-266: the scan of a document; with the result, the number of
    iterations of the outer loop. *)
Definition scan_lines_counted (section_id : string) (lines : list string)
  : option (nat * Outcome (list ScoredQuestion)) :=
  match Loop.while_raising (outer_cond lines) (outer_body section_id lines)
                           (length lines) (0, []) with
  | Some (n, Returned (_, questions)) => Some (n, Returned questions)
  | Some (n, Raised e) => Some (n, Raised e)
  | None => None
  end.

Definition scan_lines (section_id : string) (lines : list string)
  : option (Outcome (list ScoredQuestion)) :=
  option_map snd (scan_lines_counted section_id lines).




(** Lines 20-34: the section name and risk level from the title. *)
Definition parse_title (title_text : string) : string * option string :=
  let first :=
    match re_search Title.pattern1 title_text with
    | Some mo => Some mo
    | None => re_search Title.pattern2 title_text
    end in
  match first with
  | Some mo => (Py.strip (group 2 mo), Some (Py.strip (group 3 mo)))
  | None => ("Unknown", None)
  end.

Definition extract_body (fs : FileSystem) (file_path section_id : string)
  : option (Outcome (option (SectionResult ScoredQuestion))) :=
  match read_soup fs file_path with
  | Raised e => Some (Raised e)
  | Returned (h1, text) =>
      let title_text := match h1 with Some t => t | None => "" end in
      let '(section_name, risk_level) := parse_title title_text in
      match scan_lines section_id (lines_of text) with
      | Some (Returned questions) =>
          Some (Returned (Some (mkSection section_id section_name risk_level questions)))
      | Some (Raised e) => Some (Raised e)
      | None => None
      end
  end.

Definition extract_questions_from_section (fs : FileSystem) (file_path section_id : string)
  : option (Outcome (option (SectionResult ScoredQuestion))) :=
  option_map (fun body => try_except body (fun _ => Returned None))
             (extract_body fs file_path section_id).

Definition sections_to_extract : list (string * string) :=
  [("Section A.htm", "A"); ("Section B.htm", "B"); ("Section C.htm", "C");
   ("Section D.htm", "D"); ("Section E.htm", "E"); ("Section F.htm", "F");
   ("Section G.htm", "G"); ("Section H.htm", "H"); ("Section I.htm", "I");
   ("Section J.htm", "J"); ("Section K.htm", "K"); ("Section M.htm", "M");
   ("Section N.htm", "N"); ("Section N (PAGE 2).htm", "N"); ("Section P.htm", "P");
   ("Section R.htm", "R"); ("Section T.htm", "T"); ("Section U.htm", "U");
   ("Section V.htm", "V")].

(** Lines 306-333: the loop over the files, the sort and the survey. *)
Definition main_on (files : list (string * string)) (fs : FileSystem)
  : option (Outcome (Survey ScoredQuestion)) :=
  match process_section_files extract_questions_from_section fs [] files with
  | None => None
  | Some (Raised e) => Some (Raised e)
  | Some (Returned all_sections) =>
      let sections_list := sort_sections (dict_values all_sections) in
      Some (Returned (mkSurvey "ford-sig-lite-2024-high-availability"
        "Ford SIG Lite 2024 - High Availability (ROC)"
        "Ford Standardized Information Gathering (SIG) Lite 2024 - High Availability Risk Operations Center Survey"
        "2024-07-12" sections_list))
  end.

Definition main : FileSystem -> option (Outcome (Survey ScoredQuestion)) :=
  main_on sections_to_extract.

End ExtractFord2024Survey.

(* ------------------------------------------------------------------------- *)
(** ** parseFordSurvey.py: the question line *)

Module ParseFordSurvey.
Import Re.

(* line 87: optional [\d+\.] and blanks, then [([A-Z])\.(\d+)], anchored at both ends *)
Definition question_re : regex :=
  Cat [Bol; Opt (Cat [Plus greedy dig; Chr "."; Star greedy ws]);
       Grp 1 upper; Chr "."; Grp 2 (Plus greedy dig); Eol].

(* line 119: the same pattern without the groups *)
Definition question_line_re : regex :=
  Cat [Bol; Opt (Cat [Plus greedy dig; Chr "."; Star greedy ws]);
       upper; Chr "."; Plus greedy dig; Eol].

(** Lines 87-94: the identifier of the question a line opens. *)
Definition question_start (line : string) : option string :=
  match re_match question_re line with
  | Some q_match => Some (group 1 q_match ++ "." ++ group 2 q_match)
  | None => None
  end.

(** The variables of the loop: the cursor, the question being filled (a
    dictionary that is appended to [questions] when the next one starts),
    the option flag and the questions so far. *)
Record Scan : Type := mkScan {
  i : nat;
  current_question : option Question;
  collecting_options : bool;
  s_questions : list Question }.

Definition has_question (s : Scan) : bool :=
  match current_question s with Some _ => true | None => false end.

Definition update_question (s : Scan) (f : Question -> Question) (i' : nat) (co : bool)
  : Scan :=
  mkScan i' (option_map f (current_question s)) co (s_questions s).

Definition set_text (text : string) (q : Question) : Question :=
  mkQuestion (questionId q) text (helpText q) (answerType q) (options q) (givenAnswer q).

Definition set_help (h : string) (q : Question) : Question :=
  mkQuestion (questionId q) (questionText q) (Some h) (answerType q) (options q)
             (givenAnswer q).

Definition add_option (o : string) (q : Question) : Question :=
  mkQuestion (questionId q) (questionText q) (helpText q) (answerType q)
             (options q ++ [o])%list (givenAnswer q).

Definition set_answer (f : GivenAnswer -> GivenAnswer) (q : Question) : Question :=
  mkQuestion (questionId q) (questionText q) (helpText q) (answerType q) (options q)
             (f (givenAnswer q)).

Definition nonempty_or_none (v : string) : option string :=
  if Py.truthy v then Some v else None.

(** Lines 114-122: the lines of the question text, from the lines that are
    left, up to the first line that ends it. *)
Definition ends_text (next_line : string) : bool :=
  Py.mem next_line ["Help Text"; "Please select"; "Show possible answers"; "Answered by:"]
  || Py.startswith next_line "Answered by:"
  || Py.startswith next_line "Date:"
  || found (re_match question_line_re next_line).

Fixpoint question_lines (left : list string) : list string :=
  match left with
  | [] => []
  | next_line :: more =>
      if ends_text next_line then [] else next_line :: question_lines more
  end.

(** Lines 176-181: the first option of more than 20 characters whose first
    20 characters occur in the line. *)
Fixpoint matching_option (opts : list string) (line : string) : option string :=
  match opts with
  | [] => None
  | option :: more =>
      if Nat.ltb 20 (String.length option) && Py.contains (take 20 option) line
      then Some option else matching_option more line
  end.

Definition scan_cond (lines : list string) (s : Scan) : bool :=
  Nat.ltb (i s) (length lines).

(** One iteration of the loop (lines 84-183). *)
Definition scan_body (lines : list string) (s : Scan) : Scan :=
  let line := Py.item lines (i s) in
  match re_match question_re line with
  | Some q_match =>
      (* Save previous question, start new question *)
      let saved := match current_question s with
                   | Some q => (s_questions s ++ [q])%list
                   | None => s_questions s
                   end in
      let question_id := group 1 q_match ++ "." ++ group 2 q_match in
      let text_lines := question_lines (skipn (i s + 1) lines) in
      let text := if Nat.ltb (i s + 1) (length lines)
                  then Py.strip (Py.join " " text_lines) else "" in
      mkScan (i s + 1 + length text_lines)
             (Some (mkQuestion question_id text None "single-choice" []
                               (mkAnswer None None None None)))
             (collecting_options s) saved
  | None =>
      if String.eqb line "Help Text" && has_question s then
        if Nat.ltb (i s + 1) (length lines)
           && negb (Py.mem (Py.item lines (i s + 1)) ["Please select"; "Show possible answers"])
        then update_question s (set_help (Py.item lines (i s + 1))) (i s + 2)
                             (collecting_options s)
        else update_question s (fun q => q) (i s + 1) (collecting_options s)
      else if Py.contains "Please select" line && Py.contains "following options" line then
        update_question s (fun q => q) (i s + 1) true
      else if collecting_options s && has_question s then
        if Py.startswith line "Yes," || Py.startswith line "No,"
           || String.eqb line "Not applicable"
        then update_question s (add_option line) (i s + 1) true
        else if Py.mem line ["Show possible answers"; "Answered by:"]
                || Py.startswith line "Answered by:"
        then update_question s (fun q => q) (i s) false
        else update_question s (fun q => q) (i s + 1) true
      else if Py.startswith line "Answered by:" && has_question s then
        let answered_by := Py.strip (Py.replace line "Answered by:" "") in
        let '(i1, answered_by) :=
          if negb (Py.truthy answered_by) && Nat.ltb (i s + 1) (length lines)
          then (i s + 1, Py.strip (Py.item lines (i s + 1)))
          else (i s, answered_by) in
        update_question s
          (set_answer (fun a => mkAnswer (selectedOption a) (comments a)
                                         (nonempty_or_none answered_by) (answeredDate a)))
          (i1 + 1) (collecting_options s)
      else if Py.startswith line "Date:" && has_question s then
        let date_str := Py.strip (Py.replace line "Date:" "") in
        update_question s
          (set_answer (fun a => mkAnswer (selectedOption a) (comments a) (answeredBy a)
                                         (nonempty_or_none date_str)))
          (i s + 1) (collecting_options s)
      else if String.eqb line "Comments" && has_question s then
        if Nat.ltb (i s + 1) (length lines)
           && negb (Py.mem (Py.item lines (i s + 1)) ["Data Location:"; "Answered by:"])
        then update_question s
               (set_answer (fun a => mkAnswer (selectedOption a)
                                              (Some (Py.item lines (i s + 1)))
                                              (answeredBy a) (answeredDate a)))
               (i s + 2) (collecting_options s)
        else update_question s (fun q => q) (i s + 1) (collecting_options s)
      else
        (* Try to detect selected answer by matching option text *)
        update_question s
          (fun q => match matching_option (options q) line with
                    | Some option =>
                        set_answer (fun a => mkAnswer (Some option) (comments a)
                                                      (answeredBy a) (answeredDate a)) q
                    | None => q
                    end)
          (i s + 1) (collecting_options s)
  end.

(** The scan of the lines of one document (lines 79-187); an iteration
    that only clears the option flag does not move the cursor, so the fuel
    is twice the number of lines. *)
Definition scan_lines (lines : list string) : option (list Question) :=
  match Loop.while (scan_cond lines) (fun s => Some (scan_body lines s))
                   (2 * length lines) (mkScan 0 None false []) with
  | Some (_, s) =>
      (* Save last question *)
      Some (match current_question s with
            | Some q => (s_questions s ++ [q])%list
            | None => s_questions s
            end)
  | None => None
  end.

(** The title of the document (lines 50-69): section letter, section
    name and risk level, or [None] when no pattern applies. *)
Definition parse_title (title_text : string)
  : option (string * string * option string) :=
  let first :=
    match re_search Title.pattern1 title_text with
    | Some mo => Some mo
    | None => re_search Title.pattern2 title_text
    end in
  match first with
  | Some mo =>
      Some (group 1 mo, Py.strip (group 2 mo), Some (Py.strip (group 3 mo)))
  | None =>
      match re_search Title.pattern3 title_text with
      | Some mo =>
          let section_name := Py.strip (group 2 mo) in
          Some (group 1 mo, sub Title.trailing_parens "" section_name, None)
      | None => None
      end
  end.

End ParseFordSurvey.

(* ------------------------------------------------------------------------- *)
(** ** Inputs used in the examples *)

Module Inputs.

(** The end-to-end scenario of the specification. *)
Definition end_to_end : list string :=
  ["1. A.1 Does the organization have policy?";
   "Please select one of the following options";
   "Yes, we have a documented policy";
   "No, we do not";
   "Not applicable";
   "Answered by: Jane Doe";
   "Date: 07/12/2024"].

Definition empty_text : list string := ["A.1 x"; "Help Text"].

Definition dropped_record : list string :=
  ["A.1"; "Help Text"; "guidance"; "A.2"; "Is it so?"].

Definition duplicate_options : list string :=
  ["A.1 q"; "Please select one of the following options";
   "Yes, we have a program"; "Yes, we have a program"].

Definition duplicate_options_after_question : list string :=
  ["A.1"; "Do we?"; "Please select one of the following options";
   "Yes, we have a program"; "Yes, we have a program"].

Definition cross_section_line : string := "1. B.2 Is the USA.GOV portal used?".

Definition marker_on_question_line : list string :=
  ["A.1"; "Do you? Please select Yes, we have a program"].

Definition marker_on_own_line : list string :=
  ["A.1"; "Do you?"; "Please select Yes, we have a program"].

Definition scored : list string :=
  ["P.7"; "Is there a plan?"; "Likelihood: 3, Overall impact: 4"].

Definition unscored : list string := ["P.7"; "Is there a plan?"; "no score here"].

(** Five documents: the third has a title that no pattern matches. *)
Definition batch_names : list string := ["a.htm"; "b.htm"; "c.htm"; "d.htm"; "e.htm"].

Definition batch_fs : FileSystem :=
  fun name =>
    if String.eqb name "a.htm" then Html (Some "Section A: Risk - (High)") "A.1 x"
    else if String.eqb name "b.htm" then Html (Some "Section B - Policy - (Low)") ""
    else if String.eqb name "c.htm" then Html (Some "Survey results") "C.1 y"
    else if String.eqb name "d.htm" then Html (Some "Section D: Assets") "D.1 z"
    else if String.eqb name "e.htm" then Html (Some "Section E: Access - (High)") ""
    else Missing.

(** Two pages of section N around a page of section B. *)
Definition pages : list (string * string) :=
  [("n1.htm", "N"); ("b.htm", "B"); ("n2.htm", "N")].

Definition pages_fs : FileSystem :=
  fun name =>
    if String.eqb name "n1.htm"
    then Html (Some "Section N: Network - (High)") (String.concat (String Py.newline "") ["N.1"; "First?"])
    else if String.eqb name "b.htm"
    then Html (Some "Section B: Policy - (Low)") (String.concat (String Py.newline "") ["B.1"; "Second?"])
    else if String.eqb name "n2.htm"
    then Html (Some "Section N: Network - (High)") (String.concat (String Py.newline "") ["N.2"; "Third?"])
    else Missing.

(** The same pages as parseFordSurveyImproved reads them: the section
    comes from the title, the question text from the line after the
    identifier. *)
Definition page_names : list string := ["n1.htm"; "b.htm"; "n2.htm"].

Definition improved_pages_fs : FileSystem :=
  fun name =>
    if String.eqb name "n1.htm"
    then Html (Some "Section N: Network - (High)")
              (String.concat (String Py.newline "") ["N.1 x"; "First?"])
    else if String.eqb name "b.htm"
    then Html (Some "Section B: Policy - (Low)")
              (String.concat (String Py.newline "") ["B.1 x"; "Second?"])
    else if String.eqb name "n2.htm"
    then Html (Some "Section N: Network - (High)")
              (String.concat (String Py.newline "") ["N.2 x"; "Third?"])
    else Missing.

(** A scoring line whose first number has 4301 digits. *)
Fixpoint ones (n : nat) : string :=
  match n with
  | O => ""
  | S k => String "1" (ones k)
  end.

Definition overlong_score : list string :=
  ["P.7"; "Is there a plan?"; "Likelihood: " ++ ones 4301 ++ ", Overall impact: 4"].

Definition overlong_fs : FileSystem :=
  fun name =>
    if String.eqb name "p.htm"
    then Html (Some "Section P: Plans - (High)")
              (String.concat (String Py.newline "") overlong_score)
    else Missing.

End Inputs.

(* ------------------------------------------------------------------------- *)
(** * Properties *)

(* ------------------------------------------------------------------------- *)
(** ** Characters and strings *)

Lemma char_eqb_eq (a b : char) : Char.eqb a b = true <-> a = b.
Proof.
  destruct a as [m], b as [n]. unfold Char.eqb. cbn [code].
  rewrite N.eqb_eq. split; [intros ->; reflexivity|intros H; inversion H; reflexivity].
Qed.

Lemma char_eqb_refl (a : char) : Char.eqb a a = true.
Proof. apply char_eqb_eq. reflexivity. Qed.

Lemma char_eqb_sym (a b : char) : Char.eqb a b = Char.eqb b a.
Proof. unfold Char.eqb. apply N.eqb_sym. Qed.

Lemma char_eqb_neq (a b : char) : Char.eqb a b = false <-> a <> b.
Proof.
  rewrite <- char_eqb_eq. destruct (Char.eqb a b); split; intros H;
    try reflexivity; try discriminate; try (exfalso; apply H; reflexivity).
Qed.

Lemma char_dec (a b : char) : {a = b} + {a <> b}.
Proof.
  destruct (Char.eqb a b) eqn:E; [left; apply char_eqb_eq; exact E|
                                   right; apply char_eqb_neq; exact E].
Qed.

Lemma char_compare_eq_iff (a b : char) : Char.compare a b = Eq <-> a = b.
Proof.
  destruct a as [m], b as [n]. unfold Char.compare. cbn [code].
  rewrite N.compare_eq_iff. split; [intros ->; reflexivity|intros H; inversion H; reflexivity].
Qed.

Lemma char_compare_antisym (a b : char) :
  Char.compare a b = CompOpp (Char.compare b a).
Proof. unfold Char.compare. apply N.compare_antisym. Qed.

Lemma string_eqb_eq (s t : string) : String.eqb s t = true <-> s = t.
Proof.
  revert t. induction s as [|c s IH]; intros [|d t]; cbn [String.eqb];
    try (split; [reflexivity|reflexivity]); try (split; discriminate).
  rewrite andb_true_iff, char_eqb_eq, IH.
  split; [intros [-> ->]; reflexivity|intros H; inversion H; split; reflexivity].
Qed.

Lemma string_eqb_refl (s : string) : String.eqb s s = true.
Proof. apply string_eqb_eq. reflexivity. Qed.

Lemma string_eqb_neq (s t : string) : String.eqb s t = false <-> s <> t.
Proof.
  rewrite <- string_eqb_eq. destruct (String.eqb s t); split; intros H;
    try reflexivity; try discriminate; try (exfalso; apply H; reflexivity).
Qed.

Lemma string_compare_eq_iff (s t : string) : String.compare s t = Eq <-> s = t.
Proof.
  revert t. induction s as [|c s IH]; intros [|d t]; cbn [String.compare];
    try (split; [reflexivity|reflexivity]); try (split; discriminate).
  destruct (Char.compare c d) eqn:E.
  - apply char_compare_eq_iff in E. subst d. rewrite IH.
    split; [intros ->; reflexivity|intros H; inversion H; reflexivity].
  - split; [discriminate|]. intros H; inversion H; subst.
    assert (Char.compare d d = Eq) by (apply char_compare_eq_iff; reflexivity). congruence.
  - split; [discriminate|]. intros H; inversion H; subst.
    assert (Char.compare d d = Eq) by (apply char_compare_eq_iff; reflexivity). congruence.
Qed.

Lemma string_compare_antisym (s t : string) :
  String.compare s t = CompOpp (String.compare t s).
Proof.
  revert t. induction s as [|c s IH]; intros [|d t]; cbn [String.compare]; try reflexivity.
  rewrite (char_compare_antisym c d). destruct (Char.compare d c); cbn [CompOpp];
    [apply IH|reflexivity|reflexivity].
Qed.

Lemma string_leb_total (s t : string) : String.leb s t = true \/ String.leb t s = true.
Proof.
  unfold String.leb. rewrite (string_compare_antisym t s).
  destruct (String.compare s t); cbn [CompOpp]; auto.
Qed.

Lemma append_nil_r (s : string) : s ++ "" = s.
Proof. induction s as [|c s IH]; cbn [append]; [reflexivity|rewrite IH; reflexivity]. Qed.

Lemma append_assoc (a b c : string) : (a ++ b) ++ c = a ++ b ++ c.
Proof. induction a as [|x a IH]; cbn [append]; [reflexivity|rewrite IH; reflexivity]. Qed.

Lemma length_append (a b : string) :
  String.length (a ++ b) = String.length a + String.length b.
Proof. induction a as [|x a IH]; cbn [append String.length]; [reflexivity|rewrite IH; reflexivity]. Qed.

(** The digits and the white space of Python, as intervals of code points. *)
Lemma zero_of_Some zs n z :
  Py.zero_of zs n = Some z -> In z zs /\ (z <= n < z + 10)%N.
Proof.
  induction zs as [|y zs IH]; cbn [Py.zero_of]; [discriminate|].
  destruct ((y <=? n)%N && (n <? y + 10)%N) eqn:E.
  - intros H; inversion H; subst. apply andb_prop in E as [E1 E2].
    apply N.leb_le in E1. apply N.ltb_lt in E2. split; [left; reflexivity|lia].
  - intros H. destruct (IH H) as [H1 H2]. split; [right; exact H1|exact H2].
Qed.

Lemma is_digit_inv c :
  Py.is_digit c = true ->
  exists z, Py.zero_of Py.decimal_zeros (code c) = Some z
            /\ In z Py.decimal_zeros /\ (z <= code c < z + 10)%N.
Proof.
  unfold Py.is_digit. destruct (Py.zero_of Py.decimal_zeros (code c)) as [z|] eqn:E;
    [|discriminate].
  intros _. exists z. split; [reflexivity|]. apply zero_of_Some. exact E.
Qed.

Lemma digit_val_range c : Py.is_digit c = true -> (0 <= Py.digit_val c <= 9)%Z.
Proof.
  intros H. destruct (is_digit_inv c H) as (z & E & _ & Hr).
  unfold Py.digit_val. rewrite E. lia.
Qed.

Lemma digit_val_nonneg c : (0 <= Py.digit_val c)%Z.
Proof.
  unfold Py.digit_val. destruct (Py.zero_of Py.decimal_zeros (code c)); lia.
Qed.

Lemma ascii_digit_is_digit c : Py.is_ascii_digit c = true -> Py.is_digit c = true.
Proof.
  unfold Py.is_ascii_digit, Py.is_digit. intros H. apply andb_prop in H as [H1 H2].
  apply N.leb_le in H1. apply N.leb_le in H2.
  cbn [Py.decimal_zeros Py.zero_of].
  replace ((48 <=? code c)%N) with true by (symmetry; apply N.leb_le; lia).
  replace ((code c <? 48 + 10)%N) with true by (symmetry; apply N.ltb_lt; lia).
  reflexivity.
Qed.

(** Case analysis on the equality of two characters. *)
Ltac char_cases c a H :=
  destruct (Char.eqb c a) eqn:H;
  [apply char_eqb_eq in H|apply char_eqb_neq in H].

(** Decides the comparisons of a code point that is known to lie in an
    interval. *)
Ltac decide_codes :=
  repeat match goal with
         | |- context [N.leb ?a ?b] =>
             first [replace (N.leb a b) with true by (symmetry; apply N.leb_le; lia)
                   |replace (N.leb a b) with false by (symmetry; apply N.leb_gt; lia)]
         | |- context [N.ltb ?a ?b] =>
             first [replace (N.ltb a b) with true by (symmetry; apply N.ltb_lt; lia)
                   |replace (N.ltb a b) with false by (symmetry; apply N.ltb_ge; lia)]
         | |- context [N.eqb ?a ?b] =>
             replace (N.eqb a b) with false by (symmetry; apply N.eqb_neq; lia)
         end.

(** One case for each script that has decimal digits. *)
Ltac digit_cases Hin :=
  cbn [Py.decimal_zeros In] in Hin;
  repeat (destruct Hin as [Hin|Hin]; [subst|]); [..|contradiction].

Lemma digit_not_space c : Py.is_digit c = true -> Py.is_space c = false.
Proof.
  intros H. destruct (is_digit_inv c H) as (z & _ & Hin & Hr).
  unfold Py.is_space. clear H. generalize dependent (code c). intros n Hr.
  digit_cases Hin; cbv zeta; decide_codes; reflexivity.
Qed.

Lemma digit_not_upper c : Py.is_digit c = true -> Py.is_upper c = false.
Proof.
  intros H. destruct (is_digit_inv c H) as (z & _ & Hin & Hr).
  unfold Py.is_upper. clear H. generalize dependent (code c). intros n Hr.
  digit_cases Hin; cbv zeta; decide_codes; reflexivity.
Qed.

Lemma digit_not_lower c : Py.is_digit c = true -> Py.is_lower c = false.
Proof.
  intros H. destruct (is_digit_inv c H) as (z & _ & Hin & Hr).
  unfold Py.is_lower. clear H. generalize dependent (code c). intros n Hr.
  digit_cases Hin; cbv zeta; decide_codes; reflexivity.
Qed.

Section WhileFacts.
Context {St : Type}.
Variable cond : St -> bool.
Variable body : St -> option St.

Lemma while_unfold_stop : forall fuel s,
  cond s = false -> Loop.while cond body fuel s = Some (0, s).
Proof. intros [|f] s H; simpl; rewrite H; reflexivity. Qed.

Lemma while_unfold_step : forall f s s',
  cond s = true -> body s = Some s' ->
  Loop.while cond body (S f) s =
  match Loop.while cond body f s' with
  | Some (n, r) => Some (S n, r)
  | None => None
  end.
Proof. intros f s s' Hc Hb; simpl; rewrite Hc, Hb; reflexivity. Qed.

(** Total correctness: an invariant [P] and a measure [mu] that every
    iteration decreases give a result within [mu s] iterations. *)
Lemma while_terminates (P : St -> Prop) (mu : St -> nat) :
  (forall s, P s -> cond s = true ->
             exists s', body s = Some s' /\ P s' /\ mu s' < mu s) ->
  forall fuel s, P s -> mu s <= fuel ->
  exists n r, Loop.while cond body fuel s = Some (n, r)
              /\ n <= mu s /\ P r /\ cond r = false.
Proof.
  intros Hstep fuel; induction fuel as [|f IH]; intros s HP Hmu.
  - destruct (cond s) eqn:Hc.
    + destruct (Hstep s HP Hc) as (s' & _ & _ & Hlt); lia.
    + exists 0, s; rewrite while_unfold_stop by assumption; repeat split; auto; lia.
  - destruct (cond s) eqn:Hc.
    + destruct (Hstep s HP Hc) as (s' & Hb & HP' & Hlt).
      destruct (IH s' HP') as (n & r & Hw & Hn & HPr & Hcr); [lia|].
      exists (S n), r; rewrite (while_unfold_step f s s' Hc Hb), Hw.
      repeat split; auto; lia.
    + exists 0, s; rewrite while_unfold_stop by assumption; repeat split; auto; lia.
Qed.

(** Partial correctness: an invariant holds of the final state. *)
Lemma while_invariant (P : St -> Prop) :
  (forall s s', P s -> cond s = true -> body s = Some s' -> P s') ->
  forall fuel s n r, P s -> Loop.while cond body fuel s = Some (n, r) ->
                     P r /\ cond r = false.
Proof.
  intros Hstep fuel; induction fuel as [|f IH]; intros s n r HP Hw; simpl in Hw.
  - destruct (cond s) eqn:Hc; [discriminate|]. inversion Hw; subst; auto.
  - destruct (cond s) eqn:Hc.
    + destruct (body s) as [s'|] eqn:Hb; [|discriminate].
      destruct (Loop.while cond body f s') as [[n' r']|] eqn:Hw'; [|discriminate].
      inversion Hw; subst. eapply IH; [|exact Hw']. eapply Hstep; eauto.
    + inversion Hw; subst; auto.
Qed.

(** More fuel does not change a result. *)
Lemma while_more_fuel : forall f1 f2 s res,
  f1 <= f2 -> Loop.while cond body f1 s = Some res -> Loop.while cond body f2 s = Some res.
Proof.
  induction f1 as [|f1 IH]; intros f2 s res Hle Hw; simpl in Hw.
  - destruct (cond s) eqn:Hc; [discriminate|].
    rewrite while_unfold_stop by assumption. assumption.
  - destruct (cond s) eqn:Hc.
    + destruct f2 as [|f2]; [lia|]. simpl. rewrite Hc.
      destruct (body s) as [s'|]; [|discriminate].
      destruct (Loop.while cond body f1 s') as [[n r]|] eqn:Hw'; [|discriminate].
      rewrite (IH f2 s' (n, r)); auto; lia.
    + rewrite while_unfold_stop by assumption. assumption.
Qed.

End WhileFacts.

(** The same for a loop whose body may raise: the loop ends, by an
    exception or with the condition false. *)
Section WhileRaisingFacts.
Context {St : Type}.
Variable cond : St -> bool.
Variable body : St -> option (Outcome St).

Lemma while_raising_terminates (P : St -> Prop) (mu : St -> nat) :
  (forall s, P s -> cond s = true ->
             exists r, body s = Some r
                       /\ match r with
                          | Returned s' => P s' /\ mu s' < mu s
                          | Raised _ => 0 < mu s
                          end) ->
  forall fuel s, P s -> mu s <= fuel ->
  exists n r, Loop.while_raising cond body fuel s = Some (n, r)
              /\ n <= mu s
              /\ match r with
                 | Returned s' => P s' /\ cond s' = false
                 | Raised _ => True
                 end.
Proof.
  intros Hstep fuel s HP Hmu. unfold Loop.while_raising.
  destruct (while_terminates
              (fun r => match r with Returned s => cond s | Raised _ => false end)
              (fun r => match r with Returned s => body s | Raised e => Some (Raised e) end)
              (fun r => match r with Returned s => P s | Raised _ => True end)
              (fun r => match r with Returned s => mu s | Raised _ => 0 end))
    with (fuel := fuel) (s := Returned s) as (n & r & Hw & Hn & HPr & Hc).
  - intros [s0|e] HP0 Hc0; [|discriminate].
    destruct (Hstep s0 HP0 Hc0) as (r & Hb & Hr). exists r. split; [exact Hb|].
    destruct r as [s'|e]; [exact Hr|split; [exact I|exact Hr]].
  - exact HP.
  - exact Hmu.
  - exists n, r. split; [exact Hw|]. split; [exact Hn|].
    destruct r as [s'|e]; [split; assumption|exact I].
Qed.

Lemma while_raising_invariant (P : St -> Prop) :
  (forall s s', P s -> cond s = true -> body s = Some (Returned s') -> P s') ->
  forall fuel s n r, P s -> Loop.while_raising cond body fuel s = Some (n, r) ->
                     match r with
                     | Returned s' => P s' /\ cond s' = false
                     | Raised _ => True
                     end.
Proof.
  intros Hstep fuel s n r HP Hw. unfold Loop.while_raising in Hw.
  eapply (while_invariant _ _
            (fun r => match r with Returned s => P s | Raised _ => True end)) in Hw.
  - destruct r as [s'|e]; [exact Hw|exact I].
  - intros [s0|e] [s1|e1] HP0 Hc0 Hb0; try exact I; try discriminate.
    eapply Hstep; eauto.
  - exact HP.
Qed.

End WhileRaisingFacts.

Ltac break_if :=
  match goal with
  | |- context [if ?c then _ else _] => destruct c eqn:?
  | |- context [match ?c with Some _ => _ | None => _ end] => destruct c eqn:?
  end.

(** ** Strings *)

Lemma app_assoc_s (a b c : string) : (a ++ b) ++ c = a ++ (b ++ c).
Proof. induction a as [|x a IH]; simpl; congruence. Qed.

Lemma app_nil_r_s (a : string) : a ++ "" = a.
Proof. induction a as [|x a IH]; simpl; congruence. Qed.

Lemma length_app_s (a b : string) :
  String.length (a ++ b) = String.length a + String.length b.
Proof. induction a as [|x a IH]; simpl; congruence. Qed.

Lemma take_app (w r : string) : Re.take (String.length w) (w ++ r) = w.
Proof. induction w as [|x w IH]; simpl; [destruct r; reflexivity|congruence]. Qed.

Lemma prefix_app (x r : string) : String.prefix x (x ++ r) = true.
Proof.
  induction x as [|c x IH]; simpl; [destruct r; reflexivity|].
  rewrite char_eqb_refl. assumption.
Qed.

Lemma prefix_inv (x s : string) :
  String.prefix x s = true -> exists r, s = x ++ r.
Proof.
  revert s; induction x as [|c x IH]; intros s H.
  - exists s; reflexivity.
  - destruct s as [|d s]; simpl in H; [discriminate|].
    char_cases c d Hcd; [|discriminate]. subst.
    destruct (IH s H) as [r ->]. exists r; reflexivity.
Qed.

Lemma contains_unfold (x s : string) :
  Py.contains x s =
  if String.prefix x s then true
  else match s with EmptyString => false | String _ s' => Py.contains x s' end.
Proof. destruct s; reflexivity. Qed.

Lemma contains_app (x pre post : string) : Py.contains x (pre ++ x ++ post) = true.
Proof.
  induction pre as [|c pre IH].
  - simpl. rewrite contains_unfold, prefix_app; reflexivity.
  - simpl append. rewrite contains_unfold.
    destruct (String.prefix x _); [reflexivity|assumption].
Qed.

Lemma contains_inv (x s : string) :
  Py.contains x s = true -> exists pre post, s = pre ++ x ++ post.
Proof.
  induction s as [|c s IH]; intros H; rewrite contains_unfold in H.
  - destruct (String.prefix x "") eqn:E; [|discriminate].
    apply prefix_inv in E as [r E]. exists "", r; assumption.
  - destruct (String.prefix x (String c s)) eqn:E.
    + apply prefix_inv in E as [r E]. exists "", r; assumption.
    + destruct (IH H) as (pre & post & ->). exists (String c pre), post; reflexivity.
Qed.

(** ** The matcher consumes words of the pattern *)

Lemma extends_refl st : Re.extends st st "".
Proof. split; simpl; [reflexivity|lia]. Qed.

Lemma extends_trans st st1 st2 w1 w2 :
  Re.extends st st1 w1 -> Re.extends st1 st2 w2 -> Re.extends st st2 (w1 ++ w2).
Proof.
  intros [H1 H2] [H3 H4]; split.
  - rewrite H1, H3, app_assoc_s; reflexivity.
  - rewrite H4, H2, length_app_s; lia.
Qed.

Lemma star_loop_sound (body : (Re.mstate -> option Re.mstate) -> Re.mstate -> option Re.mstate)
      (g : bool) (r : Re.regex) (k : Re.mstate -> option Re.mstate) :
  (forall k' st x, body k' st = Some x ->
     exists w st1, Re.denotes r w /\ Re.extends st st1 w /\ k' st1 = Some x) ->
  forall fuel st x, Re.star_loop body g k fuel st = Some x ->
    exists w st1, Re.denotes (Re.Star g r) w /\ Re.extends st st1 w /\ k st1 = Some x.
Proof.
  intros Hbody fuel; induction fuel as [|f IH]; intros st x H; simpl in H.
  - exists "", st; split; [constructor|split; [apply extends_refl|assumption]].
  - assert (Hiter : forall y,
      body (fun st1 => if Nat.ltb (String.length (Re.rest st1)) (String.length (Re.rest st))
                       then Re.star_loop body g k f st1 else None) st = Some y ->
      exists w st1, Re.denotes (Re.Star g r) w /\ Re.extends st st1 w /\ k st1 = Some y).
    { intros y Hy. apply Hbody in Hy as (w1 & st1 & Hd1 & He1 & Hk1).
      destruct (Nat.ltb _ _); [|discriminate].
      apply IH in Hk1 as (w2 & st2 & Hd2 & He2 & Hk2).
      exists (w1 ++ w2), st2; split; [constructor; assumption|].
      split; [eapply extends_trans; eassumption|assumption]. }
    destruct g.
    + destruct (body _ st) as [y|] eqn:Hy.
      * inversion H; subst. apply Hiter; reflexivity.
      * exists "", st; split; [constructor|split; [apply extends_refl|assumption]].
    + destruct (k st) as [y|] eqn:Hy.
      * inversion H; subst.
        exists "", st; split; [constructor|split; [apply extends_refl|assumption]].
      * apply Hiter; assumption.
Qed.

Lemma m_sound : forall r k st x,
  Re.m r k st = Some x ->
  exists w st1, Re.denotes r w /\ Re.extends st st1 w /\ k st1 = Some x.
Proof.
  induction r as [|c|p|r1 IH1 r2 IH2|r1 IH1 r2 IH2|g r IH|n r IH| | |r IH];
    intros k st x H; simpl in H.
  - exists "", st; split; [constructor|split; [apply extends_refl|assumption]].
  - destruct (Re.rest st) as [|a s'] eqn:E; [discriminate|].
    destruct (Char.eqb a c) eqn:Ec; [|discriminate].
    apply char_eqb_eq in Ec; subst a.
    exists (String c ""), (Re.step_char st s'); split; [constructor|].
    split; [split; simpl; [assumption|lia]|assumption].
  - destruct (Re.rest st) as [|a s'] eqn:E; [discriminate|].
    destruct (p a) eqn:Ep; [|discriminate].
    exists (String a ""), (Re.step_char st s'); split; [constructor; assumption|].
    split; [split; simpl; [assumption|lia]|assumption].
  - apply IH1 in H as (w1 & st1 & Hd1 & He1 & H).
    apply IH2 in H as (w2 & st2 & Hd2 & He2 & H).
    exists (w1 ++ w2), st2; split; [constructor; assumption|].
    split; [eapply extends_trans; eassumption|assumption].
  - destruct (Re.m r1 k st) as [y|] eqn:E.
    + inversion H; subst. apply IH1 in E as (w & st1 & Hd & He & Hk).
      exists w, st1; split; [apply Re.d_alt_l; assumption|auto].
    + apply IH2 in H as (w & st1 & Hd & He & Hk).
      exists w, st1; split; [apply Re.d_alt_r; assumption|auto].
  - eapply star_loop_sound; [|exact H]. intros k' st' x'. apply IH.
  - apply IH in H as (w & st1 & Hd & [He1 He2] & Hk).
    exists w, (Re.set_cap n (Re.consumed st st1) st1).
    split; [constructor; assumption|]. split; [split; simpl; assumption|assumption].
  - destruct (Nat.eqb _ _); [|discriminate].
    exists "", st; split; [constructor|split; [apply extends_refl|assumption]].
  - exists "", st; split; [constructor|]. split; [apply extends_refl|].
    destruct (Re.rest st) as [|a [|b s']]; try discriminate; auto.
    destruct (Char.eqb a _); [assumption|discriminate].
  - destruct (Re.m r Some st); [|discriminate].
    exists "", st; split; [constructor|split; [apply extends_refl|assumption]].
Qed.

(** What a group at the head of the whole pattern captures. *)
Lemma consumed_extends st st1 w : Re.extends st st1 w -> Re.consumed st st1 = w.
Proof.
  intros [H1 H2]. unfold Re.consumed. rewrite H2, H1.
  replace (Re.pos st + String.length w - Re.pos st) with (String.length w) by lia.
  apply take_app.
Qed.

(** A search examines the suffixes of the subject, left to right. *)
Lemma search_from_inv r : forall s p x,
  Re.search_from r p s = Some x ->
  exists pre s', s = pre ++ s' /\ Re.m_start x = p + String.length pre
    /\ Re.m r Some (Re.MState (Re.m_start x) s' []) = Some (Re.m_final x).
Proof.
  induction s as [|c s IH]; intros p x H; simpl in H.
  - destruct (Re.m r Some _) as [st|] eqn:E; [|discriminate].
    inversion H; subst; simpl. exists "", ""; simpl; split; [reflexivity|split; [lia|assumption]].
  - destruct (Re.m r Some _) as [st|] eqn:E.
    + inversion H; subst; simpl. exists "", (String c s); simpl.
      split; [reflexivity|split; [lia|assumption]].
    + apply IH in H as (pre & s' & -> & Hp & Hm).
      exists (String c pre), s'; simpl; split; [reflexivity|split; [lia|assumption]].
Qed.

Lemma search_from_hit r s p st :
  Re.m r Some (Re.MState p s []) = Some st ->
  Re.search_from r p s = Some (Re.RMatch p st).
Proof. intros H. destruct s; simpl; rewrite H; reflexivity. Qed.

Lemma search_from_skip r : forall pre s p,
  (forall a b, pre = a ++ b -> b <> "" ->
        Re.m r Some (Re.MState (p + String.length a) (b ++ s) []) = None) ->
  Re.search_from r p (pre ++ s) = Re.search_from r (p + String.length pre) s.
Proof.
  induction pre as [|c pre IH]; intros s p H; simpl.
  - rewrite Nat.add_0_r; reflexivity.
  - assert (E := H "" (String c pre) eq_refl ltac:(discriminate)).
    simpl in E. rewrite Nat.add_0_r in E. rewrite E.
    rewrite IH.
    + f_equal; lia.
    + intros a b -> Hb. specialize (H (String c a) b eq_refl Hb).
      simpl in H. rewrite <- H. f_equal. f_equal. lia.
Qed.

(** A successful search: existence of a match somewhere. *)
Lemma search_from_found r : forall pre s p,
  Re.m r Some (Re.MState (p + String.length pre) s []) <> None ->
  Re.found (Re.search_from r p (pre ++ s)) = true.
Proof.
  induction pre as [|c pre IH]; intros s p H; simpl.
  - simpl in H. rewrite Nat.add_0_r in H.
    destruct s; simpl; destruct (Re.m r Some _); try reflexivity; congruence.
  - destruct (Re.m r Some (Re.MState p (String c (pre ++ s)) [])); [reflexivity|].
    apply IH. simpl in H. replace (S p + String.length pre) with (p + S (String.length pre)) by lia.
    assumption.
Qed.

Lemma m_Lit x : forall k st r,
  Re.rest st = x ++ r ->
  Re.m (Re.Lit x) k st = k (Re.MState (Re.pos st + String.length x) r (Re.caps st)).
Proof.
  induction x as [|c x IH]; intros k st r H; simpl.
  - simpl in H. destruct st as [p s cs]; simpl in *. subst. rewrite Nat.add_0_r. reflexivity.
  - simpl in H. rewrite H. rewrite char_eqb_refl.
    rewrite (IH k (Re.step_char st (x ++ r)) r eq_refl). simpl.
    f_equal. f_equal. lia.
Qed.

Lemma m_Lit_fail x : forall k st,
  String.prefix x (Re.rest st) = false -> Re.m (Re.Lit x) k st = None.
Proof.
  induction x as [|c x IH]; intros k st H; simpl.
  - destruct (Re.rest st); discriminate.
  - destruct (Re.rest st) as [|a s'] eqn:E; [reflexivity|].
    simpl in H. char_cases c a Hn; [subst c|].
    + rewrite char_eqb_refl. apply IH. simpl. assumption.
    + destruct (Char.eqb a c) eqn:Ec; [|reflexivity].
      apply char_eqb_eq in Ec; congruence.
Qed.

Lemma denotes_Lit x : forall w, Re.denotes (Re.Lit x) w -> w = x.
Proof.
  induction x as [|c x IH]; intros w H; simpl in H.
  - inversion H; reflexivity.
  - inversion H; subst. inversion H2; subst. apply IH in H4; subst. reflexivity.
Qed.

Lemma mstate_eta st : Re.MState (Re.pos st) (Re.rest st) (Re.caps st) = st.
Proof. destruct st; reflexivity. Qed.

(** A continuation that always succeeds makes a starred pattern succeed. *)
Lemma star_loop_total body g k :
  (forall st, k st <> None) ->
  forall fuel st, Re.star_loop body g k fuel st <> None.
Proof.
  intros Hk [|f] st; simpl; [apply Hk|].
  destruct g.
  - destruct (body _ st); [discriminate|apply Hk].
  - destruct (k st) eqn:E; [discriminate|]. exfalso; eapply Hk; eassumption.
Qed.

(** A greedy run over a class: when the continuation succeeds after the
    whole run, that is the match. *)
Lemma star_run p k : forall w fuel st r x,
  Re.rest st = w ++ r -> String.length w <= fuel ->
  Re.all_in p w = true -> Re.starts_in p r = false ->
  k (Re.MState (Re.pos st + String.length w) r (Re.caps st)) = Some x ->
  Re.star_loop (Re.m (Re.Cls p)) true k fuel st = Some x.
Proof.
  induction w as [|a w IH]; intros fuel st r x Hr Hf Hall Hstop Hk.
  - simpl in Hr, Hk. rewrite Nat.add_0_r, <- Hr, mstate_eta in Hk.
    destruct fuel as [|f]; simpl; [assumption|].
    rewrite Hr. destruct r as [|b r']; [assumption|].
    simpl in Hstop. rewrite Hstop. assumption.
  - destruct fuel as [|f]; [simpl in Hf; lia|].
    simpl in Hall. apply andb_true_iff in Hall as [Ha Hall].
    simpl. simpl in Hr. rewrite Hr, Ha. simpl.
    replace (Nat.ltb (String.length (w ++ r)) (S (String.length (w ++ r)))) with true
      by (symmetry; apply Nat.ltb_lt; lia).
    erewrite IH; [reflexivity|reflexivity|simpl in Hf; lia|assumption|assumption|].
    simpl. rewrite <- Hk. f_equal. f_equal. simpl. lia.
Qed.

Lemma m_star_run p k w st r x :
  Re.rest st = w ++ r ->
  Re.all_in p w = true -> Re.starts_in p r = false ->
  k (Re.MState (Re.pos st + String.length w) r (Re.caps st)) = Some x ->
  Re.m (Re.Star Re.greedy (Re.Cls p)) k st = Some x.
Proof.
  intros Hr Hall Hstop Hk. simpl. eapply star_run; eauto.
  rewrite Hr, length_app_s. lia.
Qed.

(** A group around a non-empty greedy run captures the whole run. *)
Lemma m_grp_plus_run n p k w st r x :
  Re.rest st = w ++ r -> w <> "" ->
  Re.all_in p w = true -> Re.starts_in p r = false ->
  k (Re.MState (Re.pos st + String.length w) r ((n, w) :: Re.caps st)) = Some x ->
  Re.m (Re.Grp n (Re.Plus Re.greedy (Re.Cls p))) k st = Some x.
Proof.
  intros Hr Hw Hall Hstop Hk.
  destruct w as [|a w]; [congruence|]. clear Hw.
  simpl in Hall. apply andb_true_iff in Hall as [Ha Hall].
  unfold Re.Plus. cbn [Re.m]. simpl in Hr. rewrite Hr, Ha.
  eapply star_run with (w := w) (r := r); simpl; eauto.
  - rewrite length_app_s; lia.
  - unfold Re.set_cap, Re.consumed; cbn [Re.pos Re.rest Re.caps Re.step_char].
    replace (S (Re.pos st + String.length w) - Re.pos st) with (String.length (String a w))
      by (cbn [String.length]; lia).
    rewrite Hr. change (String a (w ++ r)) with (String a w ++ r). rewrite take_app.
    rewrite <- Hk. f_equal. f_equal. simpl. lia.
Qed.

Lemma contains_app_r (x a b : string) :
  Py.contains x b = true -> Py.contains x (a ++ b) = true.
Proof.
  intros H. induction a as [|c a IH]; [assumption|].
  cbn [append]. rewrite contains_unfold, IH. destruct (String.prefix x _); reflexivity.
Qed.

Lemma contains_suffix_false (x a b : string) :
  Py.contains x (a ++ b) = false -> Py.contains x b = false.
Proof.
  intros H. destruct (Py.contains x b) eqn:E; [|reflexivity].
  rewrite (contains_app_r x a b E) in H. discriminate.
Qed.



Lemma m_Seq r1 r2 k st : Re.m (Re.Seq r1 r2) k st = Re.m r1 (Re.m r2 k) st.
Proof. reflexivity. Qed.

Lemma m_Chr c k st r :
  Re.rest st = String c r -> Re.m (Re.Chr c) k st = k (Re.step_char st r).
Proof. intros H. simpl. rewrite H, char_eqb_refl. reflexivity. Qed.

Lemma mem_In o l : Py.mem o l = true <-> In o l.
Proof.
  induction l as [|x l IH]; simpl; [split; [discriminate|tauto]|].
  rewrite orb_true_iff, IH, string_eqb_eq. split; intros [H|H]; auto.
Qed.

Lemma mem_false_not_In o l : Py.mem o l = false -> ~ In o l.
Proof. intros H Hin. apply mem_In in Hin. congruence. Qed.

Lemma rstrip_app a e : e <> "" -> Py.rstrip e = e -> Py.rstrip (a ++ e) = a ++ e.
Proof.
  intros He Hr. induction a as [|c a IH]; [assumption|].
  cbn [append Py.rstrip]. rewrite IH.
  destruct (a ++ e) eqn:E; [|reflexivity].
  destruct a; simpl in E; [congruence|discriminate].
Qed.

Ltac inv_den :=
  repeat match goal with
  | H : Re.denotes (Re.Seq _ _) _ |- _ => inversion H; clear H; subst
  | H : Re.denotes (Re.Alt _ _) _ |- _ => inversion H; clear H; subst
  | H : Re.denotes (Re.Chr _) _ |- _ => inversion H; clear H; subst
  | H : Re.denotes Re.Eps _ |- _ => inversion H; clear H; subst
  end.

Section WhileStep.
Context {St : Type}.
Variable cond : St -> bool.
Variable body : St -> option St.

(** The result of a loop is the result of the loop after its first
    iteration. *)
Lemma while_step_result fuel s s' n r :
  cond s = true -> body s = Some s' ->
  Loop.while cond body fuel s = Some (n, r) ->
  Loop.while cond body fuel s' = Some (pred n, r).
Proof.
  intros Hc Hb H. destruct fuel as [|f]; simpl in H; rewrite Hc in H; [discriminate|].
  rewrite Hb in H.
  destruct (Loop.while cond body f s') as [[n' r']|] eqn:E; [|discriminate].
  inversion H; subst. simpl.
  apply (while_more_fuel cond body f (S f)); [lia|assumption].
Qed.

End WhileStep.

Lemma truthy_nonempty s : Py.truthy s = true <-> s <> "".
Proof. destruct s; simpl; split; congruence. Qed.

Lemma truthy_false s : Py.truthy s = false <-> s = "".
Proof. destruct s; simpl; split; congruence. Qed.

(** ** [str.split] *)

Lemma prefix_nil_inv sep : String.prefix sep "" = true -> sep = "".
Proof. destruct sep; simpl; [reflexivity|discriminate]. Qed.

Lemma split_go_length sep : forall s skip cur,
  1 <= length (Py.split_go sep skip cur s).
Proof.
  induction s as [|c s IH]; intros skip cur; cbn [Py.split_go]; [cbn; lia|].
  destruct skip; [|apply IH].
  destruct (String.prefix sep (String c s)); [cbn [length]; lia|apply IH].
Qed.

(** The first piece of a split is the text before the first occurrence. *)
Lemma split_go_first sep : sep <> "" -> forall s cur,
  Py.contains sep s = true ->
  exists pre post,
    s = pre ++ sep ++ post /\ Py.first_at sep pre (sep ++ post)
    /\ nth 0 (Py.split_go sep 0 cur s) "" = cur ++ pre
    /\ 1 < length (Py.split_go sep 0 cur s).
Proof.
  intros Hsep. induction s as [|c s IH]; intros cur H; rewrite contains_unfold in H.
  - destruct (String.prefix sep "") eqn:E; [|discriminate].
    apply prefix_nil_inv in E. congruence.
  - destruct (String.prefix sep (String c s)) eqn:E.
    + pose proof E as E'. apply prefix_inv in E' as [post Hpost].
      exists "", post. split; [assumption|]. split.
      * intros a b Hab Hb. destruct a; simpl in Hab; [congruence|discriminate].
      * cbn [Py.split_go]. rewrite E. rewrite app_nil_r_s. split; [reflexivity|].
        cbn [length]. pose proof (split_go_length sep s (String.length sep - 1) ""). lia.
    + destruct (IH (cur ++ String c "") H) as (pre & post & Hs & Hfirst & Hn & Hl).
      exists (String c pre), post. split; [simpl; congruence|]. split.
      * intros a b Hab Hb. destruct a as [|a0 a].
        -- simpl in Hab. subst b. simpl. rewrite <- Hs. assumption.
        -- simpl in Hab. inversion Hab; subst. apply (Hfirst a b); auto.
      * cbn [Py.split_go]. rewrite E. rewrite Hn. split; [|assumption].
        rewrite app_assoc_s. reflexivity.
Qed.

Lemma split_first sep line :
  sep <> "" -> Py.contains sep line = true ->
  exists pre post,
    line = pre ++ sep ++ post /\ Py.first_at sep pre (sep ++ post)
    /\ nth 0 (Py.split line sep) "" = pre
    /\ 1 < length (Py.split line sep).
Proof.
  intros Hsep H. destruct (split_go_first sep Hsep line "" H) as (pre & post & H1 & H2 & H3 & H4).
  exists pre, post. auto.
Qed.

(** ** The order on strings *)

Lemma char_compare_lt_trans a b c :
  Char.compare a b = Lt -> Char.compare b c = Lt -> Char.compare a c = Lt.
Proof.
  unfold Char.compare. rewrite !N.compare_lt_iff. lia.
Qed.

Lemma string_compare_lt_trans : forall a b c,
  String.compare a b = Lt -> String.compare b c = Lt -> String.compare a c = Lt.
Proof.
  induction a as [|x a IH]; intros [|y b] [|z c]; simpl; try congruence.
  destruct (Char.compare x y) eqn:Exy; try discriminate;
    destruct (Char.compare y z) eqn:Eyz; try discriminate; intros H1 H2.
  - apply char_compare_eq_iff in Exy, Eyz. subst.
    assert (E : Char.compare z z = Eq) by (unfold Char.compare; apply N.compare_refl).
    rewrite E. eapply IH; eassumption.
  - apply char_compare_eq_iff in Exy. subst. rewrite Eyz. reflexivity.
  - apply char_compare_eq_iff in Eyz. subst. rewrite Exy. reflexivity.
  - rewrite (char_compare_lt_trans x y z Exy Eyz). reflexivity.
Qed.

Lemma string_compare_refl a : String.compare a a = Eq.
Proof.
  induction a as [|x a IH]; simpl; [reflexivity|].
  assert (E : Char.compare x x = Eq) by (unfold Char.compare; apply N.compare_refl).
  rewrite E. assumption.
Qed.

Lemma string_leb_cases a b :
  String.leb a b = true <-> String.compare a b = Lt \/ a = b.
Proof.
  unfold String.leb. destruct (String.compare a b) eqn:E.
  - apply string_compare_eq_iff in E. tauto.
  - tauto.
  - split; [discriminate|]. intros [H|H]; [discriminate|].
    subst. rewrite string_compare_refl in E. discriminate.
Qed.

Lemma string_leb_trans a b c :
  String.leb a b = true -> String.leb b c = true -> String.leb a c = true.
Proof.
  rewrite !string_leb_cases. intros [H1|H1] [H2|H2]; subst; auto.
  left. eapply string_compare_lt_trans; eassumption.
Qed.

Lemma string_ltb_of_leb a b :
  String.leb a b = true -> a <> b -> String.ltb a b = true.
Proof.
  rewrite string_leb_cases. unfold String.ltb. intros [H|H] Hne; [rewrite H; reflexivity|congruence].
Qed.

(** ** The sort on the section identifier *)

Section SortFacts.
Context {Q : Type}.

Lemma insert_section_perm (x : (SectionResult Q)) l : Permutation (insert_section x l) (x :: l).
Proof.
  induction l as [|y l IH]; simpl; [reflexivity|].
  destruct (section_le x y); [reflexivity|].
  rewrite IH. apply perm_swap.
Qed.

Lemma sort_sections_perm (l : list (SectionResult Q)) : Permutation (sort_sections l) l.
Proof.
  induction l as [|x l IH]; simpl; [reflexivity|].
  rewrite insert_section_perm. constructor. assumption.
Qed.

Lemma insert_section_sorted (x : (SectionResult Q)) l :
  StronglySorted le_id l -> StronglySorted le_id (insert_section x l).
Proof.
  induction l as [|y l IH]; intros Hs; simpl.
  - constructor; constructor.
  - inversion Hs as [|? ? Hl Hall]; subst.
    destruct (section_le x y) eqn:E.
    + constructor; [assumption|]. constructor; [exact E|].
      eapply Forall_impl; [|exact Hall]. intros z Hz.
      unfold le_id in *. eapply string_leb_trans; eassumption.
    + constructor; [apply IH; assumption|].
      assert (Hyx : le_id y x).
      { unfold le_id, section_le in *.
        destruct (string_leb_total (sectionId x) (sectionId y)); congruence. }
      eapply Permutation_Forall; [symmetry; apply insert_section_perm|].
      constructor; assumption.
Qed.

Lemma sort_sections_sorted (l : list (SectionResult Q)) : StronglySorted le_id (sort_sections l).
Proof.
  induction l as [|x l IH]; simpl; [constructor|].
  apply insert_section_sorted. assumption.
Qed.

Lemma sorted_strict (l : list (SectionResult Q)) :
  NoDup (map sectionId l) -> StronglySorted le_id l -> StronglySorted lt_id l.
Proof.
  induction l as [|x l IH]; intros Hn Hs; [constructor|].
  inversion Hs as [|? ? Hl Hall]; subst. simpl in Hn. inversion Hn as [|? ? Hx Hn']; subst.
  constructor; [apply IH; assumption|].
  rewrite Forall_forall in *. intros y Hy.
  apply string_ltb_of_leb; [apply Hall; assumption|].
  intros E. apply Hx. rewrite E. apply in_map. assumption.
Qed.

(** ** Merging the documents of a section *)

Lemma questions_of_app sid (docs1 docs2 : list (SectionResult Q)) :
  questions_of sid (docs1 ++ docs2) = (questions_of sid docs1 ++ questions_of sid docs2)%list.
Proof. unfold questions_of. apply flat_map_app. Qed.

Lemma has_key_In k (d : list (string * SectionResult Q)) :
  has_key k d = true <-> In k (map fst d).
Proof.
  induction d as [|[k' v] d IH]; simpl; [split; [discriminate|tauto]|].
  rewrite orb_true_iff, IH, string_eqb_eq. tauto.
Qed.

Lemma extend_at_keys k more (d : list (string * SectionResult Q)) :
  map fst (extend_at k more d) = map fst d.
Proof.
  induction d as [|[k' v] d IH]; simpl; [reflexivity|].
  destruct (String.eqb k' k); simpl; congruence.
Qed.

Lemma extend_at_In k more (d : list (string * SectionResult Q)) k' v' :
  NoDup (map fst d) ->
  In (k', v') (extend_at k more d) ->
  (k' = k /\ exists v, In (k, v) d /\ v' = extend_questions v more)
  \/ (k' <> k /\ In (k', v') d).
Proof.
  induction d as [|[k0 v0] d IH]; simpl; intros Hn H; [tauto|].
  inversion Hn as [|? ? Hk0 Hn']; subst.
  destruct (String.eqb k0 k) eqn:E.
  - apply string_eqb_eq in E. subst k0. destruct H as [H|H].
    + inversion H; subst. left. split; [reflexivity|]. exists v0. auto.
    + right. split; [|auto]. intros ->. apply Hk0.
      change k with (fst (k, v')). apply in_map. assumption.
  - apply string_eqb_neq in E. destruct H as [H|H].
    + inversion H; subst. right. auto.
    + destruct (IH Hn' H) as [(-> & v & Hv & ->)|(Hne & Hin)].
      * left. split; [reflexivity|]. exists v. auto.
      * right. auto.
Qed.

Lemma questions_of_absent k (docs : list (SectionResult Q)) :
  (forall doc, In doc docs -> sectionId doc <> k) -> questions_of k docs = [].
Proof.
  unfold questions_of. induction docs as [|doc docs IH]; intros H; simpl; [reflexivity|].
  destruct (String.eqb (sectionId doc) k) eqn:E.
  - apply string_eqb_eq in E. exfalso. eapply H; [left; reflexivity|assumption].
  - simpl. apply IH. intros doc' Hd. apply H. right. assumption.
Qed.

Lemma questions_of_one k (doc : (SectionResult Q)) :
  questions_of k [doc] = if String.eqb (sectionId doc) k then questions doc else [].
Proof. unfold questions_of. simpl. rewrite app_nil_r. reflexivity. Qed.

Lemma merged_step d docs (doc : (SectionResult Q)) :
  merged d docs -> merged (merge_section d (sectionId doc) doc) (docs ++ [doc]).
Proof.
  intros (Hn & Hv & Hk). unfold merge_section.
  destruct (has_key (sectionId doc) d) eqn:E.
  - apply has_key_In in E. split; [|split].
    + rewrite extend_at_keys. assumption.
    + intros k v H. apply extend_at_In in H; [|assumption].
      rewrite questions_of_app, questions_of_one.
      destruct H as [(-> & v0 & Hv0 & ->)|(Hne & Hin)].
      * destruct (Hv _ _ Hv0) as [H1 H2]. simpl. rewrite string_eqb_refl.
        split; [assumption|]. rewrite H2. reflexivity.
      * destruct (Hv _ _ Hin) as [H1 H2].
        apply not_eq_sym in Hne. apply string_eqb_neq in Hne.
        rewrite Hne, app_nil_r. auto.
    + intros k. rewrite extend_at_keys, Hk. split.
      * intros (doc' & Hd & Hs). exists doc'. split; [apply in_or_app; auto|assumption].
      * intros (doc' & Hd & Hs). apply in_app_or in Hd as [Hd|[<-|[]]].
        -- exists doc'. auto.
        -- apply Hk. rewrite <- Hs. assumption.
  - assert (Hnot : ~ In (sectionId doc) (map fst d)).
    { intros H. apply has_key_In in H. congruence. }
    split; [|split].
    + rewrite map_app. simpl.
      rewrite <- (rev_involutive (map fst d ++ [sectionId doc])%list).
      apply NoDup_rev. rewrite rev_app_distr. simpl. constructor.
      * rewrite <- in_rev. assumption.
      * apply NoDup_rev. assumption.
    + intros k v H. rewrite questions_of_app, questions_of_one.
      apply in_app_or in H as [H|[H|[]]].
      * destruct (Hv _ _ H) as [H1 H2].
        assert (Hne : sectionId doc <> k).
        { intros <-. apply Hnot. change (sectionId doc) with (fst (sectionId doc, v)).
          apply in_map. assumption. }
        apply string_eqb_neq in Hne. rewrite Hne, app_nil_r. auto.
      * inversion H; subst. rewrite string_eqb_refl. split; [reflexivity|].
        rewrite questions_of_absent; [reflexivity|].
        intros doc' Hd Hs. apply Hnot. apply Hk. exists doc'. auto.
    + intros k. rewrite map_app, in_app_iff, Hk. simpl. split.
      * intros [(doc' & Hd & Hs)|[<-|[]]].
        -- exists doc'. split; [apply in_or_app; auto|assumption].
        -- exists doc. split; [apply in_or_app; right; left; reflexivity|reflexivity].
      * intros (doc' & Hd & Hs). apply in_app_or in Hd as [Hd|[<-|[]]].
        -- left. exists doc'. auto.
        -- right. left. assumption.
Qed.

Lemma merged_fold (docs2 : list (SectionResult Q)) : forall d docs1,
  merged d docs1 ->
  merged (fold_left (fun d doc => merge_section d (sectionId doc) doc) docs2 d)
         (docs1 ++ docs2).
Proof.
  induction docs2 as [|doc docs2 IH]; intros d docs1 H; simpl.
  - rewrite app_nil_r. assumption.
  - replace (docs1 ++ doc :: docs2)%list with ((docs1 ++ [doc]) ++ docs2)%list
      by (rewrite <- app_assoc; reflexivity).
    apply IH. apply merged_step. assumption.
Qed.

Lemma merge_all_merged (docs : list (SectionResult Q)) : merged (merge_all docs) docs.
Proof.
  unfold merge_all. apply (merged_fold docs [] []).
  split; [constructor|]. split; [intros k v []|].
  intros k. simpl. split; [tauto|]. intros (doc & [] & _).
Qed.

(** The sorted values of the dictionary: strictly ascending identifiers,
    one section per identifier, holding the questions of its documents in
    document order. *)
Lemma merge_all_sorted (docs : list (SectionResult Q)) :
  let out := sort_sections (dict_values (merge_all docs)) in
  StronglySorted lt_id out
  /\ (forall sec, In sec out -> questions sec = questions_of (sectionId sec) docs)
  /\ (forall doc, In doc docs -> exists sec, In sec out /\ sectionId sec = sectionId doc).
Proof.
  intros out. destruct (merge_all_merged docs) as (Hn & Hv & Hk).
  assert (Hkeys : map sectionId (dict_values (merge_all docs)) = map fst (merge_all docs)).
  { unfold dict_values. rewrite map_map. apply map_ext_in.
    intros [k v] Hin. simpl. apply (Hv k v Hin). }
  split; [|split].
  - apply sorted_strict; [|apply sort_sections_sorted].
    eapply Permutation_NoDup; [apply Permutation_map; symmetry; apply sort_sections_perm|].
    rewrite Hkeys. assumption.
  - intros sec Hin. apply (Permutation_in _ (sort_sections_perm _)) in Hin.
    unfold dict_values in Hin. apply in_map_iff in Hin as ([k v] & <- & Hin). simpl.
    destruct (Hv k v Hin) as [H1 H2]. rewrite H1. assumption.
  - intros doc Hd.
    assert (Hin : In (sectionId doc) (map fst (merge_all docs))) by (apply Hk; eauto).
    rewrite <- Hkeys in Hin. apply in_map_iff in Hin as (sec & Hs & Hin).
    exists sec. split; [|assumption].
    apply (Permutation_in _ (Permutation_sym (sort_sections_perm _))). assumption.
Qed.

End SortFacts.

Section SectionFilesFacts.
Context {Q : Type}.
Variable extract : FileSystem -> string -> string -> option (Outcome (option (SectionResult Q))).
Hypothesis extract_ok : forall fs file_path sid,
  exists r, extract fs file_path sid = Some (Returned r)
            /\ (forall sec, r = Some sec -> sectionId sec = sid).

Lemma process_section_files_merges fs : forall files d,
  process_section_files extract fs d files =
  Some (Returned (fold_left (fun d doc => merge_section d (sectionId doc) doc)
                            (parsed_documents extract fs files) d)).
Proof.
  induction files as [|[filename sid] files IH]; intros d; simpl; [reflexivity|].
  destruct (exists_file fs filename); simpl; [|apply IH].
  destruct (extract_ok fs filename sid) as (r & -> & Hr).
  destruct r as [sec|]; [|apply IH].
  simpl. rewrite (Hr sec eq_refl). apply IH.
Qed.

End SectionFilesFacts.

(* ------------------------------------------------------------------------- *)
(** ** Facts about ParseFordSurveyImproved *)

Module ImprovedFacts.
Import ParseFordSurveyImproved.

Lemma improved_scan_body_progress sid lines s :
  broke s = false ->
  let s' := scan_body sid lines s in
  (broke s' = true /\ j s' = j s) \/ (broke s' = false /\ j s < j s').
Proof.
  intros Hb. unfold scan_body.
  repeat break_if; cbn; rewrite ?Hb; (left; split; [reflexivity|lia]) || (right; split; [reflexivity|lia]).
Qed.

Lemma improved_scan_terminates sid lines i :
  i < length lines ->
  exists n s, scan sid lines i = Some (n, s) /\ i < j s /\ scan_cond lines i s = false.
Proof.
  intros Hi. unfold scan.
  destruct (while_terminates (scan_cond lines i)
              (fun s => Some (scan_body sid lines s))
              (fun s => i < j s) (scan_mu lines)) with (fuel := length lines) (s := scan_init i)
    as (n & r & Hw & _ & HP & Hc).
  - intros s HP Hc. eexists; split; [reflexivity|].
    unfold scan_cond in Hc.
    apply andb_true_iff in Hc as [Hc _]. apply andb_true_iff in Hc as [Hb Hj].
    apply negb_true_iff in Hb. apply Nat.ltb_lt in Hj.
    destruct (improved_scan_body_progress sid lines s Hb) as [[Hb' Hj']|[Hb' Hj']];
      unfold scan_mu; rewrite Hb, Hb'; split; lia.
  - cbn; lia.
  - unfold scan_mu; cbn; lia.
  - eauto.
Qed.

Lemma improved_outer_body_progress sid lines st :
  outer_cond lines st = true ->
  exists st', outer_body sid lines st = Some st' /\ fst st < fst st'.
Proof.
  destruct st as [i qs]. unfold outer_cond, outer_body; cbn [fst]. intros Hi.
  apply Nat.ltb_lt in Hi.
  destruct (Re.re_match _ _).
  - destruct (improved_scan_terminates sid lines i Hi) as (n & s & Hs & Hj & _).
    rewrite Hs. eexists; split; [reflexivity|]. cbn; lia.
  - eexists; split; [reflexivity|]. cbn; lia.
Qed.

Lemma improved_outer_loop_total sid lines st :
  exists n r, scan_from sid lines st = Some (n, r) /\ n <= length lines - fst st.
Proof.
  unfold scan_from.
  destruct (while_terminates (outer_cond lines) (outer_body sid lines)
              (fun _ => True) (fun st => length lines - fst st))
    with (fuel := length lines) (s := st) as (n & r & Hw & Hn & _ & _); auto.
  - intros s _ Hc. destruct (improved_outer_body_progress sid lines s Hc) as (s' & Hb & Hlt).
    exists s'; repeat split; auto.
    unfold outer_cond in Hc. apply Nat.ltb_lt in Hc. lia.
  - lia.
  - eauto.
Qed.

Lemma improved_scan_lines_counted_total sid lines :
  exists n qs, scan_lines_counted sid lines = Some (n, qs) /\ n <= length lines.
Proof.
  unfold scan_lines_counted.
  destruct (improved_outer_loop_total sid lines (0, [])) as (n & [i qs] & Hw & Hn).
  rewrite Hw. exists n, qs. split; [reflexivity|]. cbn in Hn; lia.
Qed.

Lemma improved_build_question_text lines i qid s :
  let q := build_question lines i qid s in
  questionId q = qid
  /\ questionText q <> ""
  /\ (collected s <> "" -> questionText q = collected s)
  /\ (collected s = "" -> i + 1 < length lines -> Py.item lines (i + 1) <> "" ->
      questionText q = Py.item lines (i + 1))
  /\ (collected s = "" -> length lines <= i + 1 ->
      questionText q = "Question text not found").
Proof.
  unfold build_question, collected. cbn [questionId questionText].
  set (t := Py.strip (Py.join " " (question_text_lines s))).
  split; [reflexivity|].
  destruct (Py.truthy t) eqn:Et; cbn [negb].
  - rewrite Et. pose proof (proj1 (truthy_nonempty t) Et) as Hne.
    split; [assumption|]. split; [reflexivity|]. split; intros; congruence.
  - pose proof (proj1 (truthy_false t) Et) as He.
    destruct (Nat.ltb (i + 1) (length lines)) eqn:El.
    + split.
      * destruct (Py.truthy (Py.item lines (i + 1))) eqn:E2; [|discriminate].
        apply (proj1 (truthy_nonempty _)); assumption.
      * split; [congruence|]. split.
        -- intros _ _ Hn. apply (proj2 (truthy_nonempty _)) in Hn. rewrite Hn. reflexivity.
        -- intros _ Hi. apply Nat.ltb_lt in El. lia.
    + rewrite Et. split; [discriminate|]. split; [congruence|]. split.
      * intros _ Hi. apply Nat.ltb_ge in El. lia.
      * reflexivity.
Qed.

Lemma improved_outer_body_text sid lines st st' :
  Forall (fun q => questionText q <> "") (snd st) ->
  outer_body sid lines st = Some st' ->
  Forall (fun q => questionText q <> "") (snd st').
Proof.
  destruct st as [i qs]. unfold outer_body. intros Hq H.
  destruct (Re.re_match _ _); [|inversion H; subst; assumption].
  destruct (scan sid lines i) as [[n s]|]; [|discriminate].
  inversion H; subst. simpl. apply Forall_app; split; [assumption|].
  constructor; [|constructor]. apply improved_build_question_text.
Qed.

Lemma improved_scan_lines_text sid lines :
  exists qs, scan_lines sid lines = Some qs
             /\ Forall (fun q => questionText q <> "") qs.
Proof.
  destruct (improved_scan_lines_counted_total sid lines) as (n & qs & H & _).
  exists qs. unfold scan_lines. rewrite H. split; [reflexivity|].
  unfold scan_lines_counted, scan_from in H.
  destruct (Loop.while _ _ _ _) as [[n' [i' qs']]|] eqn:E; [|discriminate].
  inversion H; subst.
  eapply (while_invariant _ _ (fun st => Forall (fun q => questionText q <> "") (snd st)))
    in E; [apply E| |constructor].
  intros s0 s' Hq _ Hb. eapply improved_outer_body_text; eassumption.
Qed.

(** The look-ahead index moves by one line, or by two when the line is
    "Help Text" or "Comments" and the line after it is taken with it. *)
Lemma improved_scan_body_step sid lines s :
  broke s = false ->
  let s' := scan_body sid lines s in
  (broke s' = true /\ j s' = j s)
  \/ (broke s' = false
      /\ (j s' = j s + 1
          \/ (j s' = j s + 2
              /\ (Py.item lines (j s) = "Help Text" \/ Py.item lines (j s) = "Comments")))).
Proof.
  intros Hb. unfold scan_body.
  repeat break_if; cbn; rewrite ?Hb;
    try (left; split; [reflexivity|lia]);
    right; (split; [reflexivity|]);
    try (left; lia);
    right; (split; [lia|]);
    repeat match goal with
           | H : String.eqb _ _ = true |- _ => apply string_eqb_eq in H
           end; auto.
Qed.

Lemma improved_scan_body_at_question sid lines s :
  Re.found (Re.re_match (question_pattern sid) (Py.item lines (j s))) = true ->
  broke (scan_body sid lines s) = true /\ j (scan_body sid lines s) = j s.
Proof. intros Hq. unfold scan_body. rewrite Hq. cbn. auto. Qed.

(** The look-ahead stops at the next question line at the latest, unless
    that line is taken as the help text or the comment of the line before
    it. *)
Lemma improved_scan_stops_by sid lines i n :
  i < n -> n < length lines ->
  Re.found (Re.re_match (question_pattern sid) (Py.item lines n)) = true ->
  Py.item lines (n - 1) <> "Help Text" -> Py.item lines (n - 1) <> "Comments" ->
  exists c s, scan sid lines i = Some (c, s) /\ i < j s <= n.
Proof.
  intros Hn Hlen Hq Hh Hc. unfold scan.
  destruct (while_terminates (scan_cond lines i)
              (fun s => Some (scan_body sid lines s))
              (fun s => i < j s <= n) (scan_mu lines))
    with (fuel := length lines) (s := scan_init i)
    as (c & r & Hw & _ & HP & _).
  - intros s HP Hcond. eexists; split; [reflexivity|].
    unfold scan_cond in Hcond.
    apply andb_true_iff in Hcond as [Hcond _]. apply andb_true_iff in Hcond as [Hb Hj].
    apply negb_true_iff in Hb. apply Nat.ltb_lt in Hj.
    destruct (Nat.eq_dec (j s) n) as [E|E].
    + destruct (improved_scan_body_at_question sid lines s) as [Hb' Hj'];
        [rewrite E; assumption|].
      unfold scan_mu. rewrite Hb, Hb'. split; lia.
    + destruct (improved_scan_body_step sid lines s Hb)
        as [[Hb' Hj']|[Hb' [Hj'|[Hj' Hline]]]];
        unfold scan_mu; rewrite Hb, Hb'; split; try lia.
      assert (j s <> n - 1).
      { intros E'. rewrite E' in Hline. destruct Hline; contradiction. }
      lia.
  - cbn; lia.
  - unfold scan_mu; cbn; lia.
  - eauto.
Qed.

Lemma improved_outer_body_skip sid lines i qs :
  Re.found (Re.re_match (question_pattern sid) (Py.item lines i)) = false ->
  outer_body sid lines (i, qs) = Some (i + 1, qs).
Proof.
  unfold outer_body. intros H.
  destruct (Re.re_match _ _); [discriminate|reflexivity].
Qed.

Lemma improved_scan_from_skip sid lines qs n : forall d a c r,
  a + d = n -> n <= length lines ->
  (forall k, a <= k < n ->
     Re.found (Re.re_match (question_pattern sid) (Py.item lines k)) = false) ->
  scan_from sid lines (a, qs) = Some (c, r) ->
  exists c', scan_from sid lines (n, qs) = Some (c', r).
Proof.
  induction d as [|d IH]; intros a c r Ha Hn Hno H.
  - replace n with a by lia. eauto.
  - unfold scan_from in H.
    eapply while_step_result with (s' := (a + 1, qs)) in H.
    + eapply (IH (a + 1)); [lia|assumption| |exact H].
      intros k Hk. apply Hno. lia.
    + unfold outer_cond. apply Nat.ltb_lt. simpl. lia.
    + apply improved_outer_body_skip. apply Hno. lia.
Qed.

(** Lines 188-199: a line that reaches the text branch while the question
    text is being collected is appended, and a "?" in it ends the
    collection. *)
Lemma improved_scan_body_text sid lines s :
  let line := Py.item lines (j s) in
  Re.found (Re.re_match (question_pattern sid) line) = false ->
  collecting_question s = true -> collecting_options s = false ->
  Py.mem line ["Help Text"; "Comments"; "Data Location:"; "Show possible answers"] = false ->
  (Py.contains "Please select" line && Py.contains "following options" line) = false ->
  Py.contains "Answered by:" line = false ->
  Py.contains "Date:" line = false ->
  Re.found (Re.re_search date_re line) = false ->
  Py.startswith line "Data Location:" = false ->
  let s' := scan_body sid lines s in
  question_text_lines s' = (question_text_lines s ++ [line])%list
  /\ collecting_question s' = negb (Py.contains "?" line)
  /\ j s' = j s + 1.
Proof.
  intros line Hq Hcq Hco Hmem Hps Hab Hd Hdr Hdl s'.
  subst s'. unfold scan_body. fold line. rewrite Hq.
  assert (E1 : String.eqb line "Help Text" = false).
  { simpl in Hmem. apply orb_false_iff in Hmem. tauto. }
  assert (E2 : String.eqb line "Comments" = false).
  { simpl in Hmem. repeat (apply orb_false_iff in Hmem as [? Hmem]). assumption. }
  rewrite E1, Hps, Hco, Hab, Hd, Hdr. cbn [orb]. rewrite E2, Hdl, Hcq, Hmem. cbn [negb].
  destruct (Py.contains "?" line); cbn; auto.
Qed.

Lemma improved_scan_lines_total sid lines : exists qs, scan_lines sid lines = Some qs.
Proof.
  destruct (improved_scan_lines_counted_total sid lines) as (n & qs & H & _).
  exists qs. unfold scan_lines. rewrite H. reflexivity.
Qed.

(** [parse_html_file] never raises: it returns a section exactly for the
    well-formed documents. *)
Lemma improved_parse_html_file_returns fs file_name :
  exists r, parse_html_file fs file_name = Some (Returned r)
            /\ (well_formed fs file_name = true -> exists sec, r = Some sec)
            /\ (well_formed fs file_name = false -> r = None).
Proof.
  unfold parse_html_file, parse_body, read_soup, well_formed.
  destruct (fs file_name) as [|e|[title|] body]; cbn;
    try (eexists; split; [reflexivity|split; [discriminate|reflexivity]]).
  destruct (parse_title title) as [[[sid name] risk]|]; cbn;
    try (eexists; split; [reflexivity|split; [discriminate|reflexivity]]).
  destruct (improved_scan_lines_total sid (lines_of body)) as [qs ->]. cbn.
  eexists; split; [reflexivity|]. split; [eauto|discriminate].
Qed.

Lemma improved_failing_spec fs file_name :
  failing fs file_name = exists_file fs file_name && negb (well_formed fs file_name).
Proof.
  unfold failing, exists_file, well_formed.
  destruct (fs file_name) as [|e|[title|] body]; try reflexivity.
  destruct (parse_title title); reflexivity.
Qed.

Lemma improved_well_formed_exists fs file_name :
  well_formed fs file_name = true -> exists_file fs file_name = true.
Proof.
  unfold exists_file, well_formed. destruct (fs file_name); [discriminate|reflexivity|reflexivity].
Qed.

Lemma improved_count_failed_app l1 l2 : count_failed (l1 ++ l2) = count_failed l1 + count_failed l2.
Proof. unfold count_failed. rewrite filter_app, length_app. reflexivity. Qed.

Lemma improved_process_files_counts fs : forall file_names b,
  exists b', process_files fs b file_names = Some (Returned b')
    /\ length (b_sections b') =
       length (b_sections b) + length (filter (well_formed fs) file_names)
    /\ count_failed (b_log b') =
       count_failed (b_log b) + length (filter (failing fs) file_names).
Proof.
  induction file_names as [|f fns IH]; intros b; simpl.
  - exists b. repeat split; lia.
  - unfold process_file. rewrite (improved_failing_spec fs f).
    destruct (exists_file fs f) eqn:Ex; simpl.
    + destruct (improved_parse_html_file_returns fs f) as (r & -> & Hwf & Hnwf).
      destruct (well_formed fs f) eqn:Ew; simpl.
      * destruct (Hwf eq_refl) as [sec ->].
        destruct (IH (mkBatch (b_sections b ++ [sec])
                     (b_log b ++ [Extracted f (length (questions sec)) (answered_count sec)])))
          as (b' & -> & H1 & H2).
        exists b'. split; [reflexivity|]. cbn [b_sections b_log] in H1, H2.
        rewrite length_app in H1. rewrite improved_count_failed_app in H2. cbn in H1, H2.
        split; lia.
      * rewrite (Hnwf eq_refl).
        destruct (IH (mkBatch (b_sections b) (b_log b ++ [Failed f])))
          as (b' & -> & H1 & H2).
        exists b'. split; [reflexivity|]. cbn [b_sections b_log] in H1, H2.
        rewrite improved_count_failed_app in H2. cbn in H2. split; lia.
    + assert (Ew : well_formed fs f = false).
      { destruct (well_formed fs f) eqn:Ew; [|reflexivity].
        apply improved_well_formed_exists in Ew. congruence. }
      rewrite Ew.
      destruct (IH (mkBatch (b_sections b) (b_log b ++ [FileNotFound f])))
        as (b' & -> & H1 & H2).
      exists b'. split; [reflexivity|]. cbn [b_sections b_log] in H1, H2.
      rewrite improved_count_failed_app in H2. cbn in H2. split; lia.
Qed.

Lemma improved_sort_sections_length {Q} (l : list (SectionResult Q)) :
  length (sort_sections l) = length l.
Proof. apply Permutation_length. apply sort_sections_perm. Qed.

Lemma improved_main_on_counts file_names dir today fs :
  exists run, main_on file_names dir today fs = Some (Returned run)
    /\ (dir = true ->
        length (written_sections run) = length (filter (well_formed fs) file_names)
        /\ count_failed (log run) = length (filter (failing fs) file_names)).
Proof.
  unfold main_on. destruct dir; cbn [negb].
  - destruct (improved_process_files_counts fs file_names (mkBatch [] [])) as (b & -> & H1 & H2).
    cbn [b_sections b_log length] in H1, H2. unfold count_failed in *. cbn [filter length] in H2.
    destruct (b_sections b) as [|sec secs] eqn:E.
    + eexists; split; [reflexivity|]. intros _.
      cbn [written_sections written log sections length] in *. split; lia.
    + eexists; split; [reflexivity|]. intros _.
      cbn [written_sections written log sections].
      rewrite improved_sort_sections_length. split; lia.
  - eexists; split; [reflexivity|]. discriminate.
Qed.

Lemma improved_main_on_sorted file_names dir today fs run :
  main_on file_names dir today fs = Some (Returned run) ->
  StronglySorted le_id (written_sections run).
Proof.
  unfold main_on. destruct dir; simpl.
  - destruct (process_files fs _ file_names) as [[b|e]|]; try discriminate.
    destruct (b_sections b) as [|sec secs] eqn:E; intros H; inversion H; subst;
      cbn [written_sections written sections].
    + constructor.
    + apply (sort_sections_sorted (sec :: secs)).
  - intros H; inversion H; subst; cbn. constructor.
Qed.

End ImprovedFacts.

(* ------------------------------------------------------------------------- *)
(** ** Facts about ExtractRealQuestions *)

Module RealFacts.
Import ExtractRealQuestions.

Lemma real_scan_body_progress sid lines i s :
  broke s = false ->
  let s' := scan_body sid lines i s in
  (broke s' = true /\ j s' = j s) \/ (broke s' = false /\ j s < j s').
Proof.
  intros Hb. unfold scan_body, collect_text, collect_options.
  repeat break_if; cbn; rewrite ?Hb;
    (left; split; [reflexivity|lia]) || (right; split; [reflexivity|lia]).
Qed.

Lemma real_scan_terminates sid lines i :
  i < length lines ->
  exists n s, scan sid lines i = Some (n, s) /\ i < j s /\ scan_cond lines i s = false.
Proof.
  intros Hi. unfold scan.
  destruct (while_terminates (scan_cond lines i)
              (fun s => Some (scan_body sid lines i s))
              (fun s => i < j s) (scan_mu lines)) with (fuel := length lines) (s := scan_init i)
    as (n & r & Hw & _ & HP & Hc).
  - intros s HP Hc. eexists; split; [reflexivity|].
    unfold scan_cond in Hc.
    apply andb_true_iff in Hc as [Hc _]. apply andb_true_iff in Hc as [Hb Hj].
    apply negb_true_iff in Hb. apply Nat.ltb_lt in Hj.
    destruct (real_scan_body_progress sid lines i s Hb) as [[Hb' Hj']|[Hb' Hj']];
      unfold scan_mu; rewrite Hb, Hb'; split; lia.
  - cbn; lia.
  - unfold scan_mu; cbn; lia.
  - eauto.
Qed.

Lemma real_outer_body_progress sid lines st :
  outer_cond lines st = true ->
  exists st', outer_body sid lines st = Some st' /\ fst st < fst st'.
Proof.
  destruct st as [i qs]. unfold outer_cond, outer_body; cbn [fst]. intros Hi.
  apply Nat.ltb_lt in Hi.
  destruct (Re.re_search _ _).
  - destruct (real_scan_terminates sid lines i Hi) as (n & s & Hs & Hj & _).
    rewrite Hs. eexists; split; [reflexivity|]. cbn; lia.
  - eexists; split; [reflexivity|]. cbn; lia.
Qed.

Lemma real_outer_loop_total sid lines st :
  exists n r, scan_from sid lines st = Some (n, r) /\ n <= length lines - fst st.
Proof.
  unfold scan_from.
  destruct (while_terminates (outer_cond lines) (outer_body sid lines)
              (fun _ => True) (fun st => length lines - fst st))
    with (fuel := length lines) (s := st) as (n & r & Hw & Hn & _ & _); auto.
  - intros s _ Hc. destruct (real_outer_body_progress sid lines s Hc) as (s' & Hb & Hlt).
    exists s'; repeat split; auto.
    unfold outer_cond in Hc. apply Nat.ltb_lt in Hc. lia.
  - lia.
  - eauto.
Qed.

Lemma real_scan_lines_counted_total sid lines :
  exists n qs, scan_lines_counted sid lines = Some (n, qs) /\ n <= length lines.
Proof.
  unfold scan_lines_counted.
  destruct (real_outer_loop_total sid lines (0, [])) as (n & [i qs] & Hw & Hn).
  rewrite Hw. exists n, qs. split; [reflexivity|]. cbn in Hn; lia.
Qed.

Lemma real_option_ending_word w :
  Re.denotes option_ending w -> w <> "" /\ Py.rstrip w = w.
Proof.
  unfold option_ending, Re.Opt. cbn. intros H.
  inv_den; vm_compute; (split; [discriminate|reflexivity]).
Qed.

(** An option matched by the Yes/No patterns has no blank at either end. *)
Lemma real_option_word_stripped (lead : string) w :
  Py.lstrip lead = lead -> lead <> "" ->
  Re.denotes (Re.Cat [Re.Lit lead; Re.Plus Re.greedy (Re.notc "N"); option_ending]) w ->
  Py.strip w = w.
Proof.
  intros Hl Hne H. cbn [Re.Cat] in H.
  inversion H as [| | |r1 r2 w1 t1 Hd1 Hd2| | | | | | | |]; subst.
  apply denotes_Lit in Hd1; subst.
  inversion Hd2 as [| | |r1 r2 w2 t2 _ Hd3| | | | | | | |]; subst.
  apply real_option_ending_word in Hd3 as [Hne3 Hr3].
  unfold Py.strip.
  assert (E : Py.lstrip (lead ++ w2 ++ t2) = lead ++ w2 ++ t2).
  { destruct lead as [|c lead]; [congruence|]. simpl in *.
    destruct (Py.is_space c); [|reflexivity].
    exfalso. clear -Hl.
    assert (L : forall s, String.length (Py.lstrip s) <= String.length s).
    { induction s as [|a s IH]; simpl; [lia|]. destruct (Py.is_space a); simpl; lia. }
    specialize (L lead). rewrite Hl in L. simpl in L. lia. }
  rewrite E. rewrite <- !app_assoc_s. apply rstrip_app; assumption.
Qed.

Lemma real_grouped_search (body : Re.regex) p s x :
  Re.search_from (Re.Grp 1 body) p s = Some x ->
  exists w, Re.group 1 x = w /\ Re.denotes body w.
Proof.
  intros H. apply search_from_inv in H as (pre & s' & _ & _ & Hm).
  cbn [Re.m] in Hm.
  apply m_sound in Hm as (w & st1 & Hd & He & Hk).
  exists w; split; [|assumption].
  inversion Hk as [Hx]. unfold Re.group. rewrite <- Hx. simpl.
  apply consumed_extends. assumption.
Qed.

Lemma real_findall_go_forall (P : string -> Prop) body :
  (forall w, Re.denotes body w -> P w) ->
  forall fuel p s, Forall P (Re.findall_go fuel (Re.Grp 1 body) p s).
Proof.
  intros HP fuel; induction fuel as [|f IH]; intros p s; simpl; [constructor|].
  destruct (Re.search_from _ p s) as [x|] eqn:E; [|constructor].
  destruct (real_grouped_search body p s x E) as (w & Hw & Hd).
  assert (P (Re.group 1 x)) by (rewrite Hw; apply HP; assumption).
  destruct (Nat.ltb _ _); [constructor; auto|].
  destruct (Re.rest (Re.m_final x)); constructor; auto.
Qed.

Lemma real_yes_matches_stripped line :
  Forall (fun o => Py.strip o = o) (Re.findall yes_re line).
Proof.
  unfold Re.findall, yes_re. apply real_findall_go_forall.
  intros w. apply (real_option_word_stripped "Yes,"); [reflexivity|discriminate].
Qed.

Lemma real_no_matches_stripped line :
  Forall (fun o => Py.strip o = o) (Re.findall no_re line).
Proof.
  unfold Re.findall, no_re. apply real_findall_go_forall.
  intros w. apply (real_option_word_stripped "No,"); [reflexivity|discriminate].
Qed.

(** [add_options] appends, and keeps the options pairwise distinct. *)
Lemma real_add_options_extends matches : forall options,
  exists added, add_options options matches = (options ++ added)%list.
Proof.
  unfold add_options. induction matches as [|o ms IH]; intros options; simpl.
  - exists []. rewrite app_nil_r. reflexivity.
  - destruct (Py.mem o options).
    + apply IH.
    + destruct (IH (options ++ [Py.strip o])%list) as [added ->].
      exists (Py.strip o :: added). rewrite <- app_assoc. reflexivity.
Qed.

Lemma real_add_options_NoDup matches : forall options,
  Forall (fun o => Py.strip o = o) matches ->
  NoDup options -> NoDup (add_options options matches).
Proof.
  unfold add_options. induction matches as [|o ms IH]; intros options Hs Hn; simpl.
  - assumption.
  - inversion Hs as [|? ? Ho Hms]; subst.
    destruct (Py.mem o options) eqn:E.
    + apply IH; assumption.
    + apply IH; [assumption|]. rewrite Ho.
      apply mem_false_not_In in E.
      rewrite <- (rev_involutive (options ++ [o])%list).
      apply NoDup_rev. rewrite rev_app_distr. simpl. constructor.
      * rewrite <- in_rev. assumption.
      * apply NoDup_rev. assumption.
Qed.

Lemma real_NoDup_snoc (o : string) l : ~ In o l -> NoDup l -> NoDup (l ++ [o]).
Proof.
  intros Hin Hn. rewrite <- (rev_involutive (l ++ [o])%list).
  apply NoDup_rev. rewrite rev_app_distr. simpl. constructor.
  - rewrite <- in_rev. assumption.
  - apply NoDup_rev. assumption.
Qed.

Lemma real_collect_options_NoDup line s :
  NoDup (s_options s) -> NoDup (s_options (collect_options line s)).
Proof.
  intros Hn. unfold collect_options.
  destruct (_ || _); [|assumption].
  set (opts := add_options (add_options (s_options s) _) _).
  assert (Ho : NoDup opts).
  { apply real_add_options_NoDup; [apply real_no_matches_stripped|].
    apply real_add_options_NoDup; [apply real_yes_matches_stripped|assumption]. }
  destruct (Py.contains "Not applicable" line && negb (Py.mem "Not applicable" opts)) eqn:E.
  - apply andb_true_iff in E as [_ E]. apply negb_true_iff in E.
    apply mem_false_not_In in E.
    destruct (_ || _); cbn; apply real_NoDup_snoc; assumption.
  - destruct (_ || _); cbn; assumption.
Qed.

Lemma real_collect_text_options line s :
  s_options (fst (collect_text line s)) = s_options s.
Proof. unfold collect_text. repeat break_if; reflexivity. Qed.

Lemma real_scan_body_NoDup sid lines i s :
  NoDup (s_options s) -> NoDup (s_options (scan_body sid lines i s)).
Proof.
  intros Hn. unfold scan_body.
  destruct (_ && _); [assumption|].
  pose proof (real_collect_text_options (Py.item lines (j s)) s) as E.
  destruct (collect_text _ s) as [s1 c]; simpl in E.
  destruct c; [rewrite E; assumption|].
  apply real_collect_options_NoDup. rewrite E. assumption.
Qed.

Lemma real_scan_NoDup sid lines i n s :
  scan sid lines i = Some (n, s) -> NoDup (s_options s).
Proof.
  unfold scan. intros H.
  eapply (while_invariant _ _ (fun s => NoDup (s_options s))) in H; [tauto| |constructor].
  intros s0 s' Hn _ Hb. inversion Hb; subst. apply real_scan_body_NoDup; assumption.
Qed.

Lemma real_outer_body_NoDup sid lines st st' :
  Forall (fun q => NoDup (options q)) (snd st) ->
  outer_body sid lines st = Some st' ->
  Forall (fun q => NoDup (options q)) (snd st').
Proof.
  destruct st as [i qs]. unfold outer_body. intros Hq H.
  destruct (Re.re_search _ _); [|inversion H; subst; assumption].
  destruct (scan sid lines i) as [[n s]|] eqn:Es; [|discriminate].
  inversion H; subst. simpl. apply Forall_app; split; [assumption|].
  unfold emit. destruct (keeps_record _); [|constructor].
  constructor; [|constructor]. simpl. eapply real_scan_NoDup; eassumption.
Qed.

Lemma real_scan_lines_NoDup sid lines :
  exists qs, scan_lines sid lines = Some qs
             /\ Forall (fun q => NoDup (options q)) qs.
Proof.
  destruct (real_scan_lines_counted_total sid lines) as (n & qs & H & _).
  exists qs. unfold scan_lines. rewrite H. split; [reflexivity|].
  unfold scan_lines_counted, scan_from in H.
  destruct (Loop.while _ _ _ _) as [[n' [i' qs']]|] eqn:E; [|discriminate].
  inversion H; subst.
  eapply (while_invariant _ _ (fun st => Forall (fun q => NoDup (options q)) (snd st)))
    in E; [apply E| |constructor].
  intros s0 s' Hq _ Hb. eapply real_outer_body_NoDup; eassumption.
Qed.

Lemma real_scan_body_step sid lines i s :
  broke s = false ->
  let s' := scan_body sid lines i s in
  (broke s' = true /\ j s' = j s) \/ (broke s' = false /\ j s' = j s + 1).
Proof.
  intros Hb. unfold scan_body, collect_text, collect_options.
  repeat break_if; cbn; rewrite ?Hb;
    (left; split; [reflexivity|lia]) || (right; split; [reflexivity|lia]).
Qed.

Lemma real_scan_body_at_next_question sid lines i s :
  is_question_start sid (Py.item lines (j s)) = true -> i + 2 < j s ->
  broke (scan_body sid lines i s) = true /\ j (scan_body sid lines i s) = j s.
Proof.
  intros Hq Hj. unfold scan_body. rewrite Hq.
  apply Nat.ltb_lt in Hj. rewrite Hj. cbn. auto.
Qed.

(** The look-ahead of a question stops at the next question line that is
    more than two lines away, at the latest. *)
Lemma real_scan_stops_by sid lines i n :
  i + 3 <= n -> n < length lines ->
  is_question_start sid (Py.item lines n) = true ->
  exists c s, scan sid lines i = Some (c, s) /\ i < j s <= n.
Proof.
  intros Hn Hlen Hq. unfold scan.
  destruct (while_terminates (scan_cond lines i)
              (fun s => Some (scan_body sid lines i s))
              (fun s => i < j s <= n) (scan_mu lines))
    with (fuel := length lines) (s := scan_init i)
    as (c & r & Hw & _ & HP & _).
  - intros s HP Hc. eexists; split; [reflexivity|].
    unfold scan_cond in Hc.
    apply andb_true_iff in Hc as [Hc _]. apply andb_true_iff in Hc as [Hb Hj].
    apply negb_true_iff in Hb. apply Nat.ltb_lt in Hj.
    destruct (Nat.eq_dec (j s) n) as [E|E].
    + destruct (real_scan_body_at_next_question sid lines i s) as [Hb' Hj'];
        [rewrite E; assumption|lia|].
      unfold scan_mu. rewrite Hb, Hb'. split; lia.
    + destruct (real_scan_body_step sid lines i s Hb) as [[Hb' Hj']|[Hb' Hj']];
        unfold scan_mu; rewrite Hb, Hb'; split; lia.
  - cbn; lia.
  - unfold scan_mu; cbn; lia.
  - eauto.
Qed.

Lemma real_outer_body_skip sid lines i qs :
  is_question_start sid (Py.item lines i) = false ->
  outer_body sid lines (i, qs) = Some (i + 1, qs).
Proof.
  unfold is_question_start, outer_body. intros H.
  destruct (Re.re_search _ _); [discriminate|reflexivity].
Qed.

(** Lines that open no question only move the cursor. *)
Lemma real_scan_from_skip sid lines qs n : forall d a c r,
  a + d = n -> n <= length lines ->
  (forall k, a <= k < n -> is_question_start sid (Py.item lines k) = false) ->
  scan_from sid lines (a, qs) = Some (c, r) ->
  exists c', scan_from sid lines (n, qs) = Some (c', r).
Proof.
  induction d as [|d IH]; intros a c r Ha Hn Hno H.
  - replace n with a by lia. eauto.
  - unfold scan_from in H.
    eapply while_step_result with (s' := (a + 1, qs)) in H.
    + eapply (IH (a + 1)); [lia|assumption| |exact H].
      intros k Hk. apply Hno. lia.
    + unfold outer_cond. apply Nat.ltb_lt. simpl. lia.
    + apply real_outer_body_skip. apply Hno. lia.
Qed.

Lemma real_collect_options_keeps_text line s :
  question_text (collect_options line s) = question_text s
  /\ collecting_question (collect_options line s) = collecting_question s
  /\ help_text (collect_options line s) = help_text s.
Proof. unfold collect_options. repeat break_if; cbn; auto. Qed.

(** Lines 82-93: a line carrying "Help Text" while the question text is
    being collected. *)
Lemma real_scan_body_help_text sid lines i s :
  let line := Py.item lines (j s) in
  (is_question_start sid line && Nat.ltb (i + 2) (j s)) = false ->
  collecting_question s = true ->
  Py.contains "Help Text" line = true ->
  let s' := scan_body sid lines i s in
  let parts := Py.split line "Help Text" in
  exists pre post,
    line = pre ++ "Help Text" ++ post
    /\ Py.first_at "Help Text" pre ("Help Text" ++ post)
    /\ nth 0 parts "" = pre
    /\ question_text s' =
       (if Py.truthy (Py.strip pre) then question_text s ++ " " ++ Py.strip pre
        else question_text s)
    /\ collecting_question s' = false
    /\ collecting_options s' = collecting_options s
    /\ s_options s' = s_options s
    /\ j s' = j s + 1
    /\ help_text s' =
       (if Py.truthy (Py.strip (nth 1 parts ""))
           && negb (Py.contains "Please select" (nth 1 parts ""))
        then Some (Py.strip (nth 1 parts "")) else help_text s).
Proof.
  intros line Hq Hcq Hh s' parts.
  destruct (split_first "Help Text" line ltac:(discriminate) Hh)
    as (pre & post & Hl & Hf & Hn & Hlen).
  exists pre, post. split; [assumption|]. split; [assumption|]. split; [assumption|].
  subst s'. unfold scan_body. fold line. rewrite Hq.
  unfold collect_text. rewrite Hcq, Hh. subst parts.
  apply Nat.ltb_lt in Hlen. rewrite Hlen, Hn.
  cbn [question_text collecting_question collecting_options s_options j help_text andb].
  repeat split; reflexivity.
Qed.

(** Lines 95-103: a line carrying "Please select" (and no "Help Text"). *)
Lemma real_scan_body_please_select sid lines i s :
  let line := Py.item lines (j s) in
  (is_question_start sid line && Nat.ltb (i + 2) (j s)) = false ->
  collecting_question s = true ->
  Py.contains "Help Text" line = false ->
  Py.contains "Please select" line = true ->
  let s' := scan_body sid lines i s in
  exists pre post,
    line = pre ++ "Please select" ++ post
    /\ Py.first_at "Please select" pre ("Please select" ++ post)
    /\ question_text s' =
       (if Py.truthy (Py.strip pre) then question_text s ++ " " ++ Py.strip pre
        else question_text s)
    /\ collecting_question s' = false
    /\ collecting_options s' = true
    /\ s_options s' = s_options s
    /\ help_text s' = help_text s
    /\ j s' = j s + 1.
Proof.
  intros line Hq Hcq Hh Hp s'.
  destruct (split_first "Please select" line ltac:(discriminate) Hp)
    as (pre & post & Hl & Hf & Hn & Hlen).
  exists pre, post. split; [assumption|]. split; [assumption|].
  subst s'. unfold scan_body. fold line. rewrite Hq.
  unfold collect_text. rewrite Hcq, Hh, Hp, Hn.
  cbn [question_text collecting_question collecting_options s_options j help_text].
  repeat split; reflexivity.
Qed.

(** Lines 105-109: any other line is question text, and a "?" in it ends
    the collection. *)
Lemma real_scan_body_plain_text sid lines i s :
  let line := Py.item lines (j s) in
  (is_question_start sid line && Nat.ltb (i + 2) (j s)) = false ->
  collecting_question s = true ->
  Py.contains "Help Text" line = false ->
  Py.contains "Please select" line = false ->
  line <> "" -> Py.startswith line "Data Location" = false ->
  let s' := scan_body sid lines i s in
  question_text s' = question_text s ++ " " ++ line
  /\ collecting_question s' = negb (Py.contains "?" line)
  /\ help_text s' = help_text s.
Proof.
  intros line Hq Hcq Hh Hp Hne Hd s'.
  subst s'. unfold scan_body. fold line. rewrite Hq.
  unfold collect_text. rewrite Hcq, Hh, Hp, Hd.
  apply (proj2 (truthy_nonempty _)) in Hne. rewrite Hne. cbn [andb negb].
  match goal with |- context [collect_options line ?s1] =>
    destruct (real_collect_options_keeps_text line s1) as (E1 & E2 & E3) end.
  rewrite E1, E2, E3. cbn [question_text collecting_question help_text]. auto.
Qed.

Lemma real_scan_lines_total sid lines : exists qs, scan_lines sid lines = Some qs.
Proof.
  destruct (real_scan_lines_counted_total sid lines) as (n & qs & H & _).
  exists qs. unfold scan_lines. rewrite H. reflexivity.
Qed.

(** [extract_questions_from_section] returns: a section carrying the
    identifier it was given, or [None] when reading the file raised. *)
Lemma real_extract_returns fs file_path sid :
  exists r, extract_questions_from_section fs file_path sid = Some (Returned r)
            /\ (forall sec, r = Some sec -> sectionId sec = sid).
Proof.
  unfold extract_questions_from_section, extract_body, read_soup.
  destruct (fs file_path) as [|e|h1 text]; cbn.
  - eexists; split; [reflexivity|discriminate].
  - eexists; split; [reflexivity|discriminate].
  - destruct (parse_title _) as [name risk].
    destruct (real_scan_lines_total sid (lines_of text)) as [qs ->]. cbn.
    eexists; split; [reflexivity|]. intros sec H. inversion H. reflexivity.
Qed.

Lemma real_main_on_returns files fs :
  exists survey, main_on files fs = Some (Returned survey)
    /\ sections survey =
       sort_sections (dict_values
         (merge_all (parsed_documents extract_questions_from_section fs files))).
Proof.
  unfold main_on.
  rewrite (process_section_files_merges _ real_extract_returns).
  eexists; split; reflexivity.
Qed.

End RealFacts.

(* ------------------------------------------------------------------------- *)
(** ** Facts about ExtractFord2024Survey *)

Module FordFacts.
Import ExtractFord2024Survey.

Lemma ford_continuation_total sid lines stops k opt :
  1 <= k <= length lines ->
  exists k' opt', continuation sid lines stops k opt = Some (k', opt') /\ k <= k'.
Proof.
  intros Hk. unfold continuation.
  destruct (while_terminates (cont_cond lines stops)
              (fun st => Some (cont_body sid lines st))
              (fun st => k <= fst (fst st)) (cont_mu lines))
    with (fuel := length lines) (s := (k, opt, false))
    as (n & [[k' opt'] b] & Hw & _ & HP & _).
  - intros [[k0 o0] b0] HP Hc. eexists; split; [reflexivity|].
    unfold cont_cond in Hc.
    apply andb_true_iff in Hc as [Hc _]. apply andb_true_iff in Hc as [Hb Hj].
    apply negb_true_iff in Hb. apply Nat.ltb_lt in Hj. subst b0.
    unfold cont_body. cbn in HP. break_if; cbn; split; lia.
  - cbn; lia.
  - cbn; lia.
  - rewrite Hw. exists k', opt'. split; auto.
Qed.

Lemma ford_collect_text_j next_line s s1 c :
  collect_text next_line s = (s1, c) ->
  broke s1 = broke s /\ (if c then j s1 = j s + 1 else j s1 = j s).
Proof.
  unfold collect_text. repeat break_if; intros H; inversion H; subst; cbn; auto.
Qed.

Lemma ford_collect_options_j sid lines next_line s :
  j s < length lines ->
  exists s2, collect_options sid lines next_line s = Some s2
             /\ broke s2 = broke s /\ j s <= j s2.
Proof.
  intros Hj. unfold collect_options.
  destruct (collecting_options s || Py.contains "Please select" next_line);
    [|eexists; split; [reflexivity|split; [reflexivity|lia]]].
  destruct (Py.startswith next_line "Yes,").
  { destruct (ford_continuation_total sid lines
                ["No,"; "Not applicable"; "Show possible"; "Comments"]
                (j s + 1) next_line) as (k & o & Hc & Hk); [lia|].
    rewrite Hc. eexists; split; [reflexivity|]. cbn. split; [reflexivity|lia]. }
  destruct (Py.startswith next_line "No,").
  { destruct (ford_continuation_total sid lines
                ["Yes,"; "Not applicable"; "Show possible"; "Comments"]
                (j s + 1) next_line) as (k & o & Hc & Hk); [lia|].
    rewrite Hc. eexists; split; [reflexivity|]. cbn. split; [reflexivity|lia]. }
  break_if; eexists; (split; [reflexivity|]); cbn; split; (reflexivity || lia).
Qed.

Lemma ford_collect_comments_j lines next_line s :
  broke (collect_comments lines next_line s) = broke s
  /\ j (collect_comments lines next_line s) = j s + 1.
Proof. unfold collect_comments. repeat break_if; cbn; auto. Qed.

Lemma ford_scan_body_progress sid lines i s :
  broke s = false -> j s < length lines ->
  exists s', scan_body sid lines i s = Some s'
    /\ ((broke s' = true /\ j s' = j s) \/ (broke s' = false /\ j s < j s')).
Proof.
  intros Hb Hj. unfold scan_body.
  destruct (_ && _); [eexists; split; [reflexivity|left; cbn; auto]|].
  destruct (_ || _); [eexists; split; [reflexivity|left; cbn; auto]|].
  destruct (collect_text (Py.item lines (j s)) s) as [s1 c] eqn:Ht.
  apply ford_collect_text_j in Ht as [Hb1 Hj1].
  destruct c.
  - eexists; split; [reflexivity|]. right; split; [congruence|lia].
  - destruct (ford_collect_options_j sid lines (Py.item lines (j s)) s1) as (s2 & Ho & Hb2 & Hj2);
      [lia|].
    rewrite Ho. eexists; split; [reflexivity|].
    destruct (ford_collect_comments_j lines (Py.item lines (j s)) s2) as [Hb3 Hj3].
    right; split; [congruence|lia].
Qed.

Lemma ford_scan_terminates sid lines i :
  i < length lines ->
  exists n s, scan sid lines i = Some (n, s) /\ i < j s /\ scan_cond lines i s = false.
Proof.
  intros Hi. unfold scan.
  destruct (while_terminates (scan_cond lines i) (scan_body sid lines i)
              (fun s => i < j s) (scan_mu lines)) with (fuel := length lines) (s := scan_init i)
    as (n & r & Hw & _ & HP & Hc).
  - intros s HP Hc.
    unfold scan_cond in Hc.
    apply andb_true_iff in Hc as [Hc _]. apply andb_true_iff in Hc as [Hb Hj].
    apply negb_true_iff in Hb. apply Nat.ltb_lt in Hj.
    destruct (ford_scan_body_progress sid lines i s Hb Hj) as (s' & Hs' & [[Hb' Hj']|[Hb' Hj']]);
      exists s'; (split; [assumption|]); unfold scan_mu; rewrite Hb, Hb'; split; lia.
  - cbn; lia.
  - unfold scan_mu; cbn; lia.
  - eauto.
Qed.

Lemma ford_outer_body_progress sid lines st :
  outer_cond lines st = true ->
  exists r, outer_body sid lines st = Some r
            /\ forall st', r = Returned st' -> fst st < fst st'.
Proof.
  destruct st as [i qs]. unfold outer_cond, outer_body; cbn [fst]. intros Hi.
  apply Nat.ltb_lt in Hi.
  destruct (is_question_start _ _);
    [|eexists; split; [reflexivity|intros st' E; inversion E; cbn; lia]].
  destruct (Re.re_search (q_pattern sid) _);
    [|eexists; split; [reflexivity|intros st' E; inversion E; cbn; lia]].
  destruct (scoring_lookahead lines i) as [sc|e];
    [|eexists; split; [reflexivity|discriminate]].
  destruct (Re.re_search (same_line_re _ _) _).
  - eexists; split; [reflexivity|intros st' E; inversion E; cbn; lia].
  - destruct (ford_scan_terminates sid lines i Hi) as (n & s & Hs & Hj & _).
    rewrite Hs. eexists; split; [reflexivity|]. intros st' E; inversion E; cbn; lia.
Qed.

Lemma ford_outer_loop_total sid lines st :
  exists n r, Loop.while_raising (outer_cond lines) (outer_body sid lines)
                (length lines) st = Some (n, r)
              /\ n <= length lines - fst st.
Proof.
  destruct (while_raising_terminates (outer_cond lines) (outer_body sid lines)
              (fun _ => True) (fun st => length lines - fst st))
    with (fuel := length lines) (s := st) as (n & r & Hw & Hn & _); auto.
  - intros s _ Hc. destruct (ford_outer_body_progress sid lines s Hc) as (r & Hb & Hlt).
    exists r. split; [exact Hb|].
    unfold outer_cond in Hc. apply Nat.ltb_lt in Hc.
    destruct r as [s'|e]; [|lia].
    specialize (Hlt s' eq_refl). split; [exact I|lia].
  - lia.
  - eauto.
Qed.

Lemma ford_scan_lines_counted_total sid lines :
  exists n r, scan_lines_counted sid lines = Some (n, r) /\ n <= length lines.
Proof.
  unfold scan_lines_counted.
  destruct (ford_outer_loop_total sid lines (0, [])) as (n & r & Hw & Hn).
  rewrite Hw. cbn in Hn. destruct r as [[i qs]|e].
  - exists n, (Returned qs). split; [reflexivity|lia].
  - exists n, (Raised e). split; [reflexivity|lia].
Qed.

Lemma ford_start_re_matches sid c post p :
  qualifier_char c = true ->
  Re.m (start_re sid) Some (Re.MState p (sid ++ "." ++ String c post) []) <> None.
Proof.
  intros Hc. unfold start_re. cbn [Re.Cat Re.m].
  erewrite m_Lit by (simpl; reflexivity). cbn [Re.m Re.rest append].
  rewrite char_eqb_refl. unfold Re.Plus. cbn [Re.m Re.rest Re.step_char].
  rewrite Hc. apply star_loop_total. discriminate.
Qed.

Lemma ford_is_question_start_intro sid pre c post :
  qualifier_char c = true ->
  is_question_start sid (pre ++ sid ++ "." ++ String c post) = true.
Proof.
  intros Hc. unfold is_question_start, Re.re_search.
  apply search_from_found. apply ford_start_re_matches; assumption.
Qed.

Lemma ford_is_question_start_inv sid line :
  is_question_start sid line = true ->
  exists pre c post, line = pre ++ sid ++ "." ++ String c post /\ qualifier_char c = true.
Proof.
  unfold is_question_start, Re.re_search. intros H.
  destruct (Re.search_from (start_re sid) 0 line) as [x|] eqn:E; [|discriminate].
  apply search_from_inv in E as (pre & s' & -> & _ & Hm).
  apply m_sound in Hm as (w & st1 & Hd & [Hr _] & _). simpl in Hr.
  unfold start_re in Hd. cbn [Re.Cat] in Hd.
  inversion Hd as [| | |r1 r2 w1 w2 Hd1 Hd2| | | | | | | |]; subst.
  apply denotes_Lit in Hd1; subst.
  inversion Hd2 as [| | |r1 r2 w1 w3 Hd3 Hd4| | | | | | | |]; subst.
  inversion Hd3; subst.
  unfold Re.Plus in Hd4.
  inversion Hd4 as [| | |r1 r2 w1 w4 Hd5 Hd6| | | | | | | |]; subst.
  inversion Hd5; subst.
  exists pre, a, (w4 ++ Re.rest st1). split; [|assumption].
  rewrite !app_assoc_s. reflexivity.
Qed.








Lemma ford_scan_lines_total sid lines : exists qs, scan_lines sid lines = Some qs.
Proof.
  destruct (ford_scan_lines_counted_total sid lines) as (n & qs & H & _).
  exists qs. unfold scan_lines. rewrite H. reflexivity.
Qed.

Lemma ford_extract_returns fs file_path sid :
  exists r, extract_questions_from_section fs file_path sid = Some (Returned r)
            /\ (forall sec, r = Some sec -> sectionId sec = sid).
Proof.
  unfold extract_questions_from_section, extract_body, read_soup.
  destruct (fs file_path) as [|e|h1 text]; cbn.
  - eexists; split; [reflexivity|discriminate].
  - eexists; split; [reflexivity|discriminate].
  - destruct (parse_title _) as [name risk].
    destruct (ford_scan_lines_total sid (lines_of text)) as [[qs|e] ->]; cbn.
    + eexists; split; [reflexivity|]. intros sec H. inversion H. reflexivity.
    + eexists; split; [reflexivity|discriminate].
Qed.

Lemma ford_main_on_returns files fs :
  exists survey, main_on files fs = Some (Returned survey)
    /\ sections survey =
       sort_sections (dict_values
         (merge_all (parsed_documents extract_questions_from_section fs files))).
Proof.
  unfold main_on.
  rewrite (process_section_files_merges _ ford_extract_returns).
  eexists; split; reflexivity.
Qed.

End FordFacts.

(* ------------------------------------------------------------------------- *)
(** * Further properties of the scripts *)

(** ** [str.strip] and the lines of a document *)

Lemma lstrip_no_lead s : Re.starts_in Py.is_space (Py.lstrip s) = false.
Proof.
  induction s as [|c s IH]; [reflexivity|].
  cbn [Py.lstrip]. destruct (Py.is_space c) eqn:E; [exact IH|exact E].
Qed.

Lemma lstrip_split s :
  exists w, s = w ++ Py.lstrip s /\ Re.all_in Py.is_space w = true.
Proof.
  induction s as [|c s (w & Hw & Ha)]; [exists ""; split; reflexivity|].
  cbn [Py.lstrip]. destruct (Py.is_space c) eqn:E.
  - exists (String c w). cbn [append Re.all_in]. rewrite E, Ha, <- Hw. split; reflexivity.
  - exists "". split; reflexivity.
Qed.

Lemma lstrip_fixed s : Re.starts_in Py.is_space s = false -> Py.lstrip s = s.
Proof. destruct s as [|c s]; [reflexivity|]. cbn. intros ->. reflexivity. Qed.

Lemma rstrip_idem s : Py.rstrip (Py.rstrip s) = Py.rstrip s.
Proof.
  induction s as [|c s IH]; [reflexivity|].
  cbn [Py.rstrip]. destruct (Py.rstrip s) as [|a t] eqn:E.
  - destruct (Py.is_space c) eqn:Ec; [reflexivity|]. cbn. rewrite Ec. reflexivity.
  - cbn [Py.rstrip] in *. rewrite IH. reflexivity.
Qed.

Lemma rstrip_split s :
  exists w, s = Py.rstrip s ++ w /\ Re.all_in Py.is_space w = true.
Proof.
  induction s as [|c s (w & Hw & Ha)]; [exists ""; split; reflexivity|].
  cbn [Py.rstrip]. destruct (Py.rstrip s) as [|a t] eqn:E.
  - cbn [append] in Hw. destruct (Py.is_space c) eqn:Ec.
    + exists (String c w). cbn [append Re.all_in]. rewrite Ec, Ha.
      split; [congruence|reflexivity].
    + exists w. cbn [append]. split; [congruence|assumption].
  - exists w. cbn [append] in *. split; [congruence|assumption].
Qed.

Lemma rstrip_no_lead s :
  Re.starts_in Py.is_space s = false -> Re.starts_in Py.is_space (Py.rstrip s) = false.
Proof.
  destruct s as [|c s]; [reflexivity|]. cbn [Re.starts_in Py.rstrip]. intros E.
  destruct (Py.rstrip s); [rewrite E; exact E|exact E].
Qed.

Lemma strip_idem s : Py.strip (Py.strip s) = Py.strip s.
Proof.
  unfold Py.strip.
  rewrite (lstrip_fixed (Py.rstrip (Py.lstrip s))).
  - apply rstrip_idem.
  - apply rstrip_no_lead, lstrip_no_lead.
Qed.

Lemma strip_no_lead s : Re.starts_in Py.is_space (Py.strip s) = false.
Proof. apply rstrip_no_lead, lstrip_no_lead. Qed.

Lemma contains_app_l (x a b : string) :
  Py.contains x a = true -> Py.contains x (a ++ b) = true.
Proof.
  intros H. apply contains_inv in H as (pre & post & ->).
  rewrite !app_assoc_s. apply contains_app.
Qed.

Lemma contains_prefix_part_false (x a b : string) :
  Py.contains x (a ++ b) = false -> Py.contains x a = false.
Proof.
  intros H. destruct (Py.contains x a) eqn:E; [|reflexivity].
  rewrite (contains_app_l _ _ b E) in H. discriminate.
Qed.

Lemma strip_keeps_absent x s : Py.contains x s = false -> Py.contains x (Py.strip s) = false.
Proof.
  intros H. unfold Py.strip.
  destruct (lstrip_split s) as (w & Hw & _).
  destruct (rstrip_split (Py.lstrip s)) as (w' & Hw' & _).
  rewrite Hw in H. apply contains_suffix_false in H.
  rewrite Hw' in H. apply contains_prefix_part_false in H. exact H.
Qed.

(** The pieces of a split at a one-character separator do not contain it. *)
Lemma contains_char_cons c a s :
  Py.contains (String c "") (String a s) = Char.eqb c a || Py.contains (String c "") s.
Proof.
  rewrite contains_unfold. cbn [String.prefix].
  destruct (Char.eqb c a); [destruct s; reflexivity|reflexivity].
Qed.

Lemma contains_char_snoc c a s :
  Py.contains (String c "") s = false -> Char.eqb c a = false ->
  Py.contains (String c "") (s ++ String a "") = false.
Proof.
  intros Hs Ha. induction s as [|b s IH].
  - cbn [append]. rewrite contains_char_cons, Ha. reflexivity.
  - cbn [append]. rewrite contains_char_cons in *. apply orb_false_iff in Hs as [Hb Hs].
    rewrite Hb, (IH Hs). reflexivity.
Qed.

Lemma prefix_char c a s :
  String.prefix (String c "") (String a s) = Char.eqb c a.
Proof.
  cbn [String.prefix]. destruct (Char.eqb c a); [destruct s; reflexivity|reflexivity].
Qed.

Lemma split_go_char_pieces c : forall s cur,
  Py.contains (String c "") cur = false ->
  Forall (fun piece => Py.contains (String c "") piece = false)
         (Py.split_go (String c "") 0 cur s).
Proof.
  induction s as [|a s IH]; intros cur Hcur; cbn [Py.split_go].
  - constructor; [exact Hcur|constructor].
  - rewrite prefix_char. destruct (Char.eqb c a) eqn:E.
    + constructor; [exact Hcur|]. cbn [String.length Nat.sub]. apply IH. reflexivity.
    + apply IH. apply contains_char_snoc; assumption.
Qed.

(** X1 (all four scripts).  The lines that the scanners work on are the
    stripped, non-empty lines of the document text: no line is empty, no
    line starts or ends with whitespace (stripping it again changes
    nothing), and no line contains a newline character. *)
Theorem lines_of_clean (body_text : string) :
  Forall (fun line => line <> ""
                      /\ Py.strip line = line
                      /\ Py.contains (String Py.newline "") line = false)
         (lines_of body_text).
Proof.
  unfold lines_of, nonempty_stripped, Py.split.
  pose proof (split_go_char_pieces Py.newline body_text "" eq_refl) as H.
  induction H as [|piece pieces Hp _ IH]; cbn [map filter]; [constructor|].
  destruct (Py.truthy (Py.strip piece)) eqn:E; [|exact IH].
  constructor; [|exact IH].
  split; [apply truthy_nonempty; exact E|].
  split; [apply strip_idem|apply strip_keeps_absent; exact Hp].
Qed.

(* ------------------------------------------------------------------------- *)
(** ** The scan of parseFordSurvey.py *)

Module ParseFordSurveyFacts.
Import ParseFordSurvey.

Lemma pfs_question_lines_length left : length (question_lines left) <= length left.
Proof.
  induction left as [|l left IH]; cbn [question_lines length]; [lia|].
  destruct (ends_text l); cbn [length]; lia.
Qed.

Lemma pfs_question_lines_In left l : In l (question_lines left) -> In l left.
Proof.
  induction left as [|x left IH]; cbn [question_lines]; [intros []|].
  destruct (ends_text x); [intros []|]. intros [->|H]; [left; reflexivity|right; auto].
Qed.

Ltac split_conds :=
  repeat match goal with
  | H : (_ && _) = true |- _ => apply andb_prop in H as [? ?]
  | H : Nat.ltb _ _ = true |- _ => apply Nat.ltb_lt in H
  end.

(** Every iteration moves the cursor forward, except the one that only
    clears the option flag; the cursor stays within the lines. *)
Lemma pfs_scan_body_progress lines s :
  i s < length lines ->
  let s' := scan_body lines s in
  i s' <= length lines
  /\ 2 * (length lines - i s') + (if collecting_options s' then 1 else 0)
     < 2 * (length lines - i s) + (if collecting_options s then 1 else 0).
Proof.
  intros Hi. unfold scan_body.
  destruct (Re.re_match question_re (Py.item lines (i s))) as [q_match|].
  - cbn [i collecting_options].
    pose proof (pfs_question_lines_length (skipn (i s + 1) lines)) as Hq.
    rewrite length_skipn in Hq.
    destruct (collecting_options s); lia.
  - repeat break_if; unfold update_question; cbn [i collecting_options];
      split_conds; try match goal with H : (_, _) = (_, _) |- _ => inversion H; subst end;
      destruct (collecting_options s); try discriminate; lia.
Qed.

Lemma pfs_scan_loop_total lines :
  exists n s,
    Loop.while (scan_cond lines) (fun s => Some (scan_body lines s))
               (2 * length lines) (mkScan 0 None false []) = Some (n, s)
    /\ n <= 2 * length lines /\ i s = length lines.
Proof.
  destruct (while_terminates (scan_cond lines) (fun s => Some (scan_body lines s))
              (fun s => i s <= length lines)
              (fun s => 2 * (length lines - i s) + (if collecting_options s then 1 else 0)))
    with (fuel := 2 * length lines) (s := mkScan 0 None false [])
    as (n & r & Hw & Hn & Hr & Hc).
  - intros s Hs Hcond. unfold scan_cond in Hcond. apply Nat.ltb_lt in Hcond.
    exists (scan_body lines s). split; [reflexivity|].
    apply pfs_scan_body_progress. exact Hcond.
  - cbn [i]. lia.
  - cbn [i collecting_options]. lia.
  - exists n, r. split; [exact Hw|]. cbn [i collecting_options] in Hn.
    split; [lia|]. unfold scan_cond in Hc. apply Nat.ltb_ge in Hc. lia.
Qed.

End ParseFordSurveyFacts.

(** X2 (parseFordSurvey.py, lines 79-187).  The scan of parseFordSurvey
    returns for every list of lines.  An iteration that only clears the
    option flag leaves the cursor where it is, every other iteration moves
    it forward, so the loop is left after at most twice as many iterations
    as there are lines, with the cursor exactly at the end of the lines
    (no line is read beyond the end). *)
Theorem parse_ford_survey_scan_returns (lines : list string) :
  (exists n s,
      Loop.while (ParseFordSurvey.scan_cond lines)
                 (fun s => Some (ParseFordSurvey.scan_body lines s))
                 (2 * length lines) (ParseFordSurvey.mkScan 0 None false [])
      = Some (n, s)
      /\ n <= 2 * length lines
      /\ ParseFordSurvey.i s = length lines)
  /\ exists questions, ParseFordSurvey.scan_lines lines = Some questions.
Proof.
  destruct (ParseFordSurveyFacts.pfs_scan_loop_total lines) as (n & s & Hw & Hn & Hi).
  split; [exists n, s; auto|].
  unfold ParseFordSurvey.scan_lines. rewrite Hw. eexists; reflexivity.
Qed.

(* ------------------------------------------------------------------------- *)
(** ** What the groups of a match hold *)

Lemma star_loop_sound_caps
      (body : (Re.mstate -> option Re.mstate) -> Re.mstate -> option Re.mstate)
      (g : bool) (r : Re.regex) (k : Re.mstate -> option Re.mstate) :
  (forall k' st x, body k' st = Some x ->
     exists w st1 added,
       Re.denotes r w /\ Re.extends st st1 w
       /\ Re.caps st1 = (added ++ Re.caps st)%list
       /\ Forall (fun c => In (fst c) (Re.groups_of r)) added
       /\ k' st1 = Some x) ->
  forall fuel st x, Re.star_loop body g k fuel st = Some x ->
    exists w st1 added,
      Re.denotes (Re.Star g r) w /\ Re.extends st st1 w
      /\ Re.caps st1 = (added ++ Re.caps st)%list
      /\ Forall (fun c => In (fst c) (Re.groups_of r)) added
      /\ k st1 = Some x.
Proof.
  intros Hbody fuel; induction fuel as [|f IH]; intros st x H; simpl in H.
  - exists "", st, []; split; [constructor|split; [apply extends_refl|]].
    split; [reflexivity|split; [constructor|assumption]].
  - assert (Hiter : forall y,
      body (fun st1 => if Nat.ltb (String.length (Re.rest st1)) (String.length (Re.rest st))
                       then Re.star_loop body g k f st1 else None) st = Some y ->
      exists w st1 added,
        Re.denotes (Re.Star g r) w /\ Re.extends st st1 w
        /\ Re.caps st1 = (added ++ Re.caps st)%list
        /\ Forall (fun c => In (fst c) (Re.groups_of r)) added
        /\ k st1 = Some y).
    { intros y Hy. apply Hbody in Hy as (w1 & st1 & a1 & Hd1 & He1 & Hc1 & Hf1 & Hk1).
      destruct (Nat.ltb _ _); [|discriminate].
      apply IH in Hk1 as (w2 & st2 & a2 & Hd2 & He2 & Hc2 & Hf2 & Hk2).
      exists (w1 ++ w2), st2, (a2 ++ a1)%list; split; [constructor; assumption|].
      split; [eapply extends_trans; eassumption|].
      split; [rewrite Hc2, Hc1, app_assoc; reflexivity|].
      split; [apply Forall_app; split; assumption|assumption]. }
    destruct g.
    + destruct (body _ st) as [y|] eqn:Hy.
      * inversion H; subst. apply Hiter; reflexivity.
      * exists "", st, []; split; [constructor|split; [apply extends_refl|]].
        split; [reflexivity|split; [constructor|assumption]].
    + destruct (k st) as [y|] eqn:Hy.
      * inversion H; subst.
        exists "", st, []; split; [constructor|split; [apply extends_refl|]].
        split; [reflexivity|split; [constructor|assumption]].
      * apply Hiter; assumption.
Qed.

(** A match consumes a word of the pattern and adds captures of the
    pattern's own groups in front of those it started with. *)
Lemma m_sound_caps : forall r k st x,
  Re.m r k st = Some x ->
  exists w st1 added,
    Re.denotes r w /\ Re.extends st st1 w
    /\ Re.caps st1 = (added ++ Re.caps st)%list
    /\ Forall (fun c => In (fst c) (Re.groups_of r)) added
    /\ k st1 = Some x.
Proof.
  induction r as [|c|p|r1 IH1 r2 IH2|r1 IH1 r2 IH2|g r IH|n r IH| | |r IH];
    intros k st x H; simpl in H.
  - exists "", st, []; split; [constructor|split; [apply extends_refl|]].
    split; [reflexivity|split; [constructor|assumption]].
  - destruct (Re.rest st) as [|a s'] eqn:E; [discriminate|].
    destruct (Char.eqb a c) eqn:Ec; [|discriminate].
    apply char_eqb_eq in Ec; subst a.
    exists (String c ""), (Re.step_char st s'), []; split; [constructor|].
    split; [split; simpl; [assumption|lia]|].
    split; [reflexivity|split; [constructor|assumption]].
  - destruct (Re.rest st) as [|a s'] eqn:E; [discriminate|].
    destruct (p a) eqn:Ep; [|discriminate].
    exists (String a ""), (Re.step_char st s'), []; split; [constructor; assumption|].
    split; [split; simpl; [assumption|lia]|].
    split; [reflexivity|split; [constructor|assumption]].
  - apply IH1 in H as (w1 & st1 & a1 & Hd1 & He1 & Hc1 & Hf1 & H).
    apply IH2 in H as (w2 & st2 & a2 & Hd2 & He2 & Hc2 & Hf2 & H).
    exists (w1 ++ w2), st2, (a2 ++ a1)%list; split; [constructor; assumption|].
    split; [eapply extends_trans; eassumption|].
    split; [rewrite Hc2, Hc1, app_assoc; reflexivity|].
    split; [|assumption]. cbn [Re.groups_of].
    apply Forall_app; split; eapply Forall_impl; try eassumption;
      cbn beta; intros c Hc; apply in_or_app; auto.
  - destruct (Re.m r1 k st) as [y|] eqn:E.
    + inversion H; subst. apply IH1 in E as (w & st1 & a & Hd & He & Hc & Hf & Hk).
      exists w, st1, a; split; [apply Re.d_alt_l; assumption|].
      split; [assumption|split; [assumption|split; [|assumption]]].
      eapply Forall_impl; [|exact Hf]. cbn. intros c Hc'. apply in_or_app; auto.
    + apply IH2 in H as (w & st1 & a & Hd & He & Hc & Hf & Hk).
      exists w, st1, a; split; [apply Re.d_alt_r; assumption|].
      split; [assumption|split; [assumption|split; [|assumption]]].
      eapply Forall_impl; [|exact Hf]. cbn. intros c Hc'. apply in_or_app; auto.
  - cbn [Re.groups_of].
    eapply (star_loop_sound_caps (Re.m r) g r k); [|exact H]. intros k' st' x'. apply IH.
  - apply IH in H as (w & st1 & a & Hd & [He1 He2] & Hc & Hf & Hk).
    exists w, (Re.set_cap n (Re.consumed st st1) st1),
      ((n, Re.consumed st st1) :: a)%list.
    split; [constructor; assumption|]. split; [split; simpl; assumption|].
    split; [cbn [Re.set_cap Re.caps app]; rewrite Hc; reflexivity|].
    split; [|assumption]. cbn [Re.groups_of]. constructor; [left; reflexivity|].
    eapply Forall_impl; [|exact Hf]. cbn. intros c Hc'. right; assumption.
  - destruct (Nat.eqb _ _); [|discriminate].
    exists "", st, []; split; [constructor|split; [apply extends_refl|]].
    split; [reflexivity|split; [constructor|assumption]].
  - exists "", st, []; split; [constructor|]. split; [apply extends_refl|].
    split; [reflexivity|split; [constructor|]].
    destruct (Re.rest st) as [|a [|b s']]; try discriminate; auto.
    destruct (Char.eqb a _); [assumption|discriminate].
  - destruct (Re.m r Some st); [|discriminate].
    exists "", st, []; split; [constructor|split; [apply extends_refl|]].
    split; [reflexivity|split; [constructor|assumption]].
Qed.

(** A part of a pattern without groups leaves the captures as they are. *)
Lemma m_plain r k st x :
  Re.groups_of r = [] ->
  Re.m r k st = Some x ->
  exists w st1,
    Re.denotes r w /\ Re.extends st st1 w /\ Re.caps st1 = Re.caps st /\ k st1 = Some x.
Proof.
  intros Hg H. apply m_sound_caps in H as (w & st1 & a & Hd & He & Hc & Hf & Hk).
  rewrite Hg in Hf. destruct a as [|c a].
  - exists w, st1. auto.
  - inversion Hf as [|? ? []].
Qed.

(** A group whose body has no group of its own records the word that the
    body consumed. *)
Lemma m_group n body k st x :
  Re.groups_of body = [] ->
  Re.m (Re.Grp n body) k st = Some x ->
  exists w st1,
    Re.denotes body w /\ Re.extends st st1 w
    /\ Re.caps st1 = (n, w) :: Re.caps st /\ k st1 = Some x.
Proof.
  intros Hg H. cbn [Re.m] in H.
  apply m_plain in H as (w & st1 & Hd & He & Hc & Hk); [|exact Hg].
  exists w, (Re.set_cap n (Re.consumed st st1) st1).
  rewrite (consumed_extends _ _ _ He) in *.
  split; [exact Hd|]. split; [destruct He; split; assumption|].
  split; [cbn [Re.set_cap Re.caps]; rewrite Hc; reflexivity|exact Hk].
Qed.

Lemma groups_of_Lit s : Re.groups_of (Re.Lit s) = [].
Proof. induction s as [|c s IH]; [reflexivity|exact IH]. Qed.

(** Words of a repeated class. *)
Lemma denotes_star_cls g p : forall w,
  Re.denotes (Re.Star g (Re.Cls p)) w -> Re.all_in p w = true.
Proof.
  intros w H. remember (Re.Star g (Re.Cls p)) as r eqn:Er.
  induction H; try discriminate; [reflexivity|].
  inversion Er; subst. inversion H; subst. cbn [append Re.all_in].
  match goal with Hp : p _ = true |- _ => rewrite Hp end.
  apply IHdenotes2. reflexivity.
Qed.

Lemma denotes_plus_cls g p w :
  Re.denotes (Re.Plus g (Re.Cls p)) w -> w <> "" /\ Re.all_in p w = true.
Proof.
  unfold Re.Plus. intros H. inversion H; subst.
  match goal with Hs : Re.denotes (Re.Star _ _) _ |- _ => apply denotes_star_cls in Hs as Ha end.
  match goal with Hc : Re.denotes (Re.Cls _) _ |- _ => inversion Hc; subst end.
  cbn [append Re.all_in].
  match goal with Hp : p _ = true |- _ => rewrite Hp end.
  rewrite Ha. split; [discriminate|reflexivity].
Qed.

Lemma denotes_cls p w :
  Re.denotes (Re.Cls p) w -> exists a, w = String a "" /\ p a = true.
Proof. intros H. inversion H; subst. eauto. Qed.

(* ------------------------------------------------------------------------- *)
(** ** The records of extractRealQuestions.py *)

Lemma item_In lines i : i < length lines -> In (Py.item lines i) lines.
Proof. intros H. unfold Py.item. apply nth_In. exact H. Qed.

Module RealRecords.
Import ExtractRealQuestions.

(** What holds of every record built at a question line holds of every
    record of the scan. *)
Lemma real_scan_lines_forall sid lines (P : Question -> Prop) :
  (forall i q_match n s,
      i < length lines ->
      Re.re_search (q_pattern sid) (Py.item lines i) = Some q_match ->
      scan sid lines i = Some (n, s) ->
      keeps_record (clean_text s) = true ->
      P (build_question (sid ++ "." ++ Re.group 1 q_match) (Py.item lines i) s)) ->
  exists qs, scan_lines sid lines = Some qs /\ Forall P qs.
Proof.
  intros HP.
  destruct (RealFacts.real_scan_lines_counted_total sid lines) as (n & qs & H & _).
  exists qs. unfold scan_lines. rewrite H. split; [reflexivity|].
  unfold scan_lines_counted, scan_from in H.
  destruct (Loop.while _ _ _ _) as [[n' [i' qs']]|] eqn:E; [|discriminate].
  inversion H; subst.
  eapply (while_invariant _ _ (fun st => Forall P (snd st))) in E; [apply E| |constructor].
  intros [i qs0] st' Hq Hc Hb. unfold outer_cond in Hc. cbn [fst] in Hc.
  apply Nat.ltb_lt in Hc. unfold outer_body in Hb. cbn [snd] in Hq.
  destruct (Re.re_search _ _) as [q_match|] eqn:Eq; [|inversion Hb; subst; assumption].
  destruct (scan sid lines i) as [[c s]|] eqn:Es; [|discriminate].
  inversion Hb; subst. cbn [snd]. apply Forall_app; split; [assumption|].
  unfold emit. destruct (keeps_record _) eqn:Ek; [|constructor].
  constructor; [|constructor]. eapply HP; eassumption.
Qed.

(** The question number is a non-empty run of digits that follows the
    section identifier and a dot in the line. *)
Lemma real_q_pattern_group sid line x :
  Re.re_search (q_pattern sid) line = Some x ->
  exists pre post,
    line = pre ++ (sid ++ "." ++ Re.group 1 x) ++ post
    /\ Re.group 1 x <> "" /\ Re.all_in Py.is_digit (Re.group 1 x) = true.
Proof.
  unfold Re.re_search. intros H.
  apply search_from_inv in H as (pre & s' & -> & _ & Hm).
  unfold q_pattern in Hm. cbn [Re.Cat] in Hm. rewrite m_Seq in Hm.
  apply m_plain in Hm as (w1 & st1 & Hd1 & [Hr1 _] & Hc1 & Hm); [|apply groups_of_Lit].
  apply denotes_Lit in Hd1. subst w1. rewrite m_Seq in Hm.
  apply m_plain in Hm as (w2 & st2 & Hd2 & [Hr2 _] & Hc2 & Hm); [|reflexivity].
  inversion Hd2; subst.
  apply m_group in Hm as (w3 & st3 & Hd3 & [Hr3 _] & Hc3 & Hm); [|reflexivity].
  apply denotes_plus_cls in Hd3 as [Hne Hdig].
  inversion Hm as [Hx]. unfold Re.group. rewrite <- Hx, Hc3. cbn [Re.lookup Nat.eqb].
  exists pre, (Re.rest st3). split; [|split; assumption].
  cbn [Re.rest] in Hr1. rewrite Hr1, Hr2, Hr3. rewrite !app_assoc_s. reflexivity.
Qed.

End RealRecords.

(** X3 (extractRealQuestions.py, lines 39-157).  For a section identifier
    made of letters and digits, every record that extractRealQuestions
    emits for the section has an identifier made of the section
    identifier, a dot and a non-empty run of decimal digits, and this
    identifier occurs in a line of the document; its question text is not
    empty and does not start with "Data Location"; its answer type is
    "single-choice", and neither a selected option nor comments are ever
    reported. *)
Theorem real_records_well_formed (sid : string) (lines : list string)
  (Hsid : Re.plain_id sid = true) :
  exists qs,
    ExtractRealQuestions.scan_lines sid lines = Some qs
    /\ Forall (fun q =>
         (exists n line,
             questionId q = sid ++ "." ++ n
             /\ n <> "" /\ Re.all_in Py.is_digit n = true
             /\ In line lines /\ Py.contains (questionId q) line = true)
         /\ questionText q <> ""
         /\ Py.startswith (questionText q) "Data Location" = false
         /\ answerType q = "single-choice"
         /\ selectedOption (givenAnswer q) = None
         /\ comments (givenAnswer q) = None) qs.
Proof.
  clear Hsid. apply RealRecords.real_scan_lines_forall.
  intros i q_match n s Hi Hq Hs Hk.
  unfold ExtractRealQuestions.build_question.
  cbn [questionId questionText answerType givenAnswer selectedOption comments].
  apply RealRecords.real_q_pattern_group in Hq as (pre & post & Hline & Hne & Hdig).
  split.
  - exists (Re.group 1 q_match), (Py.item lines i).
    split; [reflexivity|]. split; [assumption|]. split; [assumption|].
    split; [apply item_In; assumption|].
    rewrite Hline. apply contains_app.
  - unfold ExtractRealQuestions.keeps_record in Hk.
    apply andb_prop in Hk as [Ht Hd].
    split; [apply truthy_nonempty; assumption|].
    split; [apply negb_true_iff in Hd; assumption|].
    repeat split; reflexivity.
Qed.

Lemma real_records_well_formed_witness :
  Re.plain_id "A" = true
  /\ exists qs, ExtractRealQuestions.scan_lines "A" Inputs.marker_on_own_line = Some qs.
Proof.
  split; [reflexivity|].
  destruct (real_records_well_formed "A" Inputs.marker_on_own_line eq_refl) as (qs & H & _).
  exists qs. exact H.
Defined.

(** *** The options of a record *)

Lemma all_in_not_char c : forall w,
  Re.all_in (fun a => negb (Char.eqb a c)) w = true ->
  Py.contains (String c "") w = false.
Proof.
  induction w as [|a w IH]; [reflexivity|]. cbn [Re.all_in]. intros H.
  apply andb_prop in H as [Ha Hw]. rewrite contains_char_cons.
  rewrite char_eqb_sym. apply negb_true_iff in Ha. rewrite Ha. apply IH. exact Hw.
Qed.

Module RealOptionForm.
Import ExtractRealQuestions.

Lemma real_option_ending_words w :
  Re.denotes option_ending w ->
  In w ["requirements"; "program"; "policy"; "plan"; "control"; "controls";
        "procedure"; "procedures"; "processe"; "processes"].
Proof.
  unfold option_ending, Re.Opt. cbn. intros H.
  inv_den; cbn; tauto.
Qed.

Lemma real_option_word_form (lead : string) w :
  Re.denotes (Re.Cat [Re.Lit lead; Re.Plus Re.greedy (Re.notc "N"); option_ending]) w ->
  exists body ending,
    w = lead ++ body ++ ending
    /\ body <> "" /\ Py.contains "N" body = false
    /\ In ending ["requirements"; "program"; "policy"; "plan"; "control"; "controls";
                  "procedure"; "procedures"; "processe"; "processes"].
Proof.
  intros H. cbn [Re.Cat] in H.
  inversion H as [| | |r1 r2 w1 t1 Hd1 Hd2| | | | | | | |]; subst.
  apply denotes_Lit in Hd1; subst.
  inversion Hd2 as [| | |r1 r2 w2 t2 Hd3 Hd4| | | | | | | |]; subst.
  apply denotes_plus_cls in Hd3 as [Hne Hall].
  exists w2, t2. split; [reflexivity|]. split; [assumption|].
  split; [apply all_in_not_char; assumption|apply real_option_ending_words; assumption].
Qed.

Section Options.
Variable P : string -> Prop.
Hypothesis P_not_applicable : P "Not applicable".
Hypothesis P_yes : forall w,
  Re.denotes (Re.Cat [Re.Lit "Yes,"; Re.Plus Re.greedy (Re.notc "N"); option_ending]) w -> P w.
Hypothesis P_no : forall w,
  Re.denotes (Re.Cat [Re.Lit "No,"; Re.Plus Re.greedy (Re.notc "N"); option_ending]) w -> P w.

Lemma real_add_options_forall matches : forall options,
  Forall (fun o => Py.strip o = o /\ P o) matches ->
  Forall P options -> Forall P (add_options options matches).
Proof.
  unfold add_options. induction matches as [|o ms IH]; intros options Hm Ho; cbn [fold_left].
  - assumption.
  - inversion Hm as [|? ? [Hs Hp] Hms]; subst.
    destruct (Py.mem o options); apply IH; try assumption.
    apply Forall_app; split; [assumption|]. rewrite Hs. constructor; [assumption|constructor].
Qed.

Lemma real_yes_matches line :
  Forall (fun o => Py.strip o = o /\ P o) (Re.findall yes_re line).
Proof.
  unfold Re.findall, yes_re. apply RealFacts.real_findall_go_forall.
  intros w Hw. split; [|apply P_yes; assumption].
  apply (RealFacts.real_option_word_stripped "Yes,"); [reflexivity|discriminate|assumption].
Qed.

Lemma real_no_matches line :
  Forall (fun o => Py.strip o = o /\ P o) (Re.findall no_re line).
Proof.
  unfold Re.findall, no_re. apply RealFacts.real_findall_go_forall.
  intros w Hw. split; [|apply P_no; assumption].
  apply (RealFacts.real_option_word_stripped "No,"); [reflexivity|discriminate|assumption].
Qed.

Lemma real_collect_options_forall line s :
  Forall P (s_options s) -> Forall P (s_options (collect_options line s)).
Proof.
  intros H. unfold collect_options.
  assert (H2 : Forall P (add_options (add_options (s_options s) (Re.findall yes_re line))
                                     (Re.findall no_re line))).
  { apply real_add_options_forall; [apply real_no_matches|].
    apply real_add_options_forall; [apply real_yes_matches|assumption]. }
  assert (H3 : Forall P (add_options (add_options (s_options s) (Re.findall yes_re line))
                                     (Re.findall no_re line) ++ ["Not applicable"])%list).
  { apply Forall_app; split; [exact H2|]. constructor; [exact P_not_applicable|constructor]. }
  repeat break_if; cbn [s_options]; assumption.
Qed.

Lemma real_scan_body_forall sid lines i s :
  Forall P (s_options s) -> Forall P (s_options (scan_body sid lines i s)).
Proof.
  intros H. unfold scan_body. destruct (_ && _); [exact H|].
  destruct (collect_text _ s) as [s1 c] eqn:E.
  assert (H1 : Forall P (s_options s1)).
  { pose proof (RealFacts.real_collect_text_options (Py.item lines (j s)) s) as Ho.
    rewrite E in Ho. cbn [fst] in Ho. rewrite Ho. exact H. }
  destruct c; [exact H1|apply real_collect_options_forall; exact H1].
Qed.

Lemma real_scan_forall sid lines i n s :
  scan sid lines i = Some (n, s) -> Forall P (s_options s).
Proof.
  unfold scan. intros H.
  eapply (while_invariant _ _ (fun s => Forall P (s_options s))) in H; [tauto| |constructor].
  intros s0 s' Hn _ Hb. inversion Hb; subst. apply real_scan_body_forall; assumption.
Qed.

End Options.

End RealOptionForm.

(** X4 (extractRealQuestions.py, lines 111-131).  Every option of every
    record that extractRealQuestions emits is either the literal "Not
    applicable", or a text that starts with "Yes," or "No,", goes on with
    one or more characters none of which is a capital N, and ends with one
    of the words requirements, program, policy, plan, control(s),
    procedure(s), processe(s). *)
Theorem real_option_form (sid : string) (lines : list string) :
  exists qs,
    ExtractRealQuestions.scan_lines sid lines = Some qs
    /\ Forall (fun q =>
         Forall (fun o =>
           o = "Not applicable"
           \/ exists lead body ending,
                o = lead ++ body ++ ending
                /\ (lead = "Yes," \/ lead = "No,")
                /\ body <> "" /\ Py.contains "N" body = false
                /\ In ending ["requirements"; "program"; "policy"; "plan"; "control";
                              "controls"; "procedure"; "procedures"; "processe";
                              "processes"])
           (options q)) qs.
Proof.
  apply RealRecords.real_scan_lines_forall.
  intros i q_match n s Hi Hq Hs Hk.
  unfold ExtractRealQuestions.build_question. cbn [options].
  eapply RealOptionForm.real_scan_forall; [| | |exact Hs].
  - left; reflexivity.
  - intros w Hw. right. apply RealOptionForm.real_option_word_form in Hw as (b & e & -> & H1 & H2 & H3).
    exists "Yes,", b, e. auto.
  - intros w Hw. right. apply RealOptionForm.real_option_word_form in Hw as (b & e & -> & H1 & H2 & H3).
    exists "No,", b, e. auto.
Qed.

(* ------------------------------------------------------------------------- *)
(** ** The records of parseFordSurveyImproved.py *)

Lemma lookup_skip n (added rest : list (nat * string)) :
  Forall (fun c => fst c <> n) added ->
  Re.lookup n (added ++ rest) = Re.lookup n rest.
Proof.
  induction added as [|[i v] added IH]; [reflexivity|].
  intros H. inversion H as [|? ? Hi Ha]; subst. cbn [app Re.lookup].
  cbn [fst] in Hi. apply Nat.eqb_neq in Hi. rewrite Hi. apply IH. exact Ha.
Qed.

Module ImprovedRecords.
Import ParseFordSurveyImproved.

(** What holds of every record built at a question line holds of every
    record of the scan. *)
Lemma improved_scan_lines_forall sid lines (P : Question -> Prop) :
  (forall i q_match n s,
      i < length lines ->
      Re.re_match (question_pattern sid) (Py.item lines i) = Some q_match ->
      scan sid lines i = Some (n, s) ->
      P (build_question lines i (sid ++ "." ++ Re.group 1 q_match) s)) ->
  exists qs, scan_lines sid lines = Some qs /\ Forall P qs.
Proof.
  intros HP.
  destruct (ImprovedFacts.improved_scan_lines_counted_total sid lines) as (n & qs & H & _).
  exists qs. unfold scan_lines. rewrite H. split; [reflexivity|].
  unfold scan_lines_counted, scan_from in H.
  destruct (Loop.while _ _ _ _) as [[n' [i' qs']]|] eqn:E; [|discriminate].
  inversion H; subst.
  eapply (while_invariant _ _ (fun st => Forall P (snd st))) in E; [apply E| |constructor].
  intros [i qs0] st' Hq Hc Hb. unfold outer_cond in Hc. cbn [fst] in Hc.
  apply Nat.ltb_lt in Hc. unfold outer_body in Hb. cbn [snd] in Hq.
  destruct (Re.re_match _ _) as [q_match|] eqn:Eq; [|inversion Hb; subst; assumption].
  destruct (scan sid lines i) as [[c s]|] eqn:Es; [|discriminate].
  inversion Hb; subst. cbn [snd]. apply Forall_app; split; [assumption|].
  constructor; [|constructor]. eapply HP; eassumption.
Qed.

(** A line matched by the question pattern: some text, the section
    identifier, a dot, the digits of the question number, white space, and
    at least one more character. *)
Lemma improved_question_pattern_inv sid line x :
  Re.re_match (question_pattern sid) line = Some x ->
  exists a w t,
    line = a ++ (sid ++ "." ++ Re.group 1 x) ++ w ++ t
    /\ Re.group 1 x <> "" /\ Re.all_in Py.is_digit (Re.group 1 x) = true
    /\ w <> "" /\ Re.all_in Py.is_space w = true
    /\ t <> "".
Proof.
  unfold Re.re_match. intros H.
  destruct (Re.m _ Some _) as [st|] eqn:Hm; [|discriminate].
  inversion H; subst x. clear H.
  unfold question_pattern in Hm. cbn [Re.Cat] in Hm. rewrite m_Seq in Hm.
  apply m_plain in Hm as (w0 & st0 & Hd0 & [Hr0 _] & Hc0 & Hm); [|reflexivity].
  inversion Hd0; subst. rewrite m_Seq in Hm.
  apply m_plain in Hm as (a & st1 & Hd1 & [Hr1 _] & Hc1 & Hm); [|reflexivity].
  rewrite m_Seq in Hm.
  apply m_plain in Hm as (w2 & st2 & Hd2 & [Hr2 _] & Hc2 & Hm); [|apply groups_of_Lit].
  apply denotes_Lit in Hd2. subst w2. rewrite m_Seq in Hm.
  apply m_plain in Hm as (w3 & st3 & Hd3 & [Hr3 _] & Hc3 & Hm); [|reflexivity].
  inversion Hd3; subst. rewrite m_Seq in Hm.
  apply m_group in Hm as (n & st4 & Hd4 & [Hr4 _] & Hc4 & Hm); [|reflexivity].
  apply denotes_plus_cls in Hd4 as [Hne Hdig]. rewrite m_Seq in Hm.
  apply m_plain in Hm as (w & st5 & Hd5 & [Hr5 _] & Hc5 & Hm); [|reflexivity].
  apply denotes_plus_cls in Hd5 as [Hwne Hws]. rewrite m_Seq in Hm.
  apply m_group in Hm as (t & st6 & Hd6 & [Hr6 _] & Hc6 & Hm); [|reflexivity].
  apply denotes_plus_cls in Hd6 as [Htne _].
  apply m_plain in Hm as (w7 & st7 & Hd7 & [Hr7 _] & Hc7 & Hm); [|reflexivity].
  inversion Hd7; subst. inversion Hm; subst st7. clear Hm.
  assert (Hg : Re.group 1 (Re.RMatch 0 st) = n).
  { unfold Re.group. cbn [Re.m_final]. rewrite Hc7, Hc6, Hc5, Hc4. reflexivity. }
  rewrite Hg. exists a, w, (t ++ Re.rest st).
  split.
  - cbn [Re.rest append] in Hr0, Hr7. rewrite Hr0, Hr1, Hr2, Hr3, Hr4, Hr5, Hr6, Hr7.
    cbn [append]. rewrite !app_assoc_s. reflexivity.
  - repeat split; try assumption. destruct t; [congruence|discriminate].
Qed.

(** The options are lines of the document of one of three forms. *)
Lemma improved_scan_body_options sid lines s :
  j s < length lines ->
  Forall (fun o => In o lines
                   /\ (Py.startswith o "Yes," || Py.startswith o "No,"
                       || String.eqb o "Not applicable") = true) (s_options s) ->
  Forall (fun o => In o lines
                   /\ (Py.startswith o "Yes," || Py.startswith o "No,"
                       || String.eqb o "Not applicable") = true)
         (s_options (scan_body sid lines s)).
Proof.
  intros Hj H. unfold scan_body.
  repeat break_if;
    cbn [s_options set_j set_help set_collecting set_answered_by set_answered_date
         set_comments append_text append_option do_break];
    try assumption;
    (apply Forall_app; split; [assumption|]; constructor; [|constructor];
     split; [apply item_In; assumption|]).
  - match goal with H : _ || _ = true |- _ => rewrite H end. reflexivity.
  - match goal with H : String.eqb _ _ = true |- _ => rewrite H end.
    rewrite !orb_true_r. reflexivity.
Qed.

Lemma improved_scan_options sid lines i n s :
  scan sid lines i = Some (n, s) ->
  Forall (fun o => In o lines
                   /\ (Py.startswith o "Yes," || Py.startswith o "No,"
                       || String.eqb o "Not applicable") = true) (s_options s).
Proof.
  unfold scan. intros H.
  eapply (while_invariant _ _
            (fun s => Forall (fun o => In o lines
                   /\ (Py.startswith o "Yes," || Py.startswith o "No,"
                       || String.eqb o "Not applicable") = true) (s_options s)))
    in H; [tauto| |constructor].
  intros s0 s' Hn Hc Hb. inversion Hb; subst. apply improved_scan_body_options; [|assumption].
  unfold scan_cond in Hc. apply andb_prop in Hc as [Hc _]. apply andb_prop in Hc as [_ Hc].
  apply Nat.ltb_lt in Hc. exact Hc.
Qed.

End ImprovedRecords.

(** X5 (parseFordSurveyImproved.py, lines 92-228).  For a section
    identifier made of letters and digits, every record that
    parseFordSurveyImproved emits for the section has an identifier made of
    the section identifier, a dot and a non-empty run of decimal digits,
    and the identifier occurs in a line of the document; its question text
    is never empty; its answer type is "single-choice" and no selected
    option is ever reported. *)
Theorem improved_records_well_formed (sid : string) (lines : list string)
  (Hsid : Re.plain_id sid = true) :
  exists qs,
    ParseFordSurveyImproved.scan_lines sid lines = Some qs
    /\ Forall (fun q =>
         (exists n line,
             questionId q = sid ++ "." ++ n
             /\ n <> "" /\ Re.all_in Py.is_digit n = true
             /\ In line lines /\ Py.contains (questionId q) line = true)
         /\ questionText q <> ""
         /\ answerType q = "single-choice"
         /\ selectedOption (givenAnswer q) = None) qs.
Proof.
  clear Hsid. apply ImprovedRecords.improved_scan_lines_forall.
  intros i q_match n s Hi Hq Hs.
  apply ImprovedRecords.improved_question_pattern_inv in Hq
    as (a & w & t & Hline & Hne & Hdig & _).
  split; [|split; [apply ImprovedFacts.improved_build_question_text|split; reflexivity]].
  exists (Re.group 1 q_match), (Py.item lines i).
  split; [reflexivity|]. split; [assumption|]. split; [assumption|].
  split; [apply item_In; assumption|].
  cbn [ParseFordSurveyImproved.build_question questionId].
  rewrite Hline. apply contains_app.
Qed.

Lemma improved_records_well_formed_witness :
  Re.plain_id "A" = true
  /\ exists qs, ParseFordSurveyImproved.scan_lines "A" Inputs.end_to_end = Some qs.
Proof.
  split; [reflexivity|].
  destruct (improved_records_well_formed "A" Inputs.end_to_end eq_refl) as (qs & H & _).
  exists qs. exact H.
Defined.

(** X6 (parseFordSurveyImproved.py, lines 144-154).  Every option of every
    record that parseFordSurveyImproved emits is a line of the document,
    taken whole, that starts with "Yes," or with "No," or is the line
    "Not applicable". *)
Theorem improved_option_form (sid : string) (lines : list string) :
  exists qs,
    ParseFordSurveyImproved.scan_lines sid lines = Some qs
    /\ Forall (fun q =>
         Forall (fun o =>
           In o lines
           /\ (Py.startswith o "Yes," || Py.startswith o "No,"
               || String.eqb o "Not applicable") = true)
           (options q)) qs.
Proof.
  apply ImprovedRecords.improved_scan_lines_forall.
  intros i q_match n s Hi Hq Hs.
  cbn [ParseFordSurveyImproved.build_question options].
  eapply ImprovedRecords.improved_scan_options. exact Hs.
Qed.

(* ------------------------------------------------------------------------- *)
(** ** The records of extractFord2024Survey.py *)

Lemma int_go_nonneg : forall s acc, (0 <= acc)%Z -> (0 <= Py.int_go acc s)%Z.
Proof.
  induction s as [|c s IH]; intros acc H; cbn [Py.int_go]; [exact H|].
  apply IH. pose proof (digit_val_nonneg c). lia.
Qed.

Lemma int_nonneg s z : Py.int s = Returned z -> (0 <= z)%Z.
Proof.
  unfold Py.int. destruct (Nat.ltb _ _); [discriminate|].
  intros H. inversion H. apply int_go_nonneg. lia.
Qed.

(** A string within the limit of [int] is converted. *)
Lemma int_returns s :
  String.length s <= Py.max_str_digits -> Py.int s = Returned (Py.int_go 0 s).
Proof.
  intros H. unfold Py.int.
  destruct (Nat.ltb_spec Py.max_str_digits (String.length s)); [lia|reflexivity].
Qed.


Lemma prefix_app_l (x s t : string) :
  String.prefix x s = true -> String.prefix x (s ++ t) = true.
Proof.
  intros H. apply prefix_inv in H as [r ->]. rewrite app_assoc_s. apply prefix_app.
Qed.

(** Stripping keeps a leading text that has no blank at either end. *)
Lemma rstrip_cons c s :
  Py.rstrip (String c s) =
  match Py.rstrip s with
  | EmptyString => if Py.is_space c then EmptyString else String c EmptyString
  | t => String c t
  end.
Proof. reflexivity. Qed.

Lemma rstrip_keeps_lead : forall lead s,
  lead <> "" -> Py.rstrip lead = lead ->
  exists t, Py.rstrip (lead ++ s) = lead ++ t.
Proof.
  induction lead as [|c lead IH]; intros s Hne Hr; [congruence|].
  rewrite rstrip_cons in Hr. change (String c lead ++ s) with (String c (lead ++ s)).
  rewrite rstrip_cons.
  destruct lead as [|c' lead'].
  - cbn [Py.rstrip append] in *.
    destruct (Py.is_space c); [discriminate|].
    destruct (Py.rstrip s) as [|a t]; [exists ""|exists (String a t)]; reflexivity.
  - assert (Hr' : Py.rstrip (String c' lead') = String c' lead').
    { destruct (Py.rstrip (String c' lead')) as [|a t].
      - destruct (Py.is_space c); discriminate.
      - inversion Hr; reflexivity. }
    destruct (IH s ltac:(discriminate) Hr') as [t Ht].
    exists t. rewrite Ht. reflexivity.
Qed.

Lemma strip_keeps_lead lead s :
  lead <> "" -> Py.lstrip lead = lead -> Py.rstrip lead = lead ->
  Py.startswith (Py.strip (lead ++ s)) lead = true.
Proof.
  intros Hne Hl Hr. unfold Py.strip, Py.startswith.
  assert (E : Py.lstrip (lead ++ s) = lead ++ s).
  { destruct lead as [|c lead]; [congruence|]. cbn [append Py.lstrip] in *.
    destruct (Py.is_space c); [|reflexivity].
    exfalso.
    assert (L : forall u, String.length (Py.lstrip u) <= String.length u).
    { induction u as [|a u IHu]; cbn; [lia|]. destruct (Py.is_space a); cbn; lia. }
    specialize (L lead). rewrite Hl in L. cbn in L. lia. }
  rewrite E. destruct (rstrip_keeps_lead lead s Hne Hr) as [t ->]. apply prefix_app.
Qed.

Module FordRecords.
Import ExtractFord2024Survey.

(** What holds of every record built at a question line, in either format,
    holds of every record of a scan that returns. *)
Lemma ford_scan_lines_forall_returned sid lines (P : ScoredQuestion -> Prop) :
  (forall i q_match same scoring,
      i < length lines ->
      let line := Py.item lines i in
      Re.re_search (q_pattern sid) line = Some q_match ->
      scoring_lookahead lines i = Returned scoring ->
      Re.re_search (same_line_re sid (Re.group 1 q_match)) line = Some same ->
      Py.truthy (Py.strip (Re.group 1 same)) = true ->
      P (mkScored (sid ++ "." ++ Re.group 1 q_match) (Py.strip (Re.group 1 same))
                  (same_line_help line) "single-choice" (same_line_options line)
                  scoring
                  (mkAnswer (line_selected_option sid (Re.group 1 q_match) line) None
                            (line_answered_by line) (line_answered_date line)))) ->
  (forall i q_match n s scoring,
      i < length lines ->
      let line := Py.item lines i in
      Re.re_search (q_pattern sid) line = Some q_match ->
      scoring_lookahead lines i = Returned scoring ->
      scan sid lines i = Some (n, s) ->
      keeps_record (clean_text (question_text s)) = true ->
      P (mkScored (sid ++ "." ++ Re.group 1 q_match) (clean_text (question_text s))
                  (help_text s) "single-choice" (s_options s)
                  scoring
                  (mkAnswer (line_selected_option sid (Re.group 1 q_match) line)
                            (s_comments s)
                            (line_answered_by line) (line_answered_date line)))) ->
  exists r, scan_lines sid lines = Some r
            /\ forall qs, r = Returned qs -> Forall P qs.
Proof.
  intros HP1 HP2.
  destruct (FordFacts.ford_scan_lines_counted_total sid lines) as (n & r & H & _).
  exists r. unfold scan_lines. rewrite H. split; [reflexivity|].
  intros qs ->.
  unfold scan_lines_counted in H.
  destruct (Loop.while_raising _ _ _ _) as [[n' [[i' qs']|e]]|] eqn:E; try discriminate.
  inversion H; subst.
  eapply (while_raising_invariant _ _ (fun st => Forall P (snd st))) in E;
    [apply E| |constructor].
  intros [i qs0] st' Hq Hc Hb. unfold outer_cond in Hc. cbn [fst] in Hc.
  apply Nat.ltb_lt in Hc. unfold outer_body in Hb. cbn [snd] in Hq.
  destruct (is_question_start sid _); [|inversion Hb; subst; assumption].
  destruct (Re.re_search (q_pattern sid) _) as [q_match|] eqn:Eq;
    [|inversion Hb; subst; assumption].
  destruct (scoring_lookahead lines i) as [scoring|e] eqn:Esc; [|discriminate].
  destruct (Re.re_search (same_line_re _ _) _) as [same|] eqn:Esame.
  - inversion Hb; subst. cbn [snd].
    destruct (Py.truthy _) eqn:Et; [|assumption].
    apply Forall_app; split; [assumption|]. constructor; [|constructor].
    apply HP1; assumption.
  - destruct (scan sid lines i) as [[c s]|] eqn:Es; [|discriminate].
    inversion Hb; subst. cbn [snd].
    destruct (keeps_record _) eqn:Ek; [|assumption].
    apply Forall_app; split; [assumption|]. constructor; [|constructor].
    eapply HP2; eassumption.
Qed.

(** The scan returns when every scoring look-ahead does. *)
Lemma ford_scan_lines_returns sid lines :
  (forall i, exists scoring, scoring_lookahead lines i = Returned scoring) ->
  exists qs, scan_lines sid lines = Some (Returned qs).
Proof.
  intros Hsc. unfold scan_lines, scan_lines_counted, Loop.while_raising.
  destruct (while_terminates
              (fun r => match r with
                        | Returned s => outer_cond lines s
                        | Raised _ => false
                        end)
              (fun r => match r with
                        | Returned s => outer_body sid lines s
                        | Raised e => Some (Raised e)
                        end)
              (fun r => exists st, r = Returned st)
              (fun r => match r with
                        | Returned st => length lines - fst st
                        | Raised _ => 0
                        end))
    with (fuel := length lines) (s := @Returned (nat * list ScoredQuestion) (0, []))
    as (n & r & Hw & _ & [[i qs] ->] & _).
  - intros r [st ->] Hc.
    destruct (FordFacts.ford_outer_body_progress sid lines st Hc) as (r & Hb & Hlt).
    exists r. split; [exact Hb|].
    assert (Hr : exists st', r = Returned st').
    { destruct st as [i qs]. unfold outer_body in Hb.
      destruct (is_question_start sid _); [|inversion Hb; eauto].
      destruct (Re.re_search (q_pattern sid) _); [|inversion Hb; eauto].
      destruct (Hsc i) as [sc Esc]. rewrite Esc in Hb.
      destruct (Re.re_search (same_line_re _ _) _); [inversion Hb; eauto|].
      destruct (scan sid lines i) as [[c s]|]; [inversion Hb; eauto|discriminate]. }
    destruct Hr as [st' ->]. split; [eauto|].
    specialize (Hlt st' eq_refl).
    unfold outer_cond in Hc. apply Nat.ltb_lt in Hc. lia.
  - eauto.
  - cbn [fst]. lia.
  - rewrite Hw. exists qs. reflexivity.
Qed.

(** The qualifier of a question: a non-empty run of digits, capitals and
    dots that follows the section identifier and a dot in the line. *)
Lemma ford_q_pattern_group sid line x :
  Re.re_search (q_pattern sid) line = Some x ->
  exists pre post,
    line = pre ++ (sid ++ "." ++ Re.group 1 x) ++ post
    /\ Re.group 1 x <> "" /\ Re.all_in qualifier_char (Re.group 1 x) = true.
Proof.
  unfold Re.re_search. intros H.
  apply search_from_inv in H as (pre & s' & -> & _ & Hm).
  unfold q_pattern in Hm. cbn [Re.Cat] in Hm. rewrite m_Seq in Hm.
  apply m_plain in Hm as (w1 & st1 & Hd1 & [Hr1 _] & Hc1 & Hm); [|apply groups_of_Lit].
  apply denotes_Lit in Hd1. subst w1. rewrite m_Seq in Hm.
  apply m_plain in Hm as (w2 & st2 & Hd2 & [Hr2 _] & Hc2 & Hm); [|reflexivity].
  inversion Hd2; subst.
  apply m_group in Hm as (w3 & st3 & Hd3 & [Hr3 _] & Hc3 & Hm); [|reflexivity].
  apply denotes_plus_cls in Hd3 as [Hne Hdig].
  inversion Hm as [Hx]. unfold Re.group. rewrite <- Hx, Hc3. cbn [Re.lookup Nat.eqb].
  exists pre, (Re.rest st3). split; [|split; assumption].
  cbn [Re.rest] in Hr1. rewrite Hr1, Hr2, Hr3. rewrite !app_assoc_s. reflexivity.
Qed.

(** What the scoring pattern reads: two non-empty runs of digits of the
    line. *)
Lemma ford_score_re_groups line x :
  Re.re_search score_re line = Some x ->
  exists pre a c e post,
    line = pre ++ "Likelihood:" ++ a ++ Re.group 1 x ++ "," ++ c
               ++ "Overall impact:" ++ e ++ Re.group 2 x ++ post
    /\ Re.all_in Py.is_space a = true /\ Re.all_in Py.is_space c = true
    /\ Re.all_in Py.is_space e = true
    /\ Re.group 1 x <> "" /\ Re.all_in Py.is_digit (Re.group 1 x) = true
    /\ Re.group 2 x <> "" /\ Re.all_in Py.is_digit (Re.group 2 x) = true.
Proof.
  unfold Re.re_search. intros H.
  apply search_from_inv in H as (pre & s' & -> & _ & Hm).
  unfold score_re in Hm. cbn [Re.Cat] in Hm. rewrite m_Seq in Hm.
  apply m_plain in Hm as (w1 & st1 & Hd1 & [Hr1 _] & Hc1 & Hm); [|apply groups_of_Lit].
  apply denotes_Lit in Hd1. subst w1. rewrite m_Seq in Hm.
  apply m_plain in Hm as (w2 & st2 & Hd2 & [Hr2 _] & Hc2 & Hm); [|reflexivity].
  apply denotes_star_cls in Hd2. rewrite m_Seq in Hm.
  apply m_group in Hm as (w3 & st3 & Hd3 & [Hr3 _] & Hc3 & Hm); [|reflexivity].
  apply denotes_plus_cls in Hd3 as [Hne3 Hdig3]. rewrite m_Seq in Hm.
  apply m_plain in Hm as (w4 & st4 & Hd4 & [Hr4 _] & Hc4 & Hm); [|reflexivity].
  inversion Hd4; subst. rewrite m_Seq in Hm.
  apply m_plain in Hm as (w5 & st5 & Hd5 & [Hr5 _] & Hc5 & Hm); [|reflexivity].
  apply denotes_star_cls in Hd5. rewrite m_Seq in Hm.
  apply m_plain in Hm as (w6 & st6 & Hd6 & [Hr6 _] & Hc6 & Hm); [|apply groups_of_Lit].
  apply denotes_Lit in Hd6. subst w6. rewrite m_Seq in Hm.
  apply m_plain in Hm as (w7 & st7 & Hd7 & [Hr7 _] & Hc7 & Hm); [|reflexivity].
  apply denotes_star_cls in Hd7.
  apply m_group in Hm as (w8 & st8 & Hd8 & [Hr8 _] & Hc8 & Hm); [|reflexivity].
  apply denotes_plus_cls in Hd8 as [Hne8 Hdig8].
  inversion Hm as [Hx].
  assert (G1 : Re.group 1 x = w3).
  { unfold Re.group. rewrite <- Hx, Hc8, Hc7, Hc6, Hc5, Hc4, Hc3. reflexivity. }
  assert (G2 : Re.group 2 x = w8).
  { unfold Re.group. rewrite <- Hx, Hc8. reflexivity. }
  rewrite G1, G2.
  exists pre, w2, w5, w7, (Re.rest st8).
  split; [|repeat split; assumption].
  cbn [Re.rest] in Hr1. rewrite Hr1, Hr2, Hr3, Hr4, Hr5, Hr6, Hr7, Hr8.
  rewrite ?app_assoc_s. reflexivity.
Qed.

Lemma ford_score_re_groups_short line x :
  Re.re_search score_re line = Some x ->
  String.length (Re.group 1 x) <= String.length line
  /\ String.length (Re.group 2 x) <= String.length line.
Proof.
  intros H. apply ford_score_re_groups in H as (pre & a & c & e & post & -> & _).
  rewrite !length_app_s. split; lia.
Qed.

(** The scoring look-ahead sets both values, or none. *)
Lemma ford_scoring_loop_both lines : forall n j sc,
  scoring_loop lines j n = Returned sc ->
  (likelihood sc = None /\ overallImpact sc = None)
  \/ (exists a b, likelihood sc = Some a /\ overallImpact sc = Some b
                  /\ (0 <= a)%Z /\ (0 <= b)%Z).
Proof.
  induction n as [|n IH]; intros j sc; cbn [scoring_loop].
  - intros H. inversion H. left; split; reflexivity.
  - destruct (_ && _); [|apply IH].
    destruct (Re.re_search score_re _) as [mo|]; [|apply IH].
    unfold score_of, bind.
    destruct (Py.int (Re.group 1 mo)) as [a|e] eqn:Ea; [|discriminate].
    destruct (Py.int (Re.group 2 mo)) as [b|e] eqn:Eb; [|discriminate].
    intros H. inversion H. right. exists a, b. cbn [likelihood overallImpact].
    split; [reflexivity|]. split; [reflexivity|].
    split; eapply int_nonneg; eassumption.
Qed.

(** The look-ahead returns when the lines that it reads are within the
    limit of [int]. *)
Lemma ford_scoring_loop_returns lines : forall n j,
  j + n <= length lines ->
  Forall (fun line => String.length line <= Py.max_str_digits) lines ->
  exists sc, scoring_loop lines j n = Returned sc.
Proof.
  induction n as [|n IH]; intros j Hj Hs; cbn [scoring_loop]; [eauto|].
  assert (IHn : exists sc, scoring_loop lines (j + 1) n = Returned sc)
    by (apply IH; [lia|exact Hs]).
  destruct (_ && _); [|exact IHn].
  destruct (Re.re_search score_re _) as [mo|] eqn:E; [|exact IHn].
  apply ford_score_re_groups_short in E as [E1 E2].
  assert (Hl : String.length (Py.item lines j) <= Py.max_str_digits).
  { rewrite Forall_forall in Hs. apply Hs. apply item_In. lia. }
  unfold score_of, bind.
  rewrite (int_returns (Re.group 1 mo)) by lia.
  rewrite (int_returns (Re.group 2 mo)) by lia. eauto.
Qed.

Lemma ford_scoring_lookahead_returns lines i :
  Forall (fun line => String.length line <= Py.max_str_digits) lines ->
  exists sc, scoring_lookahead lines i = Returned sc.
Proof.
  intros Hs. unfold scoring_lookahead.
  destruct (Nat.le_gt_cases (length lines) i) as [Hi|Hi].
  - replace (Nat.min (i + 50) (length lines) - i) with 0 by lia.
    cbn [scoring_loop]. eauto.
  - apply ford_scoring_loop_returns; [lia|exact Hs].
Qed.

(** The scan ends; it returns when no line is beyond the limit of [int];
    and what holds of every record built at a question line holds of every
    record that it returns. *)
Lemma ford_scan_lines_forall sid lines (P : ScoredQuestion -> Prop) :
  (forall i q_match same scoring,
      i < length lines ->
      let line := Py.item lines i in
      Re.re_search (q_pattern sid) line = Some q_match ->
      scoring_lookahead lines i = Returned scoring ->
      Re.re_search (same_line_re sid (Re.group 1 q_match)) line = Some same ->
      Py.truthy (Py.strip (Re.group 1 same)) = true ->
      P (mkScored (sid ++ "." ++ Re.group 1 q_match) (Py.strip (Re.group 1 same))
                  (same_line_help line) "single-choice" (same_line_options line)
                  scoring
                  (mkAnswer (line_selected_option sid (Re.group 1 q_match) line) None
                            (line_answered_by line) (line_answered_date line)))) ->
  (forall i q_match n s scoring,
      i < length lines ->
      let line := Py.item lines i in
      Re.re_search (q_pattern sid) line = Some q_match ->
      scoring_lookahead lines i = Returned scoring ->
      scan sid lines i = Some (n, s) ->
      keeps_record (clean_text (question_text s)) = true ->
      P (mkScored (sid ++ "." ++ Re.group 1 q_match) (clean_text (question_text s))
                  (help_text s) "single-choice" (s_options s)
                  scoring
                  (mkAnswer (line_selected_option sid (Re.group 1 q_match) line)
                            (s_comments s)
                            (line_answered_by line) (line_answered_date line)))) ->
  exists r, scan_lines sid lines = Some r
            /\ (Forall (fun line => String.length line <= Py.max_str_digits) lines ->
                exists qs, r = Returned qs)
            /\ forall qs, r = Returned qs -> Forall P qs.
Proof.
  intros HP1 HP2.
  destruct (ford_scan_lines_forall_returned sid lines P HP1 HP2) as (r & Hr & Hall).
  exists r. split; [exact Hr|]. split; [|exact Hall].
  intros Hshort.
  destruct (ford_scan_lines_returns sid lines) as [qs Hqs].
  - intros i. apply ford_scoring_lookahead_returns. exact Hshort.
  - exists qs. congruence.
Qed.

(** An iteration of the outer loop raises only by the scoring look-ahead. *)
Lemma ford_outer_body_raises sid lines st e :
  outer_body sid lines st = Some (Raised e) ->
  scoring_lookahead lines (fst st) = Raised e.
Proof.
  destruct st as [i qs]. unfold outer_body. cbn [fst].
  destruct (is_question_start sid _); [|discriminate].
  destruct (Re.re_search (q_pattern sid) _); [|discriminate].
  destruct (scoring_lookahead lines i) as [sc|e']; [|intros H; inversion H; reflexivity].
  destruct (Re.re_search (same_line_re _ _) _); [discriminate|].
  destruct (scan sid lines i) as [[c s]|]; discriminate.
Qed.

Lemma ford_scan_lines_counted_ends sid lines :
  exists n r, scan_lines_counted sid lines = Some (n, r)
              /\ n <= length lines
              /\ (Forall (fun line => String.length line <= Py.max_str_digits) lines ->
                  exists qs, r = Returned qs).
Proof.
  destruct (FordFacts.ford_scan_lines_counted_total sid lines) as (n & r & H & Hn).
  exists n, r. split; [exact H|]. split; [exact Hn|].
  intros Hshort.
  destruct (ford_scan_lines_returns sid lines) as [qs Hqs].
  - intros i. apply ford_scoring_lookahead_returns. exact Hshort.
  - unfold scan_lines in Hqs. rewrite H in Hqs. cbn [option_map snd] in Hqs.
    exists qs. congruence.
Qed.

End FordRecords.

(** X7 (extractFord2024Survey.py, lines 39-266).  For a section identifier
    made of letters and digits, the scan of extractFord2024Survey ends: it
    returns its records or raises the exception of a scoring conversion,
    and it returns when no line of the document has more than 4300
    characters.  Every record that it returns, in the single-line or in the
    multi-line format, has an identifier made of the section identifier, a
    dot and a non-empty run of digits, capital letters and dots, and the
    identifier occurs in a line of the document; its question text is not
    empty; its answer type is "single-choice"; and its scoring has either
    both values absent or both present, each a number that is not
    negative. *)
Theorem ford_records_well_formed (sid : string) (lines : list string)
  (Hsid : Re.plain_id sid = true) :
  exists r,
    ExtractFord2024Survey.scan_lines sid lines = Some r
    /\ (Forall (fun line => String.length line <= Py.max_str_digits) lines ->
        exists qs, r = Returned qs)
    /\ forall qs, r = Returned qs ->
       Forall (fun q =>
         (exists n line,
             ExtractFord2024Survey.q_questionId q = sid ++ "." ++ n
             /\ n <> "" /\ Re.all_in ExtractFord2024Survey.qualifier_char n = true
             /\ In line lines
             /\ Py.contains (ExtractFord2024Survey.q_questionId q) line = true)
         /\ ExtractFord2024Survey.q_questionText q <> ""
         /\ ExtractFord2024Survey.q_answerType q = "single-choice"
         /\ let sc := ExtractFord2024Survey.q_scoring q in
            (ExtractFord2024Survey.likelihood sc = None
             /\ ExtractFord2024Survey.overallImpact sc = None)
            \/ (exists a b,
                   ExtractFord2024Survey.likelihood sc = Some a
                   /\ ExtractFord2024Survey.overallImpact sc = Some b
                   /\ (0 <= a)%Z /\ (0 <= b)%Z)) qs.
Proof.
  clear Hsid. apply FordRecords.ford_scan_lines_forall.
  - intros i q_match same scoring Hi line Hq Hsc Hsame Ht.
    cbn [ExtractFord2024Survey.q_questionId ExtractFord2024Survey.q_questionText
         ExtractFord2024Survey.q_answerType ExtractFord2024Survey.q_scoring].
    apply FordRecords.ford_q_pattern_group in Hq as (pre & post & Hline & Hne & Hq).
    split.
    + exists (Re.group 1 q_match), line.
      split; [reflexivity|]. split; [assumption|]. split; [assumption|].
      split; [apply item_In; assumption|].
      rewrite Hline. apply contains_app.
    + split; [apply truthy_nonempty; assumption|]. split; [reflexivity|].
      eapply FordRecords.ford_scoring_loop_both. exact Hsc.
  - intros i q_match n s scoring Hi line Hq Hsc Hs Hk.
    cbn [ExtractFord2024Survey.q_questionId ExtractFord2024Survey.q_questionText
         ExtractFord2024Survey.q_answerType ExtractFord2024Survey.q_scoring].
    apply FordRecords.ford_q_pattern_group in Hq as (pre & post & Hline & Hne & Hq).
    split.
    + exists (Re.group 1 q_match), line.
      split; [reflexivity|]. split; [assumption|]. split; [assumption|].
      split; [apply item_In; assumption|].
      rewrite Hline. apply contains_app.
    + unfold ExtractFord2024Survey.keeps_record in Hk.
      apply andb_prop in Hk as [Ht _].
      split; [apply truthy_nonempty; assumption|]. split; [reflexivity|].
      eapply FordRecords.ford_scoring_loop_both. exact Hsc.
Qed.

Lemma ford_records_well_formed_witness :
  Re.plain_id "P" = true
  /\ exists r, ExtractFord2024Survey.scan_lines "P" Inputs.scored = Some r.
Proof.
  split; [reflexivity|].
  destruct (ford_records_well_formed "P" Inputs.scored eq_refl) as (r & Hr & _).
  exists r. exact Hr.
Defined.

(** *** The options of a record *)

Module FordOptionForm.
Import ExtractFord2024Survey.

Lemma ford_continuation_extends sid lines stops k opt k' opt' :
  continuation sid lines stops k opt = Some (k', opt') ->
  exists extra, opt' = opt ++ extra.
Proof.
  unfold continuation.
  destruct (Loop.while _ _ _ _) as [[n [[k1 o1] b1]]|] eqn:E; [|discriminate].
  intros H. inversion H; subst.
  eapply (while_invariant _ _ (fun st => exists extra, snd (fst st) = opt ++ extra)) in E.
  - destruct E as [[extra He] _]. exists extra. exact He.
  - intros [[k0 o0] b0] st' [extra He] _ Hb. cbn [fst snd] in He. subst o0.
    inversion Hb; subst. unfold cont_body. destruct (_ && _); cbn [fst snd].
    + exists (extra ++ " " ++ Py.item lines k0). rewrite !app_assoc_s. reflexivity.
    + exists extra. reflexivity.
  - exists "". cbn [fst snd]. rewrite app_nil_r_s. reflexivity.
Qed.

Lemma ford_stripped_yes s :
  Py.startswith s "Yes," = true ->
  (Py.startswith (Py.strip s) "Yes," || Py.startswith (Py.strip s) "No,"
   || String.eqb (Py.strip s) "Not applicable") = true.
Proof.
  intros H. apply prefix_inv in H as [r ->].
  rewrite (strip_keeps_lead "Yes," r); [reflexivity|discriminate|reflexivity|reflexivity].
Qed.

Lemma ford_stripped_no s :
  Py.startswith s "No," = true ->
  (Py.startswith (Py.strip s) "Yes," || Py.startswith (Py.strip s) "No,"
   || String.eqb (Py.strip s) "Not applicable") = true.
Proof.
  intros H. apply prefix_inv in H as [r ->].
  rewrite (strip_keeps_lead "No," r); [|discriminate|reflexivity|reflexivity].
  rewrite orb_true_r. reflexivity.
Qed.

Lemma ford_collect_options_form sid lines next_line s s2 :
  Forall (fun o => (Py.startswith o "Yes," || Py.startswith o "No,"
                    || String.eqb o "Not applicable") = true) (s_options s) ->
  collect_options sid lines next_line s = Some s2 ->
  Forall (fun o => (Py.startswith o "Yes," || Py.startswith o "No,"
                    || String.eqb o "Not applicable") = true) (s_options s2).
Proof.
  intros H. unfold collect_options.
  destruct (_ || _); [|intros E; inversion E; subst; exact H].
  destruct (Py.startswith next_line "Yes,") eqn:Ey.
  - destruct (continuation _ _ _ _ _) as [[k yes_opt]|] eqn:Ec; [|discriminate].
    intros E. inversion E; subst. cbn [s_options].
    destruct (Py.mem _ _); [exact H|].
    apply Forall_app; split; [exact H|]. constructor; [|constructor].
    apply ford_continuation_extends in Ec as [extra ->].
    apply ford_stripped_yes. apply prefix_app_l. exact Ey.
  - destruct (Py.startswith next_line "No,") eqn:En.
    + destruct (continuation _ _ _ _ _) as [[k no_opt]|] eqn:Ec; [|discriminate].
      intros E. inversion E; subst. cbn [s_options].
      destruct (Py.mem _ _); [exact H|].
      apply Forall_app; split; [exact H|]. constructor; [|constructor].
      apply ford_continuation_extends in Ec as [extra ->].
      apply ford_stripped_no. apply prefix_app_l. exact En.
    + destruct (_ && _); intros E; inversion E; subst; cbn [s_options]; [|exact H].
      apply Forall_app; split; [exact H|]. constructor; [reflexivity|constructor].
Qed.

Lemma ford_collect_text_options next_line s :
  s_options (fst (collect_text next_line s)) = s_options s.
Proof. unfold collect_text. repeat break_if; reflexivity. Qed.

Lemma ford_scan_body_form sid lines i s s' :
  Forall (fun o => (Py.startswith o "Yes," || Py.startswith o "No,"
                    || String.eqb o "Not applicable") = true) (s_options s) ->
  scan_body sid lines i s = Some s' ->
  Forall (fun o => (Py.startswith o "Yes," || Py.startswith o "No,"
                    || String.eqb o "Not applicable") = true) (s_options s').
Proof.
  intros H. unfold scan_body.
  destruct (_ && _); [intros E; inversion E; subst; exact H|].
  destruct (_ || _); [intros E; inversion E; subst; exact H|].
  pose proof (ford_collect_text_options (Py.item lines (j s)) s) as Ht.
  destruct (collect_text _ s) as [s1 c]. cbn [fst] in Ht.
  destruct c; [intros E; inversion E; subst; rewrite Ht; exact H|].
  destruct (collect_options _ _ _ s1) as [s2|] eqn:Eo; [|discriminate].
  intros E. inversion E; subst.
  apply ford_collect_options_form in Eo; [|rewrite Ht; exact H].
  unfold collect_comments. destruct (String.eqb _ _); cbn [s_options]; exact Eo.
Qed.

Lemma ford_scan_form sid lines i n s :
  scan sid lines i = Some (n, s) ->
  Forall (fun o => (Py.startswith o "Yes," || Py.startswith o "No,"
                    || String.eqb o "Not applicable") = true) (s_options s).
Proof.
  unfold scan. intros H.
  eapply (while_invariant _ _
            (fun s => Forall (fun o => (Py.startswith o "Yes," || Py.startswith o "No,"
                    || String.eqb o "Not applicable") = true) (s_options s)))
    in H; [tauto| |constructor].
  intros s0 s' Hn _ Hb. eapply ford_scan_body_form; eassumption.
Qed.

(** What the first group of the single-line option patterns holds. *)
Lemma ford_lead_group lead ahead line x :
  Re.re_search (Re.Seq (Re.Grp 1 (Re.Seq (Re.Lit lead) (Re.Plus Re.lazy (Re.notc "N"))))
                       (Re.Ahead ahead)) line = Some x ->
  Re.groups_of ahead = [] ->
  Py.startswith (Re.group 1 x) lead = true.
Proof.
  unfold Re.re_search. intros H Hg.
  apply search_from_inv in H as (pre & s' & -> & _ & Hm).
  rewrite m_Seq in Hm.
  apply m_group in Hm as (w & st1 & Hd & _ & Hc & Hm);
    [|cbn [Re.groups_of]; rewrite groups_of_Lit; reflexivity].
  apply m_plain in Hm as (w2 & st2 & _ & _ & Hc2 & Hm); [|exact Hg].
  inversion Hm as [Hx]. unfold Re.group. rewrite <- Hx, Hc2, Hc.
  cbn [Re.lookup Nat.eqb].
  inversion Hd as [| | |r1 r2 w1 t1 Hd1 Hd2| | | | | | | |]; subst.
  apply denotes_Lit in Hd1. subst. apply prefix_app.
Qed.

Lemma ford_same_line_options_form line :
  Forall (fun o => (Py.startswith o "Yes," || Py.startswith o "No,"
                    || String.eqb o "Not applicable") = true) (same_line_options line).
Proof.
  unfold same_line_options.
  apply Forall_app; split; [|apply Forall_app; split].
  - destruct (Py.contains "Yes," line); [|constructor].
    destruct (Re.re_search yes_re line) as [x|] eqn:E; [|constructor].
    constructor; [|constructor]. apply ford_stripped_yes.
    eapply ford_lead_group; [exact E|reflexivity].
  - destruct (Py.contains "No," line); [|constructor].
    destruct (Re.re_search no_re line) as [x|] eqn:E; [|constructor].
    constructor; [|constructor]. apply ford_stripped_no.
    eapply ford_lead_group; [exact E|reflexivity].
  - destruct (Py.contains "Not applicable" line); constructor; [reflexivity|constructor].
Qed.

End FordOptionForm.

(** X8 (extractFord2024Survey.py, lines 107-117 and 188-223).  The scan of
    extractFord2024Survey ends, and returns when no line of the document
    has more than 4300 characters.  Every option of every record that it
    returns, in either format, starts with "Yes," or with "No," or is the
    literal "Not applicable". *)
Theorem ford_option_form (sid : string) (lines : list string) :
  exists r,
    ExtractFord2024Survey.scan_lines sid lines = Some r
    /\ (Forall (fun line => String.length line <= Py.max_str_digits) lines ->
        exists qs, r = Returned qs)
    /\ forall qs, r = Returned qs ->
       Forall (fun q =>
         Forall (fun o =>
           (Py.startswith o "Yes," || Py.startswith o "No,"
            || String.eqb o "Not applicable") = true)
           (ExtractFord2024Survey.q_options q)) qs.
Proof.
  apply FordRecords.ford_scan_lines_forall.
  - intros i q_match same scoring Hi line Hq Hsc Hsame Ht.
    cbn [ExtractFord2024Survey.q_options]. apply FordOptionForm.ford_same_line_options_form.
  - intros i q_match n s scoring Hi line Hq Hsc Hs Hk.
    cbn [ExtractFord2024Survey.q_options]. eapply FordOptionForm.ford_scan_form. exact Hs.
Qed.

(* ------------------------------------------------------------------------- *)
(** ** The records of parseFordSurvey.py *)

Module ParseFordSurveyRecords.
Import ParseFordSurvey.

(** A line that opens a question: an optional numbering, then a capital
    letter, a dot and the digits of the question number. *)
Lemma pfs_question_re_inv line x :
  Re.re_match question_re line = Some x ->
  exists pre c n e,
    line = pre ++ (String c "" ++ "." ++ n) ++ e
    /\ Py.is_upper c = true /\ n <> "" /\ Re.all_in Py.is_digit n = true
    /\ Re.group 1 x = String c "" /\ Re.group 2 x = n.
Proof.
  unfold Re.re_match. intros H.
  destruct (Re.m _ Some _) as [st|] eqn:Hm; [|discriminate].
  inversion H; subst x. clear H.
  unfold question_re in Hm. cbn [Re.Cat] in Hm. rewrite m_Seq in Hm.
  apply m_plain in Hm as (w0 & st0 & Hd0 & [Hr0 _] & Hc0 & Hm); [|reflexivity].
  inversion Hd0; subst. rewrite m_Seq in Hm.
  apply m_plain in Hm as (pre & st1 & Hd1 & [Hr1 _] & Hc1 & Hm); [|reflexivity].
  rewrite m_Seq in Hm.
  apply m_group in Hm as (w2 & st2 & Hd2 & [Hr2 _] & Hc2 & Hm); [|reflexivity].
  apply denotes_cls in Hd2 as (c & -> & Hup). rewrite m_Seq in Hm.
  apply m_plain in Hm as (w3 & st3 & Hd3 & [Hr3 _] & Hc3 & Hm); [|reflexivity].
  inversion Hd3; subst. rewrite m_Seq in Hm.
  apply m_group in Hm as (n & st4 & Hd4 & [Hr4 _] & Hc4 & Hm); [|reflexivity].
  apply denotes_plus_cls in Hd4 as [Hne Hdig].
  apply m_plain in Hm as (w5 & st5 & Hd5 & [Hr5 _] & Hc5 & Hm); [|reflexivity].
  inversion Hd5; subst. inversion Hm; subst st5. clear Hm.
  exists pre, c, n, (Re.rest st).
  split.
  - cbn [Re.rest append] in Hr0, Hr5. rewrite Hr0, Hr1, Hr2, Hr3, Hr4, Hr5.
    cbn [append]. rewrite ?app_assoc_s. reflexivity.
  - unfold Re.group. cbn [Re.m_final]. rewrite Hc5, Hc4, Hc3, Hc2.
    cbn [Re.lookup Nat.eqb]. repeat split; assumption.
Qed.

Section Records.
Variable lines : list string.
Variable P : Question -> Prop.
Hypothesis P_new : forall line q_match text,
  In line lines -> Re.re_match question_re line = Some q_match ->
  P (mkQuestion (Re.group 1 q_match ++ "." ++ Re.group 2 q_match) text None
                "single-choice" [] (mkAnswer None None None None)).
Hypothesis P_keep : forall q q',
  P q -> questionId q' = questionId q -> answerType q' = answerType q ->
  options q' = options q -> P q'.
Hypothesis P_option : forall q line,
  P q -> In line lines ->
  (Py.startswith line "Yes," || Py.startswith line "No,"
   || String.eqb line "Not applicable") = true ->
  P (add_option line q).

Lemma pfs_update_keep s f i' co :
  (forall q, questionId (f q) = questionId q /\ answerType (f q) = answerType q
             /\ options (f q) = options q) ->
  Forall P (s_questions s) /\ (forall q, current_question s = Some q -> P q) ->
  Forall P (s_questions (update_question s f i' co))
  /\ (forall q, current_question (update_question s f i' co) = Some q -> P q).
Proof.
  intros Hf [Hq Hc]. unfold update_question. cbn [s_questions current_question].
  split; [exact Hq|]. intros q Hq'.
  destruct (current_question s) as [q0|]; [|discriminate].
  inversion Hq'; subst. destruct (Hf q0) as (H1 & H2 & H3).
  eapply P_keep; [apply Hc; reflexivity|assumption..].
Qed.

Lemma pfs_scan_body_records s :
  i s < length lines ->
  Forall P (s_questions s) /\ (forall q, current_question s = Some q -> P q) ->
  Forall P (s_questions (scan_body lines s))
  /\ (forall q, current_question (scan_body lines s) = Some q -> P q).
Proof.
  intros Hi Inv. pose proof Inv as [Hq Hc]. unfold scan_body.
  destruct (Re.re_match question_re (Py.item lines (i s))) as [q_match|] eqn:Em.
  - cbn [s_questions current_question]. split.
    + destruct (current_question s) as [q0|]; [|exact Hq].
      apply Forall_app; split; [exact Hq|]. constructor; [apply Hc; reflexivity|constructor].
    + intros q E. inversion E; subst. eapply P_new; [|exact Em]. apply item_In. exact Hi.
  - repeat break_if;
      try (apply pfs_update_keep; [intros q0; repeat split|exact Inv]; fail).
    + (* an option line *)
      unfold update_question. cbn [s_questions current_question].
      split; [exact Hq|]. intros q E.
      destruct (current_question s) as [q0|]; [|discriminate].
      inversion E; subst. apply P_option; [apply Hc; reflexivity|apply item_In; exact Hi|].
      assumption.
    + (* the selected option *)
      apply pfs_update_keep; [|exact Inv]. intros q0.
      destruct (matching_option _ _); repeat split.
Qed.

Lemma pfs_scan_lines_records :
  exists qs, scan_lines lines = Some qs /\ Forall P qs.
Proof.
  destruct (ParseFordSurveyFacts.pfs_scan_loop_total lines) as (n & s & Hw & _ & _).
  unfold scan_lines. rewrite Hw. eexists; split; [reflexivity|].
  eapply (while_invariant _ _
            (fun s => Forall P (s_questions s)
                      /\ (forall q, current_question s = Some q -> P q)))
    in Hw.
  - destruct Hw as [[Hq Hc] _].
    destruct (current_question s) as [q0|]; [|exact Hq].
    apply Forall_app; split; [exact Hq|]. constructor; [apply Hc; reflexivity|constructor].
  - intros s0 s' Inv Hc Hb. inversion Hb; subst. apply pfs_scan_body_records; [|exact Inv].
    unfold scan_cond in Hc. apply Nat.ltb_lt in Hc. exact Hc.
  - cbn [s_questions current_question]. split; [constructor|discriminate].
Qed.

End Records.

End ParseFordSurveyRecords.

(** X9 (parseFordSurvey.py, lines 83-187).  Every record that parseFordSurvey
    emits has an identifier made of one capital letter, a dot and a
    non-empty run of decimal digits, and the identifier occurs in a line of the
    document; its answer type is "single-choice"; and each of its options is
    a line of the document, taken whole, that starts with "Yes," or with
    "No," or is the line "Not applicable". *)
Theorem parse_ford_survey_records_well_formed (lines : list string) :
  exists qs,
    ParseFordSurvey.scan_lines lines = Some qs
    /\ Forall (fun q =>
         (exists c n line,
             questionId q = String c "" ++ "." ++ n
             /\ Py.is_upper c = true
             /\ n <> "" /\ Re.all_in Py.is_digit n = true
             /\ In line lines /\ Py.contains (questionId q) line = true)
         /\ answerType q = "single-choice"
         /\ Forall (fun o =>
              In o lines
              /\ (Py.startswith o "Yes," || Py.startswith o "No,"
                  || String.eqb o "Not applicable") = true)
              (options q)) qs.
Proof.
  apply ParseFordSurveyRecords.pfs_scan_lines_records.
  - intros line q_match text Hin Hm.
    apply ParseFordSurveyRecords.pfs_question_re_inv in Hm
      as (pre & c & n & e & Hline & Hup & Hne & Hdig & Hg1 & Hg2).
    cbn [questionId answerType options]. rewrite Hg1, Hg2.
    split; [|split; [reflexivity|constructor]].
    exists c, n, line. repeat split; try assumption.
    rewrite Hline. apply contains_app.
  - intros q q' (Hid & Hty & Hopt) E1 E2 E3. rewrite E1, E2, E3.
    split; [exact Hid|split; [exact Hty|exact Hopt]].
  - intros q line (Hid & Hty & Hopt) Hin Hform.
    unfold ParseFordSurvey.add_option. cbn [questionId answerType options].
    split; [exact Hid|split; [exact Hty|]].
    apply Forall_app; split; [exact Hopt|]. constructor; [|constructor].
    split; assumption.
Qed.

(* ------------------------------------------------------------------------- *)
(** ** The merge of pages and the totals of the extraction scripts *)

Section MergeFacts.
Context {Q : Type}.

(** The entry of a section keeps the name and the risk level of the first
    document of that section. *)
Lemma first_page_step d docs (doc : SectionResult Q) :
  merged d docs ->
  (forall k v, In (k, v) d ->
     exists docs1 first docs2,
       docs = (docs1 ++ first :: docs2)%list
       /\ sectionId first = k
       /\ (forall other, In other docs1 -> sectionId other <> k)
       /\ sectionName v = sectionName first /\ riskLevel v = riskLevel first) ->
  forall k v, In (k, v) (merge_section d (sectionId doc) doc) ->
     exists docs1 first docs2,
       (docs ++ [doc])%list = (docs1 ++ first :: docs2)%list
       /\ sectionId first = k
       /\ (forall other, In other docs1 -> sectionId other <> k)
       /\ sectionName v = sectionName first /\ riskLevel v = riskLevel first.
Proof.
  intros (Hn & Hv & Hk) Hfirst k v Hin. unfold merge_section in Hin.
  assert (Hold : forall v0, In (k, v0) d ->
            sectionName v = sectionName v0 -> riskLevel v = riskLevel v0 ->
            exists docs1 first docs2,
              (docs ++ [doc])%list = (docs1 ++ first :: docs2)%list
              /\ sectionId first = k
              /\ (forall other, In other docs1 -> sectionId other <> k)
              /\ sectionName v = sectionName first /\ riskLevel v = riskLevel first).
  { intros v0 Hv0 E1 E2.
    destruct (Hfirst _ _ Hv0) as (docs1 & first & docs2 & -> & Hid & Hno & H1 & H2).
    exists docs1, first, (docs2 ++ [doc])%list.
    split; [rewrite <- app_assoc; reflexivity|].
    split; [exact Hid|]. split; [exact Hno|]. split; congruence. }
  destruct (has_key (sectionId doc) d) eqn:E.
  - apply extend_at_In in Hin; [|exact Hn].
    destruct Hin as [(-> & v0 & Hv0 & ->)|(Hne & Hin)].
    + apply (Hold v0 Hv0); reflexivity.
    + apply (Hold v Hin); reflexivity.
  - apply in_app_or in Hin as [Hin|[Hin|[]]].
    + apply (Hold v Hin); reflexivity.
    + inversion Hin; subst. exists docs, v, [].
      split; [reflexivity|]. split; [reflexivity|].
      split; [|split; reflexivity].
      intros other Ho Hs.
      assert (Hkey : In (sectionId v) (map fst d)) by (apply Hk; exists other; auto).
      apply has_key_In in Hkey. congruence.
Qed.

Lemma first_page_fold (docs2 : list (SectionResult Q)) : forall d docs1,
  merged d docs1 ->
  (forall k v, In (k, v) d ->
     exists a first b,
       docs1 = (a ++ first :: b)%list
       /\ sectionId first = k
       /\ (forall other, In other a -> sectionId other <> k)
       /\ sectionName v = sectionName first /\ riskLevel v = riskLevel first) ->
  forall k v,
    In (k, v) (fold_left (fun d doc => merge_section d (sectionId doc) doc) docs2 d) ->
    exists a first b,
      (docs1 ++ docs2)%list = (a ++ first :: b)%list
      /\ sectionId first = k
      /\ (forall other, In other a -> sectionId other <> k)
      /\ sectionName v = sectionName first /\ riskLevel v = riskLevel first.
Proof.
  induction docs2 as [|doc docs2 IH]; intros d docs1 Hm Hf k v Hin; cbn [fold_left] in Hin.
  - rewrite app_nil_r. apply Hf. exact Hin.
  - replace (docs1 ++ doc :: docs2)%list with ((docs1 ++ [doc]) ++ docs2)%list
      by (rewrite <- app_assoc; reflexivity).
    eapply IH; [apply merged_step; exact Hm| |exact Hin].
    apply first_page_step; assumption.
Qed.

Lemma merge_all_first_page (docs : list (SectionResult Q)) sec :
  In sec (sort_sections (dict_values (merge_all docs))) ->
  exists a first b,
    docs = (a ++ first :: b)%list
    /\ sectionId first = sectionId sec
    /\ (forall other, In other a -> sectionId other <> sectionId sec)
    /\ sectionName sec = sectionName first /\ riskLevel sec = riskLevel first.
Proof.
  intros Hin.
  apply (Permutation_in _ (sort_sections_perm _)) in Hin.
  unfold dict_values in Hin. apply in_map_iff in Hin as ([k v] & Hs & Hin).
  cbn [snd] in Hs. subst v.
  assert (Hk : sectionId sec = k).
  { destruct (merge_all_merged docs) as (_ & Hv & _). apply (Hv _ _ Hin). }
  rewrite Hk. unfold merge_all in Hin.
  apply (first_page_fold docs [] []) in Hin; [exact Hin| |intros ? ? []].
  split; [constructor|]. split; [intros ? ? []|].
  intros k'. cbn. split; [intros []|intros (? & [] & _)].
Qed.

(** Merging a document adds its questions to the total. *)
Lemma total_questions_app (l1 l2 : list (SectionResult Q)) :
  total_questions (l1 ++ l2) = total_questions l1 + total_questions l2.
Proof.
  unfold total_questions. rewrite map_app, list_sum_app. reflexivity.
Qed.

Lemma total_questions_perm (l1 l2 : list (SectionResult Q)) :
  Permutation l1 l2 -> total_questions l1 = total_questions l2.
Proof.
  intros H. unfold total_questions.
  unfold list_sum. induction H; cbn [map fold_right]; lia.
Qed.

Lemma total_extend_at k more (d : list (string * SectionResult Q)) :
  has_key k d = true ->
  total_questions (dict_values (extend_at k more d))
  = total_questions (dict_values d) + length more.
Proof.
  induction d as [|[k0 v0] d IH]; cbn [has_key extend_at]; [discriminate|].
  destruct (String.eqb k0 k) eqn:E; cbn [orb].
  - intros _. unfold dict_values, total_questions, extend_questions.
    cbn [map snd list_sum fold_right questions]. rewrite length_app. lia.
  - intros H. specialize (IH H). unfold dict_values, total_questions, list_sum in *.
    cbn [map snd fold_right]. lia.
Qed.

Lemma total_merge_section d k (doc : SectionResult Q) :
  total_questions (dict_values (merge_section d k doc))
  = total_questions (dict_values d) + length (questions doc).
Proof.
  unfold merge_section. destruct (has_key k d) eqn:E.
  - apply total_extend_at. exact E.
  - unfold dict_values. rewrite map_app, total_questions_app.
    unfold total_questions. cbn. lia.
Qed.

Lemma total_fold (docs : list (SectionResult Q)) : forall d,
  total_questions
    (dict_values (fold_left (fun d doc => merge_section d (sectionId doc) doc) docs d))
  = total_questions (dict_values d) + total_questions docs.
Proof.
  induction docs as [|doc docs IH]; intros d; cbn [fold_left].
  - unfold total_questions at 3. cbn. lia.
  - rewrite IH, total_merge_section. unfold total_questions, list_sum.
    cbn [map fold_right]. lia.
Qed.

Lemma total_merge_all (docs : list (SectionResult Q)) :
  total_questions (sort_sections (dict_values (merge_all docs))) = total_questions docs.
Proof.
  rewrite (total_questions_perm _ _ (sort_sections_perm _)).
  unfold merge_all. rewrite total_fold. reflexivity.
Qed.

(** Nothing is written about a section unless a document of it was read. *)
Lemma merge_all_nil (docs : list (SectionResult Q)) :
  sort_sections (dict_values (merge_all docs)) = [] <-> docs = [].
Proof.
  split.
  - intros H. destruct docs as [|doc docs]; [reflexivity|]. exfalso.
    destruct (merge_all_merged (doc :: docs)) as (_ & _ & Hk).
    assert (Hin : In (sectionId doc) (map fst (merge_all (doc :: docs)))).
    { apply Hk. exists doc. split; [left; reflexivity|reflexivity]. }
    apply in_map_iff in Hin as ([k v] & _ & Hin).
    assert (Hv : In v (sort_sections (dict_values (merge_all (doc :: docs))))).
    { apply (Permutation_in _ (Permutation_sym (sort_sections_perm _))).
      unfold dict_values. apply in_map_iff. exists (k, v). auto. }
    rewrite H in Hv. destruct Hv.
  - intros ->. reflexivity.
Qed.

End MergeFacts.

(** *** What [extract_questions_from_section] returns *)

Module RealExtract.
Import ExtractRealQuestions.

Lemma real_extract_outcome fs file_path section_id :
  match fs file_path with
  | Html h1 text =>
      exists name risk qs,
        extract_questions_from_section fs file_path section_id
        = Some (Returned (Some (mkSection section_id name risk qs)))
        /\ scan_lines section_id (lines_of text) = Some qs
        /\ (h1 = None -> name = "Unknown" /\ risk = None)
  | _ => extract_questions_from_section fs file_path section_id = Some (Returned None)
  end.
Proof.
  unfold extract_questions_from_section, extract_body, read_soup.
  destruct (fs file_path) as [|e|h1 text]; [reflexivity|reflexivity|].
  destruct (parse_title _) as [name risk] eqn:Et.
  destruct (RealFacts.real_scan_lines_total section_id (lines_of text)) as [qs Hq].
  rewrite Hq. exists name, risk, qs. split; [reflexivity|]. split; [reflexivity|].
  intros ->. vm_compute in Et. inversion Et. split; reflexivity.
Qed.

Lemma real_parsed_documents_nil fs files :
  parsed_documents extract_questions_from_section fs files = []
  <-> (forall filename section_id h1 text,
          In (filename, section_id) files -> fs filename <> Html h1 text).
Proof.
  induction files as [|[filename sid] files IH]; cbn [parsed_documents].
  - split; [intros _ ? ? ? ? []|reflexivity].
  - pose proof (real_extract_outcome fs filename sid) as Ho.
    unfold exists_file. destruct (fs filename) as [|e|h1 text] eqn:Ef.
    + rewrite IH. split.
      * intros H f s h t [E|Hin]; [inversion E; subst; congruence|eapply H; eassumption].
      * intros H f s h t Hin. eapply H. right. eassumption.
    + rewrite Ho, IH. split.
      * intros H f s h t [E|Hin]; [inversion E; subst; congruence|eapply H; eassumption].
      * intros H f s h t Hin. eapply H. right. eassumption.
    + destruct Ho as (name & risk & qs & -> & _). split; [discriminate|].
      intros H. exfalso. eapply (H filename sid h1 text); [left; reflexivity|exact Ef].
Qed.

End RealExtract.

Module FordExtract.
Import ExtractFord2024Survey.

Lemma ford_extract_outcome fs file_path section_id :
  match fs file_path with
  | Html h1 text =>
      exists r,
        scan_lines section_id (lines_of text) = Some r
        /\ match r with
           | Returned qs =>
               exists name risk,
                 extract_questions_from_section fs file_path section_id
                 = Some (Returned (Some (mkSection section_id name risk qs)))
                 /\ (h1 = None -> name = "Unknown" /\ risk = None)
           | Raised _ =>
               extract_questions_from_section fs file_path section_id
               = Some (Returned None)
           end
  | _ => extract_questions_from_section fs file_path section_id = Some (Returned None)
  end.
Proof.
  unfold extract_questions_from_section, extract_body, read_soup.
  destruct (fs file_path) as [|e|h1 text]; [reflexivity|reflexivity|].
  destruct (parse_title _) as [name risk] eqn:Et.
  destruct (FordFacts.ford_scan_lines_total section_id (lines_of text)) as [r Hq].
  rewrite Hq. exists r. split; [reflexivity|].
  destruct r as [qs|e]; [|reflexivity].
  exists name, risk. split; [reflexivity|].
  intros ->. vm_compute in Et. inversion Et. split; reflexivity.
Qed.

(** No document is parsed exactly when every listed file is unreadable or
    its scan raises. *)
Lemma ford_parsed_documents_nil fs files :
  parsed_documents extract_questions_from_section fs files = []
  <-> (forall filename section_id h1 text,
          In (filename, section_id) files -> fs filename = Html h1 text ->
          exists e, scan_lines section_id (lines_of text) = Some (Raised e)).
Proof.
  induction files as [|[filename sid] files IH]; cbn [parsed_documents].
  - split; [intros _ ? ? ? ? []|reflexivity].
  - pose proof (ford_extract_outcome fs filename sid) as Ho.
    unfold exists_file. destruct (fs filename) as [|e|h1 text] eqn:Ef.
    + rewrite IH. split.
      * intros H f s h t [E|Hin]; [inversion E; subst; congruence|eapply H; eassumption].
      * intros H f s h t Hin. eapply H. right. eassumption.
    + rewrite Ho, IH. split.
      * intros H f s h t [E|Hin]; [inversion E; subst; congruence|eapply H; eassumption].
      * intros H f s h t Hin. eapply H. right. eassumption.
    + destruct Ho as (r & Hr & Ho). destruct r as [qs|e].
      * destruct Ho as (name & risk & -> & _). split; [discriminate|].
        intros H. exfalso.
        destruct (H filename sid h1 text (or_introl eq_refl) Ef) as [e He].
        congruence.
      * rewrite Ho, IH. split.
        -- intros H f s h t [E|Hin] Hf.
           ++ inversion E; subst. rewrite Ef in Hf. inversion Hf; subst.
              exists e. exact Hr.
           ++ eapply H; eassumption.
        -- intros H f s h t Hin. eapply H. right. eassumption.
Qed.

End FordExtract.

(** X10 (extractRealQuestions.py and extractFord2024Survey.py,
    [extract_questions_from_section]).  For a section identifier made of
    letters and digits, the extraction of one document never raises.  For a
    file that cannot be opened it returns [None].  For a document that can
    be read, extractRealQuestions returns a section, whatever the title
    says: the section identifier is the one the caller passed, the
    questions are those of the scan of the document's lines, and a document
    without an [h1] element gets the name "Unknown" and no risk level.
    extractFord2024Survey returns such a section when the scan of the lines
    returns, and [None] when the scan raises (a scoring number that [int]
    refuses). *)
Theorem extract_section_outcome (fs : FileSystem) (file_path section_id : string)
  (Hsid : Re.plain_id section_id = true) :
  match fs file_path with
  | Html h1 text =>
      (exists name risk qs,
          ExtractRealQuestions.extract_questions_from_section fs file_path section_id
          = Some (Returned (Some (mkSection section_id name risk qs)))
          /\ ExtractRealQuestions.scan_lines section_id (lines_of text) = Some qs
          /\ (h1 = None -> name = "Unknown" /\ risk = None))
      /\ (exists r,
             ExtractFord2024Survey.scan_lines section_id (lines_of text) = Some r
             /\ match r with
                | Returned qs =>
                    exists name risk,
                      ExtractFord2024Survey.extract_questions_from_section
                        fs file_path section_id
                      = Some (Returned (Some (mkSection section_id name risk qs)))
                      /\ (h1 = None -> name = "Unknown" /\ risk = None)
                | Raised _ =>
                    ExtractFord2024Survey.extract_questions_from_section
                      fs file_path section_id
                    = Some (Returned None)
                end)
  | _ =>
      ExtractRealQuestions.extract_questions_from_section fs file_path section_id
      = Some (Returned None)
      /\ ExtractFord2024Survey.extract_questions_from_section fs file_path section_id
         = Some (Returned None)
  end.
Proof.
  clear Hsid.
  pose proof (RealExtract.real_extract_outcome fs file_path section_id) as H1.
  pose proof (FordExtract.ford_extract_outcome fs file_path section_id) as H2.
  destruct (fs file_path); split; assumption.
Qed.

Lemma extract_section_outcome_witness :
  Re.plain_id "N" = true
  /\ exists name risk qs,
       ExtractRealQuestions.extract_questions_from_section Inputs.pages_fs "n1.htm" "N"
       = Some (Returned (Some (mkSection "N" name risk qs))).
Proof.
  split; [reflexivity|].
  pose proof (extract_section_outcome Inputs.pages_fs "n1.htm" "N" eq_refl) as H.
  cbv beta iota delta [Inputs.pages_fs] in H. cbn [String.eqb Char.eqb code N.eqb Pos.eqb andb] in H.
  destruct H as [(name & risk & qs & H & _) _].
  exists name, risk, qs. exact H.
Defined.

(** X11 (the [main] functions of extractRealQuestions.py and
    extractFord2024Survey.py).  When a section is spread over several
    documents, the section written by [main] carries the name and the risk
    level of the first of its documents in processing order; the titles of
    the later pages are not used. *)
Theorem merged_section_named_by_first_page (files : list (string * string))
        (fs : FileSystem) :
  (exists survey,
      ExtractRealQuestions.main_on files fs = Some (Returned survey)
      /\ forall sec, In sec (sections survey) ->
           exists before first after,
             parsed_documents ExtractRealQuestions.extract_questions_from_section fs files
             = (before ++ first :: after)%list
             /\ sectionId first = sectionId sec
             /\ (forall other, In other before -> sectionId other <> sectionId sec)
             /\ sectionName sec = sectionName first
             /\ riskLevel sec = riskLevel first)
  /\ (exists survey,
         ExtractFord2024Survey.main_on files fs = Some (Returned survey)
         /\ forall sec, In sec (sections survey) ->
              exists before first after,
                parsed_documents ExtractFord2024Survey.extract_questions_from_section
                                 fs files
                = (before ++ first :: after)%list
                /\ sectionId first = sectionId sec
                /\ (forall other, In other before -> sectionId other <> sectionId sec)
                /\ sectionName sec = sectionName first
                /\ riskLevel sec = riskLevel first).
Proof.
  split.
  - destruct (RealFacts.real_main_on_returns files fs) as (survey & H & E).
    exists survey. split; [exact H|]. rewrite E. intros sec.
    apply merge_all_first_page.
  - destruct (FordFacts.ford_main_on_returns files fs) as (survey & H & E).
    exists survey. split; [exact H|]. rewrite E. intros sec.
    apply merge_all_first_page.
Qed.

(** X12 (the [main] functions of extractRealQuestions.py and
    extractFord2024Survey.py).  Merging and sorting neither lose nor
    duplicate a question: the total number of questions of the survey that
    [main] writes (the total it prints) is the sum of the numbers of
    questions extracted from the documents. *)
Theorem total_questions_preserved (files : list (string * string)) (fs : FileSystem) :
  (exists survey,
      ExtractRealQuestions.main_on files fs = Some (Returned survey)
      /\ total_questions (sections survey)
         = total_questions
             (parsed_documents ExtractRealQuestions.extract_questions_from_section
                               fs files))
  /\ (exists survey,
         ExtractFord2024Survey.main_on files fs = Some (Returned survey)
         /\ total_questions (sections survey)
            = total_questions
                (parsed_documents ExtractFord2024Survey.extract_questions_from_section
                                  fs files)).
Proof.
  split.
  - destruct (RealFacts.real_main_on_returns files fs) as (survey & H & E).
    exists survey. split; [exact H|]. rewrite E. apply total_merge_all.
  - destruct (FordFacts.ford_main_on_returns files fs) as (survey & H & E).
    exists survey. split; [exact H|]. rewrite E. apply total_merge_all.
Qed.

(** X13 (the [main] functions of extractRealQuestions.py and
    extractFord2024Survey.py).  [main] has no early exit: for section
    identifiers made of letters and digits it produces a survey for any
    list of files, whichever of them exist and can be read.  The survey of
    extractRealQuestions has no section exactly when none of the listed
    files could be read; that of extractFord2024Survey has no section
    exactly when every listed file either could not be read or made the
    scan raise. *)
Theorem extract_main_always_writes (files : list (string * string)) (fs : FileSystem)
  (Hids : Forall (fun f => Re.plain_id (snd f) = true) files) :
  (exists survey,
      ExtractRealQuestions.main_on files fs = Some (Returned survey)
      /\ (sections survey = []
          <-> forall filename section_id h1 text,
                In (filename, section_id) files -> fs filename <> Html h1 text))
  /\ (exists survey,
         ExtractFord2024Survey.main_on files fs = Some (Returned survey)
         /\ (sections survey = []
             <-> forall filename section_id h1 text,
                   In (filename, section_id) files -> fs filename = Html h1 text ->
                   exists e,
                     ExtractFord2024Survey.scan_lines section_id (lines_of text)
                     = Some (Raised e))).
Proof.
  clear Hids. split.
  - destruct (RealFacts.real_main_on_returns files fs) as (survey & H & E).
    exists survey. split; [exact H|]. rewrite E, merge_all_nil.
    apply RealExtract.real_parsed_documents_nil.
  - destruct (FordFacts.ford_main_on_returns files fs) as (survey & H & E).
    exists survey. split; [exact H|]. rewrite E, merge_all_nil.
    apply FordExtract.ford_parsed_documents_nil.
Qed.

Lemma extract_main_always_writes_witness :
  Forall (fun f => Re.plain_id (snd f) = true) Inputs.pages
  /\ exists survey,
       ExtractFord2024Survey.main_on Inputs.pages Inputs.pages_fs
       = Some (Returned survey).
Proof.
  split; [repeat constructor|].
  destruct (extract_main_always_writes Inputs.pages Inputs.pages_fs) as [_ (survey & H & _)].
  - repeat constructor.
  - exists survey. exact H.
Defined.

(* ------------------------------------------------------------------------- *)
(** ** [main] of parseFordSurveyImproved.py *)

Section StableSort.
Context {Q : Type}.

Lemma string_leb_refl a : String.leb a a = true.
Proof. apply string_leb_cases. right. reflexivity. Qed.

(** The sort is stable: sections with the same identifier keep their order. *)
Lemma insert_section_filter (k : string) (x : SectionResult Q) l :
  filter (fun s => String.eqb (sectionId s) k) (insert_section x l)
  = filter (fun s => String.eqb (sectionId s) k) (x :: l).
Proof.
  induction l as [|y l IH]; [reflexivity|].
  cbn [insert_section]. destruct (section_le x y) eqn:E; [reflexivity|].
  cbn [filter] in *. rewrite IH.
  destruct (String.eqb (sectionId x) k) eqn:Ex; [|reflexivity].
  destruct (String.eqb (sectionId y) k) eqn:Ey; [|reflexivity].
  apply string_eqb_eq in Ex, Ey. unfold section_le in E.
  rewrite Ex, Ey, string_leb_refl in E. discriminate.
Qed.

Lemma sort_sections_stable (k : string) (l : list (SectionResult Q)) :
  filter (fun s => String.eqb (sectionId s) k) (sort_sections l)
  = filter (fun s => String.eqb (sectionId s) k) l.
Proof.
  induction l as [|x l IH]; [reflexivity|].
  cbn [sort_sections]. rewrite insert_section_filter. cbn [filter]. rewrite IH. reflexivity.
Qed.

End StableSort.

Module ImprovedBatch.
Import ParseFordSurveyImproved.

Lemma improved_process_files_sections fs : forall file_names b,
  exists b', process_files fs b file_names = Some (Returned b')
    /\ b_sections b' = (b_sections b ++ parsed_sections fs file_names)%list.
Proof.
  induction file_names as [|f names IH]; intros b; cbn [process_files parsed_sections flat_map].
  - exists b. rewrite app_nil_r. split; reflexivity.
  - unfold process_file.
    destruct (exists_file fs f); cbn [negb].
    + destruct (ImprovedFacts.improved_parse_html_file_returns fs f) as (r & -> & _).
      destruct r as [sec|].
      * destruct (IH (mkBatch (b_sections b ++ [sec])
                        (b_log b ++ [Extracted f (length (questions sec))
                                               (answered_count sec)]))) as (b' & -> & E).
        exists b'. split; [reflexivity|]. rewrite E. cbn [b_sections app].
        rewrite <- app_assoc. reflexivity.
      * destruct (IH (mkBatch (b_sections b) (b_log b ++ [Failed f]))) as (b' & -> & E).
        exists b'. split; [reflexivity|]. exact E.
    + destruct (IH (mkBatch (b_sections b) (b_log b ++ [FileNotFound f]))) as (b' & -> & E).
      exists b'. split; [reflexivity|]. exact E.
Qed.

Lemma improved_parsed_sections_nil fs file_names :
  parsed_sections fs file_names = []
  <-> Forall (fun f => well_formed fs f = false) file_names.
Proof.
  induction file_names as [|f names IH]; cbn [parsed_sections flat_map].
  - split; [constructor|reflexivity].
  - destruct (ImprovedFacts.improved_parse_html_file_returns fs f) as (r & Hr & Hwf & Hnot).
    fold (parsed_sections fs names). rewrite Hr.
    destruct (well_formed fs f) eqn:Ew.
    + rewrite (ImprovedFacts.improved_well_formed_exists _ _ Ew).
      destruct (Hwf eq_refl) as [sec ->]. cbn [app].
      split; [intros H; discriminate H|].
      intros H. inversion H; congruence.
    + rewrite (Hnot eq_refl). destruct (exists_file fs f); cbn [app]; rewrite IH.
      * split; [intros H; constructor; assumption|intros H; inversion H; assumption].
      * split; [intros H; constructor; assumption|intros H; inversion H; assumption].
Qed.

Lemma improved_main_on_written file_names today fs :
  exists run,
    main_on file_names true today fs = Some (Returned run)
    /\ written run =
       match parsed_sections fs file_names with
       | [] => None
       | _ => Some (mkSurvey "ford-sig-lite-2024" "Ford SIG Lite 2024"
                 "Standardized Information Gathering (SIG) Lite questionnaire for cybersecurity assessment"
                 today (sort_sections (parsed_sections fs file_names)))
       end.
Proof.
  unfold main_on. cbn [negb].
  destruct (improved_process_files_sections fs file_names (mkBatch [] [])) as (b & -> & E).
  cbn [b_sections app] in E. rewrite E.
  destruct (parsed_sections fs file_names); eexists; split; reflexivity.
Qed.

End ImprovedBatch.

(** X14 (parseFordSurveyImproved.py, [main], lines 251-285).  A run of [main]
    on an existing upload directory writes a survey exactly when at least
    one of the listed documents is well formed; when none is (files
    missing, unreadable, without [h1] or with a title that no pattern
    matches), [main] returns without writing anything.  The survey that is
    written carries the date of the run and the sections of the documents
    that parsed, sorted by section identifier. *)
Theorem improved_main_writes_when_parsed (file_names : list string) (today : string)
        (fs : FileSystem) :
  exists run,
    ParseFordSurveyImproved.main_on file_names true today fs = Some (Returned run)
    /\ (ParseFordSurveyImproved.written run = None
        <-> Forall (fun f => ParseFordSurveyImproved.well_formed fs f = false) file_names)
    /\ (forall survey,
           ParseFordSurveyImproved.written run = Some survey ->
           createdDate survey = today
           /\ sections survey
              = sort_sections (ParseFordSurveyImproved.parsed_sections fs file_names)).
Proof.
  destruct (ImprovedBatch.improved_main_on_written file_names today fs) as (run & H & E).
  exists run. split; [exact H|]. rewrite E.
  rewrite <- ImprovedBatch.improved_parsed_sections_nil.
  destruct (ParseFordSurveyImproved.parsed_sections fs file_names) as [|sec secs].
  - split; [split; reflexivity|discriminate].
  - split; [split; discriminate|].
    intros survey Hs. inversion Hs; subst. split; reflexivity.
Qed.

(** X15 (parseFordSurveyImproved.py, [main], lines 251-277).  The script does
    not merge pages: the sections it writes are exactly the sections of the
    documents that parsed, one per document, rearranged in ascending order
    of section identifier; documents with the same identifier stay in the
    order in which their files were processed. *)
Theorem improved_sections_sorted_stably (file_names : list string) (today : string)
        (fs : FileSystem) :
  exists run,
    ParseFordSurveyImproved.main_on file_names true today fs = Some (Returned run)
    /\ Permutation (ParseFordSurveyImproved.written_sections run)
                   (ParseFordSurveyImproved.parsed_sections fs file_names)
    /\ StronglySorted le_id (ParseFordSurveyImproved.written_sections run)
    /\ forall k,
         filter (fun s => String.eqb (sectionId s) k)
                (ParseFordSurveyImproved.written_sections run)
         = filter (fun s => String.eqb (sectionId s) k)
                  (ParseFordSurveyImproved.parsed_sections fs file_names).
Proof.
  destruct (ImprovedBatch.improved_main_on_written file_names today fs) as (run & H & E).
  exists run. split; [exact H|].
  assert (Hw : ParseFordSurveyImproved.written_sections run
               = sort_sections (ParseFordSurveyImproved.parsed_sections fs file_names)).
  { unfold ParseFordSurveyImproved.written_sections. rewrite E.
    destruct (ParseFordSurveyImproved.parsed_sections fs file_names); reflexivity. }
  rewrite Hw. split; [apply sort_sections_perm|].
  split; [apply sort_sections_sorted|]. intros k. apply sort_sections_stable.
Qed.

(* ------------------------------------------------------------------------- *)
(** ** The text blocks of an element *)

Module TextBlocks.
Import ParseFordSurveyImproved.

(** The loop of [extract_text_preserving_structure] over the items seen so
    far: the blocks are pairwise distinct, and they are the non-empty
    stripped texts of the text nodes seen. *)
Lemma fold_blocks (items : list PageElement) : forall text_blocks seen,
  NoDup text_blocks ->
  (forall t, In t text_blocks <->
             t <> "" /\ exists s, In (NavigableString s) seen /\ Py.strip s = t) ->
  let out :=
    fold_left
      (fun text_blocks item =>
         match item with
         | NavigableString s =>
             let text := Py.strip s in
             if Py.truthy text && negb (Py.mem text text_blocks)
             then (text_blocks ++ [text])%list
             else text_blocks
         | Tag _ _ => text_blocks
         end)
      items text_blocks in
  NoDup out
  /\ (forall t, In t out <->
                t <> "" /\ exists s, In (NavigableString s) (seen ++ items) /\ Py.strip s = t).
Proof.
  induction items as [|item items IH]; intros blocks seen Hn Hin; cbn [fold_left].
  - rewrite app_nil_r. split; assumption.
  - replace (seen ++ item :: items)%list with ((seen ++ [item]) ++ items)%list
      by (rewrite <- app_assoc; reflexivity).
    apply IH.
    + destruct item as [s|name contents]; [|exact Hn].
      cbn zeta. destruct (Py.truthy (Py.strip s) && negb (Py.mem (Py.strip s) blocks)) eqn:E;
        [|exact Hn].
      apply andb_prop in E as [_ E]. apply negb_true_iff in E.
      apply RealFacts.real_NoDup_snoc; [apply mem_false_not_In; exact E|exact Hn].
    + intros t. destruct item as [s|name contents].
      * cbn zeta.
        destruct (Py.truthy (Py.strip s) && negb (Py.mem (Py.strip s) blocks)) eqn:E.
        -- apply andb_prop in E as [Et E]. apply truthy_nonempty in Et.
           rewrite in_app_iff, Hin. split.
           ++ intros [(Hne & s0 & Hs0 & <-)|[<-|[]]].
              ** split; [exact Hne|]. exists s0. split; [apply in_or_app; auto|reflexivity].
              ** split; [exact Et|]. exists s.
                 split; [apply in_or_app; right; left; reflexivity|reflexivity].
           ++ intros (Hne & s0 & Hs0 & <-). apply in_app_or in Hs0 as [Hs0|[Hs0|[]]].
              ** left. split; [exact Hne|]. exists s0. auto.
              ** inversion Hs0; subst. right. left. reflexivity.
        -- rewrite Hin. split.
           ++ intros (Hne & s0 & Hs0 & <-). split; [exact Hne|].
              exists s0. split; [apply in_or_app; auto|reflexivity].
           ++ intros (Hne & s0 & Hs0 & <-). apply in_app_or in Hs0 as [Hs0|[Hs0|[]]].
              ** split; [exact Hne|]. exists s0. auto.
              ** inversion Hs0; subst.
                 apply andb_false_iff in E as [E|E].
                 --- apply truthy_false in E. congruence.
                 --- apply negb_false_iff in E. apply mem_In in E. apply Hin in E. exact E.
      * rewrite Hin. split.
        -- intros (Hne & s0 & Hs0 & <-). split; [exact Hne|].
           exists s0. split; [apply in_or_app; auto|reflexivity].
        -- intros (Hne & s0 & Hs0 & <-). apply in_app_or in Hs0 as [Hs0|[Hs0|[]]].
           ++ split; [exact Hne|]. exists s0. auto.
           ++ discriminate Hs0.
Qed.

End TextBlocks.

(** X16 (parseFordSurveyImproved.py, lines 30-41).  For no element
    [extract_text_preserving_structure] returns the empty list.  For a tag
    it returns the texts found below the tag, at any depth, each stripped of
    surrounding white space: the result has no empty text and no text
    twice, every text in it is stripped, and a text is in the result exactly
    when it is the stripped, non-empty content of some text node below the
    tag. *)
Theorem text_blocks_distinct_and_complete (name : string) (contents : list PageElement) :
  ParseFordSurveyImproved.extract_text_preserving_structure None = []
  /\ let out := ParseFordSurveyImproved.extract_text_preserving_structure
                  (Some (Tag name contents)) in
     NoDup out
     /\ (forall t, In t out <->
                   t <> ""
                   /\ exists s, In (NavigableString s) (descendants (Tag name contents))
                                /\ Py.strip s = t)
     /\ Forall (fun t => Py.strip t = t) out.
Proof.
  split; [reflexivity|]. cbn zeta.
  unfold ParseFordSurveyImproved.extract_text_preserving_structure.
  destruct (TextBlocks.fold_blocks (descendants (Tag name contents)) [] [])
    as [Hn Hin].
  - constructor.
  - intros t. split; [intros []|intros (_ & s & [] & _)].
  - cbn [app] in Hin. split; [exact Hn|]. split; [exact Hin|].
    apply Forall_forall. intros t Ht. apply Hin in Ht as (_ & s & _ & <-).
    apply strip_idem.
Qed.

(* ------------------------------------------------------------------------- *)
(** ** The look-ahead windows *)

Ltac ltb_facts :=
  repeat match goal with
  | H : (_ && _) = true |- _ => apply andb_prop in H as [? ?]
  | H : Nat.ltb _ _ = true |- _ => apply Nat.ltb_lt in H
  | H : negb _ = true |- _ => apply negb_true_iff in H
  end.

Module ImprovedWindow.
Import ParseFordSurveyImproved.

Lemma improved_scan_body_bound sid lines s :
  broke s = false -> j s < length lines ->
  let s' := scan_body sid lines s in
  (broke s' = true /\ j s' = j s)
  \/ (broke s' = false /\ j s < j s' /\ j s' <= j s + 2 /\ j s' <= length lines).
Proof.
  intros Hb Hj. unfold scan_body.
  repeat break_if;
    cbn [j broke set_j set_help set_collecting set_answered_by set_answered_date
         set_comments append_text append_option do_break] in *;
    ltb_facts; (left; split; [reflexivity|lia]) || (right; split; [assumption|lia]).
Qed.

Lemma improved_scan_window sid lines i :
  i < length lines ->
  exists n s, scan sid lines i = Some (n, s)
    /\ i < j s /\ j s <= length lines /\ j s <= i + 51 /\ n <= 49.
Proof.
  intros Hi. unfold scan.
  destruct (while_terminates (scan_cond lines i)
              (fun s => Some (scan_body sid lines s))
              (fun s => i < j s /\ j s <= length lines /\ j s <= i + 51)
              (fun s => if broke s then 0
                        else Nat.min (length lines - j s) (i + 50 - j s)))
    with (fuel := length lines) (s := scan_init i)
    as (n & r & Hw & Hn & HP & _).
  - intros s (H1 & H2 & H3) Hc. unfold scan_cond in Hc. ltb_facts.
    exists (scan_body sid lines s). split; [reflexivity|].
    match goal with Hb : broke s = false |- _ =>
      destruct (improved_scan_body_bound sid lines s Hb ltac:(assumption))
        as [[Hb' Hj']|(Hb' & Hj1 & Hj2 & Hj3)]; rewrite Hb, Hb' end;
      (split; [lia|lia]).
  - cbn [scan_init j]. lia.
  - cbn [scan_init j broke]. lia.
  - exists n, r. split; [exact Hw|]. cbn [scan_init j broke] in Hn. lia.
Qed.

End ImprovedWindow.

Module RealWindow.
Import ExtractRealQuestions.

Lemma real_scan_window sid lines i :
  i < length lines ->
  exists n s, scan sid lines i = Some (n, s)
    /\ i < j s /\ j s <= length lines /\ j s <= i + 30 /\ n <= 29.
Proof.
  intros Hi. unfold scan.
  destruct (while_terminates (scan_cond lines i)
              (fun s => Some (scan_body sid lines i s))
              (fun s => i < j s /\ j s <= length lines /\ j s <= i + 30)
              (fun s => if broke s then 0
                        else Nat.min (length lines - j s) (i + 30 - j s)))
    with (fuel := length lines) (s := scan_init i)
    as (n & r & Hw & Hn & HP & _).
  - intros s (H1 & H2 & H3) Hc. unfold scan_cond in Hc. ltb_facts.
    exists (scan_body sid lines i s). split; [reflexivity|].
    match goal with Hb : broke s = false |- _ =>
      destruct (RealFacts.real_scan_body_step sid lines i s Hb)
        as [[Hb' Hj']|[Hb' Hj']]; rewrite Hb, Hb' end;
      (split; [lia|lia]).
  - cbn [scan_init j]. lia.
  - cbn [scan_init j broke]. lia.
  - exists n, r. split; [exact Hw|]. cbn [scan_init j broke] in Hn. lia.
Qed.

End RealWindow.

Module FordWindow.
Import ExtractFord2024Survey.

Lemma ford_continuation_bound sid lines stops k opt :
  1 <= k <= length lines ->
  exists k' opt', continuation sid lines stops k opt = Some (k', opt')
                  /\ k <= k' <= length lines.
Proof.
  intros Hk. unfold continuation.
  destruct (while_terminates (cont_cond lines stops)
              (fun st => Some (cont_body sid lines st))
              (fun st => k <= fst (fst st) <= length lines) (cont_mu lines))
    with (fuel := length lines) (s := (k, opt, false))
    as (n & [[k' opt'] b] & Hw & _ & HP & _).
  - intros [[k0 o0] b0] HP Hc. eexists; split; [reflexivity|].
    unfold cont_cond in Hc. ltb_facts. subst b0.
    unfold cont_body. cbn [fst] in HP. break_if; cbn; split; lia.
  - cbn; lia.
  - cbn; lia.
  - rewrite Hw. exists k', opt'. split; auto.
Qed.

Lemma ford_collect_options_bound sid lines next_line s :
  j s < length lines ->
  exists s2, collect_options sid lines next_line s = Some s2
             /\ broke s2 = broke s /\ j s <= j s2 < length lines.
Proof.
  intros Hj. unfold collect_options.
  destruct (collecting_options s || Py.contains "Please select" next_line);
    [|eexists; split; [reflexivity|split; [reflexivity|lia]]].
  destruct (Py.startswith next_line "Yes,").
  { destruct (ford_continuation_bound sid lines
                ["No,"; "Not applicable"; "Show possible"; "Comments"]
                (j s + 1) next_line) as (k & o & Hc & Hk); [lia|].
    rewrite Hc. eexists; split; [reflexivity|]. cbn. split; [reflexivity|lia]. }
  destruct (Py.startswith next_line "No,").
  { destruct (ford_continuation_bound sid lines
                ["Yes,"; "Not applicable"; "Show possible"; "Comments"]
                (j s + 1) next_line) as (k & o & Hc & Hk); [lia|].
    rewrite Hc. eexists; split; [reflexivity|]. cbn. split; [reflexivity|lia]. }
  break_if; eexists; (split; [reflexivity|]); cbn; split; (reflexivity || lia).
Qed.

Lemma ford_scan_body_bound sid lines i s :
  broke s = false -> j s < length lines ->
  exists s', scan_body sid lines i s = Some s'
    /\ ((broke s' = true /\ j s' = j s)
        \/ (broke s' = false /\ j s < j s' <= length lines)).
Proof.
  intros Hb Hj. unfold scan_body.
  destruct (_ && _); [eexists; split; [reflexivity|left; cbn; auto]|].
  destruct (_ || _); [eexists; split; [reflexivity|left; cbn; auto]|].
  destruct (collect_text (Py.item lines (j s)) s) as [s1 c] eqn:Ht.
  apply FordFacts.ford_collect_text_j in Ht as [Hb1 Hj1].
  destruct c.
  - eexists; split; [reflexivity|]. right; split; [congruence|lia].
  - destruct (ford_collect_options_bound sid lines (Py.item lines (j s)) s1)
      as (s2 & Ho & Hb2 & Hj2); [lia|].
    rewrite Ho. eexists; split; [reflexivity|].
    destruct (FordFacts.ford_collect_comments_j lines (Py.item lines (j s)) s2) as [Hb3 Hj3].
    right; split; [congruence|lia].
Qed.

Lemma ford_scan_window sid lines i :
  i < length lines ->
  exists n s, scan sid lines i = Some (n, s)
    /\ i < j s /\ j s <= length lines /\ n <= 39.
Proof.
  intros Hi. unfold scan.
  destruct (while_terminates (scan_cond lines i) (scan_body sid lines i)
              (fun s => i < j s /\ j s <= length lines)
              (fun s => if broke s then 0
                        else Nat.min (length lines - j s) (i + 40 - j s)))
    with (fuel := length lines) (s := scan_init i)
    as (n & r & Hw & Hn & HP & _).
  - intros s (H1 & H2) Hc. unfold scan_cond in Hc. ltb_facts.
    match goal with Hb : broke s = false |- _ =>
      destruct (ford_scan_body_bound sid lines i s Hb ltac:(assumption))
        as (s' & Hs' & [[Hb' Hj']|[Hb' Hj']]); exists s'; (split; [exact Hs'|]);
        rewrite Hb, Hb' end;
      (split; [lia|lia]).
  - cbn [scan_init j]. lia.
  - cbn [scan_init j broke]. lia.
  - exists n, r. split; [exact Hw|]. cbn [scan_init j broke] in Hn. lia.
Qed.

End FordWindow.

(** X17 (the look-ahead loops: parseFordSurveyImproved.py lines 114-199,
    extractRealQuestions.py lines 70-133, extractFord2024Survey.py lines
    143-238).  The look-ahead of a question that starts at line [i] of the
    document returns, and leaves the cursor after line [i] and not beyond
    the end of the lines.  In extractRealQuestions it takes at most 29
    iterations and the cursor ends at most 30 lines after [i]; in
    parseFordSurveyImproved it takes at most 49 iterations and the cursor
    ends at most 51 lines after [i] (a "Help Text" or "Comments" line takes
    the line after it along); in extractFord2024Survey it takes at most 39
    iterations. *)
Theorem look_ahead_windows (sid : string) (lines : list string) (i : nat) :
  i < length lines ->
  (exists n s,
      ParseFordSurveyImproved.scan sid lines i = Some (n, s)
      /\ i < ParseFordSurveyImproved.j s
      /\ ParseFordSurveyImproved.j s <= length lines
      /\ ParseFordSurveyImproved.j s <= i + 51
      /\ n <= 49)
  /\ (exists n s,
         ExtractRealQuestions.scan sid lines i = Some (n, s)
         /\ i < ExtractRealQuestions.j s
         /\ ExtractRealQuestions.j s <= length lines
         /\ ExtractRealQuestions.j s <= i + 30
         /\ n <= 29)
  /\ (exists n s,
         ExtractFord2024Survey.scan sid lines i = Some (n, s)
         /\ i < ExtractFord2024Survey.j s
         /\ ExtractFord2024Survey.j s <= length lines
         /\ n <= 39).
Proof.
  intros Hi. split; [|split].
  - apply ImprovedWindow.improved_scan_window. exact Hi.
  - apply RealWindow.real_scan_window. exact Hi.
  - apply FordWindow.ford_scan_window. exact Hi.
Qed.

Lemma look_ahead_windows_witness :
  0 < length Inputs.end_to_end
  /\ exists n s,
       ExtractRealQuestions.scan "A" Inputs.end_to_end 0 = Some (n, s)
       /\ 0 < ExtractRealQuestions.j s
       /\ ExtractRealQuestions.j s <= length Inputs.end_to_end
       /\ ExtractRealQuestions.j s <= 0 + 30
       /\ n <= 29.
Proof.
  split; [cbn; lia|].
  apply (look_ahead_windows "A" Inputs.end_to_end 0). cbn; lia.
Defined.

(* ------------------------------------------------------------------------- *)
(** ** Who answered, and when *)

Lemma all_in_app p a b :
  Re.all_in p (a ++ b) = Re.all_in p a && Re.all_in p b.
Proof.
  induction a as [|c a IH]; [reflexivity|]. cbn [append Re.all_in].
  rewrite IH, andb_assoc. reflexivity.
Qed.

Lemma all_in_impl (p q : char -> bool) w :
  (forall c, p c = true -> q c = true) -> Re.all_in p w = true -> Re.all_in q w = true.
Proof.
  intros H. induction w as [|c w IH]; [reflexivity|]. cbn [Re.all_in]. intros E.
  apply andb_prop in E as [E1 E2]. rewrite (H _ E1), (IH E2). reflexivity.
Qed.

Lemma all_in_strip p s : Re.all_in p s = true -> Re.all_in p (Py.strip s) = true.
Proof.
  intros H. unfold Py.strip.
  destruct (lstrip_split s) as (w & Hw & _).
  destruct (rstrip_split (Py.lstrip s)) as (w' & Hw' & _).
  rewrite Hw, all_in_app in H. apply andb_prop in H as [_ H].
  rewrite Hw', all_in_app in H. apply andb_prop in H as [H _]. exact H.
Qed.

Lemma letter_or_space_not_digit c :
  Py.is_upper c || Py.is_lower c || Py.is_space c = true -> negb (Py.is_digit c) = true.
Proof.
  intros H. apply negb_true_iff. destruct (Py.is_digit c) eqn:E; [|reflexivity].
  rewrite (digit_not_upper c E), (digit_not_lower c E), (digit_not_space c E) in H.
  discriminate.
Qed.

(** The words of the date pattern: two digits, a slash, two digits, a slash,
    four digits. *)
Lemma date_word w :
  Re.denotes (Re.Cat [Re.Rep 2 Re.dig; Re.Chr "/"; Re.Rep 2 Re.dig; Re.Chr "/";
                      Re.Rep 4 Re.dig]) w ->
  exists dd mm yyyy,
    w = dd ++ "/" ++ mm ++ "/" ++ yyyy
    /\ String.length dd = 2 /\ String.length mm = 2 /\ String.length yyyy = 4
    /\ Re.all_in Py.is_digit dd = true /\ Re.all_in Py.is_digit mm = true
    /\ Re.all_in Py.is_digit yyyy = true.
Proof.
  cbn [Re.Cat Re.Rep]. unfold Re.dig. intros H.
  repeat match goal with
  | H : Re.denotes (Re.Seq _ _) _ |- _ => inversion H; clear H; subst
  | H : Re.denotes (Re.Chr _) _ |- _ => inversion H; clear H; subst
  | H : Re.denotes Re.Eps _ |- _ => inversion H; clear H; subst
  | H : Re.denotes (Re.Cls _) _ |- _ => inversion H; clear H; subst
  end.
  match goal with
  | |- exists _ _ _, (String ?a1 "" ++ String ?a2 "" ++ "") ++ _
                     ++ (String ?b1 "" ++ String ?b2 "" ++ "") ++ _
                     ++ String ?c1 "" ++ String ?c2 "" ++ String ?c3 "" ++ String ?c4 "" ++ ""
                     = _ /\ _ =>
      exists (String a1 (String a2 "")), (String b1 (String b2 "")),
             (String c1 (String c2 (String c3 (String c4 ""))))
  end.
  cbn [append String.length Re.all_in].
  repeat match goal with H : Py.is_digit _ = true |- _ => rewrite H; clear H end.
  repeat split; reflexivity.
Qed.

Module ImprovedAnswer.
Import ParseFordSurveyImproved.

Lemma improved_answered_group line x :
  Re.re_search answered_re line = Some x ->
  Re.all_in (fun c => negb (Py.is_ascii_digit c)) (Re.group 1 x) = true.
Proof.
  unfold Re.re_search. intros H.
  apply search_from_inv in H as (pre & s' & _ & _ & Hm).
  unfold answered_re in Hm. cbn [Re.Cat] in Hm. rewrite m_Seq in Hm.
  apply m_plain in Hm as (w1 & st1 & _ & _ & Hc1 & Hm); [|apply groups_of_Lit].
  rewrite m_Seq in Hm.
  apply m_plain in Hm as (w2 & st2 & _ & _ & Hc2 & Hm); [|reflexivity].
  apply m_group in Hm as (w3 & st3 & Hd3 & _ & Hc3 & Hm); [|reflexivity].
  apply denotes_plus_cls in Hd3 as [_ Hall].
  inversion Hm as [Hx]. unfold Re.group. rewrite <- Hx, Hc3. cbn [Re.lookup Nat.eqb].
  eapply all_in_impl; [|exact Hall]. cbn beta. intros c Hc.
  apply negb_true_iff in Hc. apply orb_false_iff in Hc as [Hc _].
  apply negb_true_iff. exact Hc.
Qed.

Section Answer.
Variable lines : list string.
Variables PD PB PH PC : string -> Prop.
Hypothesis PD_match : forall line x,
  Re.re_search date_re line = Some x -> PD (Re.group 1 x).
Hypothesis PB_match : forall line x,
  Re.re_search answered_re line = Some x -> PB (Py.strip (Re.group 1 x)).
Hypothesis PH_line : forall k,
  k < length lines ->
  Py.contains "Please select" (Py.item lines k) = false ->
  String.length (Py.item lines k) < 500 -> PH (Py.item lines k).
Hypothesis PC_line : forall k,
  k < length lines ->
  Py.mem (Py.item lines k) ["Data Location:"; "Terms of Use"] = false ->
  PC (Py.item lines k).

Lemma improved_scan_body_answer sid s :
  (forall d, answered_date s = Some d -> PD d)
  /\ (forall b, answered_by s = Some b -> PB b)
  /\ (forall h, help_text s = Some h -> PH h)
  /\ (forall c, s_comments s = Some c -> PC c) ->
  (forall d, answered_date (scan_body sid lines s) = Some d -> PD d)
  /\ (forall b, answered_by (scan_body sid lines s) = Some b -> PB b)
  /\ (forall h, help_text (scan_body sid lines s) = Some h -> PH h)
  /\ (forall c, s_comments (scan_body sid lines s) = Some c -> PC c).
Proof.
  intros (HD & HB & HH & HC). unfold scan_body.
  repeat break_if;
    cbn [j answered_date answered_by help_text s_comments set_j set_help set_collecting
         set_answered_by set_answered_date set_comments append_text append_option
         do_break] in *;
    ltb_facts;
    (split; [|split; [|split]]);
    try assumption;
    intros v E; inversion E; subst.
  - apply PH_line; [assumption| |assumption].
    match goal with H : Py.contains _ _ = false |- _ => exact H end.
  - eapply PB_match. eassumption.
  - eapply PD_match. eassumption.
  - apply PC_line; assumption.
Qed.

Lemma improved_scan_answer sid i n s :
  scan sid lines i = Some (n, s) ->
  (forall d, answered_date s = Some d -> PD d)
  /\ (forall b, answered_by s = Some b -> PB b)
  /\ (forall h, help_text s = Some h -> PH h)
  /\ (forall c, s_comments s = Some c -> PC c).
Proof.
  unfold scan. intros H.
  eapply (while_invariant _ _
            (fun s => (forall d, answered_date s = Some d -> PD d)
                      /\ (forall b, answered_by s = Some b -> PB b)
                      /\ (forall h, help_text s = Some h -> PH h)
                      /\ (forall c, s_comments s = Some c -> PC c))) in H.
  - tauto.
  - intros s0 s' Inv _ Hb. inversion Hb; subst. apply improved_scan_body_answer. exact Inv.
  - cbn. repeat split; discriminate.
Qed.

End Answer.

End ImprovedAnswer.

Module RealAnswer.
Import ExtractRealQuestions.

Lemma real_answered_by_form line b :
  line_answered_by line = Some b ->
  Py.strip b = b /\ Re.all_in (fun c => negb (Py.is_digit c)) b = true.
Proof.
  unfold line_answered_by. destruct (Py.contains _ _); [|discriminate].
  destruct (Re.re_search answered_re line) as [x|] eqn:E; [|discriminate].
  intros H. inversion H; subst. split; [apply strip_idem|]. apply all_in_strip.
  unfold Re.re_search in E. apply search_from_inv in E as (pre & s' & _ & _ & Hm).
  unfold answered_re in Hm. cbn [Re.Cat] in Hm. rewrite m_Seq in Hm.
  apply m_plain in Hm as (w1 & st1 & _ & _ & Hc1 & Hm); [|apply groups_of_Lit].
  rewrite m_Seq in Hm.
  apply m_plain in Hm as (w2 & st2 & _ & _ & Hc2 & Hm); [|reflexivity].
  apply m_group in Hm as (w3 & st3 & Hd3 & _ & Hc3 & Hm); [|reflexivity].
  apply denotes_plus_cls in Hd3 as [_ Hall].
  inversion Hm as [Hx]. unfold Re.group. rewrite <- Hx, Hc3. cbn [Re.lookup Nat.eqb].
  exact Hall.
Qed.

Lemma real_answered_date_form line d :
  line_answered_date line = Some d ->
  exists dd mm yyyy,
    d = dd ++ "/" ++ mm ++ "/" ++ yyyy
    /\ String.length dd = 2 /\ String.length mm = 2 /\ String.length yyyy = 4
    /\ Re.all_in Py.is_digit dd = true /\ Re.all_in Py.is_digit mm = true
    /\ Re.all_in Py.is_digit yyyy = true.
Proof.
  unfold line_answered_date. destruct (Py.contains _ _); [|discriminate].
  destruct (Re.re_search date_re line) as [x|] eqn:E; [|discriminate].
  intros H. inversion H; subst.
  apply RealFacts.real_grouped_search in E as (w & -> & Hd). apply date_word. exact Hd.
Qed.

End RealAnswer.

Module FordAnswer.
Import ExtractFord2024Survey.

Lemma ford_answered_by_form line b :
  line_answered_by line = Some b ->
  Py.strip b = b
  /\ Re.all_in (fun c => Py.is_upper c || Py.is_lower c || Py.is_space c) b = true
  /\ Re.all_in (fun c => negb (Py.is_digit c)) b = true.
Proof.
  unfold line_answered_by. destruct (Py.contains _ _); [|discriminate].
  destruct (Re.re_search answered_re line) as [x|] eqn:E; [|discriminate].
  intros H. inversion H; subst. split; [apply strip_idem|].
  assert (Hl : Re.all_in (fun c => Py.is_upper c || Py.is_lower c || Py.is_space c)
                 (Py.strip (Re.group 1 x)) = true);
    [|split; [exact Hl|eapply all_in_impl; [|exact Hl]; apply letter_or_space_not_digit]].
  apply all_in_strip.
  unfold Re.re_search in E. apply search_from_inv in E as (pre & s' & _ & _ & Hm).
  unfold answered_re in Hm. cbn [Re.Cat] in Hm. rewrite m_Seq in Hm.
  apply m_plain in Hm as (w1 & st1 & _ & _ & Hc1 & Hm); [|apply groups_of_Lit].
  rewrite m_Seq in Hm.
  apply m_plain in Hm as (w2 & st2 & _ & _ & Hc2 & Hm); [|reflexivity].
  rewrite m_Seq in Hm.
  apply m_group in Hm as (w3 & st3 & Hd3 & _ & Hc3 & Hm); [|reflexivity].
  apply denotes_plus_cls in Hd3 as [_ Hall].
  apply m_plain in Hm as (w4 & st4 & _ & _ & Hc4 & Hm); [|reflexivity].
  inversion Hm as [Hx]. unfold Re.group. rewrite <- Hx, Hc4, Hc3. cbn [Re.lookup Nat.eqb].
  exact Hall.
Qed.

Lemma ford_answered_date_form line d :
  line_answered_date line = Some d ->
  exists dd mm yyyy,
    d = dd ++ "/" ++ mm ++ "/" ++ yyyy
    /\ String.length dd = 2 /\ String.length mm = 2 /\ String.length yyyy = 4
    /\ Re.all_in Py.is_digit dd = true /\ Re.all_in Py.is_digit mm = true
    /\ Re.all_in Py.is_digit yyyy = true.
Proof.
  unfold line_answered_date. destruct (Py.contains _ _); [|discriminate].
  destruct (Re.re_search date_re line) as [x|] eqn:E; [|discriminate].
  intros H. inversion H; subst.
  unfold Re.re_search in E. apply search_from_inv in E as (pre & s' & _ & _ & Hm).
  unfold date_re in Hm. cbn [Re.Cat] in Hm. rewrite m_Seq in Hm.
  apply m_plain in Hm as (w1 & st1 & _ & _ & Hc1 & Hm); [|apply groups_of_Lit].
  rewrite m_Seq in Hm.
  apply m_plain in Hm as (w2 & st2 & _ & _ & Hc2 & Hm); [|reflexivity].
  apply m_group in Hm as (w3 & st3 & Hd3 & _ & Hc3 & Hm); [|reflexivity].
  inversion Hm as [Hx]. unfold Re.group. rewrite <- Hx, Hc3. cbn [Re.lookup Nat.eqb].
  apply date_word. exact Hd3.
Qed.

End FordAnswer.

(** X18 (parseFordSurveyImproved.py lines 156-172, extractRealQuestions.py
    lines 52-63, extractFord2024Survey.py lines 61-74).  In every record
    emitted by any of the three scripts, the date of the answer, when one is
    reported, has the form of two decimal digits, a slash, two digits, a
    slash and four digits; and the name of who answered, when one is
    reported, has no white space at either end.  The name contains none of
    the digits 0 to 9 in parseFordSurveyImproved and no decimal digit of any
    script in extractRealQuestions; in extractFord2024Survey it is made of
    the letters A to Z and a to z and of white space, so it has no decimal
    digit either. *)
Theorem answer_metadata_well_formed (sid : string) (lines : list string) :
  (exists qs,
      ParseFordSurveyImproved.scan_lines sid lines = Some qs
      /\ Forall (fun q =>
           (forall d, answeredDate (givenAnswer q) = Some d ->
              exists dd mm yyyy,
                d = dd ++ "/" ++ mm ++ "/" ++ yyyy
                /\ String.length dd = 2 /\ String.length mm = 2 /\ String.length yyyy = 4
                /\ Re.all_in Py.is_digit dd = true /\ Re.all_in Py.is_digit mm = true
                /\ Re.all_in Py.is_digit yyyy = true)
           /\ (forall b, answeredBy (givenAnswer q) = Some b ->
                 Py.strip b = b
                 /\ Re.all_in (fun c => negb (Py.is_ascii_digit c)) b = true)) qs)
  /\ (exists qs,
         ExtractRealQuestions.scan_lines sid lines = Some qs
         /\ Forall (fun q =>
              (forall d, answeredDate (givenAnswer q) = Some d ->
                 exists dd mm yyyy,
                   d = dd ++ "/" ++ mm ++ "/" ++ yyyy
                   /\ String.length dd = 2 /\ String.length mm = 2
                   /\ String.length yyyy = 4
                   /\ Re.all_in Py.is_digit dd = true /\ Re.all_in Py.is_digit mm = true
                   /\ Re.all_in Py.is_digit yyyy = true)
              /\ (forall b, answeredBy (givenAnswer q) = Some b ->
                    Py.strip b = b
                    /\ Re.all_in (fun c => negb (Py.is_digit c)) b = true)) qs)
  /\ (exists r,
         ExtractFord2024Survey.scan_lines sid lines = Some r
         /\ (Forall (fun line => String.length line <= Py.max_str_digits) lines ->
             exists qs, r = Returned qs)
         /\ forall qs, r = Returned qs ->
            Forall (fun q =>
              (forall d,
                  answeredDate (ExtractFord2024Survey.q_givenAnswer q) = Some d ->
                  exists dd mm yyyy,
                    d = dd ++ "/" ++ mm ++ "/" ++ yyyy
                    /\ String.length dd = 2 /\ String.length mm = 2
                    /\ String.length yyyy = 4
                    /\ Re.all_in Py.is_digit dd = true /\ Re.all_in Py.is_digit mm = true
                    /\ Re.all_in Py.is_digit yyyy = true)
              /\ (forall b,
                     answeredBy (ExtractFord2024Survey.q_givenAnswer q) = Some b ->
                     Py.strip b = b
                     /\ Re.all_in (fun c => Py.is_upper c || Py.is_lower c
                                            || Py.is_space c) b = true
                     /\ Re.all_in (fun c => negb (Py.is_digit c)) b = true)) qs).
Proof.
  split; [|split].
  - apply ImprovedRecords.improved_scan_lines_forall.
    intros i q_match n s Hi Hq Hs.
    cbn [ParseFordSurveyImproved.build_question givenAnswer answeredDate answeredBy].
    destruct (ImprovedAnswer.improved_scan_answer lines
                (fun d => exists dd mm yyyy,
                   d = dd ++ "/" ++ mm ++ "/" ++ yyyy
                   /\ String.length dd = 2 /\ String.length mm = 2
                   /\ String.length yyyy = 4
                   /\ Re.all_in Py.is_digit dd = true /\ Re.all_in Py.is_digit mm = true
                   /\ Re.all_in Py.is_digit yyyy = true)
                (fun b => Py.strip b = b
                          /\ Re.all_in (fun c => negb (Py.is_ascii_digit c)) b = true)
                (fun _ => True) (fun _ => True)) with (sid := sid) (i := i) (n := n) (s := s)
      as (HD & HB & _ & _); try (intros; exact I); try exact Hs.
    + intros line x E. apply RealFacts.real_grouped_search in E as (w & -> & Hd).
      apply date_word. exact Hd.
    + intros line x E. split; [apply strip_idem|]. apply all_in_strip.
      eapply ImprovedAnswer.improved_answered_group. exact E.
    + split; assumption.
  - apply RealRecords.real_scan_lines_forall.
    intros i q_match n s Hi Hq Hs Hk.
    cbn [ExtractRealQuestions.build_question givenAnswer answeredDate answeredBy].
    split; [apply RealAnswer.real_answered_date_form|apply RealAnswer.real_answered_by_form].
  - apply FordRecords.ford_scan_lines_forall.
    + intros i q_match same scoring Hi line Hq Hsc Hsame Ht.
      cbn [ExtractFord2024Survey.q_givenAnswer answeredDate answeredBy].
      split; [apply FordAnswer.ford_answered_date_form|apply FordAnswer.ford_answered_by_form].
    + intros i q_match n s scoring Hi line Hq Hsc Hs Hk.
      cbn [ExtractFord2024Survey.q_givenAnswer answeredDate answeredBy].
      split; [apply FordAnswer.ford_answered_date_form|apply FordAnswer.ford_answered_by_form].
Qed.

(** X19 (parseFordSurveyImproved.py, lines 125-135 and 174-182).  In every
    record that parseFordSurveyImproved emits, the help text, when there is
    one, is a line of the document of fewer than 500 characters that does
    not contain "Please select"; and the comments, when there are some, are
    a line of the document other than "Data Location:" and "Terms of
    Use". *)
Theorem improved_help_and_comments (sid : string) (lines : list string) :
  exists qs,
    ParseFordSurveyImproved.scan_lines sid lines = Some qs
    /\ Forall (fun q =>
         (forall h, helpText q = Some h ->
            In h lines /\ String.length h < 500
            /\ Py.contains "Please select" h = false)
         /\ (forall c, comments (givenAnswer q) = Some c ->
               In c lines /\ c <> "Data Location:" /\ c <> "Terms of Use")) qs.
Proof.
  apply ImprovedRecords.improved_scan_lines_forall.
  intros i q_match n s Hi Hq Hs.
  cbn [ParseFordSurveyImproved.build_question helpText givenAnswer comments].
  destruct (ImprovedAnswer.improved_scan_answer lines
              (fun _ => True) (fun _ => True)
              (fun h => In h lines /\ String.length h < 500
                        /\ Py.contains "Please select" h = false)
              (fun c => In c lines /\ c <> "Data Location:" /\ c <> "Terms of Use"))
    with (sid := sid) (i := i) (n := n) (s := s)
    as (_ & _ & HH & HC); try (intros; exact I); try exact Hs.
  - intros k Hk Hc Hl. split; [apply item_In; exact Hk|]. split; assumption.
  - intros k Hk Hm. split; [apply item_In; exact Hk|].
    apply mem_false_not_In in Hm. split; intros E; apply Hm; rewrite E; cbn; auto.
  - split; assumption.
Qed.

(* ------------------------------------------------------------------------- *)
(** ** What a quantifier over a character class consumes *)

Lemma m_Cls_hit p k st c r :
  Re.rest st = String c r -> p c = true ->
  Re.m (Re.Cls p) k st = k (Re.step_char st r).
Proof. intros Hr Hc. cbn [Re.m]. rewrite Hr, Hc. reflexivity. Qed.

Lemma m_Cls_miss p k st :
  Re.starts_in p (Re.rest st) = false -> Re.m (Re.Cls p) k st = None.
Proof.
  intros H. cbn [Re.m]. destruct (Re.rest st) as [|a s']; [reflexivity|].
  cbn [Re.starts_in] in H. rewrite H. reflexivity.
Qed.

Lemma m_Star g r k st :
  Re.m (Re.Star g r) k st = Re.star_loop (Re.m r) g k (String.length (Re.rest st)) st.
Proof. reflexivity. Qed.

(** A greedy run gives back characters only when the continuation fails:
    when the continuation fails after every shorter run, the result is that
    of the continuation after the whole run. *)
Lemma star_greedy_exact p k : forall w fuel st r,
  Re.rest st = w ++ r -> String.length w <= fuel ->
  Re.all_in p w = true -> Re.starts_in p r = false ->
  (forall a b, w = a ++ b -> b <> "" ->
     k (Re.MState (Re.pos st + String.length a) (b ++ r) (Re.caps st)) = None) ->
  Re.star_loop (Re.m (Re.Cls p)) true k fuel st
  = k (Re.MState (Re.pos st + String.length w) r (Re.caps st)).
Proof.
  induction w as [|c w IH]; intros fuel st r Hr Hf Hall Hstop Hk.
  - cbn [append String.length] in *. rewrite Nat.add_0_r, <- Hr, mstate_eta.
    destruct fuel as [|f]; cbn [Re.star_loop]; [reflexivity|].
    rewrite m_Cls_miss; [reflexivity|rewrite Hr; exact Hstop].
  - destruct fuel as [|f]; [cbn in Hf; lia|].
    cbn [Re.all_in] in Hall. apply andb_prop in Hall as [Hc Hall].
    cbn [append] in Hr. cbn [Re.star_loop]. rewrite (m_Cls_hit _ _ _ _ _ Hr Hc).
    rewrite Hr. cbn [Re.step_char Re.rest String.length].
    replace (Nat.ltb (String.length (w ++ r)) (S (String.length (w ++ r)))) with true
      by (symmetry; apply Nat.ltb_lt; lia).
    change (Re.MState (S (Re.pos st)) (w ++ r) (Re.caps st))
      with (Re.step_char st (w ++ r)).
    rewrite (IH f (Re.step_char st (w ++ r)) r eq_refl);
      [|cbn [String.length] in Hf; lia|exact Hall|exact Hstop|].
    + cbn [Re.step_char Re.pos Re.caps String.length].
      replace (S (Re.pos st) + String.length w) with (Re.pos st + S (String.length w)) by lia.
      destruct (k _) eqn:E; [reflexivity|].
      specialize (Hk "" (String c w) eq_refl ltac:(discriminate)).
      cbn [String.length append] in Hk. rewrite Nat.add_0_r, <- Hr, mstate_eta in Hk.
      exact Hk.
    + intros a b Hab Hb. specialize (Hk (String c a) b ltac:(rewrite Hab; reflexivity) Hb).
      cbn [Re.step_char Re.pos Re.caps String.length] in *.
      replace (S (Re.pos st) + String.length a) with (Re.pos st + S (String.length a)) by lia.
      exact Hk.
Qed.

(** A greedy run of a class in front of a character outside the class:
    the run is taken whole. *)
Lemma m_star_then_chr p c K st w r :
  p c = false ->
  Re.rest st = w ++ r -> Re.all_in p w = true -> Re.starts_in p r = false ->
  Re.m (Re.Star Re.greedy (Re.Cls p)) (Re.m (Re.Chr c) K) st
  = Re.m (Re.Chr c) K (Re.MState (Re.pos st + String.length w) r (Re.caps st)).
Proof.
  intros Hc Hr Hall Hstop. rewrite m_Star.
  apply star_greedy_exact; try assumption.
  - rewrite Hr, length_app_s. lia.
  - intros a b Hab Hb. destruct b as [|x b]; [congruence|].
    cbn [Re.m Re.rest append].
    destruct (Char.eqb x c) eqn:E; [|reflexivity].
    apply char_eqb_eq in E. subst x.
    rewrite Hab, all_in_app in Hall. apply andb_prop in Hall as [_ Hall].
    cbn [Re.all_in] in Hall. rewrite Hc in Hall. discriminate.
Qed.

(** A lazy run stops at the first length at which the continuation
    succeeds. *)
Lemma star_lazy_exact p k : forall w fuel st r x,
  Re.rest st = w ++ r -> String.length w <= fuel ->
  Re.all_in p w = true ->
  (forall a b, w = a ++ b -> b <> "" ->
     k (Re.MState (Re.pos st + String.length a) (b ++ r) (Re.caps st)) = None) ->
  k (Re.MState (Re.pos st + String.length w) r (Re.caps st)) = Some x ->
  Re.star_loop (Re.m (Re.Cls p)) false k fuel st = Some x.
Proof.
  induction w as [|c w IH]; intros fuel st r x Hr Hf Hall Hk Hx.
  - cbn [append String.length] in *. rewrite Nat.add_0_r, <- Hr, mstate_eta in Hx.
    destruct fuel as [|f]; cbn [Re.star_loop]; [exact Hx|]. rewrite Hx. reflexivity.
  - destruct fuel as [|f]; [cbn in Hf; lia|].
    cbn [Re.all_in] in Hall. apply andb_prop in Hall as [Hc Hall].
    cbn [append] in Hr. cbn [Re.star_loop].
    pose proof (Hk "" (String c w) eq_refl ltac:(discriminate)) as H0.
    cbn [String.length append] in H0. rewrite Nat.add_0_r, <- Hr, mstate_eta in H0.
    rewrite H0. rewrite (m_Cls_hit _ _ _ _ _ Hr Hc).
    rewrite Hr. cbn [Re.step_char Re.rest String.length].
    replace (Nat.ltb (String.length (w ++ r)) (S (String.length (w ++ r)))) with true
      by (symmetry; apply Nat.ltb_lt; lia).
    change (Re.MState (S (Re.pos st)) (w ++ r) (Re.caps st))
      with (Re.step_char st (w ++ r)).
    apply (IH f (Re.step_char st (w ++ r)) r x eq_refl);
      [cbn [String.length] in Hf; lia|exact Hall| |].
    + intros a b Hab Hb. specialize (Hk (String c a) b ltac:(rewrite Hab; reflexivity) Hb).
      cbn [Re.step_char Re.pos Re.caps String.length] in *.
      replace (S (Re.pos st) + String.length a) with (Re.pos st + S (String.length a)) by lia.
      exact Hk.
    + cbn [Re.step_char Re.pos Re.caps String.length] in *.
      replace (S (Re.pos st) + String.length w) with (Re.pos st + S (String.length w)) by lia.
      exact Hx.
Qed.

(** A lazy group over a class captures the shortest non-empty run after
    which the rest of the pattern matches. *)
Lemma m_grp_lazy_exact n p K st w r x :
  Re.rest st = w ++ r -> w <> "" -> Re.all_in p w = true ->
  (forall a b, w = a ++ b -> a <> "" -> b <> "" ->
     K (Re.MState (Re.pos st + String.length a) (b ++ r) ((n, a) :: Re.caps st)) = None) ->
  K (Re.MState (Re.pos st + String.length w) r ((n, w) :: Re.caps st)) = Some x ->
  Re.m (Re.Grp n (Re.Plus Re.lazy (Re.Cls p))) K st = Some x.
Proof.
  intros Hr Hw Hall Hk Hx.
  destruct w as [|c w]; [congruence|]. clear Hw.
  cbn [Re.all_in] in Hall. apply andb_prop in Hall as [Hc Hall].
  unfold Re.Plus. cbn [Re.m]. cbn [append] in Hr. rewrite Hr, Hc.
  assert (Hcap : forall a b, w = a ++ b ->
            Re.set_cap n
              (Re.consumed st (Re.MState (Re.pos (Re.step_char st (w ++ r)) + String.length a)
                                         (b ++ r) (Re.caps (Re.step_char st (w ++ r)))))
              (Re.MState (Re.pos (Re.step_char st (w ++ r)) + String.length a) (b ++ r)
                         (Re.caps (Re.step_char st (w ++ r))))
            = Re.MState (Re.pos st + String.length (String c a)) (b ++ r)
                        ((n, String c a) :: Re.caps st)).
  { intros a b Hab. unfold Re.set_cap, Re.consumed.
    cbn [Re.pos Re.rest Re.caps Re.step_char String.length].
    replace (S (Re.pos st) + String.length a - Re.pos st) with (String.length (String c a))
      by (cbn [String.length]; lia).
    rewrite Hr, Hab, app_assoc_s.
    change (String c (a ++ b ++ r)) with (String c a ++ (b ++ r)). rewrite take_app.
    f_equal. cbn [String.length]. lia. }
  eapply star_lazy_exact with (w := w) (r := r).
  - reflexivity.
  - cbn [Re.step_char Re.rest]. rewrite length_app_s. lia.
  - exact Hall.
  - intros a b Hab Hb. rewrite (Hcap a b Hab).
    apply Hk; [rewrite Hab; reflexivity|discriminate|exact Hb].
  - pose proof (Hcap w "" ltac:(rewrite app_nil_r_s; reflexivity)) as E.
    cbn [append] in E. rewrite E. exact Hx.
Qed.

(** A group over one character of a class. *)
Lemma m_grp_cls n p K st c r :
  Re.rest st = String c r -> p c = true ->
  Re.m (Re.Grp n (Re.Cls p)) K st
  = K (Re.MState (S (Re.pos st)) r ((n, String c "") :: Re.caps st)).
Proof.
  intros Hr Hc. cbn [Re.m]. rewrite Hr, Hc.
  unfold Re.set_cap, Re.consumed. cbn [Re.pos Re.rest Re.caps Re.step_char].
  replace (S (Re.pos st) - Re.pos st) with 1 by lia. rewrite Hr. reflexivity.
Qed.

Lemma not_contains_all_in c : forall w,
  Py.contains (String c "") w = false ->
  Re.all_in (fun a => negb (Char.eqb a c)) w = true.
Proof.
  induction w as [|a w IH]; [reflexivity|]. rewrite contains_char_cons. intros H.
  apply orb_false_iff in H as [Ha Hw]. cbn [Re.all_in].
  rewrite char_eqb_sym, Ha, (IH Hw). reflexivity.
Qed.

(** Stripped texts: no blank at the end of any non-empty tail. *)
Lemma rstrip_app_blank : forall a b,
  Re.all_in Py.is_space b = true -> Py.rstrip (a ++ b) = Py.rstrip a.
Proof.
  induction a as [|c a IH]; intros b Hb.
  - cbn [append Py.rstrip]. induction b as [|x b IHb]; [reflexivity|].
    cbn [Re.all_in] in Hb. apply andb_prop in Hb as [Hx Hb].
    rewrite rstrip_cons, (IHb Hb), Hx. reflexivity.
  - cbn [append]. rewrite !rstrip_cons, (IH b Hb). reflexivity.
Qed.

Lemma rstrip_length s : String.length (Py.rstrip s) <= String.length s.
Proof.
  induction s as [|c s IH]; [cbn; lia|]. rewrite rstrip_cons.
  destruct (Py.rstrip s); [destruct (Py.is_space c)|]; cbn [String.length] in *; lia.
Qed.

Lemma stripped_tail name a b :
  Py.strip name = name -> name = a ++ b -> b <> "" -> Re.all_in Py.is_space b = false.
Proof.
  intros Hs Hab Hb. destruct (Re.all_in Py.is_space b) eqn:E; [|reflexivity]. exfalso.
  assert (Hr : Py.rstrip name = name).
  { rewrite <- Hs at 1. unfold Py.strip. rewrite rstrip_idem. exact Hs. }
  rewrite Hab, (rstrip_app_blank a b E) in Hr.
  pose proof (rstrip_length a) as L. rewrite Hr, length_app_s in L.
  destruct b; [congruence|]. cbn [String.length] in L. lia.
Qed.

Lemma stripped_head name :
  Py.strip name = name -> Re.starts_in Py.is_space name = false.
Proof. intros <-. apply strip_no_lead. Qed.

Lemma lstrip_nonblank b :
  Re.all_in Py.is_space b = false -> Py.lstrip b <> "".
Proof.
  induction b as [|c b IH]; [discriminate|]. cbn [Re.all_in Py.lstrip].
  destruct (Py.is_space c); [exact IH|discriminate].
Qed.

Lemma starts_in_app p a b :
  a <> "" -> Re.starts_in p (a ++ b) = Re.starts_in p a.
Proof. destruct a; [congruence|reflexivity]. Qed.

(* ------------------------------------------------------------------------- *)
(** ** The title of a document *)

Lemma lstrip_app_ws : forall w s,
  Re.all_in Py.is_space w = true -> Py.lstrip (w ++ s) = Py.lstrip s.
Proof.
  induction w as [|c w IH]; intros s H; [reflexivity|].
  cbn [Re.all_in] in H. apply andb_prop in H as [Hc H].
  cbn [append Py.lstrip]. rewrite Hc. apply IH. exact H.
Qed.

Lemma lstrip_app_nonblank : forall b s,
  Re.all_in Py.is_space b = false -> Py.lstrip (b ++ s) = Py.lstrip b ++ s.
Proof.
  induction b as [|c b IH]; intros s H; [discriminate|].
  cbn [Re.all_in] in H. cbn [append Py.lstrip].
  destruct (Py.is_space c); [apply IH; exact H|reflexivity].
Qed.

Lemma lstrip_suffix s : exists w, s = w ++ Py.lstrip s.
Proof. destruct (lstrip_split s) as (w & H & _). exists w. exact H. Qed.

(** White space in front of a character that is not white space: the run
    is passed over whole. *)
Lemma ws_then_chr c K st :
  Py.is_space c = false ->
  exists p,
    Re.m (Re.Star Re.greedy Re.ws) (Re.m (Re.Chr c) K) st
    = Re.m (Re.Chr c) K (Re.MState p (Py.lstrip (Re.rest st)) (Re.caps st)).
Proof.
  intros Hc. destruct (lstrip_split (Re.rest st)) as (w & Hw & Ha).
  exists (Re.pos st + String.length w). unfold Re.ws.
  apply m_star_then_chr; [exact Hc|exact Hw|exact Ha|apply lstrip_no_lead].
Qed.

Lemma ws_then_chr_miss c K st :
  Py.is_space c = false ->
  String.prefix (String c "") (Py.lstrip (Re.rest st)) = false ->
  Re.m (Re.Star Re.greedy Re.ws) (Re.m (Re.Chr c) K) st = None.
Proof.
  intros Hc H. destruct (ws_then_chr c K st Hc) as (p & ->).
  cbn [Re.m Re.rest]. destruct (Py.lstrip (Re.rest st)) as [|a s']; [reflexivity|].
  rewrite prefix_char in H. rewrite char_eqb_sym, H. reflexivity.
Qed.

Lemma ws_then_chr_hit c K st r :
  Py.is_space c = false ->
  Py.lstrip (Re.rest st) = String c r ->
  exists p,
    Re.m (Re.Star Re.greedy Re.ws) (Re.m (Re.Chr c) K) st
    = K (Re.MState p r (Re.caps st)).
Proof.
  intros Hc H. destruct (ws_then_chr c K st Hc) as (p & ->).
  exists (S p). rewrite (m_Chr c K _ r); [reflexivity|cbn [Re.rest]; exact H].
Qed.

Lemma ws_then_chr_hit_seq c R k st r :
  Py.is_space c = false ->
  Py.lstrip (Re.rest st) = String c r ->
  exists p,
    Re.m (Re.Seq (Re.Star Re.greedy Re.ws) (Re.Seq (Re.Chr c) R)) k st
    = Re.m R k (Re.MState p r (Re.caps st)).
Proof. intros Hc H. apply (ws_then_chr_hit c (Re.m R k) st r Hc H). Qed.

Lemma absent_char_head c a s :
  Py.contains (String c "") (String a s) = false -> Char.eqb a c = false.
Proof.
  rewrite contains_char_cons. intros H. apply orb_false_iff in H as [H _].
  rewrite char_eqb_sym. exact H.
Qed.

Module TitleFacts.
Import Re.

(** The part of the first two patterns after the section name,
    [\s*-\s*\(] and what follows: it does not match inside a name that has
    no opening parenthesis. *)
Lemma risk_tail_miss K st b sp2 t :
  rest st = b ++ sp2 ++ String "-" t ->
  all_in Py.is_space b = false ->
  Py.contains "(" b = false ->
  all_in Py.is_space sp2 = true ->
  m (Star greedy ws) (m (Chr "-") (m (Star greedy ws) (m (Chr "(") K))) st = None.
Proof.
  intros Hr Hb Hp Hs.
  assert (Hl : Py.lstrip (rest st) = Py.lstrip b ++ sp2 ++ String "-" t).
  { rewrite Hr. apply lstrip_app_nonblank. exact Hb. }
  destruct (lstrip_suffix b) as (w & Hw).
  destruct (Py.lstrip b) as [|x b2] eqn:Eb; [apply lstrip_nonblank in Hb; congruence|].
  cbn [append] in Hl.
  destruct (Char.eqb x "-") eqn:Ex.
  - apply char_eqb_eq in Ex. subst x.
    destruct (ws_then_chr_hit "-" (m (Star greedy ws) (m (Chr "(") K)) st _ eq_refl Hl)
      as (p & ->).
    apply ws_then_chr_miss; [reflexivity|]. cbn [rest].
    destruct (all_in Py.is_space b2) eqn:E2.
    + rewrite <- app_assoc_s, lstrip_app_ws by (rewrite all_in_app, E2, Hs; reflexivity).
      reflexivity.
    + rewrite (lstrip_app_nonblank _ _ E2).
      destruct (lstrip_suffix b2) as (w2 & Hw2).
      destruct (Py.lstrip b2) as [|y b3] eqn:E3; [apply lstrip_nonblank in E2; congruence|].
      cbn [append]. rewrite prefix_char.
      rewrite Hw, Hw2 in Hp. apply contains_suffix_false in Hp.
      change (String "-" (w2 ++ String y b3)) with (String "-" w2 ++ String y b3) in Hp.
      apply contains_suffix_false in Hp. apply absent_char_head in Hp.
      rewrite char_eqb_sym. exact Hp.
  - apply ws_then_chr_miss; [reflexivity|]. rewrite Hl, prefix_char, char_eqb_sym. exact Ex.
Qed.

(** The same part at the end of the section name: the risk level is the
    text between the parentheses. *)
Lemma risk_tail_hit st sp2 sp3 risk post :
  rest st = sp2 ++ String "-" (sp3 ++ String "(" (risk ++ String ")" post)) ->
  all_in Py.is_space sp2 = true ->
  all_in Py.is_space sp3 = true ->
  risk <> "" ->
  Py.contains (String Py.newline "") risk = false ->
  Py.contains ")" risk = false ->
  exists x,
    m (Star greedy ws)
      (m (Chr "-") (m (Star greedy ws) (m (Chr "(")
         (m (Grp 3 (Plus lazy dot)) (m (Chr ")") Some))))) st = Some x
    /\ caps x = (3, risk) :: caps st.
Proof.
  intros Hr H2 H3 Hne Hnl Hp.
  destruct (ws_then_chr_hit "-"
              (m (Star greedy ws) (m (Chr "(") (m (Grp 3 (Plus lazy dot)) (m (Chr ")") Some))))
              st (sp3 ++ String "(" (risk ++ String ")" post)) eq_refl) as (p1 & ->).
  { rewrite Hr, (lstrip_app_ws _ _ H2). reflexivity. }
  destruct (ws_then_chr_hit "("
              (m (Grp 3 (Plus lazy dot)) (m (Chr ")") Some))
              (MState p1 (sp3 ++ String "(" (risk ++ String ")" post)) (caps st))
              (risk ++ String ")" post) eq_refl) as (p2 & ->).
  { cbn [rest]. rewrite (lstrip_app_ws _ _ H3). reflexivity. }
  eexists. split.
  - unfold dot. eapply m_grp_lazy_exact with (w := risk) (r := String ")" post).
    + reflexivity.
    + exact Hne.
    + apply not_contains_all_in. exact Hnl.
    + intros a b Hab Ha Hb. destruct b as [|y b]; [congruence|].
      cbn [m rest append]. rewrite Hab in Hp. apply contains_suffix_false in Hp.
      apply absent_char_head in Hp. rewrite Hp. reflexivity.
    + cbn [m rest]. rewrite char_eqb_refl. reflexivity.
  - reflexivity.
Qed.

(** The section name is the shortest text after which the rest of the
    pattern matches: a stripped name without parenthesis is taken whole. *)
Lemma name_then_tail st name sp2 sp3 risk post :
  rest st = name ++ sp2 ++ String "-" (sp3 ++ String "(" (risk ++ String ")" post)) ->
  name <> "" -> Py.strip name = name ->
  Py.contains (String Py.newline "") name = false ->
  Py.contains "(" name = false ->
  all_in Py.is_space sp2 = true ->
  all_in Py.is_space sp3 = true ->
  risk <> "" ->
  Py.contains (String Py.newline "") risk = false ->
  Py.contains ")" risk = false ->
  exists x,
    m (Grp 2 (Plus lazy dot))
      (m (Star greedy ws)
         (m (Chr "-") (m (Star greedy ws) (m (Chr "(")
            (m (Grp 3 (Plus lazy dot)) (m (Chr ")") Some)))))) st = Some x
    /\ caps x = (3, risk) :: (2, name) :: caps st.
Proof.
  intros Hr Hne Hs Hnl Hp H2 H3 Hrne Hrnl Hrp.
  destruct (risk_tail_hit
              (MState (pos st + String.length name)
                      (sp2 ++ String "-" (sp3 ++ String "(" (risk ++ String ")" post)))
                      ((2, name) :: caps st))
              sp2 sp3 risk post eq_refl H2 H3 Hrne Hrnl Hrp) as (x & Hx & Hc).
  exists x. split; [|exact Hc].
  unfold dot. eapply m_grp_lazy_exact with (w := name); [exact Hr|exact Hne| | |exact Hx].
  - apply not_contains_all_in. exact Hnl.
  - intros a b Hab Ha Hb.
    apply risk_tail_miss with (b := b) (sp2 := sp2)
                              (t := sp3 ++ String "(" (risk ++ String ")" post)).
    + reflexivity.
    + apply (stripped_tail name a b Hs Hab Hb).
    + rewrite Hab in Hp. apply contains_suffix_false in Hp. exact Hp.
    + exact H2.
Qed.

(** [Section ] does not overlap itself: an occurrence cannot start inside
    a text that has none and end in an occurrence that follows the text. *)
Lemma section_word_no_overlap pre s :
  Py.contains "Section " pre = false ->
  forall a b, pre = a ++ b -> b <> "" ->
    String.prefix "Section " (b ++ "Section " ++ s) = false.
Proof.
  intros Hc a b Hab Hb. rewrite Hab in Hc. apply contains_suffix_false in Hc.
  destruct (String.prefix "Section " (b ++ "Section " ++ s)) eqn:E; [|reflexivity].
  exfalso. apply prefix_inv in E as [r E].
  destruct b as [|x1 [|x2 [|x3 [|x4 [|x5 [|x6 [|x7 [|x8 b]]]]]]]];
    cbn [append] in E; try congruence; try discriminate E.
  inversion E; subst.
  rewrite contains_unfold in Hc.
  change (String "S" (String "e" (String "c" (String "t" (String "i"
            (String "o" (String "n" (String " " b))))))))
    with ("Section " ++ b) in Hc.
  rewrite prefix_app in Hc. discriminate.
Qed.

(** The first pattern at an occurrence of [Section X:]. *)
Lemma pattern1_at p c sp1 name sp2 sp3 risk post :
  Py.is_upper c = true ->
  all_in Py.is_space sp1 = true ->
  name <> "" -> Py.strip name = name ->
  Py.contains (String Py.newline "") name = false ->
  Py.contains "(" name = false ->
  all_in Py.is_space sp2 = true ->
  all_in Py.is_space sp3 = true ->
  risk <> "" ->
  Py.contains (String Py.newline "") risk = false ->
  Py.contains ")" risk = false ->
  exists x,
    m Title.pattern1 Some
      (MState p
         ("Section " ++ String c (String ":" (sp1 ++ name ++ sp2
            ++ String "-" (sp3 ++ String "(" (risk ++ String ")" post))))) [])
    = Some x
    /\ caps x = [(3, risk); (2, name); (1, String c "")].
Proof.
  intros Hu H1 Hne Hs Hnl Hp H2 H3 Hrne Hrnl Hrp.
  destruct (name_then_tail
              (MState (S (S (p + String.length "Section ")) + String.length sp1)
                      (name ++ sp2 ++ String "-" (sp3 ++ String "(" (risk ++ String ")" post)))
                      [(1, String c "")])
              name sp2 sp3 risk post eq_refl Hne Hs Hnl Hp H2 H3 Hrne Hrnl Hrp)
    as (x & Hx & Hc).
  exists x. split; [|exact Hc].
  unfold Title.pattern1. cbn [Cat]. rewrite m_Seq.
  erewrite m_Lit; [|reflexivity]. rewrite m_Seq.
  unfold upper. erewrite m_grp_cls; [|reflexivity|exact Hu]. rewrite m_Seq.
  erewrite m_Chr; [|reflexivity]. rewrite m_Seq.
  eapply m_star_run with (w := sp1); [reflexivity|exact H1| |exact Hx].
  rewrite (starts_in_app _ _ _ Hne). apply stripped_head. exact Hs.
Qed.

(** The second pattern at an occurrence of [Section X -]. *)
Lemma pattern2_at p c sp0 sp1 name sp2 sp3 risk post :
  Py.is_upper c = true ->
  all_in Py.is_space sp0 = true ->
  all_in Py.is_space sp1 = true ->
  name <> "" -> Py.strip name = name ->
  Py.contains (String Py.newline "") name = false ->
  Py.contains "(" name = false ->
  all_in Py.is_space sp2 = true ->
  all_in Py.is_space sp3 = true ->
  risk <> "" ->
  Py.contains (String Py.newline "") risk = false ->
  Py.contains ")" risk = false ->
  exists x,
    m Title.pattern2 Some
      (MState p
         ("Section " ++ String c (sp0 ++ String "-" (sp1 ++ name ++ sp2
            ++ String "-" (sp3 ++ String "(" (risk ++ String ")" post))))) [])
    = Some x
    /\ caps x = [(3, risk); (2, name); (1, String c "")].
Proof.
  intros Hu H0 H1 Hne Hs Hnl Hp H2 H3 Hrne Hrnl Hrp.
  unfold Title.pattern2. cbn [Cat]. rewrite m_Seq.
  erewrite m_Lit; [|reflexivity]. rewrite m_Seq.
  unfold upper. erewrite m_grp_cls; [|reflexivity|exact Hu].
  match goal with
  | |- context [m (Seq (Star greedy ws) (Seq (Chr "-") ?R)) Some ?st] =>
      destruct (ws_then_chr_hit_seq "-" R Some st
                  (sp1 ++ name ++ sp2
                     ++ String "-" (sp3 ++ String "(" (risk ++ String ")" post)))
                  eq_refl) as (q & Hq);
        [cbn [rest]; rewrite (lstrip_app_ws _ _ H0); reflexivity|]
  end.
  destruct (name_then_tail
              (MState (q + String.length sp1)
                      (name ++ sp2 ++ String "-" (sp3 ++ String "(" (risk ++ String ")" post)))
                      [(1, String c "")])
              name sp2 sp3 risk post eq_refl Hne Hs Hnl Hp H2 H3 Hrne Hrnl Hrp)
    as (x & Hx & Hc).
  exists x. split; [|exact Hc]. rewrite Hq, m_Seq.
  eapply m_star_run with (w := sp1); [reflexivity|exact H1| |exact Hx].
  rewrite (starts_in_app _ _ _ Hne). apply stripped_head. exact Hs.
Qed.

(** The third pattern at an occurrence of [Section X] followed by colons,
    dashes or white space: the name is the rest of the line. *)
Lemma pattern3_at p c sep name :
  Py.is_upper c = true ->
  sep <> "" ->
  all_in (fun a => Char.eqb a ":" || Py.is_space a || Char.eqb a "-") sep = true ->
  name <> "" ->
  starts_in (fun a => Char.eqb a ":" || Py.is_space a || Char.eqb a "-") name = false ->
  Py.contains (String Py.newline "") name = false ->
  exists x,
    m Title.pattern3 Some (MState p ("Section " ++ String c (sep ++ name)) []) = Some x
    /\ caps x = [(2, name); (1, String c "")].
Proof.
  intros Hu Hsne Hsep Hne Hst Hnl.
  destruct sep as [|s0 sep]; [congruence|]. clear Hsne.
  cbn [all_in] in Hsep. apply andb_prop in Hsep as [Hs0 Hsep].
  eexists. split.
  - unfold Title.pattern3. cbn [Cat]. rewrite m_Seq.
    erewrite m_Lit; [|reflexivity]. rewrite m_Seq.
    unfold upper. erewrite m_grp_cls; [|reflexivity|exact Hu]. rewrite m_Seq.
    unfold Plus at 1. rewrite m_Seq.
    erewrite m_Cls_hit; [|reflexivity|exact Hs0].
    eapply m_star_run with (w := sep) (r := name); [reflexivity|exact Hsep|exact Hst|].
    unfold dot. eapply m_grp_plus_run with (w := name) (r := "");
      [cbn [rest]; rewrite app_nil_r_s; reflexivity|exact Hne
      |apply not_contains_all_in; exact Hnl|reflexivity|reflexivity].
  - reflexivity.
Qed.

(** No pattern matches where the text does not go on with [Section ]. *)
Lemma needs_section_word R k st :
  String.prefix "Section " (rest st) = false ->
  m (Seq (Lit "Section ") R) k st = None.
Proof. intros H. rewrite m_Seq. apply m_Lit_fail. exact H. Qed.

(** A search finds the match at the first occurrence of [Section ]. *)
Lemma search_first_section R pre s x :
  Py.contains "Section " pre = false ->
  m (Seq (Lit "Section ") R) Some (MState (0 + String.length pre) ("Section " ++ s) [])
  = Some x ->
  re_search (Seq (Lit "Section ") R) (pre ++ "Section " ++ s)
  = Some (RMatch (0 + String.length pre) x).
Proof.
  intros Hc Hm. unfold re_search. rewrite search_from_skip.
  - apply search_from_hit. exact Hm.
  - intros a b Hab Hb. apply needs_section_word. cbn [rest].
    apply (section_word_no_overlap pre s Hc a b Hab Hb).
Qed.

(** Characters that every word of a pattern contains. *)
Lemma denotes_seq_r x A R w :
  denotes (Seq A R) w ->
  (forall w', denotes R w' -> Py.contains x w' = true) ->
  Py.contains x w = true.
Proof.
  intros H HR. inversion H; subst. apply contains_app_r. apply HR. assumption.
Qed.

Lemma denotes_chr_seq c R w :
  denotes (Seq (Chr c) R) w -> Py.contains (String c "") w = true.
Proof.
  intros H. inversion H; subst.
  match goal with Hc : denotes (Chr c) _ |- _ => inversion Hc; subst end.
  apply (contains_app (String c "") "").
Qed.

Lemma search_needs x r t mo :
  (forall w, denotes r w -> Py.contains x w = true) ->
  re_search r t = Some mo -> Py.contains x t = true.
Proof.
  intros Hr H. unfold re_search in H.
  apply search_from_inv in H as (pre & s' & -> & _ & Hm).
  apply m_sound in Hm as (w & st1 & Hd & [Hs _] & _). cbn [rest] in Hs. subst s'.
  apply contains_app_r, contains_app_l, Hr, Hd.
Qed.

Ltac needs_char :=
  first [ eapply denotes_chr_seq; eassumption
        | eapply denotes_seq_r; [eassumption|clear; intros ? ?; needs_char] ].

Lemma pattern1_needs_colon w : denotes Title.pattern1 w -> Py.contains ":" w = true.
Proof. unfold Title.pattern1. cbn [Cat]. intros H. needs_char. Qed.

Lemma pattern1_needs_paren w : denotes Title.pattern1 w -> Py.contains "(" w = true.
Proof. unfold Title.pattern1. cbn [Cat]. intros H. needs_char. Qed.

Lemma pattern2_needs_paren w : denotes Title.pattern2 w -> Py.contains "(" w = true.
Proof. unfold Title.pattern2. cbn [Cat]. intros H. needs_char. Qed.

Lemma trailing_parens_needs_paren w :
  denotes Title.trailing_parens w -> Py.contains "(" w = true.
Proof. unfold Title.trailing_parens. cbn [Cat]. intros H. needs_char. Qed.

Lemma search_none x r t :
  (forall w, denotes r w -> Py.contains x w = true) ->
  Py.contains x t = false -> re_search r t = None.
Proof.
  intros Hr Hc. destruct (re_search r t) as [mo|] eqn:E; [|reflexivity].
  rewrite (search_needs x r t mo Hr E) in Hc. discriminate.
Qed.

Lemma sub_no_match r repl s : re_search r s = None -> sub r repl s = s.
Proof. unfold sub, re_search. cbn [sub_go]. intros ->. reflexivity. Qed.

(** The section letter of a match of one of the three patterns. *)
Lemma section_letter R t mo :
  ~ In 1 (groups_of R) ->
  re_search (Seq (Lit "Section ") (Seq (Grp 1 upper) R)) t = Some mo ->
  exists c, group 1 mo = String c "" /\ Py.is_upper c = true
            /\ Py.contains ("Section " ++ String c "") t = true.
Proof.
  intros HR H. unfold re_search in H.
  apply search_from_inv in H as (pre & s' & -> & _ & Hm).
  rewrite m_Seq in Hm.
  apply m_plain in Hm as (w0 & st0 & Hd0 & [Hr0 _] & Hc0 & Hm); [|apply groups_of_Lit].
  apply denotes_Lit in Hd0. subst w0. rewrite m_Seq in Hm.
  apply m_group in Hm as (w1 & st1 & Hd1 & [Hr1 _] & Hc1 & Hm); [|reflexivity].
  apply denotes_cls in Hd1 as (c & -> & Hu).
  apply m_sound_caps in Hm as (w2 & st2 & added & _ & _ & Hc2 & Hf & Hk).
  inversion Hk; subst st2. clear Hk.
  exists c. split; [|split; [exact Hu|]].
  - unfold group. rewrite Hc2, lookup_skip.
    + rewrite Hc1. reflexivity.
    + eapply Forall_impl; [|exact Hf]. intros [i v] Hi E. cbn [fst] in *. subst i.
      apply HR. exact Hi.
  - cbn [rest] in Hr0. rewrite Hr0, Hr1.
    rewrite <- (app_assoc_s "Section " (String c "") (rest st1)).
    apply contains_app.
Qed.

End TitleFacts.

(* ------------------------------------------------------------------------- *)
(** ** What the scripts read from a title *)

Module TitleParse.
Import Re.

Lemma groups_of_match p x (c : char) (name risk : string) :
  caps x = [(3, risk); (2, name); (1, String c "")] ->
  group 1 (RMatch p x) = String c ""
  /\ group 2 (RMatch p x) = name
  /\ group 3 (RMatch p x) = risk.
Proof. intros H. unfold group. cbn [m_final]. rewrite H. repeat split. Qed.

Lemma section_word_needed r :
  (exists R, r = Seq (Lit "Section ") R) ->
  forall w, denotes r w -> Py.contains "Section " w = true.
Proof.
  intros [R ->] w H.
  inversion H as [| | |r1 r2 w1 w2 Hd1 Hd2| | | | | | | |]; subst.
  apply (denotes_Lit "Section ") in Hd1. subst w1.
  apply (contains_app "Section " "").
Qed.

Lemma pattern1_needs_section w :
  denotes Title.pattern1 w -> Py.contains "Section " w = true.
Proof. apply section_word_needed. eexists. reflexivity. Qed.

Lemma pattern2_needs_section w :
  denotes Title.pattern2 w -> Py.contains "Section " w = true.
Proof. apply section_word_needed. eexists. reflexivity. Qed.

Lemma pattern3_needs_section w :
  denotes Title.pattern3 w -> Py.contains "Section " w = true.
Proof. apply section_word_needed. eexists. reflexivity. Qed.

End TitleParse.

(** X20 (parseFordSurveyImproved.py lines 59-76, parseFordSurvey.py lines
    50-69, extractRealQuestions.py lines 24-34, extractFord2024Survey.py
    lines 24-34).  A title of the form [... Section X: name - (risk) ...]
    is read as intended.  When the text before has no [Section ] followed
    by a space, [X] is a capital letter, the name is not empty, has no
    white space around it, no line break and no opening parenthesis, and
    the risk level is not empty and has no line break and no closing
    parenthesis, then whatever white space stands after the colon and
    around the dash, parseFordSurveyImproved and parseFordSurvey return the
    letter, the name and the stripped risk level, and the two other
    scripts return the name and the stripped risk level. *)
Theorem title_with_colon (pre : string) (c : char)
        (sp1 name sp2 sp3 risk post : string) :
  Py.contains "Section " pre = false ->
  Py.is_upper c = true ->
  Re.all_in Py.is_space sp1 = true ->
  Re.all_in Py.is_space sp2 = true ->
  Re.all_in Py.is_space sp3 = true ->
  name <> "" -> Py.strip name = name ->
  Py.contains (String Py.newline "") name = false ->
  Py.contains "(" name = false ->
  risk <> "" ->
  Py.contains (String Py.newline "") risk = false ->
  Py.contains ")" risk = false ->
  let title_text :=
    pre ++ "Section " ++ String c "" ++ ":" ++ sp1 ++ name ++ sp2 ++ "-" ++ sp3
        ++ "(" ++ risk ++ ")" ++ post in
  ParseFordSurveyImproved.parse_title title_text
  = Some (String c "", name, Some (Py.strip risk))
  /\ ParseFordSurvey.parse_title title_text
     = Some (String c "", name, Some (Py.strip risk))
  /\ ExtractRealQuestions.parse_title title_text = (name, Some (Py.strip risk))
  /\ ExtractFord2024Survey.parse_title title_text = (name, Some (Py.strip risk)).
Proof.
  intros Hpre Hu H1 H2 H3 Hne Hs Hnl Hp Hrne Hrnl Hrp title_text.
  destruct (TitleFacts.pattern1_at (0 + String.length pre) c sp1 name sp2 sp3 risk post
              Hu H1 Hne Hs Hnl Hp H2 H3 Hrne Hrnl Hrp) as (x & Hx & Hc).
  assert (Hsearch : Re.re_search Title.pattern1 title_text
                    = Some (Re.RMatch (0 + String.length pre) x)).
  { unfold Title.pattern1. cbn [Re.Cat].
    apply (TitleFacts.search_first_section _ pre _ x Hpre). exact Hx. }
  destruct (TitleParse.groups_of_match (0 + String.length pre) x c name risk Hc)
    as (G1 & G2 & G3).
  unfold ParseFordSurveyImproved.parse_title, ParseFordSurvey.parse_title,
    ExtractRealQuestions.parse_title, ExtractFord2024Survey.parse_title.
  rewrite Hsearch, G1, G2, G3, Hs. repeat split.
Qed.

Lemma title_with_colon_witness :
  ParseFordSurveyImproved.parse_title
    "SIG Lite 2024 - Section A: Enterprise Risk Management - (High Availability)"
  = Some ("A", "Enterprise Risk Management", Some "High Availability").
Proof.
  exact (proj1 (title_with_colon "SIG Lite 2024 - " "A" " "
                  "Enterprise Risk Management" " " " " "High Availability" ""
                  eq_refl eq_refl eq_refl eq_refl eq_refl
                  ltac:(discriminate) eq_refl eq_refl eq_refl
                  ltac:(discriminate) eq_refl eq_refl)).
Defined.

(** X21 (parseFordSurveyImproved.py lines 59-76, parseFordSurvey.py lines
    50-69, extractRealQuestions.py lines 24-34, extractFord2024Survey.py
    lines 24-34).  A title of the form [... Section X - name - (risk) ...]
    that has no colon anywhere is read by the second pattern: under the
    same conditions on the letter, the name and the risk level as for the
    form with a colon, the four scripts return the name and the stripped
    risk level, and parseFordSurveyImproved and parseFordSurvey the letter
    as well. *)
Theorem title_with_dash (pre : string) (c : char)
        (sp0 sp1 name sp2 sp3 risk post : string) :
  let title_text :=
    pre ++ "Section " ++ String c "" ++ sp0 ++ "-" ++ sp1 ++ name ++ sp2 ++ "-" ++ sp3
        ++ "(" ++ risk ++ ")" ++ post in
  Py.contains ":" title_text = false ->
  Py.contains "Section " pre = false ->
  Py.is_upper c = true ->
  Re.all_in Py.is_space sp0 = true ->
  Re.all_in Py.is_space sp1 = true ->
  Re.all_in Py.is_space sp2 = true ->
  Re.all_in Py.is_space sp3 = true ->
  name <> "" -> Py.strip name = name ->
  Py.contains (String Py.newline "") name = false ->
  Py.contains "(" name = false ->
  risk <> "" ->
  Py.contains (String Py.newline "") risk = false ->
  Py.contains ")" risk = false ->
  ParseFordSurveyImproved.parse_title title_text
  = Some (String c "", name, Some (Py.strip risk))
  /\ ParseFordSurvey.parse_title title_text
     = Some (String c "", name, Some (Py.strip risk))
  /\ ExtractRealQuestions.parse_title title_text = (name, Some (Py.strip risk))
  /\ ExtractFord2024Survey.parse_title title_text = (name, Some (Py.strip risk)).
Proof.
  intros title_text Hcolon Hpre Hu H0 H1 H2 H3 Hne Hs Hnl Hp Hrne Hrnl Hrp.
  destruct (TitleFacts.pattern2_at (0 + String.length pre) c sp0 sp1 name sp2 sp3 risk post
              Hu H0 H1 Hne Hs Hnl Hp H2 H3 Hrne Hrnl Hrp) as (x & Hx & Hc).
  assert (Hfirst : Re.re_search Title.pattern1 title_text = None).
  { apply (TitleFacts.search_none ":"); [apply TitleFacts.pattern1_needs_colon|exact Hcolon]. }
  assert (Hsearch : Re.re_search Title.pattern2 title_text
                    = Some (Re.RMatch (0 + String.length pre) x)).
  { unfold Title.pattern2. cbn [Re.Cat].
    apply (TitleFacts.search_first_section _ pre _ x Hpre). exact Hx. }
  destruct (TitleParse.groups_of_match (0 + String.length pre) x c name risk Hc)
    as (G1 & G2 & G3).
  unfold ParseFordSurveyImproved.parse_title, ParseFordSurvey.parse_title,
    ExtractRealQuestions.parse_title, ExtractFord2024Survey.parse_title.
  rewrite Hfirst, Hsearch, G1, G2, G3, Hs. repeat split.
Qed.

Lemma title_with_dash_witness :
  ParseFordSurveyImproved.parse_title
    "SIG Lite 2022 Section C - Organizational Security - (Enhanced)"
  = Some ("C", "Organizational Security", Some "Enhanced").
Proof.
  exact (proj1 (title_with_dash "SIG Lite 2022 " "C" " " " "
                  "Organizational Security" " " " " "Enhanced" ""
                  eq_refl eq_refl eq_refl eq_refl eq_refl eq_refl eq_refl
                  ltac:(discriminate) eq_refl eq_refl eq_refl
                  ltac:(discriminate) eq_refl eq_refl)).
Defined.

(** X22 (parseFordSurveyImproved.py lines 59-76, parseFordSurvey.py lines
    50-69, extractRealQuestions.py lines 24-34, extractFord2024Survey.py
    lines 24-34).  A title without an opening parenthesis has no risk
    level.  For a title [... Section X<sep>name] in which [X] is a capital
    letter, [sep] is a non-empty run of colons, dashes and white space, and
    the name starts with another character and has no line break,
    parseFordSurveyImproved and parseFordSurvey return the letter and the
    stripped name with no risk level; extractRealQuestions and
    extractFord2024Survey return the name ["Unknown"] and no risk level. *)
Theorem title_without_risk (pre : string) (c : char) (sep name : string) :
  let title_text := pre ++ "Section " ++ String c "" ++ sep ++ name in
  Py.contains "(" title_text = false ->
  Py.contains "Section " pre = false ->
  Py.is_upper c = true ->
  sep <> "" ->
  Re.all_in (fun a => Char.eqb a ":" || Py.is_space a || Char.eqb a "-") sep = true ->
  name <> "" ->
  Re.starts_in (fun a => Char.eqb a ":" || Py.is_space a || Char.eqb a "-") name = false ->
  Py.contains (String Py.newline "") name = false ->
  ParseFordSurveyImproved.parse_title title_text
  = Some (String c "", Py.strip name, None)
  /\ ParseFordSurvey.parse_title title_text = Some (String c "", Py.strip name, None)
  /\ ExtractRealQuestions.parse_title title_text = ("Unknown", None)
  /\ ExtractFord2024Survey.parse_title title_text = ("Unknown", None).
Proof.
  intros title_text Hparen Hpre Hu Hsne Hsep Hne Hst Hnl.
  destruct (TitleFacts.pattern3_at (0 + String.length pre) c sep name
              Hu Hsne Hsep Hne Hst Hnl) as (x & Hx & Hc).
  assert (H1 : Re.re_search Title.pattern1 title_text = None).
  { apply (TitleFacts.search_none "("); [apply TitleFacts.pattern1_needs_paren|exact Hparen]. }
  assert (H2 : Re.re_search Title.pattern2 title_text = None).
  { apply (TitleFacts.search_none "("); [apply TitleFacts.pattern2_needs_paren|exact Hparen]. }
  assert (H3 : Re.re_search Title.pattern3 title_text
               = Some (Re.RMatch (0 + String.length pre) x)).
  { unfold Title.pattern3. cbn [Re.Cat].
    apply (TitleFacts.search_first_section _ pre _ x Hpre). exact Hx. }
  assert (Hname : Py.contains "(" (Py.strip name) = false).
  { apply strip_keeps_absent. unfold title_text in Hparen.
    apply contains_suffix_false in Hparen.
    apply (contains_suffix_false "(" "Section ") in Hparen.
    apply (contains_suffix_false "(" (String c "")) in Hparen.
    apply contains_suffix_false in Hparen. exact Hparen. }
  unfold ParseFordSurveyImproved.parse_title, ParseFordSurvey.parse_title,
    ExtractRealQuestions.parse_title, ExtractFord2024Survey.parse_title.
  rewrite H1, H2, H3. unfold Re.group. cbn [Re.m_final]. rewrite Hc.
  cbn [Re.lookup Nat.eqb].
  rewrite TitleFacts.sub_no_match; [repeat split|].
  apply (TitleFacts.search_none "(");
    [apply TitleFacts.trailing_parens_needs_paren|exact Hname].
Qed.

Lemma title_without_risk_witness :
  ParseFordSurveyImproved.parse_title "Section B - Access Control"
  = Some ("B", "Access Control", None)
  /\ ExtractRealQuestions.parse_title "Section B - Access Control" = ("Unknown", None).
Proof.
  destruct (title_without_risk "" "B" " - " "Access Control"
              eq_refl eq_refl eq_refl ltac:(discriminate) eq_refl
              ltac:(discriminate) eq_refl eq_refl) as (H1 & _ & H2 & _).
  split; [exact H1|exact H2].
Defined.

(** X23 (parseFordSurveyImproved.py lines 59-76, parseFordSurvey.py lines
    50-69).  The section identifier that parseFordSurveyImproved or
    parseFordSurvey reads from a title is one capital letter, and it stands
    in the title right after the word [Section] and a space.  When a risk
    level is returned, it and the section name have no white space around
    them. *)
Theorem title_section_letter (title_text sid name : string) (risk : option string) :
  ParseFordSurveyImproved.parse_title title_text = Some (sid, name, risk)
  \/ ParseFordSurvey.parse_title title_text = Some (sid, name, risk) ->
  (exists c, sid = String c "" /\ Py.is_upper c = true
             /\ Py.contains ("Section " ++ sid) title_text = true)
  /\ (forall r, risk = Some r -> Py.strip r = r /\ Py.strip name = name).
Proof.
  intros H.
  assert (H' : ParseFordSurveyImproved.parse_title title_text = Some (sid, name, risk))
    by (destruct H as [H|H]; exact H).
  clear H. revert H'.
  unfold ParseFordSurveyImproved.parse_title. intros H.
  destruct (Re.re_search Title.pattern1 title_text) as [mo|] eqn:E1.
  { inversion H; subst. split.
    - unfold Title.pattern1 in E1. cbn [Re.Cat] in E1.
      apply TitleFacts.section_letter in E1 as (c & Hg & Hu & Hc).
      + exists c. rewrite Hg. auto.
      + cbn. intros [E|[E|[]]]; discriminate.
    - intros r Hr. inversion Hr; subst. split; apply strip_idem. }
  destruct (Re.re_search Title.pattern2 title_text) as [mo|] eqn:E2.
  { inversion H; subst. split.
    - unfold Title.pattern2 in E2. cbn [Re.Cat] in E2.
      apply TitleFacts.section_letter in E2 as (c & Hg & Hu & Hc).
      + exists c. rewrite Hg. auto.
      + cbn. intros [E|[E|[]]]; discriminate.
    - intros r Hr. inversion Hr; subst. split; apply strip_idem. }
  destruct (Re.re_search Title.pattern3 title_text) as [mo|] eqn:E3; [|discriminate].
  inversion H; subst. split.
  - unfold Title.pattern3 in E3. cbn [Re.Cat] in E3.
    apply TitleFacts.section_letter in E3 as (c & Hg & Hu & Hc).
    + exists c. rewrite Hg. auto.
    + cbn. intros [E|[]]; discriminate.
  - intros r Hr. discriminate Hr.
Qed.

Lemma title_section_letter_witness :
  exists c, "A" = String c "" /\ Py.is_upper c = true
            /\ Py.contains ("Section " ++ "A") "Section A: Governance - (High)" = true.
Proof.
  exact (proj1 (title_section_letter "Section A: Governance - (High)" "A" "Governance"
                  (Some "High") (or_introl eq_refl))).
Defined.

(** X24 (parseFordSurveyImproved.py lines 59-72, parseFordSurvey.py lines
    50-65, extractRealQuestions.py lines 24-34, extractFord2024Survey.py
    lines 24-34).  A title in which the word [Section] followed by a space
    does not occur is rejected by parseFordSurveyImproved and by
    parseFordSurvey, which return no section; the two other scripts go on
    with the section name ["Unknown"] and no risk level. *)
Theorem title_without_section_word (title_text : string) :
  Py.contains "Section " title_text = false ->
  ParseFordSurveyImproved.parse_title title_text = None
  /\ ParseFordSurvey.parse_title title_text = None
  /\ ExtractRealQuestions.parse_title title_text = ("Unknown", None)
  /\ ExtractFord2024Survey.parse_title title_text = ("Unknown", None).
Proof.
  intros H.
  assert (H1 : Re.re_search Title.pattern1 title_text = None).
  { apply (TitleFacts.search_none "Section ");
      [apply TitleParse.pattern1_needs_section|exact H]. }
  assert (H2 : Re.re_search Title.pattern2 title_text = None).
  { apply (TitleFacts.search_none "Section ");
      [apply TitleParse.pattern2_needs_section|exact H]. }
  assert (H3 : Re.re_search Title.pattern3 title_text = None).
  { apply (TitleFacts.search_none "Section ");
      [apply TitleParse.pattern3_needs_section|exact H]. }
  unfold ParseFordSurveyImproved.parse_title, ParseFordSurvey.parse_title,
    ExtractRealQuestions.parse_title, ExtractFord2024Survey.parse_title.
  rewrite H1, H2, H3. repeat split.
Qed.

Lemma title_without_section_word_witness :
  ParseFordSurveyImproved.parse_title "Vendor overview" = None
  /\ ParseFordSurvey.parse_title "Vendor overview" = None
  /\ ExtractRealQuestions.parse_title "Vendor overview" = ("Unknown", None)
  /\ ExtractFord2024Survey.parse_title "Vendor overview" = ("Unknown", None).
Proof. exact (title_without_section_word "Vendor overview" eq_refl). Defined.

(* ------------------------------------------------------------------------- *)
(** ** White space in the question text *)

Lemma list_of_string_app : forall a b,
  list_of_string (a ++ b)
  = (list_of_string a ++ list_of_string b)%list.
Proof.
  induction a as [|c a IH]; intros b; [reflexivity|].
  cbn [append list_of_string app]. rewrite IH. reflexivity.
Qed.

Lemma filter_blank : forall w,
  Re.all_in Py.is_space w = true ->
  filter (fun c => negb (Py.is_space c)) (list_of_string w) = [].
Proof.
  induction w as [|c w IH]; [reflexivity|]. cbn [Re.all_in]. intros H.
  apply andb_prop in H as [Hc H]. cbn [list_of_string filter].
  rewrite Hc. cbn [negb]. apply IH. exact H.
Qed.

Lemma rstrip_blank_end x w :
  w <> "" -> Re.all_in Py.is_space w = true -> Py.rstrip (x ++ w) <> x ++ w.
Proof.
  intros Hw Ha E. pose proof (rstrip_length x) as L.
  rewrite <- (rstrip_app_blank x w Ha), E, length_app_s in L.
  destruct w; [congruence|]. cbn [String.length] in L. lia.
Qed.

Lemma rstrip_fixed_suffix : forall x r,
  Py.rstrip (x ++ r) = x ++ r -> r <> "" -> Py.rstrip r = r.
Proof.
  induction x as [|c x IH]; intros r H Hr; [exact H|].
  apply IH; [|exact Hr]. cbn [append] in H. rewrite rstrip_cons in H.
  destruct (Py.rstrip (x ++ r)) as [|a t] eqn:E.
  - destruct x; cbn [append] in *; [destruct r; [congruence|]|];
      destruct (Py.is_space c); discriminate H.
  - inversion H. reflexivity.
Qed.

Lemma rstrip_fixed_prepend : forall x t,
  t <> "" -> Py.rstrip t = t -> Py.rstrip (x ++ t) = x ++ t.
Proof.
  induction x as [|c x IH]; intros t Ht H; [exact H|].
  cbn [append]. rewrite rstrip_cons, (IH t Ht H).
  destruct (x ++ t) eqn:E; [|reflexivity].
  destruct x; cbn [append] in E; [congruence|discriminate].
Qed.

Lemma nonblank_not_space c : Py.is_space c = false -> Char.eqb " " c = false.
Proof.
  intros H. destruct (Char.eqb " " c) eqn:E; [|reflexivity].
  apply char_eqb_eq in E. subst c. discriminate H.
Qed.

Lemma prefix_cons_ne a x c s :
  Char.eqb a c = false -> String.prefix (String a x) (String c s) = false.
Proof.
  intros H. cbn [String.prefix]. rewrite H. reflexivity.
Qed.

(** Two spaces in a row cannot appear where a text without white space is
    followed by one space and a text that starts with another character. *)
Lemma no_double_space : forall a t,
  Re.all_in (fun c => negb (Py.is_space c)) a = true ->
  Re.starts_in Py.is_space t = false ->
  Py.contains "  " t = false ->
  Py.contains "  " (a ++ String " " t) = false.
Proof.
  induction a as [|c a IH]; intros t Ha Hs Ht.
  - cbn [append]. rewrite contains_unfold.
    replace (String.prefix "  " (String " " t)) with false; [exact Ht|].
    destruct t as [|d t]; [reflexivity|]. cbn [Re.starts_in] in Hs.
    cbn [String.prefix]. change (Char.eqb " " " ") with true. cbv iota.
    symmetry. apply (prefix_cons_ne " " "" d t). apply nonblank_not_space. exact Hs.
  - cbn [Re.all_in] in Ha. apply andb_prop in Ha as [Hc Ha].
    apply negb_true_iff in Hc. cbn [append]. rewrite contains_unfold.
    rewrite (prefix_cons_ne " " " " c _ (nonblank_not_space c Hc)).
    apply IH; assumption.
Qed.

Lemma nonblank_no_double : forall s,
  Re.all_in (fun c => negb (Py.is_space c)) s = true -> Py.contains "  " s = false.
Proof.
  induction s as [|c s IH]; [reflexivity|]. cbn [Re.all_in]. intros H.
  apply andb_prop in H as [Hc H]. apply negb_true_iff in Hc.
  rewrite contains_unfold, (prefix_cons_ne " " " " c _ (nonblank_not_space c Hc)).
  apply IH. exact H.
Qed.

Module Spaces.
Import Re.

(** A text has no white space, or it has a first run of white space. *)
Lemma ws_split : forall s,
  all_in (fun c => negb (Py.is_space c)) s = true
  \/ exists a w r,
       s = a ++ w ++ r
       /\ all_in (fun c => negb (Py.is_space c)) a = true
       /\ w <> "" /\ all_in Py.is_space w = true
       /\ starts_in Py.is_space r = false.
Proof.
  induction s as [|c s IH]; [left; reflexivity|].
  destruct (Py.is_space c) eqn:Ec.
  - right. destruct (lstrip_split s) as (w & Hw & Ha).
    exists "", (String c w), (Py.lstrip s). cbn [append all_in]. rewrite Ec, Ha, <- Hw.
    split; [reflexivity|]. split; [reflexivity|]. split; [discriminate|].
    split; [reflexivity|apply lstrip_no_lead].
  - destruct IH as [H|(a & w & r & -> & Ha & Hw & Hws & Hr)].
    + left. cbn [all_in]. rewrite Ec, H. reflexivity.
    + right. exists (String c a), w, r. cbn [append all_in]. rewrite Ec, Ha.
      split; [reflexivity|]. split; [reflexivity|]. split; [exact Hw|].
      split; [exact Hws|exact Hr].
Qed.

Lemma m_spaces_miss k st :
  starts_in Py.is_space (rest st) = false -> m (Plus greedy ws) k st = None.
Proof. intros H. unfold Plus, ws. rewrite m_Seq. apply m_Cls_miss. exact H. Qed.

Lemma m_spaces_hit st w r :
  rest st = w ++ r -> w <> "" -> all_in Py.is_space w = true ->
  starts_in Py.is_space r = false ->
  m (Plus greedy ws) Some st = Some (MState (pos st + String.length w) r (caps st)).
Proof.
  intros Hr Hw Ha Hs. destruct w as [|c w]; [congruence|]. clear Hw.
  cbn [all_in] in Ha. apply andb_prop in Ha as [Hc Ha]. cbn [append] in Hr.
  unfold Plus, ws. rewrite m_Seq. rewrite (m_Cls_hit _ _ _ c (w ++ r) Hr Hc).
  eapply m_star_run with (w := w) (r := r); [reflexivity|exact Ha|exact Hs|].
  cbn [step_char pos caps String.length]. f_equal. f_equal. lia.
Qed.

Lemma search_spaces_none : forall s p,
  all_in (fun c => negb (Py.is_space c)) s = true ->
  search_from (Plus greedy ws) p s = None.
Proof.
  induction s as [|c s IH]; intros p H; cbn [search_from].
  - rewrite m_spaces_miss; reflexivity.
  - cbn [all_in] in H. apply andb_prop in H as [Hc H]. apply negb_true_iff in Hc.
    rewrite m_spaces_miss; [apply IH; exact H|exact Hc].
Qed.

Lemma search_spaces_hit a w r p :
  all_in (fun c => negb (Py.is_space c)) a = true ->
  w <> "" -> all_in Py.is_space w = true -> starts_in Py.is_space r = false ->
  search_from (Plus greedy ws) p (a ++ w ++ r)
  = Some (RMatch (p + String.length a)
                 (MState (p + String.length a + String.length w) r [])).
Proof.
  intros Ha Hw Hws Hr. rewrite search_from_skip.
  - apply search_from_hit.
    apply (m_spaces_hit (MState (p + String.length a) (w ++ r) []) w r eq_refl Hw Hws Hr).
  - intros a0 b Hab Hb. apply m_spaces_miss. cbn [rest].
    rewrite (starts_in_app _ _ _ Hb).
    rewrite Hab, all_in_app in Ha. apply andb_prop in Ha as [_ Ha].
    destruct b as [|d b]; [congruence|]. cbn [all_in] in Ha.
    apply andb_prop in Ha as [Hd _]. apply negb_true_iff in Hd. exact Hd.
Qed.

Lemma sub_spaces_none f p s :
  all_in (fun c => negb (Py.is_space c)) s = true ->
  sub_go f (Plus greedy ws) " " p s = s.
Proof.
  intros H. destruct f as [|f]; [reflexivity|]. cbn [sub_go].
  rewrite (search_spaces_none s p H). reflexivity.
Qed.

(** One replacement: the first run of white space becomes one space. *)
Lemma sub_spaces_step f p a w r :
  all_in (fun c => negb (Py.is_space c)) a = true ->
  w <> "" -> all_in Py.is_space w = true -> starts_in Py.is_space r = false ->
  sub_go (S f) (Plus greedy ws) " " p (a ++ w ++ r)
  = a ++ String " " (sub_go f (Plus greedy ws) " " (p + String.length a + String.length w) r).
Proof.
  intros Ha Hw Hws Hr. cbn [sub_go].
  rewrite (search_spaces_hit a w r p Ha Hw Hws Hr). cbn [m_final m_start pos rest].
  replace (p + String.length a - p) with (String.length a) by lia. rewrite take_app.
  replace (Nat.ltb (p + String.length a) (p + String.length a + String.length w)) with true.
  - reflexivity.
  - symmetry. apply Nat.ltb_lt. destruct w; [congruence|]. cbn [String.length]. lia.
Qed.

(** The result of replacing every run of white space by one space. *)
Lemma sub_spaces_normal : forall n s f p,
  String.length s <= n -> String.length s < f ->
  all_in (fun c => negb (Py.is_space c) || Char.eqb c " ")
         (sub_go f (Plus greedy ws) " " p s) = true
  /\ Py.contains "  " (sub_go f (Plus greedy ws) " " p s) = false
  /\ starts_in Py.is_space (sub_go f (Plus greedy ws) " " p s) = starts_in Py.is_space s
  /\ (s <> "" -> Py.rstrip s = s ->
      sub_go f (Plus greedy ws) " " p s <> ""
      /\ Py.rstrip (sub_go f (Plus greedy ws) " " p s) = sub_go f (Plus greedy ws) " " p s)
  /\ filter (fun c => negb (Py.is_space c))
            (list_of_string (sub_go f (Plus greedy ws) " " p s))
     = filter (fun c => negb (Py.is_space c)) (list_of_string s).
Proof.
  induction n as [|n IH]; intros s f p Hn Hf;
    (destruct (ws_split s) as [Hs|(a & w & r & -> & Ha & Hw & Hws & Hr)];
     [rewrite (sub_spaces_none f p s Hs);
      split; [apply (all_in_impl _ _ _ (fun c H => orb_true_intro _ _ (or_introl H)) Hs)|];
      split; [apply nonblank_no_double; exact Hs|];
      split; [reflexivity|]; split; [intros H1 H2; split; assumption|reflexivity]
     |]).
  - rewrite !length_app_s in Hn. destruct w; [congruence|]. cbn [String.length] in Hn. lia.
  - destruct f as [|f]; [lia|].
    rewrite (sub_spaces_step f p a w r Ha Hw Hws Hr).
    assert (Hw1 : 1 <= String.length w) by (destruct w; [congruence|cbn [String.length]; lia]).
    rewrite !length_app_s in Hn, Hf.
    destruct (IH r f (p + String.length a + String.length w) ltac:(lia) ltac:(lia))
      as (I1 & I2 & I3 & I4 & I5).
    rewrite Hr in I3.
    split; [|split; [|split; [|split]]].
    + rewrite all_in_app. cbn [all_in]. rewrite I1.
      rewrite (all_in_impl _ _ _ (fun c H => orb_true_intro _ _ (or_introl H)) Ha).
      reflexivity.
    + apply no_double_space; assumption.
    + destruct a as [|c a]; [|reflexivity]. cbn [append starts_in].
      destruct w as [|d w]; [congruence|]. cbn [append starts_in all_in] in *.
      apply andb_prop in Hws as [Hd _]. rewrite Hd. reflexivity.
    + intros _ Hfix.
      assert (Hrne : r <> "").
      { intros ->. rewrite app_nil_r_s in Hfix.
        apply (rstrip_blank_end a w Hw Hws). exact Hfix. }
      assert (Hrfix : Py.rstrip r = r).
      { rewrite <- app_assoc_s in Hfix. apply (rstrip_fixed_suffix _ r Hfix Hrne). }
      destruct (I4 Hrne Hrfix) as [T1 T2].
      split; [destruct a; discriminate|].
      apply (rstrip_fixed_prepend a (String " " _)); [discriminate|].
      apply (rstrip_fixed_prepend " " _ T1 T2).
    + rewrite (list_of_string_app a (String " " _)), (list_of_string_app a (w ++ r)),
        (list_of_string_app w r), !filter_app, (filter_blank w Hws).
      cbn [list_of_string filter]. change (Py.is_space " ") with true.
      cbn [negb app]. rewrite I5. reflexivity.
Qed.

Lemma filter_strip s :
  filter (fun c => negb (Py.is_space c)) (list_of_string (Py.strip s))
  = filter (fun c => negb (Py.is_space c)) (list_of_string s).
Proof.
  unfold Py.strip.
  destruct (lstrip_split s) as (w & Hw & Ha).
  destruct (rstrip_split (Py.lstrip s)) as (w' & Hw' & Ha').
  rewrite Hw at 2. rewrite Hw' at 2.
  rewrite !list_of_string_app, !filter_app, (filter_blank w Ha), (filter_blank w' Ha').
  rewrite app_nil_r. reflexivity.
Qed.

(** [re.sub(r'\s+', ' ', text.strip())] *)
Lemma sub_strip_normal text :
  all_in (fun c => negb (Py.is_space c) || Char.eqb c " ")
         (sub (Plus greedy ws) " " (Py.strip text)) = true
  /\ Py.contains "  " (sub (Plus greedy ws) " " (Py.strip text)) = false
  /\ Py.strip (sub (Plus greedy ws) " " (Py.strip text))
     = sub (Plus greedy ws) " " (Py.strip text)
  /\ filter (fun c => negb (Py.is_space c))
            (list_of_string (sub (Plus greedy ws) " " (Py.strip text)))
     = filter (fun c => negb (Py.is_space c)) (list_of_string text).
Proof.
  unfold sub.
  destruct (sub_spaces_normal (String.length (Py.strip text)) (Py.strip text)
              (S (String.length (Py.strip text))) 0 (le_n _) (Nat.lt_succ_diag_r _))
    as (I1 & I2 & I3 & I4 & I5).
  split; [exact I1|]. split; [exact I2|]. split; [|rewrite I5; apply filter_strip].
  rewrite strip_no_lead in I3. unfold Py.strip at 1.
  rewrite (lstrip_fixed _ I3).
  destruct (Py.strip text) as [|c s] eqn:E.
  - reflexivity.
  - apply I4; [discriminate|]. rewrite <- E. unfold Py.strip. apply rstrip_idem.
Qed.

End Spaces.

(** X25 (extractRealQuestions.py lines 136-137, extractFord2024Survey.py
    lines 241-242).  The question text is normalised: in the cleaned text
    every white-space character is a plain space, no two spaces follow one
    another, and there is no white space at either end.  The cleaning
    touches white space only: the other characters of the collected text
    are kept, in their order. *)
Theorem clean_text_normalises (text : string) (s : ExtractRealQuestions.Scan) :
  (let t := ExtractFord2024Survey.clean_text text in
   Re.all_in (fun c => negb (Py.is_space c) || Char.eqb c " ") t = true
   /\ Py.contains "  " t = false
   /\ Py.strip t = t
   /\ filter (fun c => negb (Py.is_space c)) (list_of_string t)
      = filter (fun c => negb (Py.is_space c)) (list_of_string text))
  /\ (let t := ExtractRealQuestions.clean_text s in
      Re.all_in (fun c => negb (Py.is_space c) || Char.eqb c " ") t = true
      /\ Py.contains "  " t = false
      /\ Py.strip t = t
      /\ filter (fun c => negb (Py.is_space c)) (list_of_string t)
         = filter (fun c => negb (Py.is_space c))
                  (list_of_string (ExtractRealQuestions.question_text s))).
Proof.
  split.
  - apply (Spaces.sub_strip_normal text).
  - apply (Spaces.sub_strip_normal (ExtractRealQuestions.question_text s)).
Qed.

(** X26 (extractRealQuestions.py lines 39-157, extractFord2024Survey.py
    lines 39-262).  In every record that extractRealQuestions emits, the
    question text has single plain spaces as its only white space and none
    at either end.  The scan of extractFord2024Survey ends, and returns
    when no line has more than 4300 characters; in every record that it
    returns, the question text has no white space at either end (a text
    taken from the line of the question itself is stripped, but its inner
    white space is left as it is). *)
Theorem question_texts_stripped (sid : string) (lines : list string) :
  (exists qs,
      ExtractRealQuestions.scan_lines sid lines = Some qs
      /\ Forall (fun q =>
           Re.all_in (fun c => negb (Py.is_space c) || Char.eqb c " ")
                     (questionText q) = true
           /\ Py.contains "  " (questionText q) = false
           /\ Py.strip (questionText q) = questionText q) qs)
  /\ (exists r,
         ExtractFord2024Survey.scan_lines sid lines = Some r
         /\ (Forall (fun line => String.length line <= Py.max_str_digits) lines ->
             exists qs, r = Returned qs)
         /\ forall qs, r = Returned qs ->
            Forall (fun q =>
              Py.strip (ExtractFord2024Survey.q_questionText q)
              = ExtractFord2024Survey.q_questionText q) qs).
Proof.
  split.
  - apply RealRecords.real_scan_lines_forall. intros i q_match n s _ _ _ _.
    unfold ExtractRealQuestions.build_question. cbn [questionText].
    destruct (Spaces.sub_strip_normal (ExtractRealQuestions.question_text s))
      as (H1 & H2 & H3 & _).
    split; [exact H1|]. split; [exact H2|exact H3].
  - apply FordRecords.ford_scan_lines_forall.
    + intros i q_match same scoring _ line _ _ _ _.
      cbn [ExtractFord2024Survey.q_questionText]. apply strip_idem.
    + intros i q_match n s scoring _ line _ _ _ _.
      cbn [ExtractFord2024Survey.q_questionText].
      destruct (Spaces.sub_strip_normal (ExtractFord2024Survey.question_text s))
        as (_ & _ & H3 & _).
      exact H3.
Qed.

(* ------------------------------------------------------------------------- *)
(** ** The answers recorded by parseFordSurvey.py *)

Module ParseFordSurveyAnswers.
Import ParseFordSurvey.

(** The option that a line selects is one of the options, has more than
    20 characters, and its first 20 characters occur in the line. *)
Lemma pfs_matching_option_inv line : forall opts option,
  matching_option opts line = Some option ->
  In option opts /\ 20 < String.length option
  /\ Py.contains (Re.take 20 option) line = true.
Proof.
  induction opts as [|o opts IH]; intros option H; [discriminate|].
  cbn [matching_option] in H.
  destruct (Nat.ltb 20 (String.length o) && Py.contains (Re.take 20 o) line) eqn:E.
  - inversion H; subst. apply andb_prop in E as [E1 E2]. apply Nat.ltb_lt in E1.
    split; [left; reflexivity|]. split; assumption.
  - destruct (IH option H) as (H1 & H2 & H3). split; [right; exact H1|]. split; assumption.
Qed.

Lemma pfs_nonempty_or_none_inv v b :
  nonempty_or_none (Py.strip v) = Some b -> b <> "" /\ Py.strip b = b.
Proof.
  unfold nonempty_or_none. destruct (Py.truthy (Py.strip v)) eqn:E; [|discriminate].
  intros H. inversion H; subst. split; [apply truthy_nonempty; exact E|apply strip_idem].
Qed.

Section Answers.
Variable lines : list string.
Variable P : Question -> Prop.
Hypothesis P_new : forall question_id text,
  P (mkQuestion question_id text None "single-choice" [] (mkAnswer None None None None)).
Hypothesis P_help : forall q h,
  P q -> In h lines -> Py.mem h ["Please select"; "Show possible answers"] = false ->
  P (set_help h q).
Hypothesis P_option : forall q line, P q -> P (add_option line q).
Hypothesis P_by : forall q v,
  P q ->
  P (set_answer (fun a => mkAnswer (selectedOption a) (comments a)
                                   (nonempty_or_none (Py.strip v)) (answeredDate a)) q).
Hypothesis P_date : forall q v,
  P q ->
  P (set_answer (fun a => mkAnswer (selectedOption a) (comments a) (answeredBy a)
                                   (nonempty_or_none (Py.strip v))) q).
Hypothesis P_comments : forall q c,
  P q -> In c lines -> Py.mem c ["Data Location:"; "Answered by:"] = false ->
  P (set_answer (fun a => mkAnswer (selectedOption a) (Some c) (answeredBy a)
                                   (answeredDate a)) q).
Hypothesis P_selected : forall q line option,
  P q -> In line lines -> matching_option (options q) line = Some option ->
  P (set_answer (fun a => mkAnswer (Some option) (comments a) (answeredBy a)
                                   (answeredDate a)) q).

Lemma pfs_update_inv s f i' co :
  (forall q, P q -> P (f q)) ->
  Forall P (s_questions s) /\ (forall q, current_question s = Some q -> P q) ->
  Forall P (s_questions (update_question s f i' co))
  /\ (forall q, current_question (update_question s f i' co) = Some q -> P q).
Proof.
  intros Hf [Hq Hc]. unfold update_question. cbn [s_questions current_question].
  split; [exact Hq|]. intros q Hq'.
  destruct (current_question s) as [q0|]; [|discriminate].
  inversion Hq'; subst. apply Hf, Hc. reflexivity.
Qed.

Lemma pfs_scan_body_answers s :
  i s < length lines ->
  Forall P (s_questions s) /\ (forall q, current_question s = Some q -> P q) ->
  Forall P (s_questions (scan_body lines s))
  /\ (forall q, current_question (scan_body lines s) = Some q -> P q).
Proof.
  intros Hi Inv. pose proof Inv as [Hq Hc]. unfold scan_body.
  destruct (Re.re_match question_re (Py.item lines (i s))) as [q_match|] eqn:Em.
  - cbn [s_questions current_question]. split.
    + destruct (current_question s) as [q0|]; [|exact Hq].
      apply Forall_app; split; [exact Hq|]. constructor; [apply Hc; reflexivity|constructor].
    + intros q E. inversion E; subst. apply P_new.
  - repeat break_if;
      (apply pfs_update_inv; [intros q0 Hq0|exact Inv]);
      try exact Hq0;
      repeat match goal with
             | H : (_ && _) = true |- _ => apply andb_prop in H as [? ?]
             | H : negb _ = true |- _ => apply negb_true_iff in H
             | H : Nat.ltb _ _ = true |- _ => apply Nat.ltb_lt in H
             end.
    + apply P_help; [exact Hq0|apply item_In; assumption|assumption].
    + apply P_option. exact Hq0.
    + apply P_by. exact Hq0.
    + apply P_by. exact Hq0.
    + apply P_date. exact Hq0.
    + apply P_comments; [exact Hq0|apply item_In; assumption|assumption].
    + destruct (matching_option (options q0) (Py.item lines (i s))) as [option|] eqn:Eo;
        [|exact Hq0].
      apply (P_selected q0 (Py.item lines (i s)) option Hq0); [apply item_In; exact Hi|exact Eo].
Qed.

Lemma pfs_scan_lines_answers :
  exists qs, scan_lines lines = Some qs /\ Forall P qs.
Proof.
  destruct (ParseFordSurveyFacts.pfs_scan_loop_total lines) as (n & s & Hw & _ & _).
  unfold scan_lines. rewrite Hw. eexists; split; [reflexivity|].
  eapply (while_invariant _ _
            (fun s => Forall P (s_questions s)
                      /\ (forall q, current_question s = Some q -> P q)))
    in Hw.
  - destruct Hw as [[Hq Hc] _].
    destruct (current_question s) as [q0|]; [|exact Hq].
    apply Forall_app; split; [exact Hq|]. constructor; [apply Hc; reflexivity|constructor].
  - intros s0 s' Inv Hc Hb. inversion Hb; subst. apply pfs_scan_body_answers; [|exact Inv].
    unfold scan_cond in Hc. apply Nat.ltb_lt in Hc. exact Hc.
  - cbn [s_questions current_question]. split; [constructor|discriminate].
Qed.

End Answers.

End ParseFordSurveyAnswers.

(** X27 (parseFordSurvey.py, lines 83-187).  What parseFordSurvey records
    about the answer of a question.  A selected option is always one of
    the options listed for the question, has more than 20 characters, and
    its first 20 characters occur in a line of the document.  The name of
    the person who answered and the date are absent or not empty, and have
    no white space around them.  Comments and help text, when present, are
    whole lines of the document, and never one of the markers that the
    script refuses in their place. *)
Theorem parse_ford_survey_answers (lines : list string) :
  exists qs,
    ParseFordSurvey.scan_lines lines = Some qs
    /\ Forall (fun q =>
         (forall o, selectedOption (givenAnswer q) = Some o ->
            In o (options q) /\ 20 < String.length o
            /\ exists line, In line lines /\ Py.contains (Re.take 20 o) line = true)
         /\ (forall b, answeredBy (givenAnswer q) = Some b -> b <> "" /\ Py.strip b = b)
         /\ (forall d, answeredDate (givenAnswer q) = Some d -> d <> "" /\ Py.strip d = d)
         /\ (forall c, comments (givenAnswer q) = Some c ->
               In c lines /\ c <> "Data Location:" /\ c <> "Answered by:")
         /\ (forall h, helpText q = Some h ->
               In h lines /\ h <> "Please select" /\ h <> "Show possible answers")) qs.
Proof.
  apply ParseFordSurveyAnswers.pfs_scan_lines_answers.
  - intros question_id text.
    cbn [givenAnswer selectedOption answeredBy answeredDate comments helpText].
    repeat split; discriminate.
  - intros q h (H1 & H2 & H3 & H4 & H5) Hin Hm.
    unfold ParseFordSurvey.set_help.
    cbn [givenAnswer selectedOption answeredBy answeredDate comments helpText options].
    split; [exact H1|]. split; [exact H2|]. split; [exact H3|]. split; [exact H4|].
    intros h' E. inversion E; subst h'. split; [exact Hin|].
    apply mem_false_not_In in Hm. cbn [In] in Hm. split; intros ->; apply Hm; auto.
  - intros q line (H1 & H2 & H3 & H4 & H5).
    unfold ParseFordSurvey.add_option.
    cbn [givenAnswer selectedOption answeredBy answeredDate comments helpText options].
    split; [|split; [exact H2|split; [exact H3|split; [exact H4|exact H5]]]].
    intros o E. destruct (H1 o E) as (I1 & I2 & I3).
    split; [apply in_or_app; left; exact I1|]. split; assumption.
  - intros q v (H1 & H2 & H3 & H4 & H5).
    unfold ParseFordSurvey.set_answer.
    cbn [givenAnswer selectedOption answeredBy answeredDate comments helpText options].
    split; [exact H1|]. split; [|split; [exact H3|split; [exact H4|exact H5]]].
    intros b E. apply (ParseFordSurveyAnswers.pfs_nonempty_or_none_inv v b E).
  - intros q v (H1 & H2 & H3 & H4 & H5).
    unfold ParseFordSurvey.set_answer.
    cbn [givenAnswer selectedOption answeredBy answeredDate comments helpText options].
    split; [exact H1|]. split; [exact H2|]. split; [|split; [exact H4|exact H5]].
    intros d E. apply (ParseFordSurveyAnswers.pfs_nonempty_or_none_inv v d E).
  - intros q c (H1 & H2 & H3 & H4 & H5) Hin Hm.
    unfold ParseFordSurvey.set_answer.
    cbn [givenAnswer selectedOption answeredBy answeredDate comments helpText options].
    split; [exact H1|]. split; [exact H2|]. split; [exact H3|]. split; [|exact H5].
    intros c' E. inversion E; subst c'. split; [exact Hin|].
    apply mem_false_not_In in Hm. cbn [In] in Hm. split; intros ->; apply Hm; auto.
  - intros q line option (H1 & H2 & H3 & H4 & H5) Hin Hm.
    unfold ParseFordSurvey.set_answer.
    cbn [givenAnswer selectedOption answeredBy answeredDate comments helpText options].
    split; [|split; [exact H2|split; [exact H3|split; [exact H4|exact H5]]]].
    intros o E. inversion E; subst o.
    apply ParseFordSurveyAnswers.pfs_matching_option_inv in Hm as (I1 & I2 & I3).
    split; [exact I1|]. split; [exact I2|]. exists line. split; assumption.
Qed.

(* ------------------------------------------------------------------------- *)
(** ** The end-to-end scenario *)

(** C1 (the code departs from the claim).  On the end-to-end input of the
    specification, scanned for section "A", parseFordSurveyImproved emits
    exactly one record with questionId "A.1" and the three options, but its
    questionText is the options-marker line, and answeredBy and
    answeredDate are [None]: the prompt on the question line is matched and
    never used, and the "Answered by:" and "Date:" lines are swallowed by
    the option collection. *)
Theorem improved_end_to_end :
  ParseFordSurveyImproved.scan_lines "A" Inputs.end_to_end =
  Some [mkQuestion "A.1" "Please select one of the following options" None
          "single-choice"
          ["Yes, we have a documented policy"; "No, we do not"; "Not applicable"]
          (mkAnswer None None None None)].
Proof. vm_compute. reflexivity. Qed.

(** The same input in the other two scanners: extractRealQuestions drops the
    record (no question text after the question line), extractFord2024Survey
    takes the prompt from the question line and nothing else. *)
Lemma real_end_to_end :
  ExtractRealQuestions.scan_lines "A" Inputs.end_to_end = Some [].
Proof. vm_compute. reflexivity. Qed.

Lemma ford_end_to_end :
  ExtractFord2024Survey.scan_lines "A" Inputs.end_to_end =
  Some (Returned
          [ExtractFord2024Survey.mkScored "A.1" "Does the organization have policy?" None
             "single-choice" [] (ExtractFord2024Survey.mkScoring None None)
             (mkAnswer None None None None)]).
Proof. vm_compute. reflexivity. Qed.

(** parseFordSurvey opens a question only at a line that is an identifier
    and nothing else: the input gives no record at all.  With the
    identifier on a line of its own the record is there, but the question
    text runs on over the option lines, up to the "Answered by:" line. *)
Lemma parse_ford_survey_end_to_end :
  ParseFordSurvey.scan_lines Inputs.end_to_end = Some []
  /\ ParseFordSurvey.scan_lines ("1. A.1" :: "Does the organization have policy?"
                                 :: tl Inputs.end_to_end)
     = Some [mkQuestion "A.1"
               "Does the organization have policy? Please select one of the following options Yes, we have a documented policy No, we do not Not applicable"
               None "single-choice" []
               (mkAnswer None None (Some "Jane Doe") (Some "07/12/2024"))].
Proof. split; vm_compute; reflexivity. Qed.

(* ------------------------------------------------------------------------- *)
(** ** Failing documents in a batch *)

(** C2.  [parse_html_file] of parseFordSurveyImproved never raises: it
    returns a section for a well-formed document and [None] for any other
    (unreadable file, no [h1], unparseable title).  The loop of [main]
    therefore returns for every batch, with one section per well-formed
    document and one recorded failure per failing document; in particular
    one failing document among N well-formed ones leaves N sections and
    one failure. *)
Theorem batch_isolates_failures (file_names : list string) (today : string)
        (fs : FileSystem) :
  (forall file_name,
      exists r, ParseFordSurveyImproved.parse_html_file fs file_name = Some (Returned r)
        /\ (ParseFordSurveyImproved.well_formed fs file_name = true -> exists sec, r = Some sec)
        /\ (ParseFordSurveyImproved.well_formed fs file_name = false -> r = None))
  /\ (exists run,
        ParseFordSurveyImproved.main_on file_names true today fs = Some (Returned run)
        /\ length (ParseFordSurveyImproved.written_sections run)
           = length (filter (ParseFordSurveyImproved.well_formed fs) file_names)
        /\ ParseFordSurveyImproved.count_failed (ParseFordSurveyImproved.log run)
           = length (filter (ParseFordSurveyImproved.failing fs) file_names))
  /\ ParseFordSurveyImproved.main_on file_names false today fs
     = Some (Returned (ParseFordSurveyImproved.mkRun None [])).
Proof.
  split; [|split].
  - intros file_name. apply ImprovedFacts.improved_parse_html_file_returns.
  - destruct (ImprovedFacts.improved_main_on_counts file_names true today fs) as (run & H1 & H2).
    exists run. split; [assumption|]. apply H2. reflexivity.
  - reflexivity.
Qed.

(** The batch of the specification: one document with an unparseable title
    among four well-formed ones. *)
Lemma batch_of_five :
  exists run,
    ParseFordSurveyImproved.main_on Inputs.batch_names true "2024-07-12" Inputs.batch_fs
    = Some (Returned run)
    /\ map sectionId (ParseFordSurveyImproved.written_sections run) = ["A"; "B"; "D"; "E"]
    /\ filter ParseFordSurveyImproved.is_failed (ParseFordSurveyImproved.log run)
       = [ParseFordSurveyImproved.Failed "c.htm"].
Proof. eexists. split; [vm_compute; reflexivity|]. split; vm_compute; reflexivity. Qed.

(* ------------------------------------------------------------------------- *)
(** ** The fallback for a missing question text *)

(** C3, counterexample.  For the lines ["A.1 x"; "Help Text"] the
    collection of the question text yields the empty string, and the
    record is emitted with the text of the next line, not with the
    placeholder "question text not found". *)
Lemma placeholder_not_used :
  exists n s q,
    ParseFordSurveyImproved.scan "A" Inputs.empty_text 0 = Some (n, s)
    /\ ParseFordSurveyImproved.collected s = ""
    /\ ParseFordSurveyImproved.scan_lines "A" Inputs.empty_text = Some [q]
    /\ questionText q = "Help Text"
    /\ questionText q <> "question text not found".
Proof.
  do 3 eexists. split; [vm_compute; reflexivity|].
  split; [vm_compute; reflexivity|]. split; [vm_compute; reflexivity|].
  split; [reflexivity|]. cbn. discriminate.
Qed.

(** extractRealQuestions has no placeholder: a record without question
    text is dropped. *)
Lemma real_drops_record_without_text :
  ExtractRealQuestions.scan_lines "A" ["A.1"; "Help Text"] = Some [].
Proof. vm_compute. reflexivity. Qed.

(** C3, as amended.  For a section identifier of letters and digits:
    when the outer loop of parseFordSurveyImproved stands on a line that
    the question pattern matches, the iteration appends exactly one record,
    with the identifier read from the line and a non-empty questionText:
    the collected text when there is one, else the (non-empty) line after
    the question line, else, when the question line is the last line, the
    literal "Question text not found".  Every record of a scan of
    parseFordSurveyImproved has a non-empty questionText.  A matching line
    that the look-ahead of the question before it took as help text opens
    no record.  Every record that extractRealQuestions emits has a
    non-empty questionText that does not start with "Data Location" (it
    has no placeholder and drops the other records), and parseFordSurvey
    emits a record with an empty questionText. *)
Theorem improved_fallback_text (sid : string) (lines : list string) (i : nat)
        (qs : list Question) (mo : Re.rmatch) :
  Re.plain_id sid = true ->
  i < length lines ->
  Re.re_match (ParseFordSurveyImproved.question_pattern sid) (Py.item lines i) = Some mo ->
  (exists n s,
      ParseFordSurveyImproved.scan sid lines i = Some (n, s)
      /\ let q := ParseFordSurveyImproved.build_question lines i
                    (sid ++ "." ++ Re.group 1 mo) s in
         ParseFordSurveyImproved.outer_body sid lines (i, qs)
           = Some (ParseFordSurveyImproved.j s, (qs ++ [q])%list)
         /\ questionId q = sid ++ "." ++ Re.group 1 mo
         /\ questionText q <> ""
         /\ (ParseFordSurveyImproved.collected s <> "" -> questionText q = ParseFordSurveyImproved.collected s)
         /\ (ParseFordSurveyImproved.collected s = "" -> i + 1 < length lines ->
             Py.item lines (i + 1) <> "" -> questionText q = Py.item lines (i + 1))
         /\ (ParseFordSurveyImproved.collected s = "" -> length lines <= i + 1 ->
             questionText q = "Question text not found"))
  /\ (exists all, ParseFordSurveyImproved.scan_lines sid lines = Some all
                  /\ Forall (fun q => questionText q <> "") all)
  /\ ParseFordSurveyImproved.scan_lines "A" ["A.1 q"; "x"; "Help Text"; "A.2 foo bar"]
     = Some [mkQuestion "A.1" "x" (Some "A.2 foo bar") "single-choice" []
               (mkAnswer None None None None)]
  /\ (exists kept, ExtractRealQuestions.scan_lines sid lines = Some kept
                   /\ Forall (fun q => questionText q <> ""
                                       /\ Py.startswith (questionText q) "Data Location"
                                          = false) kept)
  /\ ExtractRealQuestions.scan_lines "A" ["A.1"; "Help Text"] = Some []
  /\ ParseFordSurvey.scan_lines ["B.2"; "Help Text"]
     = Some [mkQuestion "B.2" "" None "single-choice" [] (mkAnswer None None None None)].
Proof.
  intros _ Hi Hm.
  split; [|split; [apply ImprovedFacts.improved_scan_lines_text|]].
  - destruct (ImprovedFacts.improved_scan_terminates sid lines i Hi) as (n & s & Hs & _ & _).
    exists n, s. split; [assumption|]. cbv zeta. split.
    + unfold ParseFordSurveyImproved.outer_body. rewrite Hm, Hs. reflexivity.
    + apply ImprovedFacts.improved_build_question_text.
  - split; [vm_compute; reflexivity|].
    split; [|split; vm_compute; reflexivity].
    apply RealRecords.real_scan_lines_forall.
    intros k q_match n s Hk Hq Hs Hkeep.
    unfold ExtractRealQuestions.build_question. cbn [questionText].
    unfold ExtractRealQuestions.keeps_record in Hkeep.
    apply andb_prop in Hkeep as [Ht Hd].
    split; [apply truthy_nonempty; assumption|apply negb_true_iff in Hd; assumption].
Qed.

Lemma improved_fallback_text_witness :
  Re.plain_id "A" = true
  /\ 0 < length Inputs.empty_text
  /\ Re.re_match (ParseFordSurveyImproved.question_pattern "A") (Py.item Inputs.empty_text 0)
     = Some (Re.RMatch 0 (Re.MState 5 "" [(2, "x"); (1, "1")]))
  /\ exists all, ParseFordSurveyImproved.scan_lines "A" Inputs.empty_text = Some all
                 /\ Forall (fun q => questionText q <> "") all.
Proof.
  split; [reflexivity|]. split; [cbn; lia|]. split; [vm_compute; reflexivity|].
  apply (improved_fallback_text "A" Inputs.empty_text 0 []
           (Re.RMatch 0 (Re.MState 5 "" [(2, "x"); (1, "1")]))).
  - reflexivity.
  - cbn; lia.
  - vm_compute; reflexivity.
Defined.

(* ------------------------------------------------------------------------- *)
(** ** The next question line closes the record in progress *)

(** C4, counterexample.  In extractRealQuestions the question "A.1" is
    followed, three lines later and with no terminating marker in between,
    by the question line "A.2": the record of "A.1" is closed there, but it
    is not emitted, because no question text was collected for it. *)
Lemma closed_record_not_emitted :
  exists q, ExtractRealQuestions.scan_lines "A" Inputs.dropped_record = Some [q]
            /\ questionId q = "A.2".
Proof. eexists. split; [vm_compute; reflexivity|reflexivity]. Qed.

(** C4, as amended.  In extractRealQuestions, when the question line [i]
    is followed by the next question line [n], three or more lines later,
    the look-ahead of the record opened at [i] stops at line [n] at the
    latest, the scan goes on from line [n] exactly as if it had started
    there with the records emitted so far, and line [n] opens a new
    record.  The record of line [i] is emitted when its cleaned question
    text is non-empty and does not start with "Data Location"; otherwise it
    is dropped. *)
Theorem next_question_closes_record (sid : string) (lines : list string)
        (i n : nat) (qs : list Question) :
  i + 3 <= n -> n < length lines ->
  ExtractRealQuestions.is_question_start sid (Py.item lines i) = true ->
  ExtractRealQuestions.is_question_start sid (Py.item lines n) = true ->
  (forall k, i < k < n ->
             ExtractRealQuestions.is_question_start sid (Py.item lines k) = false) ->
  exists mo c s,
    Re.re_search (ExtractRealQuestions.q_pattern sid) (Py.item lines i) = Some mo
    /\ ExtractRealQuestions.scan sid lines i = Some (c, s)
    /\ i < ExtractRealQuestions.j s <= n
    /\ let first := ExtractRealQuestions.emit (sid ++ "." ++ Re.group 1 mo)
                      (Py.item lines i) s in
       (first = (if ExtractRealQuestions.keeps_record (ExtractRealQuestions.clean_text s)
                 then [ExtractRealQuestions.build_question (sid ++ "." ++ Re.group 1 mo)
                         (Py.item lines i) s]
                 else []))
       /\ (exists c1 c2 r,
              ExtractRealQuestions.scan_from sid lines (i, qs) = Some (c1, r)
              /\ ExtractRealQuestions.scan_from sid lines (n, (qs ++ first)%list)
                 = Some (c2, r))
       /\ (exists mo' c' s',
              Re.re_search (ExtractRealQuestions.q_pattern sid) (Py.item lines n) = Some mo'
              /\ ExtractRealQuestions.scan sid lines n = Some (c', s')
              /\ ExtractRealQuestions.outer_body sid lines (n, (qs ++ first)%list)
                 = Some (ExtractRealQuestions.j s',
                         ((qs ++ first) ++
                          ExtractRealQuestions.emit (sid ++ "." ++ Re.group 1 mo')
                            (Py.item lines n) s')%list)).
Proof.
  intros Hn Hlen Hqi Hqn Hno.
  unfold ExtractRealQuestions.is_question_start in Hqi.
  destruct (Re.re_search (ExtractRealQuestions.q_pattern sid) (Py.item lines i))
    as [mo|] eqn:Emo; [|discriminate].
  destruct (RealFacts.real_scan_stops_by sid lines i n Hn Hlen Hqn) as (c & s & Hs & Hj).
  exists mo, c, s. split; [reflexivity|]. split; [assumption|]. split; [assumption|].
  cbv zeta. split; [reflexivity|].
  set (first := ExtractRealQuestions.emit (sid ++ "." ++ Re.group 1 mo) (Py.item lines i) s).
  assert (Hbody : ExtractRealQuestions.outer_body sid lines (i, qs)
                  = Some (ExtractRealQuestions.j s, (qs ++ first)%list)).
  { unfold ExtractRealQuestions.outer_body. rewrite Emo, Hs. reflexivity. }
  split.
  - destruct (RealFacts.real_outer_loop_total sid lines (i, qs)) as (c1 & r & Hr & _).
    pose proof Hr as Hr'. unfold ExtractRealQuestions.scan_from in Hr'.
    eapply while_step_result in Hr'; [|apply Nat.ltb_lt; simpl; lia|exact Hbody].
    destruct (RealFacts.real_scan_from_skip sid lines (qs ++ first)%list n
                (n - ExtractRealQuestions.j s) (ExtractRealQuestions.j s) (pred c1) r)
      as (c2 & Hc2); [lia|lia| |exact Hr'|].
    + intros k Hk. apply Hno. lia.
    + exists c1, c2, r. split; assumption.
  - unfold ExtractRealQuestions.is_question_start in Hqn.
    destruct (Re.re_search (ExtractRealQuestions.q_pattern sid) (Py.item lines n))
      as [mo'|] eqn:Emo'; [|discriminate].
    destruct (RealFacts.real_scan_terminates sid lines n Hlen) as (c' & s' & Hs' & _).
    exists mo', c', s'. split; [reflexivity|]. split; [assumption|].
    unfold ExtractRealQuestions.outer_body. rewrite Emo', Hs'. reflexivity.
Qed.

Lemma next_question_closes_record_witness :
  0 + 3 <= 3 /\ 3 < length Inputs.dropped_record
  /\ exists mo c s,
       Re.re_search (ExtractRealQuestions.q_pattern "A") (Py.item Inputs.dropped_record 0)
       = Some mo
       /\ ExtractRealQuestions.scan "A" Inputs.dropped_record 0 = Some (c, s)
       /\ 0 < ExtractRealQuestions.j s <= 3.
Proof.
  split; [lia|]. split; [cbn; lia|].
  destruct (next_question_closes_record "A" Inputs.dropped_record 0 3 [])
    as (mo & c & s & H1 & H2 & H3 & _).
  - lia.
  - cbn; lia.
  - vm_compute; reflexivity.
  - vm_compute; reflexivity.
  - intros k Hk. destruct k as [|[|[|k]]]; try lia; vm_compute; reflexivity.
  - exists mo, c, s. auto.
Defined.

(** parseFordSurveyImproved closes the record at the next question line
    at any distance and always emits it; the scan resumes at that line
    unless the line comes right after a "Help Text" or "Comments" line,
    which may take it as help text or comment. *)
Lemma improved_next_question_closes_record (sid : string) (lines : list string)
      (i n : nat) (qs : list Question) (mo : Re.rmatch) :
  i < n -> n < length lines ->
  Re.re_match (ParseFordSurveyImproved.question_pattern sid) (Py.item lines i) = Some mo ->
  Re.found (Re.re_match (ParseFordSurveyImproved.question_pattern sid) (Py.item lines n))
  = true ->
  (forall k, i < k < n ->
     Re.found (Re.re_match (ParseFordSurveyImproved.question_pattern sid) (Py.item lines k))
     = false) ->
  Py.item lines (n - 1) <> "Help Text" -> Py.item lines (n - 1) <> "Comments" ->
  exists c s,
    ParseFordSurveyImproved.scan sid lines i = Some (c, s)
    /\ i < ParseFordSurveyImproved.j s <= n
    /\ exists c1 c2 r,
         ParseFordSurveyImproved.scan_from sid lines (i, qs) = Some (c1, r)
         /\ ParseFordSurveyImproved.scan_from sid lines
              (n, (qs ++ [ParseFordSurveyImproved.build_question lines i
                            (sid ++ "." ++ Re.group 1 mo) s])%list)
            = Some (c2, r).
Proof.
  intros Hn Hlen Hmo Hqn Hno Hh Hc.
  destruct (ImprovedFacts.improved_scan_stops_by sid lines i n Hn Hlen Hqn Hh Hc)
    as (c & s & Hs & Hj).
  exists c, s. split; [assumption|]. split; [assumption|].
  set (q := ParseFordSurveyImproved.build_question lines i (sid ++ "." ++ Re.group 1 mo) s).
  assert (Hbody : ParseFordSurveyImproved.outer_body sid lines (i, qs)
                  = Some (ParseFordSurveyImproved.j s, (qs ++ [q])%list)).
  { unfold ParseFordSurveyImproved.outer_body. rewrite Hmo, Hs. reflexivity. }
  destruct (ImprovedFacts.improved_outer_loop_total sid lines (i, qs)) as (c1 & r & Hr & _).
  pose proof Hr as Hr'. unfold ParseFordSurveyImproved.scan_from in Hr'.
  eapply while_step_result in Hr'; [|apply Nat.ltb_lt; simpl; lia|exact Hbody].
  destruct (ImprovedFacts.improved_scan_from_skip sid lines (qs ++ [q])%list n
              (n - ParseFordSurveyImproved.j s) (ParseFordSurveyImproved.j s) (pred c1) r)
    as (c2 & Hc2); [lia|lia| |exact Hr'|].
  - intros k Hk. apply Hno. lia.
  - exists c1, c2, r. split; assumption.
Qed.

(** A question line right after "Help Text" is taken as the help text of
    the record in progress and opens no record. *)
Lemma improved_question_line_taken_as_help :
  ParseFordSurveyImproved.scan_lines "A" ["A.1 q"; "x"; "Help Text"; "A.2 foo bar"]
  = Some [mkQuestion "A.1" "x" (Some "A.2 foo bar") "single-choice" []
            (mkAnswer None None None None)].
Proof. vm_compute. reflexivity. Qed.

(* ------------------------------------------------------------------------- *)
(** ** Duplicate options *)

(** C5, counterexample.  parseFordSurveyImproved appends every option line:
    two identical lines "Yes, we have a program" give the option twice. *)
Lemma duplicate_option_kept :
  exists q, ParseFordSurveyImproved.scan_lines "A" Inputs.duplicate_options = Some [q]
            /\ options q = ["Yes, we have a program"; "Yes, we have a program"]
            /\ ~ NoDup (options q).
Proof.
  eexists. split; [vm_compute; reflexivity|]. split; [reflexivity|].
  cbn. intros H. inversion H as [|? ? Hin _]. apply Hin. left. reflexivity.
Qed.

(** extractRealQuestions on the same two option lines. *)
Lemma duplicate_option_discarded :
  exists q, ExtractRealQuestions.scan_lines "A" Inputs.duplicate_options_after_question
            = Some [q]
            /\ options q = ["Yes, we have a program"].
Proof. eexists. split; [vm_compute; reflexivity|reflexivity]. Qed.

(** C5, as amended.  In extractRealQuestions the options of every emitted
    record are pairwise distinct; options are only ever appended (encounter
    order is kept), and an option (or the "Not applicable" literal) that is
    already present leaves the sequence unchanged. *)
Theorem real_options_distinct (sid : string) (lines : list string) :
  (exists qs, ExtractRealQuestions.scan_lines sid lines = Some qs
              /\ Forall (fun q => NoDup (options q)) qs)
  /\ (forall opts matches,
         exists added, ExtractRealQuestions.add_options opts matches = (opts ++ added)%list)
  /\ (forall opts o, In o opts -> ExtractRealQuestions.add_options opts [o] = opts)
  /\ (forall line s,
         In "Not applicable" (ExtractRealQuestions.s_options s) ->
         Re.findall ExtractRealQuestions.yes_re line = [] ->
         Re.findall ExtractRealQuestions.no_re line = [] ->
         ExtractRealQuestions.s_options (ExtractRealQuestions.collect_options line s)
         = ExtractRealQuestions.s_options s).
Proof.
  split; [apply RealFacts.real_scan_lines_NoDup|].
  split; [intros opts matches; apply RealFacts.real_add_options_extends|].
  split.
  - intros opts o Hin. unfold ExtractRealQuestions.add_options. simpl.
    apply mem_In in Hin. rewrite Hin. reflexivity.
  - intros line s Hin Hy Hn. unfold ExtractRealQuestions.collect_options.
    rewrite Hy, Hn. unfold ExtractRealQuestions.add_options. simpl.
    apply mem_In in Hin. rewrite Hin. rewrite andb_false_r.
    repeat break_if; reflexivity.
Qed.

(* ------------------------------------------------------------------------- *)
(** ** The question-start pattern *)

(** C6, counterexample.  For section "A" the line
    "1. B.2 Is the USA.GOV portal used?", whose identifier is "B.2", is
    classified as a question start of section A by extractFord2024Survey
    (the search finds "A.GOV"). *)
Lemma cross_section_false_positive :
  ExtractFord2024Survey.is_question_start "A" Inputs.cross_section_line = true.
Proof. vm_compute. reflexivity. Qed.

(** parseFordSurvey does not look at the section at all, and accepts only
    numeric qualifiers. *)
Lemma parse_ford_survey_question_lines :
  ParseFordSurvey.question_start "B.2" = Some "B.2"
  /\ ParseFordSurvey.question_start "12. N.13" = Some "N.13"
  /\ ParseFordSurvey.question_start "N.13.1F" = None.
Proof. repeat split; vm_compute; reflexivity. Qed.

(** C6, as amended.  In extractFord2024Survey, for a section identifier
    [sid] of letters and digits, every line carrying [sid.Q] anywhere, with
    [Q] one or more characters among digits, upper-case letters and ".",
    is classified as a question start; and a line is classified as a
    question start of [sid] exactly when it contains, at any offset, [sid],
    a "." and one such character.  The match is a substring search; it is
    not tied to the identifier the line begins with. *)
Theorem question_start_is_substring_search (sid : string) :
  Re.plain_id sid = true ->
  (forall pre Q post,
      Q <> "" -> Re.all_in ExtractFord2024Survey.qualifier_char Q = true ->
      ExtractFord2024Survey.is_question_start sid (pre ++ sid ++ "." ++ Q ++ post) = true)
  /\ (forall line,
         ExtractFord2024Survey.is_question_start sid line = true <->
         exists pre c post,
           line = pre ++ sid ++ "." ++ String c post
           /\ ExtractFord2024Survey.qualifier_char c = true).
Proof.
  intros _. split.
  - intros pre Q post HQ Hall. destruct Q as [|c Q]; [congruence|].
    simpl in Hall. apply andb_true_iff in Hall as [Hc _].
    apply (FordFacts.ford_is_question_start_intro sid pre c (Q ++ post)). assumption.
  - intros line. split; [apply FordFacts.ford_is_question_start_inv|].
    intros (pre & c & post & -> & Hc). apply FordFacts.ford_is_question_start_intro. assumption.
Qed.

Lemma question_start_is_substring_search_witness :
  Re.plain_id "N" = true
  /\ ExtractFord2024Survey.is_question_start "N" "1. N.13.1F Is it?" = true.
Proof.
  split; [reflexivity|].
  apply (proj1 (question_start_is_substring_search "N" eq_refl) "1. " "13.1F" " Is it?").
  - discriminate.
  - reflexivity.
Defined.

(* ------------------------------------------------------------------------- *)
(** ** The scoring look-ahead *)


(** A scoring number of 4301 digits: the conversion raises, no record is
    emitted and the document gives no section. *)
Lemma overlong_score_fails :
  ExtractFord2024Survey.scan_lines "P" Inputs.overlong_score = Some (Raised "ValueError")
  /\ ExtractFord2024Survey.extract_questions_from_section Inputs.overlong_fs "p.htm" "P"
     = Some (Returned None).
Proof. split; vm_compute; reflexivity. Qed.



(** The two scoring examples of the specification, end to end. *)
Lemma scoring_examples :
  (exists q, ExtractFord2024Survey.scan_lines "P" Inputs.scored = Some (Returned [q])
             /\ ExtractFord2024Survey.q_questionId q = "P.7"
             /\ ExtractFord2024Survey.q_scoring q
                = ExtractFord2024Survey.mkScoring (Some 3%Z) (Some 4%Z))
  /\ (exists q, ExtractFord2024Survey.scan_lines "P" Inputs.unscored = Some (Returned [q])
                /\ ExtractFord2024Survey.q_scoring q
                   = ExtractFord2024Survey.mkScoring None None).
Proof.
  split; eexists; (split; [vm_compute; reflexivity|repeat split; reflexivity]).
Qed.

(* ------------------------------------------------------------------------- *)
(** ** Collecting the question text *)

(** C8, counterexample.  In extractRealQuestions a line that carries the
    options marker while the question text is being collected gives its
    text before the marker to the question, and the text after the marker
    is not looked at: the option after "Please select" is lost, while the
    same option is collected when the marker comes on a line of its own. *)
Lemma fragment_after_marker_dropped :
  (exists q, ExtractRealQuestions.scan_lines "A" Inputs.marker_on_question_line = Some [q]
             /\ questionText q = "Do you?" /\ options q = [])
  /\ (exists q, ExtractRealQuestions.scan_lines "A" Inputs.marker_on_own_line = Some [q]
                /\ questionText q = "Do you?"
                /\ options q = ["Yes, we have a program"]).
Proof.
  split; eexists; (split; [vm_compute; reflexivity|split; reflexivity]).
Qed.

(** C8, as amended.  In extractRealQuestions, for a line visited while the
    question text is being collected (and that is not the next question
    line): (1) a line carrying "Help Text" ends the collection; its text
    before the first marker, stripped, is appended to the question text
    when non-empty, and the piece after the marker becomes the help text
    when it is non-blank and has no "Please select"; (2) otherwise a line
    carrying "Please select" ends the collection and starts the option
    collection at the following line: the text before the marker is
    appended, the text after it is not used; (3) any other non-empty line
    that does not start with "Data Location" is appended, and the
    collection stops exactly when the line contains "?". *)
Theorem question_text_collection_step (sid : string) (lines : list string) (i : nat)
        (s : ExtractRealQuestions.Scan) :
  (ExtractRealQuestions.is_question_start sid (Py.item lines (ExtractRealQuestions.j s))
   && Nat.ltb (i + 2) (ExtractRealQuestions.j s)) = false ->
  ExtractRealQuestions.collecting_question s = true ->
  let line := Py.item lines (ExtractRealQuestions.j s) in
  let s' := ExtractRealQuestions.scan_body sid lines i s in
  let parts := Py.split line "Help Text" in
  (Py.contains "Help Text" line = true ->
   exists pre post,
     line = pre ++ "Help Text" ++ post
     /\ Py.first_at "Help Text" pre ("Help Text" ++ post)
     /\ nth 0 parts "" = pre
     /\ ExtractRealQuestions.question_text s' =
        (if Py.truthy (Py.strip pre)
         then ExtractRealQuestions.question_text s ++ " " ++ Py.strip pre
         else ExtractRealQuestions.question_text s)
     /\ ExtractRealQuestions.collecting_question s' = false
     /\ ExtractRealQuestions.collecting_options s' = ExtractRealQuestions.collecting_options s
     /\ ExtractRealQuestions.s_options s' = ExtractRealQuestions.s_options s
     /\ ExtractRealQuestions.j s' = ExtractRealQuestions.j s + 1
     /\ ExtractRealQuestions.help_text s' =
        (if Py.truthy (Py.strip (nth 1 parts ""))
            && negb (Py.contains "Please select" (nth 1 parts ""))
         then Some (Py.strip (nth 1 parts ""))
         else ExtractRealQuestions.help_text s))
  /\ (Py.contains "Help Text" line = false ->
      Py.contains "Please select" line = true ->
      exists pre post,
        line = pre ++ "Please select" ++ post
        /\ Py.first_at "Please select" pre ("Please select" ++ post)
        /\ ExtractRealQuestions.question_text s' =
           (if Py.truthy (Py.strip pre)
            then ExtractRealQuestions.question_text s ++ " " ++ Py.strip pre
            else ExtractRealQuestions.question_text s)
        /\ ExtractRealQuestions.collecting_question s' = false
        /\ ExtractRealQuestions.collecting_options s' = true
        /\ ExtractRealQuestions.s_options s' = ExtractRealQuestions.s_options s
        /\ ExtractRealQuestions.help_text s' = ExtractRealQuestions.help_text s
        /\ ExtractRealQuestions.j s' = ExtractRealQuestions.j s + 1)
  /\ (Py.contains "Help Text" line = false ->
      Py.contains "Please select" line = false ->
      line <> "" -> Py.startswith line "Data Location" = false ->
      ExtractRealQuestions.question_text s'
      = ExtractRealQuestions.question_text s ++ " " ++ line
      /\ ExtractRealQuestions.collecting_question s' = negb (Py.contains "?" line)
      /\ ExtractRealQuestions.help_text s' = ExtractRealQuestions.help_text s).
Proof.
  intros Hq Hcq line s' parts. split; [|split].
  - intros Hh. apply (RealFacts.real_scan_body_help_text sid lines i s Hq Hcq Hh).
  - intros Hh Hp. apply (RealFacts.real_scan_body_please_select sid lines i s Hq Hcq Hh Hp).
  - intros Hh Hp Hne Hd.
    apply (RealFacts.real_scan_body_plain_text sid lines i s Hq Hcq Hh Hp Hne Hd).
Qed.

Lemma question_text_collection_step_witness :
  (ExtractRealQuestions.is_question_start "A"
     (Py.item Inputs.marker_on_question_line
        (ExtractRealQuestions.j (ExtractRealQuestions.scan_init 0)))
   && Nat.ltb (0 + 2) (ExtractRealQuestions.j (ExtractRealQuestions.scan_init 0))) = false
  /\ ExtractRealQuestions.collecting_question (ExtractRealQuestions.scan_init 0) = true
  /\ ExtractRealQuestions.s_options
       (ExtractRealQuestions.scan_body "A" Inputs.marker_on_question_line 0
          (ExtractRealQuestions.scan_init 0)) = [].
Proof.
  split; [vm_compute; reflexivity|]. split; [reflexivity|].
  destruct (question_text_collection_step "A" Inputs.marker_on_question_line 0
              (ExtractRealQuestions.scan_init 0)) as (_ & H & _).
  - vm_compute; reflexivity.
  - reflexivity.
  - destruct H as (pre & post & _ & _ & _ & _ & _ & Ho & _).
    + vm_compute; reflexivity.
    + vm_compute; reflexivity.
    + exact Ho.
Defined.

(** parseFordSurveyImproved splits no line: "Help Text" is a marker only as
    a whole line, so a line that merely carries it is question text, and
    the collection goes on. *)
Lemma improved_marker_inside_line :
  ParseFordSurveyImproved.scan_lines "A" ["A.1 q"; "Why Help Text here"; "is it so?"; "z"]
  = Some [mkQuestion "A.1" "Why Help Text here is it so?" None "single-choice" []
            (mkAnswer None None None None)].
Proof. vm_compute. reflexivity. Qed.

(* ------------------------------------------------------------------------- *)
(** ** Merging continuation pages and sorting the sections *)

(** C9, counterexample.  parseFordSurveyImproved reads two pages of
    section N around a page of section B: it writes three sections, two of
    them with the identifier "N", each with the questions of its own page;
    the pages are not merged. *)
Lemma improved_pages_not_merged :
  exists run,
    ParseFordSurveyImproved.main_on Inputs.page_names true "2024-07-12"
      Inputs.improved_pages_fs = Some (Returned run)
    /\ map sectionId (ParseFordSurveyImproved.written_sections run) = ["B"; "N"; "N"]
    /\ map (fun sec => map questionId (questions sec))
           (ParseFordSurveyImproved.written_sections run)
       = [["B.1"]; ["N.1"]; ["N.2"]]
    /\ ~ NoDup (map sectionId (ParseFordSurveyImproved.written_sections run)).
Proof.
  eexists. split; [vm_compute; reflexivity|].
  split; [reflexivity|]. split; [reflexivity|].
  cbn. intros H. inversion H as [|? ? _ H1]. inversion H1 as [|? ? Hin _].
  apply Hin. left. reflexivity.
Qed.

(** C9, as amended.  [main] of extractRealQuestions and of
    extractFord2024Survey returns, for any list of files in any order,
    sections in strictly ascending order of sectionId, one per identifier,
    each holding the questions of the documents of that identifier
    concatenated in processing order.  [main] of parseFordSurveyImproved
    does not merge: the sections it writes are the sections of the
    documents that parsed, one section per document (so the same
    identifier may occur more than once), rearranged in ascending order of
    sectionId. *)
Theorem sections_merged_and_sorted (files : list (string * string))
        (file_names : list string) (today : string) (fs : FileSystem) :
  (exists survey,
      ExtractRealQuestions.main_on files fs = Some (Returned survey)
      /\ StronglySorted lt_id (sections survey)
      /\ (forall sec, In sec (sections survey) ->
            questions sec =
            questions_of (sectionId sec)
              (parsed_documents ExtractRealQuestions.extract_questions_from_section fs files))
      /\ (forall doc,
            In doc (parsed_documents ExtractRealQuestions.extract_questions_from_section
                      fs files) ->
            exists sec, In sec (sections survey) /\ sectionId sec = sectionId doc))
  /\ (exists survey,
         ExtractFord2024Survey.main_on files fs = Some (Returned survey)
         /\ StronglySorted lt_id (sections survey)
         /\ (forall sec, In sec (sections survey) ->
               questions sec =
               questions_of (sectionId sec)
                 (parsed_documents ExtractFord2024Survey.extract_questions_from_section
                    fs files))
         /\ (forall doc,
               In doc (parsed_documents ExtractFord2024Survey.extract_questions_from_section
                         fs files) ->
               exists sec, In sec (sections survey) /\ sectionId sec = sectionId doc))
  /\ (exists run,
         ParseFordSurveyImproved.main_on file_names true today fs = Some (Returned run)
         /\ ParseFordSurveyImproved.written_sections run
            = sort_sections (ParseFordSurveyImproved.parsed_sections fs file_names)
         /\ Permutation (ParseFordSurveyImproved.written_sections run)
                        (ParseFordSurveyImproved.parsed_sections fs file_names)
         /\ length (ParseFordSurveyImproved.written_sections run)
            = length (filter (ParseFordSurveyImproved.well_formed fs) file_names)
         /\ StronglySorted le_id (ParseFordSurveyImproved.written_sections run)).
Proof.
  split; [|split].
  - destruct (RealFacts.real_main_on_returns files fs) as (survey & H & E).
    exists survey. split; [assumption|]. rewrite E. apply merge_all_sorted.
  - destruct (FordFacts.ford_main_on_returns files fs) as (survey & H & E).
    exists survey. split; [assumption|]. rewrite E. apply merge_all_sorted.
  - destruct (ImprovedBatch.improved_main_on_written file_names today fs) as (run & H & E).
    exists run. split; [exact H|].
    assert (Hw : ParseFordSurveyImproved.written_sections run
                 = sort_sections (ParseFordSurveyImproved.parsed_sections fs file_names)).
    { unfold ParseFordSurveyImproved.written_sections. rewrite E.
      destruct (ParseFordSurveyImproved.parsed_sections fs file_names); reflexivity. }
    split; [exact Hw|]. split; [rewrite Hw; apply sort_sections_perm|].
    split; [|rewrite Hw; apply sort_sections_sorted].
    destruct (ImprovedFacts.improved_main_on_counts file_names true today fs) as (run' & H' & Hc).
    rewrite H in H'. inversion H'; subst run'. apply Hc. reflexivity.
Qed.

(** Two pages of section N processed around a page of section B. *)
Lemma continuation_pages :
  exists survey,
    ExtractRealQuestions.main_on Inputs.pages Inputs.pages_fs = Some (Returned survey)
    /\ map sectionId (sections survey) = ["B"; "N"]
    /\ map (fun sec => map questionId (questions sec)) (sections survey)
       = [["B.1"]; ["N.1"; "N.2"]].
Proof. eexists. split; [vm_compute; reflexivity|split; reflexivity]. Qed.

(* ------------------------------------------------------------------------- *)
(** ** Termination of the scans *)

(** C10.  In each of the three scanners every iteration of the outer loop
    moves the cursor strictly forward, every iteration of the look-ahead
    loop either leaves the loop ([break]) or moves its index strictly
    forward (as does the loop over the continuation lines of an option),
    and the scan of any list of lines ends after at most one outer
    iteration per line.  In extractFord2024Survey an iteration of the outer
    loop may instead raise the exception of a scoring conversion, which
    ends the scan at once; the scan returns when no line has more than
    4300 characters. *)
Theorem scans_terminate (sid : string) (lines : list string) :
  ((forall st, ParseFordSurveyImproved.outer_cond lines st = true ->
       exists st', ParseFordSurveyImproved.outer_body sid lines st = Some st'
                   /\ fst st < fst st')
   /\ (forall i s, ParseFordSurveyImproved.scan_cond lines i s = true ->
         let s' := ParseFordSurveyImproved.scan_body sid lines s in
         (ParseFordSurveyImproved.broke s' = true
          /\ ParseFordSurveyImproved.j s' = ParseFordSurveyImproved.j s)
         \/ (ParseFordSurveyImproved.broke s' = false
             /\ ParseFordSurveyImproved.j s < ParseFordSurveyImproved.j s'))
   /\ (exists n qs, ParseFordSurveyImproved.scan_lines_counted sid lines = Some (n, qs)
                    /\ n <= length lines))
  /\ ((forall st, ExtractRealQuestions.outer_cond lines st = true ->
         exists st', ExtractRealQuestions.outer_body sid lines st = Some st'
                     /\ fst st < fst st')
      /\ (forall i s, ExtractRealQuestions.scan_cond lines i s = true ->
            let s' := ExtractRealQuestions.scan_body sid lines i s in
            (ExtractRealQuestions.broke s' = true
             /\ ExtractRealQuestions.j s' = ExtractRealQuestions.j s)
            \/ (ExtractRealQuestions.broke s' = false
                /\ ExtractRealQuestions.j s < ExtractRealQuestions.j s'))
      /\ (exists n qs, ExtractRealQuestions.scan_lines_counted sid lines = Some (n, qs)
                       /\ n <= length lines))
  /\ ((forall st, ExtractFord2024Survey.outer_cond lines st = true ->
         exists r, ExtractFord2024Survey.outer_body sid lines st = Some r
                   /\ match r with
                      | Returned st' => fst st < fst st'
                      | Raised e =>
                          ExtractFord2024Survey.scoring_lookahead lines (fst st)
                          = Raised e
                      end)
      /\ (forall i s, ExtractFord2024Survey.scan_cond lines i s = true ->
            exists s', ExtractFord2024Survey.scan_body sid lines i s = Some s'
              /\ ((ExtractFord2024Survey.broke s' = true
                   /\ ExtractFord2024Survey.j s' = ExtractFord2024Survey.j s)
                  \/ (ExtractFord2024Survey.broke s' = false
                      /\ ExtractFord2024Survey.j s < ExtractFord2024Survey.j s')))
      /\ (forall stops k opt,
            ExtractFord2024Survey.cont_cond lines stops (k, opt, false) = true ->
            ExtractFord2024Survey.cont_body sid lines (k, opt, false) = (k, opt, true)
            \/ exists opt', ExtractFord2024Survey.cont_body sid lines (k, opt, false)
                            = (k + 1, opt', false))
      /\ (exists n r, ExtractFord2024Survey.scan_lines_counted sid lines = Some (n, r)
                      /\ n <= length lines
                      /\ (Forall (fun line => String.length line <= Py.max_str_digits)
                                 lines ->
                          exists qs, r = Returned qs))).
Proof.
  split; [|split].
  - split; [intros st; apply ImprovedFacts.improved_outer_body_progress|].
    split; [|apply ImprovedFacts.improved_scan_lines_counted_total].
    intros i s Hc. apply ImprovedFacts.improved_scan_body_progress.
    unfold ParseFordSurveyImproved.scan_cond in Hc.
    apply andb_true_iff in Hc as [Hc _]. apply andb_true_iff in Hc as [Hb _].
    apply negb_true_iff in Hb. assumption.
  - split; [intros st; apply RealFacts.real_outer_body_progress|].
    split; [|apply RealFacts.real_scan_lines_counted_total].
    intros i s Hc. apply RealFacts.real_scan_body_progress.
    unfold ExtractRealQuestions.scan_cond in Hc.
    apply andb_true_iff in Hc as [Hc _]. apply andb_true_iff in Hc as [Hb _].
    apply negb_true_iff in Hb. assumption.
  - split; [intros st Hc;
             destruct (FordFacts.ford_outer_body_progress sid lines st Hc) as (r & Hb & Hlt);
             exists r; split; [exact Hb|];
             destruct r as [st'|e];
             [apply Hlt; reflexivity|apply (FordRecords.ford_outer_body_raises sid lines st e Hb)]|].
    split; [|split; [|apply FordRecords.ford_scan_lines_counted_ends]].
    + intros i s Hc. unfold ExtractFord2024Survey.scan_cond in Hc.
      apply andb_true_iff in Hc as [Hc _]. apply andb_true_iff in Hc as [Hb Hj].
      apply negb_true_iff in Hb. apply Nat.ltb_lt in Hj.
      apply FordFacts.ford_scan_body_progress; assumption.
    + intros stops k opt _. unfold ExtractFord2024Survey.cont_body.
      destruct (_ && _); [right; eexists; reflexivity|left; reflexivity].
Qed.
